(** * The TDP MMU of the TDX KVM tree: a shallow embedding

    This development embeds the parts of [arch/x86/kvm/mmu/tdp_mmu.c] that
    maintain the second-level page tables of a guest (ordinary and private
    roots) and proves properties of them.

    - A 64-bit table entry (SPTE) is a [Z] in [0, 2^64); bit operations are
      [Z.land], [Z.lor], [Z.shiftl], [Z.shiftr], [Z.testbit].
    - Pointers to entries ([tdp_ptep_t]) are addresses in [Z]; a table page
      holds 512 entries of 8 bytes.
    - The guest ([struct kvm]) is a record threaded through a state monad
      whose failures are the host crash ([BUG()]), a NULL dereference, a
      wait on another CPU, and exhaustion of the fuel of a loop.
    - Calls into the secure-resource manager ([static_call(kvm_x86_...)])
      are recorded in a log; their return values come from an oracle. *)

From Stdlib Require Import ZArith Lia Bool List.
From stdpp Require Import base option gmap list.

Open Scope Z_scope.

(** ** Architectural constants *)

Definition PAGE_SHIFT : Z := 12.
Definition PAGE_SIZE : Z := 4096.
Definition SPTE_ENT_PER_PAGE : Z := 512.
Definition SPTE_LEVEL_BITS : Z := 9.

Definition PG_LEVEL_NONE : Z := 0.
Definition PG_LEVEL_4K : Z := 1.
Definition PG_LEVEL_2M : Z := 2.
Definition PG_LEVEL_1G : Z := 3.
Definition PT64_ROOT_MAX_LEVEL : Z := 5.
Definition KVM_MAX_HUGEPAGE_LEVEL : Z := PG_LEVEL_1G.

Definition EPERM : Z := 1.
Definition EIO : Z := 5.
Definition EAGAIN : Z := 11.
Definition ENOMEM : Z := 12.
Definition EFAULT : Z := 14.
Definition EBUSY : Z := 16.

(** [enum] of the page-fault outcomes ([mmu_internal.h]). *)
Definition RET_PF_CONTINUE : Z := 0.
Definition RET_PF_RETRY : Z := 1.
Definition RET_PF_EMULATE : Z := 2.
Definition RET_PF_INVALID : Z := 3.
Definition RET_PF_FIXED : Z := 4.
Definition RET_PF_SPURIOUS : Z := 5.

(** [enum tdp_zap_private] ([tdp_mmu.h]). *)
Inductive tdp_zap_private : Type :=
  | ZAP_PRIVATE_SKIP
  | ZAP_PRIVATE_BLOCK
  | ZAP_PRIVATE_REMOVE.

#[global] Instance tdp_zap_private_eq_dec : EqDecision tdp_zap_private.
Proof. solve_decision. Defined.

Definition u64_max : Z := 2 ^ 64 - 1.
Definition wrap64 (x : Z) : Z := x mod 2 ^ 64.
Definition not64 (x : Z) : Z := Z.lxor x u64_max.
Definition BIT_ULL (n : Z) : Z := Z.shiftl 1 n.

(** [KVM_PAGES_PER_HPAGE(level)]: the number of 4K frames one entry of a
    table at [level] covers. *)
Definition KVM_PAGES_PER_HPAGE (level : Z) : Z :=
  Z.shiftl 1 ((level - 1) * SPTE_LEVEL_BITS).

(** [KVM_HPAGE_GFN_MASK(level)] is [~(KVM_PAGES_PER_HPAGE(level) - 1)]. *)
Definition KVM_HPAGE_GFN_MASK (level : Z) : Z :=
  not64 (KVM_PAGES_PER_HPAGE level - 1).

Definition gfn_round_for_level (gfn level : Z) : Z :=
  Z.land gfn (wrap64 (- KVM_PAGES_PER_HPAGE level)).

(** [SPTE_INDEX(address, level)]. *)
Definition SPTE_INDEX (address level : Z) : Z :=
  Z.land (Z.shiftr address (PAGE_SHIFT + (level - 1) * SPTE_LEVEL_BITS))
         (SPTE_ENT_PER_PAGE - 1).

Definition gpa_to_gfn (gpa : Z) : Z := Z.shiftr gpa PAGE_SHIFT.
Definition gfn_to_gpa (gfn : Z) : Z := wrap64 (Z.shiftl gfn PAGE_SHIFT).

(** ** Page-table entry codec

    Modelled from the spec: [spte.h] is not among the sources.  The spec
    (4.1) names the fields of the 64-bit entry: present, writable,
    huge-page flag, frame number, accessed/dirty and the software-only
    "removed" and "private-zapped" sentinels.  The bit positions below are
    those of the x86 headers of this tree. *)

Definition PT_WRITABLE_MASK : Z := BIT_ULL 1.
Definition PT_PAGE_SIZE_MASK : Z := BIT_ULL 7.
Definition SPTE_MMU_PRESENT_MASK : Z := BIT_ULL 11.
Definition SPTE_TDP_AD_MASK : Z := Z.shiftl 3 52.
Definition SPTE_BASE_ADDR_MASK : Z := Z.land (2 ^ 52 - 1) (not64 (PAGE_SIZE - 1)).
Definition SHADOW_NONPRESENT_VALUE : Z := BIT_ULL 63.
Definition REMOVED_SPTE : Z := Z.lor SHADOW_NONPRESENT_VALUE 1440.
Definition SPTE_PRIVATE_ZAPPED : Z := BIT_ULL 62.
Definition shadow_accessed_mask : Z := BIT_ULL 8.
Definition shadow_dirty_mask : Z := BIT_ULL 9.
Definition shadow_acc_track_mask : Z := 7.

Definition nonzero (x : Z) : bool := negb (x =? 0).

Definition is_shadow_present_pte (pte : Z) : bool :=
  nonzero (Z.land pte SPTE_MMU_PRESENT_MASK).
Definition is_large_pte (pte : Z) : bool :=
  nonzero (Z.land pte PT_PAGE_SIZE_MASK).
Definition is_last_spte (pte level : Z) : bool :=
  (level =? PG_LEVEL_4K) || is_large_pte pte.
Definition is_writable_pte (pte : Z) : bool :=
  nonzero (Z.land pte PT_WRITABLE_MASK).
Definition spte_to_pfn (pte : Z) : Z :=
  Z.shiftr (Z.land pte SPTE_BASE_ADDR_MASK) PAGE_SHIFT.
Definition is_removed_spte (spte : Z) : bool := spte =? REMOVED_SPTE.
Definition is_private_zapped_spte (spte : Z) : bool :=
  nonzero (Z.land spte SPTE_PRIVATE_ZAPPED).
Definition spte_ad_enabled (spte : Z) : bool :=
  Z.land spte SPTE_TDP_AD_MASK =? 0.
Definition is_accessed_spte (spte : Z) : bool :=
  nonzero (Z.land spte (if spte_ad_enabled spte then shadow_accessed_mask
                        else shadow_acc_track_mask)).
Definition is_dirty_spte (spte : Z) : bool :=
  nonzero (Z.land spte (if spte_ad_enabled spte then shadow_dirty_mask
                        else PT_WRITABLE_MASK)).

(** The direct map is taken as the identity: a table page is named by its
    physical address, so [__va] and [__pa] are the identity. *)
Definition pfn_to_hpa (pfn : Z) : Z := wrap64 (Z.shiftl pfn PAGE_SHIFT).

(** [spte_to_child_pt] ([tdp_iter.c]): NULL (here [None]) when the entry is
    not present or is a last-level entry. *)
Definition spte_to_child_pt (spte level : Z) : option Z :=
  if negb (is_shadow_present_pte spte) || is_last_spte spte level then None
  else Some (pfn_to_hpa (spte_to_pfn spte)).

(** [__private_zapped_spte] (tdp_mmu.c:991). *)
Definition __private_zapped_spte (old_spte : Z) : Z :=
  Z.lor (Z.lor (Z.lor SHADOW_NONPRESENT_VALUE SPTE_PRIVATE_ZAPPED)
               (wrap64 (Z.shiftl (spte_to_pfn old_spte) PAGE_SHIFT)))
        (if is_large_pte old_spte then PT_PAGE_SIZE_MASK else 0).

(** ** Data model *)

(** [union kvm_mmu_page_role]: two roles have the same [word] exactly when
    all their fields agree, so [role.word == role.word] is record
    equality. *)
Record kvm_mmu_page_role : Type := mk_role {
  role_level : Z;
  role_direct : bool;
  role_access : Z;
  role_invalid : bool;
  role_ad_disabled : bool;
  role_guest_mode : bool;
  role_passthrough : bool;
  role_is_private : bool;
  role_smm : Z;
}.

#[global] Instance kvm_mmu_page_role_eq_dec : EqDecision kvm_mmu_page_role.
Proof. solve_decision. Defined.

Definition role_set_level (l : Z) (r : kvm_mmu_page_role) : kvm_mmu_page_role :=
  mk_role l (role_direct r) (role_access r) (role_invalid r)
          (role_ad_disabled r) (role_guest_mode r) (role_passthrough r)
          (role_is_private r) (role_smm r).
Definition role_set_invalid (b : bool) (r : kvm_mmu_page_role) : kvm_mmu_page_role :=
  mk_role (role_level r) (role_direct r) (role_access r) b
          (role_ad_disabled r) (role_guest_mode r) (role_passthrough r)
          (role_is_private r) (role_smm r).
(** [kvm_mmu_page_role_set_private]. *)
Definition kvm_mmu_page_role_set_private (r : kvm_mmu_page_role) : kvm_mmu_page_role :=
  mk_role (role_level r) (role_direct r) (role_access r) (role_invalid r)
          (role_ad_disabled r) (role_guest_mode r) (role_passthrough r)
          true (role_smm r).
Definition kvm_mmu_page_role_is_private (r : kvm_mmu_page_role) : bool :=
  role_is_private r.
Definition kvm_mmu_role_as_id (r : kvm_mmu_page_role) : Z :=
  if role_smm r =? 0 then 0 else 1.

(** [struct kvm_mmu_page].  A shadow page is named by the address of its
    table ([sp->spt]); the remaining fields are kept here. *)
Record kvm_mmu_page : Type := mk_sp {
  sp_role : kvm_mmu_page_role;
  sp_gfn : Z;
  sp_ptep : option Z;
  sp_tdp_mmu_page : bool;
  sp_root_count : Z;
  sp_private_spt : option Z;
  sp_nx_huge_page_disallowed : bool;
}.

Definition is_private_sp (sp : kvm_mmu_page) : bool :=
  kvm_mmu_page_role_is_private (sp_role sp).
Definition kvm_mmu_page_as_id (sp : kvm_mmu_page) : Z :=
  kvm_mmu_role_as_id (sp_role sp).
Definition is_tdp_mmu_page (sp : kvm_mmu_page) : bool := sp_tdp_mmu_page sp.
Definition kvm_mmu_private_spt (sp : kvm_mmu_page) : option Z := sp_private_spt sp.

Definition sp_set_role (r : kvm_mmu_page_role) (sp : kvm_mmu_page) : kvm_mmu_page :=
  mk_sp r (sp_gfn sp) (sp_ptep sp) (sp_tdp_mmu_page sp) (sp_root_count sp)
        (sp_private_spt sp) (sp_nx_huge_page_disallowed sp).
Definition sp_set_root_count (c : Z) (sp : kvm_mmu_page) : kvm_mmu_page :=
  mk_sp (sp_role sp) (sp_gfn sp) (sp_ptep sp) (sp_tdp_mmu_page sp) c
        (sp_private_spt sp) (sp_nx_huge_page_disallowed sp).
Definition sp_set_private_spt (p : option Z) (sp : kvm_mmu_page) : kvm_mmu_page :=
  mk_sp (sp_role sp) (sp_gfn sp) (sp_ptep sp) (sp_tdp_mmu_page sp)
        (sp_root_count sp) p (sp_nx_huge_page_disallowed sp).
Definition sp_set_nx_huge_page_disallowed (b : bool) (sp : kvm_mmu_page) : kvm_mmu_page :=
  mk_sp (sp_role sp) (sp_gfn sp) (sp_ptep sp) (sp_tdp_mmu_page sp)
        (sp_root_count sp) (sp_private_spt sp) b.

(** Calls into the secure-resource manager, the [kvm_x86_*] hooks used by
    the TDP MMU. *)
Inductive tdx_call : Type :=
  | link_private_spt (gfn level private_spt : Z)
  | free_private_spt (gfn level private_spt : Z)
  | split_private_spt (gfn level private_spt : Z)
  | merge_private_spt (gfn level private_spt : Z)
  | set_private_spte (gfn level pfn : Z)
  | remove_private_spte (gfn level pfn : Z)
  | zap_private_spte (gfn level : Z)
  | unzap_private_spte (gfn level : Z)
  | write_block_private_pages (gfn : Z).

Inductive tlb_flush : Type :=
  | flush_all
  | flush_range (gfn pages : Z).

(** [struct kvm] as far as the TDP MMU uses it, together with the memory
    caches of the faulting vCPU and the page allocator. *)
Record kvm : Type := mk_kvm {
  sptes : gmap Z Z;
  sps : gmap Z kvm_mmu_page;
  tdp_mmu_roots : list Z;
  tdp_mmu_pages : Z;
  tdp_private_mmu_pages : Z;
  pgtable_pages : Z;
  stat_pages : gmap Z Z;
  vm_bugged : bool;
  gfn_shared_mask : Z;
  remote_tlb_flushes : list tlb_flush;
  rcu_callbacks : list Z;
  freed_pages : list Z;
  pfn_dirty : list Z;
  pfn_accessed : list Z;
  possible_nx_huge_pages : list Z;
  tdx_log : list tdx_call;
  mmu_lock_yields : Z;
  mmu_shadow_page_cache : list Z;
  mmu_private_spt_cache : list Z;
  page_allocator : list (option Z);
  pf_mmio_spte_created : Z;
}.

(** Field updates of [struct kvm]. *)
Definition set_sptes (v : gmap Z Z) (k : kvm) : kvm :=
  mk_kvm v (sps k) (tdp_mmu_roots k) (tdp_mmu_pages k)
    (tdp_private_mmu_pages k) (pgtable_pages k) (stat_pages k) (vm_bugged k)
    (gfn_shared_mask k) (remote_tlb_flushes k) (rcu_callbacks k)
    (freed_pages k) (pfn_dirty k) (pfn_accessed k) (possible_nx_huge_pages
    k) (tdx_log k) (mmu_lock_yields k) (mmu_shadow_page_cache k)
    (mmu_private_spt_cache k) (page_allocator k) (pf_mmio_spte_created k).
Definition set_sps (v : gmap Z kvm_mmu_page) (k : kvm) : kvm :=
  mk_kvm (sptes k) v (tdp_mmu_roots k) (tdp_mmu_pages k)
    (tdp_private_mmu_pages k) (pgtable_pages k) (stat_pages k) (vm_bugged k)
    (gfn_shared_mask k) (remote_tlb_flushes k) (rcu_callbacks k)
    (freed_pages k) (pfn_dirty k) (pfn_accessed k) (possible_nx_huge_pages
    k) (tdx_log k) (mmu_lock_yields k) (mmu_shadow_page_cache k)
    (mmu_private_spt_cache k) (page_allocator k) (pf_mmio_spte_created k).
Definition set_tdp_mmu_roots (v : list Z) (k : kvm) : kvm :=
  mk_kvm (sptes k) (sps k) v (tdp_mmu_pages k) (tdp_private_mmu_pages k)
    (pgtable_pages k) (stat_pages k) (vm_bugged k) (gfn_shared_mask k)
    (remote_tlb_flushes k) (rcu_callbacks k) (freed_pages k) (pfn_dirty k)
    (pfn_accessed k) (possible_nx_huge_pages k) (tdx_log k) (mmu_lock_yields
    k) (mmu_shadow_page_cache k) (mmu_private_spt_cache k) (page_allocator
    k) (pf_mmio_spte_created k).
Definition set_tdp_mmu_pages (v : Z) (k : kvm) : kvm :=
  mk_kvm (sptes k) (sps k) (tdp_mmu_roots k) v (tdp_private_mmu_pages k)
    (pgtable_pages k) (stat_pages k) (vm_bugged k) (gfn_shared_mask k)
    (remote_tlb_flushes k) (rcu_callbacks k) (freed_pages k) (pfn_dirty k)
    (pfn_accessed k) (possible_nx_huge_pages k) (tdx_log k) (mmu_lock_yields
    k) (mmu_shadow_page_cache k) (mmu_private_spt_cache k) (page_allocator
    k) (pf_mmio_spte_created k).
Definition set_tdp_private_mmu_pages (v : Z) (k : kvm) : kvm :=
  mk_kvm (sptes k) (sps k) (tdp_mmu_roots k) (tdp_mmu_pages k) v
    (pgtable_pages k) (stat_pages k) (vm_bugged k) (gfn_shared_mask k)
    (remote_tlb_flushes k) (rcu_callbacks k) (freed_pages k) (pfn_dirty k)
    (pfn_accessed k) (possible_nx_huge_pages k) (tdx_log k) (mmu_lock_yields
    k) (mmu_shadow_page_cache k) (mmu_private_spt_cache k) (page_allocator
    k) (pf_mmio_spte_created k).
Definition set_pgtable_pages (v : Z) (k : kvm) : kvm :=
  mk_kvm (sptes k) (sps k) (tdp_mmu_roots k) (tdp_mmu_pages k)
    (tdp_private_mmu_pages k) v (stat_pages k) (vm_bugged k)
    (gfn_shared_mask k) (remote_tlb_flushes k) (rcu_callbacks k)
    (freed_pages k) (pfn_dirty k) (pfn_accessed k) (possible_nx_huge_pages
    k) (tdx_log k) (mmu_lock_yields k) (mmu_shadow_page_cache k)
    (mmu_private_spt_cache k) (page_allocator k) (pf_mmio_spte_created k).
Definition set_stat_pages (v : gmap Z Z) (k : kvm) : kvm :=
  mk_kvm (sptes k) (sps k) (tdp_mmu_roots k) (tdp_mmu_pages k)
    (tdp_private_mmu_pages k) (pgtable_pages k) v (vm_bugged k)
    (gfn_shared_mask k) (remote_tlb_flushes k) (rcu_callbacks k)
    (freed_pages k) (pfn_dirty k) (pfn_accessed k) (possible_nx_huge_pages
    k) (tdx_log k) (mmu_lock_yields k) (mmu_shadow_page_cache k)
    (mmu_private_spt_cache k) (page_allocator k) (pf_mmio_spte_created k).
Definition set_vm_bugged (v : bool) (k : kvm) : kvm :=
  mk_kvm (sptes k) (sps k) (tdp_mmu_roots k) (tdp_mmu_pages k)
    (tdp_private_mmu_pages k) (pgtable_pages k) (stat_pages k) v
    (gfn_shared_mask k) (remote_tlb_flushes k) (rcu_callbacks k)
    (freed_pages k) (pfn_dirty k) (pfn_accessed k) (possible_nx_huge_pages
    k) (tdx_log k) (mmu_lock_yields k) (mmu_shadow_page_cache k)
    (mmu_private_spt_cache k) (page_allocator k) (pf_mmio_spte_created k).
Definition set_remote_tlb_flushes (v : list tlb_flush) (k : kvm) : kvm :=
  mk_kvm (sptes k) (sps k) (tdp_mmu_roots k) (tdp_mmu_pages k)
    (tdp_private_mmu_pages k) (pgtable_pages k) (stat_pages k) (vm_bugged k)
    (gfn_shared_mask k) v (rcu_callbacks k) (freed_pages k) (pfn_dirty k)
    (pfn_accessed k) (possible_nx_huge_pages k) (tdx_log k) (mmu_lock_yields
    k) (mmu_shadow_page_cache k) (mmu_private_spt_cache k) (page_allocator
    k) (pf_mmio_spte_created k).
Definition set_rcu_callbacks (v : list Z) (k : kvm) : kvm :=
  mk_kvm (sptes k) (sps k) (tdp_mmu_roots k) (tdp_mmu_pages k)
    (tdp_private_mmu_pages k) (pgtable_pages k) (stat_pages k) (vm_bugged k)
    (gfn_shared_mask k) (remote_tlb_flushes k) v (freed_pages k) (pfn_dirty
    k) (pfn_accessed k) (possible_nx_huge_pages k) (tdx_log k)
    (mmu_lock_yields k) (mmu_shadow_page_cache k) (mmu_private_spt_cache k)
    (page_allocator k) (pf_mmio_spte_created k).
Definition set_freed_pages (v : list Z) (k : kvm) : kvm :=
  mk_kvm (sptes k) (sps k) (tdp_mmu_roots k) (tdp_mmu_pages k)
    (tdp_private_mmu_pages k) (pgtable_pages k) (stat_pages k) (vm_bugged k)
    (gfn_shared_mask k) (remote_tlb_flushes k) (rcu_callbacks k) v
    (pfn_dirty k) (pfn_accessed k) (possible_nx_huge_pages k) (tdx_log k)
    (mmu_lock_yields k) (mmu_shadow_page_cache k) (mmu_private_spt_cache k)
    (page_allocator k) (pf_mmio_spte_created k).
Definition set_pfn_dirty (v : list Z) (k : kvm) : kvm :=
  mk_kvm (sptes k) (sps k) (tdp_mmu_roots k) (tdp_mmu_pages k)
    (tdp_private_mmu_pages k) (pgtable_pages k) (stat_pages k) (vm_bugged k)
    (gfn_shared_mask k) (remote_tlb_flushes k) (rcu_callbacks k)
    (freed_pages k) v (pfn_accessed k) (possible_nx_huge_pages k) (tdx_log
    k) (mmu_lock_yields k) (mmu_shadow_page_cache k) (mmu_private_spt_cache
    k) (page_allocator k) (pf_mmio_spte_created k).
Definition set_pfn_accessed (v : list Z) (k : kvm) : kvm :=
  mk_kvm (sptes k) (sps k) (tdp_mmu_roots k) (tdp_mmu_pages k)
    (tdp_private_mmu_pages k) (pgtable_pages k) (stat_pages k) (vm_bugged k)
    (gfn_shared_mask k) (remote_tlb_flushes k) (rcu_callbacks k)
    (freed_pages k) (pfn_dirty k) v (possible_nx_huge_pages k) (tdx_log k)
    (mmu_lock_yields k) (mmu_shadow_page_cache k) (mmu_private_spt_cache k)
    (page_allocator k) (pf_mmio_spte_created k).
Definition set_possible_nx_huge_pages (v : list Z) (k : kvm) : kvm :=
  mk_kvm (sptes k) (sps k) (tdp_mmu_roots k) (tdp_mmu_pages k)
    (tdp_private_mmu_pages k) (pgtable_pages k) (stat_pages k) (vm_bugged k)
    (gfn_shared_mask k) (remote_tlb_flushes k) (rcu_callbacks k)
    (freed_pages k) (pfn_dirty k) (pfn_accessed k) v (tdx_log k)
    (mmu_lock_yields k) (mmu_shadow_page_cache k) (mmu_private_spt_cache k)
    (page_allocator k) (pf_mmio_spte_created k).
Definition set_tdx_log (v : list tdx_call) (k : kvm) : kvm :=
  mk_kvm (sptes k) (sps k) (tdp_mmu_roots k) (tdp_mmu_pages k)
    (tdp_private_mmu_pages k) (pgtable_pages k) (stat_pages k) (vm_bugged k)
    (gfn_shared_mask k) (remote_tlb_flushes k) (rcu_callbacks k)
    (freed_pages k) (pfn_dirty k) (pfn_accessed k) (possible_nx_huge_pages
    k) v (mmu_lock_yields k) (mmu_shadow_page_cache k)
    (mmu_private_spt_cache k) (page_allocator k) (pf_mmio_spte_created k).
Definition set_mmu_lock_yields (v : Z) (k : kvm) : kvm :=
  mk_kvm (sptes k) (sps k) (tdp_mmu_roots k) (tdp_mmu_pages k)
    (tdp_private_mmu_pages k) (pgtable_pages k) (stat_pages k) (vm_bugged k)
    (gfn_shared_mask k) (remote_tlb_flushes k) (rcu_callbacks k)
    (freed_pages k) (pfn_dirty k) (pfn_accessed k) (possible_nx_huge_pages
    k) (tdx_log k) v (mmu_shadow_page_cache k) (mmu_private_spt_cache k)
    (page_allocator k) (pf_mmio_spte_created k).
Definition set_mmu_shadow_page_cache (v : list Z) (k : kvm) : kvm :=
  mk_kvm (sptes k) (sps k) (tdp_mmu_roots k) (tdp_mmu_pages k)
    (tdp_private_mmu_pages k) (pgtable_pages k) (stat_pages k) (vm_bugged k)
    (gfn_shared_mask k) (remote_tlb_flushes k) (rcu_callbacks k)
    (freed_pages k) (pfn_dirty k) (pfn_accessed k) (possible_nx_huge_pages
    k) (tdx_log k) (mmu_lock_yields k) v (mmu_private_spt_cache k)
    (page_allocator k) (pf_mmio_spte_created k).
Definition set_mmu_private_spt_cache (v : list Z) (k : kvm) : kvm :=
  mk_kvm (sptes k) (sps k) (tdp_mmu_roots k) (tdp_mmu_pages k)
    (tdp_private_mmu_pages k) (pgtable_pages k) (stat_pages k) (vm_bugged k)
    (gfn_shared_mask k) (remote_tlb_flushes k) (rcu_callbacks k)
    (freed_pages k) (pfn_dirty k) (pfn_accessed k) (possible_nx_huge_pages
    k) (tdx_log k) (mmu_lock_yields k) (mmu_shadow_page_cache k) v
    (page_allocator k) (pf_mmio_spte_created k).
Definition set_page_allocator (v : list (option Z)) (k : kvm) : kvm :=
  mk_kvm (sptes k) (sps k) (tdp_mmu_roots k) (tdp_mmu_pages k)
    (tdp_private_mmu_pages k) (pgtable_pages k) (stat_pages k) (vm_bugged k)
    (gfn_shared_mask k) (remote_tlb_flushes k) (rcu_callbacks k)
    (freed_pages k) (pfn_dirty k) (pfn_accessed k) (possible_nx_huge_pages
    k) (tdx_log k) (mmu_lock_yields k) (mmu_shadow_page_cache k)
    (mmu_private_spt_cache k) v (pf_mmio_spte_created k).
Definition set_pf_mmio_spte_created (v : Z) (k : kvm) : kvm :=
  mk_kvm (sptes k) (sps k) (tdp_mmu_roots k) (tdp_mmu_pages k)
    (tdp_private_mmu_pages k) (pgtable_pages k) (stat_pages k) (vm_bugged k)
    (gfn_shared_mask k) (remote_tlb_flushes k) (rcu_callbacks k)
    (freed_pages k) (pfn_dirty k) (pfn_accessed k) (possible_nx_huge_pages
    k) (tdx_log k) (mmu_lock_yields k) (mmu_shadow_page_cache k)
    (mmu_private_spt_cache k) (page_allocator k) v.

(** ** The monad of MMU operations *)

(** Ways an operation can stop the host: [BUG()] / [BUG_ON()], or the
    dereference of a NULL pointer. *)
Inductive fatal : Type :=
  | BUG
  | NULL_DEREF.

Inductive outcome (A : Type) : Type :=
  | Done (a : A) (k : kvm)
  | Crash (f : fatal)
  | Hang
  | OutOfFuel.
Arguments Done {A} a k.
Arguments Crash {A} f.
Arguments Hang {A}.
Arguments OutOfFuel {A}.

Definition M (A : Type) : Type := kvm -> outcome A.

Definition ret {A : Type} (a : A) : M A := fun k => Done a k.
Definition bind {A B : Type} (m : M A) (f : A -> M B) : M B :=
  fun k => match m k with
           | Done a k' => f a k'
           | Crash c => Crash c
           | Hang => Hang
           | OutOfFuel => OutOfFuel
           end.
Definition get : M kvm := fun k => Done k k.
Definition gets {A : Type} (f : kvm -> A) : M A := fun k => Done (f k) k.
Definition modify (f : kvm -> kvm) : M unit := fun k => Done tt (f k).
Definition crash {A : Type} (c : fatal) : M A := fun _ => Crash c.
Definition hang {A : Type} : M A := fun _ => Hang.
Definition out_of_fuel {A : Type} : M A := fun _ => OutOfFuel.

Notation "'let*' x ':=' m 'in' k" := (bind m (fun x => k))
  (at level 10, x pattern, m at level 100, k at level 200).
Notation "m1 ';;;' m2" := (bind m1 (fun _ => m2))
  (at level 100, m2 at level 200, right associativity).

Definition when (b : bool) (m : M unit) : M unit :=
  if b then m else ret tt.

(** [KVM_BUG_ON(cond, kvm)]: marks the VM as bugged when [cond] holds and
    evaluates to [cond]; execution continues. *)
Definition KVM_BUG_ON (cond : bool) : M bool :=
  fun k => Done cond (if cond then set_vm_bugged true k else k).

(** [WARN_ON], [WARN_ON_ONCE]: a diagnostic only; evaluates to [cond]. *)
Definition WARN_ON (cond : bool) : M bool := ret cond.

(** A value of [option] that the C code dereferences. *)
Definition deref {A : Type} (o : option A) : M A :=
  match o with
  | Some a => ret a
  | None => crash NULL_DEREF
  end.

(** [struct kvm_page_fault] ([mmu_internal.h]), the fields the TDP MMU
    reads; [fault_slot] tells whether [fault->slot] is non-NULL. *)
Record kvm_page_fault : Type := mk_fault {
  fault_addr : Z;
  fault_gfn : Z;
  fault_is_private : bool;
  fault_nonleaf : bool;
  fault_pfn : Z;
  fault_slot : bool;
  fault_goal_level : Z;
  fault_req_level : Z;
  fault_max_level : Z;
  fault_huge_page_disallowed : bool;
  fault_nx_huge_page_workaround_enabled : bool;
  fault_prefetch : bool;
  fault_write : bool;
  fault_map_writable : bool;
}.

(** [struct kvm_gfn_range] ([kvm_host.h]); [range->arg] is a union of the
    host PTE of the changed-PTE notifier and of memory attributes. *)
Record kvm_gfn_range : Type := mk_range {
  range_start : Z;
  range_end : Z;
  range_as_id : Z;
  range_pte_pfn : Z;
  range_pte_write : bool;
  range_pte_huge : bool;
  range_attributes : Z;
  range_may_block : bool;
  range_only_private : bool;
  range_only_shared : bool;
}.

Definition KVM_MEMORY_ATTRIBUTE_PRIVATE : Z := BIT_ULL 3.
Definition ACC_EXEC_MASK : Z := 1.
Definition ACC_ALL : Z := 7.
Definition KVM_PFN_ERR_NOSLOT_MASK : Z := Z.shiftl 4095 52.

(** [is_error_noslot_pfn] ([kvm_host.h]). *)
Definition is_error_noslot_pfn (pfn : Z) : bool :=
  nonzero (Z.land pfn KVM_PFN_ERR_NOSLOT_MASK).

(** ** Parameters of the embedding

    Helpers of other files of the tree that [tdp_mmu.c] calls and the
    parts of the machine outside the MMU. *)
Record arch_env : Type := mk_env {
  (** return value of a secure-resource-manager hook, given the calls made
      so far *)
  tdx_module : list tdx_call -> tdx_call -> Z;
  (** [need_resched() || rwlock_needbreak(&kvm->mmu_lock)] *)
  need_resched : kvm -> bool;
  (** [spte_has_volatile_bits] (spte.c) *)
  spte_has_volatile_bits : Z -> bool;
  (** [is_mmio_spte] (spte.h) *)
  is_mmio_spte : Z -> bool;
  (** [make_nonleaf_spte(child_pt, ad_disabled)] (spte.c), with the current
      value of [kvm_ad_enabled()] *)
  make_nonleaf_spte : Z -> Z;
  (** [mark_spte_for_access_track] (spte.c) *)
  mark_spte_for_access_track : Z -> Z;
  (** [kvm_mmu_changed_pte_notifier_make_spte(old_spte, new_pfn)] *)
  kvm_mmu_changed_pte_notifier_make_spte : Z -> Z -> Z;
  (** [is_nx_huge_page_enabled(kvm)] and [make_spte_executable] *)
  is_nx_huge_page_enabled : bool;
  make_spte_executable : Z -> Z;
  (** [kvm_mmu_max_gfn()] *)
  kvm_mmu_max_gfn : Z;
  (** [kvm_hugepage_test_mixed(gfn_to_memslot(kvm, gfn), gfn, level)] *)
  kvm_hugepage_test_mixed : kvm -> Z -> Z -> bool;
  (** [kvm_mmu_hugepage_adjust(vcpu, fault)] (mmu.c) *)
  kvm_mmu_hugepage_adjust : kvm -> kvm_page_fault -> kvm_page_fault;
  (** [disallowed_hugepage_adjust(fault, spte, cur_level)] (mmu.c) *)
  disallowed_hugepage_adjust : kvm_page_fault -> Z -> Z -> kvm_page_fault;
  (** [kvm_pfn_to_refcounted_page(pfn)] is non-NULL *)
  kvm_pfn_to_refcounted_page : Z -> bool;
  (** [make_spte(vcpu, sp, slot, pte_access, gfn, pfn, old_spte, prefetch,
      true, host_writable, &new_spte)] (spte.c): the write-protection flag
      and the new entry *)
  make_spte : kvm_mmu_page -> Z -> Z -> Z -> Z -> bool -> bool -> bool * Z;
  (** [make_mmio_spte(vcpu, gfn, ACC_ALL)] (spte.c) *)
  make_mmio_spte : Z -> Z;
}.

Section TDP_MMU.

Variable E : arch_env.

(** [static_call(kvm_x86_...)(kvm, ...)]: the call is logged and answered
    by the oracle. *)
Definition static_call (c : tdx_call) : M Z :=
  fun k => Done (tdx_module E (tdx_log k) c) (set_tdx_log (tdx_log k ++ [c]) k).

(** *** Table memory *)

Definition page_of (p : Z) : Z := Z.land p (not64 (PAGE_SIZE - 1)).

(** [pt + i] on a [u64 *]. *)
Definition ptr_add (pt i : Z) : Z := pt + 8 * i.

(** [sp->...] for the shadow page whose table is at [spt]. *)
Definition sp_at (spt : Z) : M kvm_mmu_page :=
  let* k := get in deref (sps k !! spt).

(** [sptep_to_sp]: the shadow page whose table holds the entry. *)
Definition sptep_to_sp (sptep : Z) : M kvm_mmu_page := sp_at (page_of sptep).

Definition is_private_sptep (sptep : Z) : M bool :=
  let* sp := sptep_to_sp sptep in ret (is_private_sp sp).

Definition update_sp (spt : Z) (f : kvm_mmu_page -> kvm_mmu_page) : M unit :=
  let* sp := sp_at spt in
  modify (fun k => set_sps (<[spt := f sp]> (sps k)) k).

Definition spte_at (k : kvm) (sptep : Z) : Z := default 0 (sptes k !! sptep).

(** [kvm_tdp_mmu_read_spte]. *)
Definition kvm_tdp_mmu_read_spte (sptep : Z) : M Z :=
  gets (fun k => spte_at k sptep).

(** [__kvm_tdp_mmu_write_spte]. *)
Definition __kvm_tdp_mmu_write_spte (sptep new_spte : Z) : M unit :=
  modify (fun k => set_sptes (<[sptep := new_spte]> (sptes k)) k).

(** [kvm_tdp_mmu_write_spte_atomic]: [xchg]. *)
Definition kvm_tdp_mmu_write_spte_atomic (sptep new_spte : Z) : M Z :=
  let* old := kvm_tdp_mmu_read_spte sptep in
  __kvm_tdp_mmu_write_spte sptep new_spte ;;; ret old.

(** [try_cmpxchg64(sptep, &old, new)]: the pair of the success flag and the
    value left in [old]. *)
Definition try_cmpxchg64 (sptep old new : Z) : M (bool * Z) :=
  let* cur := kvm_tdp_mmu_read_spte sptep in
  if cur =? old then __kvm_tdp_mmu_write_spte sptep new ;;; ret (true, old)
  else ret (false, cur).

Definition kvm_tdp_mmu_spte_need_atomic_write (old_spte level : Z) : bool :=
  is_shadow_present_pte old_spte && is_last_spte old_spte level &&
  spte_has_volatile_bits E old_spte.

(** [kvm_tdp_mmu_write_spte] ([tdp_iter.h]). *)
Definition kvm_tdp_mmu_write_spte (sptep old_spte new_spte level : Z) : M Z :=
  if kvm_tdp_mmu_spte_need_atomic_write old_spte level
  then kvm_tdp_mmu_write_spte_atomic sptep new_spte
  else __kvm_tdp_mmu_write_spte sptep new_spte ;;; ret old_spte.

(** [tdp_mmu_clear_spte_bits] ([tdp_iter.h]). *)
Definition tdp_mmu_clear_spte_bits (sptep old_spte mask level : Z) : M Z :=
  if kvm_tdp_mmu_spte_need_atomic_write old_spte level
  then let* cur := kvm_tdp_mmu_read_spte sptep in
       __kvm_tdp_mmu_write_spte sptep (Z.land cur (not64 mask)) ;;; ret cur
  else __kvm_tdp_mmu_write_spte sptep (Z.land old_spte (not64 mask)) ;;;
       ret old_spte.

(** *** Guest-frame helpers of the private address space ([mmu.h]) *)

Definition kvm_gfn_shared_mask (k : kvm) : Z := gfn_shared_mask k.
Definition kvm_is_private_gpa (k : kvm) (gpa : Z) : bool :=
  nonzero (kvm_gfn_shared_mask k) &&
  negb (nonzero (Z.land (gpa_to_gfn gpa) (kvm_gfn_shared_mask k))).
Definition kvm_gfn_to_shared (k : kvm) (gfn : Z) : Z :=
  Z.lor gfn (kvm_gfn_shared_mask k).
Definition kvm_gfn_to_private (k : kvm) (gfn : Z) : Z :=
  Z.land gfn (not64 (kvm_gfn_shared_mask k)).
Definition kvm_gfn_for_root (k : kvm) (root : kvm_mmu_page) (gfn : Z) : Z :=
  Z.lor (kvm_gfn_to_private k gfn)
        (if is_private_sp root then 0 else kvm_gfn_shared_mask k).

(** *** Accounting and notifications *)

Definition kvm_flush_remote_tlbs : M unit :=
  modify (fun k => set_remote_tlb_flushes (remote_tlb_flushes k ++ [flush_all]) k).
Definition kvm_flush_remote_tlbs_range (gfn pages : Z) : M unit :=
  modify (fun k => set_remote_tlb_flushes
                     (remote_tlb_flushes k ++ [flush_range gfn pages]) k).
Definition kvm_flush_remote_tlbs_gfn (gfn level : Z) : M unit :=
  kvm_flush_remote_tlbs_range (gfn_round_for_level gfn level)
                              (KVM_PAGES_PER_HPAGE level).
Definition kvm_set_pfn_dirty (pfn : Z) : M unit :=
  modify (fun k => set_pfn_dirty (pfn_dirty k ++ [pfn]) k).
Definition kvm_set_pfn_accessed (pfn : Z) : M unit :=
  modify (fun k => set_pfn_accessed (pfn_accessed k ++ [pfn]) k).
Definition kvm_update_page_stats (level count : Z) : M unit :=
  modify (fun k => set_stat_pages
    (<[level - 1 := default 0 (stat_pages k !! (level - 1)) + count]>
       (stat_pages k)) k).
Definition kvm_account_pgtable_pages (nr : Z) : M unit :=
  modify (fun k => set_pgtable_pages (pgtable_pages k + nr) k).

(** *** Reference counts ([refcount_t])

    Modelled from the spec: [linux/refcount.h] is not among the sources.
    A count saturates instead of wrapping around. *)

Definition REFCOUNT_SATURATED : Z := - 2 ^ 30.
Definition INT_MAX : Z := 2 ^ 31 - 1.

Definition refcount_set (root n : Z) : M unit :=
  update_sp root (sp_set_root_count n).

Definition refcount_read (root : Z) : M Z :=
  let* sp := sp_at root in ret (sp_root_count sp).

(** [refcount_dec_and_test]: true exactly when this call released the last
    reference. *)
Definition refcount_dec_and_test (root : Z) : M bool :=
  let* old := refcount_read root in
  if old =? 1 then refcount_set root 0 ;;; ret true
  else if (old <? 0) || (old - 1 <? 0)
       then refcount_set root REFCOUNT_SATURATED ;;; ret false
       else refcount_set root (old - 1) ;;; ret false.

(** [refcount_inc_not_zero]. *)
Definition refcount_inc_not_zero (root : Z) : M bool :=
  let* old := refcount_read root in
  if old =? 0 then ret false
  else if (old <? 0) || (INT_MAX <? old + 1)
       then refcount_set root REFCOUNT_SATURATED ;;; ret true
       else refcount_set root (old + 1) ;;; ret true.

(** [kvm_tdp_mmu_get_root] ([tdp_mmu.h]). *)
Definition kvm_tdp_mmu_get_root (root : Z) : M bool :=
  refcount_inc_not_zero root.

(** *** Roots *)

Definition list_del_rcu (root : Z) : M unit :=
  modify (fun k => set_tdp_mmu_roots
                     (filter (fun r => r <> root) (tdp_mmu_roots k)) k).

(** [list_add_rcu(&root->link, &kvm->arch.tdp_mmu_roots)] inserts at the
    head of the list. *)
Definition list_add_rcu (root : Z) : M unit :=
  modify (fun k => set_tdp_mmu_roots (root :: tdp_mmu_roots k) k).

(** [call_rcu(&sp->rcu_head, tdp_mmu_free_sp_rcu_callback)]: the page is
    queued and freed after a grace period. *)
Definition call_rcu (spt : Z) : M unit :=
  modify (fun k => set_rcu_callbacks (rcu_callbacks k ++ [spt]) k).

(** [tdp_mmu_free_sp] (tdp_mmu.c:71). *)
Definition tdp_mmu_free_sp (spt : Z) : M unit :=
  modify (fun k => set_freed_pages (freed_pages k ++ [spt])
                     (set_sps (delete spt (sps k)) k)).

(** [kvm_tdp_mmu_put_root] (tdp_mmu.c:134). *)
Definition kvm_tdp_mmu_put_root (root : Z) (shared : bool) : M unit :=
  let* last := refcount_dec_and_test root in
  if negb last then ret tt
  else
    let* sp := sp_at root in
    let* _ := KVM_BUG_ON (negb (is_tdp_mmu_page sp) ||
                          negb (role_invalid (sp_role sp))) in
    list_del_rcu root ;;;
    call_rcu root.

(** [struct kvm_vcpu], the fields read by the TDP MMU. *)
Record kvm_vcpu : Type := mk_vcpu {
  mmu_root_role : kvm_mmu_page_role;
  mmu_root_hpa : Z;
  mmu_private_root_hpa : Z;
  root_mmu_level : Z;
}.

(** [kvm_mmu_memory_cache_alloc] (kvm_main.c): takes an object of the
    cache; an empty cache falls back to an atomic allocation and
    [BUG_ON]s when that fails. *)
Definition alloc_page_atomic : M (option Z) :=
  fun k => match page_allocator k with
           | [] => Done None k
           | r :: rest => Done r (set_page_allocator rest k)
           end.

Definition kvm_mmu_memory_cache_alloc_shadow_page : M Z :=
  let* k := get in
  match mmu_shadow_page_cache k with
  | p :: rest => modify (set_mmu_shadow_page_cache rest) ;;; ret p
  | [] => let* r := alloc_page_atomic in
          match r with Some p => ret p | None => crash BUG end
  end.

Definition kvm_mmu_memory_cache_alloc_private_spt : M Z :=
  let* k := get in
  match mmu_private_spt_cache k with
  | p :: rest => modify (set_mmu_private_spt_cache rest) ;;; ret p
  | [] => let* r := alloc_page_atomic in
          match r with Some p => ret p | None => crash BUG end
  end.

(** [tdp_mmu_alloc_sp] (tdp_mmu.c:235); the header comes zeroed from its
    cache.  [kvm_mmu_alloc_private_spt] gives no private table to a root. *)
Definition tdp_mmu_alloc_sp (vcpu : kvm_vcpu) (role : kvm_mmu_page_role) : M Z :=
  let* spt := kvm_mmu_memory_cache_alloc_shadow_page in
  modify (fun k => set_sps
    (<[spt := mk_sp role 0 None false 0 None false]> (sps k)) k) ;;;
  (if kvm_mmu_page_role_is_private role
   then if root_mmu_level vcpu =? role_level role
        then ret tt
        else let* p := kvm_mmu_memory_cache_alloc_private_spt in
             update_sp spt (sp_set_private_spt (Some p))
   else ret tt) ;;;
  ret spt.

(** [tdp_mmu_init_sp] (tdp_mmu.c:250). *)
Definition tdp_mmu_init_sp (spt : Z) (sptep : option Z) (gfn : Z) : M unit :=
  update_sp spt (fun sp =>
    mk_sp (sp_role sp) gfn sptep true (sp_root_count sp) (sp_private_spt sp)
          (sp_nx_huge_page_disallowed sp)).

(** The loop of [kvm_tdp_mmu_get_vcpu_root_no_alloc] (tdp_mmu.c:277) over
    the roots of the list, in list order. *)
Fixpoint get_vcpu_root_scan (roots : list Z) (role : kvm_mmu_page_role)
  : M (option Z) :=
  match roots with
  | [] => ret None
  | root :: rest =>
      let* sp := sp_at root in
      if negb (kvm_mmu_page_as_id sp =? kvm_mmu_role_as_id role)
      then get_vcpu_root_scan rest role
      else if bool_decide (sp_role sp = role)
           then let* got := kvm_tdp_mmu_get_root root in
                if got then ret (Some root)
                else get_vcpu_root_scan rest role
           else get_vcpu_root_scan rest role
  end.

Definition kvm_tdp_mmu_get_vcpu_root_no_alloc (role : kvm_mmu_page_role)
  : M (option Z) :=
  let* k := get in get_vcpu_root_scan (tdp_mmu_roots k) role.

(** [kvm_tdp_mmu_get_vcpu_root] (tdp_mmu.c:286). *)
Definition kvm_tdp_mmu_get_vcpu_root (vcpu : kvm_vcpu) (private : bool) : M Z :=
  let role := if private then kvm_mmu_page_role_set_private (mmu_root_role vcpu)
              else mmu_root_role vcpu in
  let* found := kvm_tdp_mmu_get_vcpu_root_no_alloc role in
  match found with
  | Some root => ret root
  | None =>
      let* root := tdp_mmu_alloc_sp vcpu role in
      tdp_mmu_init_sp root None 0 ;;;
      refcount_set root 2 ;;;
      list_add_rcu root ;;;
      ret root
  end.

(** *** The walker cursor ([struct tdp_iter])

    Modelled from the spec: [tdp_iter.h] and [tdp_iter.c] are not among the
    sources.  The spec (3, 4.2) gives the cursor its fields (target frame,
    level, last observed value, address-space id, the yielded flag and the
    saved checkpoint) and its steps: start at the root, step down into the
    child of a present non-leaf entry, step to the next sibling, step up,
    and a pre-order [next] that restarts from the root after a yield. *)
Record tdp_iter : Type := mk_iter {
  next_last_level_gfn : Z;
  yielded_gfn : Z;
  pt_path : list Z;
  sptep : Z;
  it_gfn : Z;
  root_level : Z;
  min_level : Z;
  it_level : Z;
  it_as_id : Z;
  old_spte : Z;
  valid : bool;
  yielded : bool;
}.

Definition iter_set_old_spte (v : Z) (i : tdp_iter) : tdp_iter :=
  mk_iter (next_last_level_gfn i) (yielded_gfn i) (pt_path i) (sptep i)
          (it_gfn i) (root_level i) (min_level i) (it_level i) (it_as_id i)
          v (valid i) (yielded i).
Definition iter_set_yielded (b : bool) (i : tdp_iter) : tdp_iter :=
  mk_iter (next_last_level_gfn i) (yielded_gfn i) (pt_path i) (sptep i)
          (it_gfn i) (root_level i) (min_level i) (it_level i) (it_as_id i)
          (old_spte i) (valid i) b.
Definition iter_set_valid (b : bool) (i : tdp_iter) : tdp_iter :=
  mk_iter (next_last_level_gfn i) (yielded_gfn i) (pt_path i) (sptep i)
          (it_gfn i) (root_level i) (min_level i) (it_level i) (it_as_id i)
          (old_spte i) b (yielded i).
Definition iter_set_next_last_level_gfn (g : Z) (i : tdp_iter) : tdp_iter :=
  mk_iter g (yielded_gfn i) (pt_path i) (sptep i)
          (it_gfn i) (root_level i) (min_level i) (it_level i) (it_as_id i)
          (old_spte i) (valid i) (yielded i).

(** [iter->pt_path[n]]. *)
Definition pt_path_at (i : tdp_iter) (n : Z) : Z :=
  default 0 (pt_path i !! Z.to_nat n).

Definition empty_iter : tdp_iter :=
  mk_iter 0 0 (replicate (Z.to_nat PT64_ROOT_MAX_LEVEL) 0) 0 0 0 0 0 0 0
          false false.

(** [tdp_iter_refresh_sptep]. *)
Definition tdp_iter_refresh_sptep (i : tdp_iter) : M tdp_iter :=
  let p := ptr_add (pt_path_at i (it_level i - 1))
                   (SPTE_INDEX (wrap64 (Z.shiftl (it_gfn i) PAGE_SHIFT))
                               (it_level i)) in
  let* v := kvm_tdp_mmu_read_spte p in
  ret (mk_iter (next_last_level_gfn i) (yielded_gfn i) (pt_path i) p
               (it_gfn i) (root_level i) (min_level i) (it_level i)
               (it_as_id i) v (valid i) (yielded i)).

(** [tdp_iter_restart]. *)
Definition tdp_iter_restart (i : tdp_iter) : M tdp_iter :=
  let* i' := tdp_iter_refresh_sptep
    (mk_iter (next_last_level_gfn i) (next_last_level_gfn i) (pt_path i)
             (sptep i)
             (gfn_round_for_level (next_last_level_gfn i) (root_level i))
             (root_level i) (min_level i) (root_level i) (it_as_id i)
             (old_spte i) (valid i) false) in
  ret (iter_set_valid true i').

(** [tdp_iter_start]: a NULL root or a root level out of range gives an
    invalid cursor. *)
Definition tdp_iter_start (i : tdp_iter) (root : Z) (min_lvl gfn : Z)
  : M tdp_iter :=
  let* k := get in
  match sps k !! root with
  | None => ret (iter_set_valid false i)
  | Some sp =>
      if (role_level (sp_role sp) <? 1) ||
         (PT64_ROOT_MAX_LEVEL <? role_level (sp_role sp))
      then ret (iter_set_valid false i)
      else
        let lvl := role_level (sp_role sp) in
        tdp_iter_restart
          (mk_iter gfn (yielded_gfn i)
                   (<[Z.to_nat (lvl - 1) := root]> (pt_path i)) (sptep i)
                   (it_gfn i) lvl min_lvl (it_level i) (kvm_mmu_page_as_id sp)
                   (old_spte i) (valid i) (yielded i))
  end.

(** [tdp_iter_step_down]: descend into the table [child_pt]. *)
Definition tdp_iter_step_down (i : tdp_iter) (child_pt : Z) : M tdp_iter :=
  let lvl := it_level i - 1 in
  tdp_iter_refresh_sptep
    (mk_iter (next_last_level_gfn i) (yielded_gfn i)
             (<[Z.to_nat (lvl - 1) := child_pt]> (pt_path i)) (sptep i)
             (gfn_round_for_level (next_last_level_gfn i) lvl)
             (root_level i) (min_level i) lvl (it_as_id i)
             (old_spte i) (valid i) (yielded i)).

(** [try_step_down]: re-reads the entry and descends when it links a child
    table. *)
Definition try_step_down (i : tdp_iter) : M (bool * tdp_iter) :=
  if it_level i =? min_level i then ret (false, i)
  else
    let* v := kvm_tdp_mmu_read_spte (sptep i) in
    let i := iter_set_old_spte v i in
    match spte_to_child_pt v (it_level i) with
    | None => ret (false, i)
    | Some child_pt =>
        let* i' := tdp_iter_step_down i child_pt in ret (true, i')
    end.

(** [tdp_iter_step_side]: the next entry of the same table. *)
Definition tdp_iter_step_side (i : tdp_iter) : M tdp_iter :=
  let g := wrap64 (it_gfn i + KVM_PAGES_PER_HPAGE (it_level i)) in
  let p := ptr_add (sptep i) 1 in
  let* v := kvm_tdp_mmu_read_spte p in
  ret (mk_iter g (yielded_gfn i) (pt_path i) p g (root_level i)
               (min_level i) (it_level i) (it_as_id i) v (valid i)
               (yielded i)).

(** [try_step_side]: refuses to step past the last entry of the table. *)
Definition try_step_side (i : tdp_iter) : M (bool * tdp_iter) :=
  if SPTE_INDEX (wrap64 (Z.shiftl (it_gfn i) PAGE_SHIFT)) (it_level i)
     =? SPTE_ENT_PER_PAGE - 1
  then ret (false, i)
  else let* i' := tdp_iter_step_side i in ret (true, i').

(** [try_step_up]. *)
Definition try_step_up (i : tdp_iter) : M (bool * tdp_iter) :=
  if it_level i =? root_level i then ret (false, i)
  else
    let lvl := it_level i + 1 in
    let* i' := tdp_iter_refresh_sptep
      (mk_iter (next_last_level_gfn i) (yielded_gfn i) (pt_path i) (sptep i)
               (gfn_round_for_level (it_gfn i) lvl) (root_level i)
               (min_level i) lvl (it_as_id i) (old_spte i) (valid i)
               (yielded i)) in
    ret (true, i').

(** The [do ... while (try_step_up(iter))] loop of [tdp_iter_next]; a walk
    climbs at most [PT64_ROOT_MAX_LEVEL] levels. *)
Fixpoint step_side_or_up (n : nat) (i : tdp_iter) : M tdp_iter :=
  let* (moved, i) := try_step_side i in
  if moved : bool then ret i
  else
    let* (up, i) := try_step_up i in
    if up : bool then
      match n with
      | O => out_of_fuel
      | S n' => step_side_or_up n' i
      end
    else ret (iter_set_valid false i).

(** [tdp_iter_next]. *)
Definition tdp_iter_next (i : tdp_iter) : M tdp_iter :=
  if yielded i then tdp_iter_restart i
  else
    let* (down, i) := try_step_down i in
    if down : bool then ret i
    else step_side_or_up (Z.to_nat PT64_ROOT_MAX_LEVEL) i.

(** [tdp_mmu_iter_cond_resched] (tdp_mmu.c:1129).  Yielding drops and
    retakes [mmu_lock]; the number of yields is counted. *)
Definition tdp_mmu_iter_cond_resched (i : tdp_iter) (flush shared : bool)
  : M (bool * tdp_iter) :=
  let* _ := WARN_ON (yielded i) in
  if next_last_level_gfn i =? yielded_gfn i then ret (false, i)
  else
    let* k := get in
    if need_resched E k then
      when flush kvm_flush_remote_tlbs ;;;
      modify (fun k => set_mmu_lock_yields (mmu_lock_yields k + 1) k) ;;;
      let* _ := WARN_ON (next_last_level_gfn i <? it_gfn i) in
      let i := iter_set_yielded true i in
      ret (yielded i, i)
    else ret (yielded i, i).

(** [tdp_mmu_max_gfn_exclusive] (tdp_mmu.c:1160). *)
Definition tdp_mmu_max_gfn_exclusive : Z := kvm_mmu_max_gfn E + 1.

(** *** Bookkeeping of a changed entry *)

Fixpoint for_each {A : Type} (l : list A) (body : A -> M unit) : M unit :=
  match l with
  | [] => ret tt
  | x :: rest => body x ;;; for_each rest body
  end.

(** [tdp_account_mmu_page] (tdp_mmu.c:386). *)
Definition tdp_account_mmu_page (sp : kvm_mmu_page) : M unit :=
  kvm_account_pgtable_pages 1 ;;;
  if is_private_sp sp
  then modify (fun k => set_tdp_private_mmu_pages (tdp_private_mmu_pages k + 1) k)
  else modify (fun k => set_tdp_mmu_pages (tdp_mmu_pages k + 1) k).

(** [tdp_unaccount_mmu_page] (tdp_mmu.c:395). *)
Definition tdp_unaccount_mmu_page (sp : kvm_mmu_page) : M unit :=
  kvm_account_pgtable_pages (-1) ;;;
  if is_private_sp sp
  then modify (fun k => set_tdp_private_mmu_pages (tdp_private_mmu_pages k - 1) k)
  else modify (fun k => set_tdp_mmu_pages (tdp_mmu_pages k - 1) k).

Definition untrack_possible_nx_huge_page (spt : Z) : M unit :=
  modify (fun k => set_possible_nx_huge_pages
                     (filter (fun p => p <> spt) (possible_nx_huge_pages k)) k).
Definition track_possible_nx_huge_page (spt : Z) : M unit :=
  modify (fun k => if bool_decide (spt ∈ possible_nx_huge_pages k) then k
                   else set_possible_nx_huge_pages
                          (possible_nx_huge_pages k ++ [spt]) k).

(** [tdp_mmu_unlink_sp] (tdp_mmu.c:413). *)
Definition tdp_mmu_unlink_sp (spt : Z) (shared : bool) : M unit :=
  let* sp := sp_at spt in
  tdp_unaccount_mmu_page sp ;;;
  if negb (sp_nx_huge_page_disallowed sp) then ret tt
  else update_sp spt (sp_set_nx_huge_page_disallowed false) ;;;
       untrack_possible_nx_huge_page spt.

(** [handle_removed_pt] (tdp_mmu.c:450), over the bookkeeping routine
    [hcs] that it calls for every entry of the removed table.  Under the
    shared lock the exchange loop waits, on a frozen entry, for the CPU
    that froze it. *)
Definition handle_removed_pt_with
    (hcs : Z -> Z -> Z -> Z -> kvm_mmu_page_role -> bool -> M unit)
    (pt : Z) (shared : bool) : M unit :=
  let* sp := sptep_to_sp pt in
  let spt := page_of pt in
  let level := role_level (sp_role sp) in
  let base_gfn := sp_gfn sp in
  tdp_mmu_unlink_sp spt shared ;;;
  for_each (seqZ 0 SPTE_ENT_PER_PAGE) (fun i =>
    let sptep := ptr_add pt i in
    let gfn := wrap64 (base_gfn + i * KVM_PAGES_PER_HPAGE level) in
    if shared then
      let* old_spte := kvm_tdp_mmu_write_spte_atomic sptep REMOVED_SPTE in
      if is_removed_spte old_spte then hang
      else hcs (kvm_mmu_page_as_id sp) gfn old_spte REMOVED_SPTE
               (sp_role sp) shared
    else
      let* old_spte := kvm_tdp_mmu_read_spte sptep in
      if negb (is_shadow_present_pte old_spte) &&
         negb (is_private_zapped_spte old_spte)
      then ret tt
      else
        let* old_spte :=
          kvm_tdp_mmu_write_spte sptep old_spte REMOVED_SPTE level in
        hcs (kvm_mmu_page_as_id sp) gfn old_spte REMOVED_SPTE
            (sp_role sp) shared) ;;;
  let* sp := sp_at spt in
  let* _ := KVM_BUG_ON (is_private_sp sp &&
                        negb (bool_decide (is_Some (kvm_mmu_private_spt sp)))) in
  (if is_private_sp sp then
     let* r := static_call (free_private_spt (sp_gfn sp)
                   (role_level (sp_role sp))
                   (default 0 (kvm_mmu_private_spt sp))) in
     if nonzero r then update_sp spt (sp_set_private_spt None) else ret tt
   else ret tt) ;;;
  call_rcu spt.

(** [get_private_spt] (tdp_mmu.c:552). *)
Definition get_private_spt (gfn new_spte level : Z) : M (option Z) :=
  if is_shadow_present_pte new_spte && negb (is_last_spte new_spte level)
  then let* sp := sp_at (pfn_to_hpa (spte_to_pfn new_spte)) in
       ret (kvm_mmu_private_spt sp)
  else ret None.

(** [handle_private_zapped_spte] (tdp_mmu.c:567). *)
Definition handle_private_zapped_spte (gfn old_spte new_spte level : Z)
  : M unit :=
  let was_private_zapped := is_private_zapped_spte old_spte in
  let is_private_zapped := is_private_zapped_spte new_spte in
  let was_present := is_shadow_present_pte old_spte in
  let is_present := is_shadow_present_pte new_spte in
  let old_pfn := spte_to_pfn old_spte in
  let* _ := KVM_BUG_ON (negb (is_last_spte old_spte level)) in
  let* _ := KVM_BUG_ON is_private_zapped in
  let* _ := KVM_BUG_ON was_present in
  let* _ := KVM_BUG_ON (negb was_private_zapped) in
  let* _ := KVM_BUG_ON is_present in
  let* r := static_call (remove_private_spte gfn level old_pfn) in
  let* _ := KVM_BUG_ON (nonzero r) in
  ret tt.

(** [handle_removed_private_spte] (tdp_mmu.c:589). *)
Definition handle_removed_private_spte (gfn old_spte new_spte level : Z)
  : M unit :=
  let was_present := is_shadow_present_pte old_spte in
  let is_present := is_shadow_present_pte new_spte in
  let was_leaf := was_present && is_last_spte old_spte level in
  let is_leaf := is_present && is_last_spte new_spte level in
  let was_private_zapped := is_private_zapped_spte old_spte in
  let is_private_zapped := is_private_zapped_spte new_spte in
  let old_pfn := spte_to_pfn old_spte in
  let new_pfn := spte_to_pfn new_spte in
  if eqb was_leaf is_leaf && eqb was_present is_present &&
     eqb was_private_zapped is_private_zapped
  then ret tt
  else
    let* _ := KVM_BUG_ON (was_private_zapped && is_private_zapped) in
    let* _ := WARN_ON is_present in
    if negb was_leaf then ret tt
    else
      let* r := static_call (zap_private_spte gfn level) in
      if is_private_zapped then
        let* _ := KVM_BUG_ON (negb (new_pfn =? old_pfn)) in ret tt
      else
        let* failed := KVM_BUG_ON (nonzero r) in
        if failed then ret tt
        else
          let* _ := KVM_BUG_ON (negb was_present) in
          let* _ := KVM_BUG_ON (nonzero new_pfn) in
          let* r := static_call (remove_private_spte gfn level old_pfn) in
          let* _ := KVM_BUG_ON (nonzero r) in
          ret tt.

(** [handle_changed_spte] (tdp_mmu.c:652), over the routine
    [removed_pt] that tears down a child table.  [BUG()] stops the host.
    [check_spte_writable_invariants] and the trace points only report. *)
Definition handle_changed_spte_with
    (removed_pt : Z -> bool -> M unit)
    (as_id gfn old_spte new_spte : Z) (role : kvm_mmu_page_role)
    (shared : bool) : M unit :=
  let is_private := kvm_mmu_page_role_is_private role in
  let level := role_level role in
  let was_present := is_shadow_present_pte old_spte in
  let is_present := is_shadow_present_pte new_spte in
  let was_last := is_last_spte old_spte level in
  let was_leaf := was_present && was_last in
  let is_leaf := is_present && is_last_spte new_spte level in
  let old_pfn := spte_to_pfn old_spte in
  let new_pfn := spte_to_pfn new_spte in
  let pfn_changed := negb (old_pfn =? new_pfn) in
  let was_private_zapped := is_private_zapped_spte old_spte in
  let* _ := WARN_ON (PT64_ROOT_MAX_LEVEL <? level) in
  let* _ := WARN_ON (level <? PG_LEVEL_4K) in
  let* _ := WARN_ON (nonzero (Z.land gfn (KVM_PAGES_PER_HPAGE level - 1))) in
  let* _ := KVM_BUG_ON (was_private_zapped && negb is_private) in
  let* k := get in
  let* _ := KVM_BUG_ON (negb (eqb (kvm_is_private_gpa k (gfn_to_gpa gfn))
                                  is_private)) in
  if was_leaf && is_leaf && pfn_changed then crash BUG
  else if old_spte =? new_spte then ret tt
  else if was_private_zapped && negb is_present then
    handle_private_zapped_spte gfn old_spte new_spte level
  else if negb was_present && negb is_present then
    let* _ := WARN_ON (negb (is_mmio_spte E old_spte) &&
                       negb (is_mmio_spte E new_spte) &&
                       negb (is_removed_spte new_spte)) in
    ret tt
  else
    when (negb (eqb is_leaf was_leaf))
         (kvm_update_page_stats level (if is_leaf then 1 else -1)) ;;;
    when (was_leaf && is_dirty_spte old_spte &&
          (negb is_present || negb (is_dirty_spte new_spte) || pfn_changed))
         (kvm_set_pfn_dirty old_pfn) ;;;
    (if was_present && negb was_last &&
        (is_leaf || negb is_present || pfn_changed)
     then
       let* child_pt := deref (spte_to_child_pt old_spte level) in
       let* child_private := is_private_sptep child_pt in
       let* _ := KVM_BUG_ON (negb (eqb is_private child_private)) in
       removed_pt child_pt shared
     else ret tt) ;;;
    (if is_private && negb is_present then
       let* _ := KVM_BUG_ON (negb shared && is_leaf &&
                             negb (is_private_zapped_spte new_spte)) in
       handle_removed_private_spte gfn old_spte new_spte level
     else ret tt) ;;;
    when (was_leaf && is_accessed_spte old_spte &&
          (negb is_present || negb (is_accessed_spte new_spte) || pfn_changed))
         (kvm_set_pfn_accessed (spte_to_pfn old_spte)).

(** The mutual recursion of [handle_removed_pt] and [handle_changed_spte]:
    [n] bounds the nesting of the tables torn down. *)
Fixpoint handle_removed_pt_fuel (n : nat) (pt : Z) (shared : bool) : M unit :=
  match n with
  | O => out_of_fuel
  | S n' =>
      handle_removed_pt_with
        (handle_changed_spte_with (handle_removed_pt_fuel n')) pt shared
  end.

(** Bound on the nesting of table teardown, at least the depth of the
    tree. *)
Variable depth : nat.

Definition handle_removed_pt : Z -> bool -> M unit :=
  handle_removed_pt_fuel depth.

Definition handle_changed_spte
  : Z -> Z -> Z -> Z -> kvm_mmu_page_role -> bool -> M unit :=
  handle_changed_spte_with handle_removed_pt.

(** [private_spte_change_flags] (tdp_mmu.c:774). *)
Definition private_spte_change_flags (gfn old_spte new_spte level : Z) : M Z :=
  let was_writable := is_writable_pte old_spte in
  let is_writable := is_writable_pte new_spte in
  (if was_writable && negb is_writable then
     let* _ := KVM_BUG_ON (negb (level =? PG_LEVEL_4K)) in
     let* _ := static_call (write_block_private_pages gfn) in
     ret tt
   else ret tt) ;;;
  let* _ := WARN_ON (negb was_writable && is_writable) in
  ret 0.

(** [__set_private_spte_present] (tdp_mmu.c:794). *)
Definition __set_private_spte_present (sptep gfn old_spte new_spte level : Z)
  : M Z :=
  let was_private_zapped := is_private_zapped_spte old_spte in
  let is_private_zapped := is_private_zapped_spte new_spte in
  let was_last := is_last_spte old_spte level in
  let is_last := is_last_spte new_spte level in
  let was_present := is_shadow_present_pte old_spte in
  let is_present := is_shadow_present_pte new_spte in
  let was_leaf := was_present && is_last_spte old_spte level in
  let is_leaf := is_present && is_last_spte new_spte level in
  let old_pfn := spte_to_pfn old_spte in
  let new_pfn := spte_to_pfn new_spte in
  if was_private_zapped then
    let* _ := KVM_BUG_ON (negb (is_last_spte old_spte level)) in
    let* _ := KVM_BUG_ON (negb is_present) in
    let* _ := KVM_BUG_ON is_private_zapped in
    let* _ := KVM_BUG_ON was_present in
    let* _ := KVM_BUG_ON (negb was_private_zapped) in
    if old_pfn =? new_pfn then static_call (unzap_private_spte gfn level)
    else let* _ := WARN_ON true in ret 0
  else if (PG_LEVEL_4K <? level) && was_leaf && negb is_leaf then
    let* private_spt := get_private_spt gfn new_spte level in
    let* _ := KVM_BUG_ON (negb (bool_decide (is_Some private_spt))) in
    let* r := static_call (zap_private_spte gfn level) in
    kvm_flush_remote_tlbs ;;;
    if r =? 0
    then static_call (split_private_spt gfn level (default 0 private_spt))
    else ret r
  else if is_leaf then
    if was_present
    then private_spte_change_flags gfn old_spte new_spte level
    else static_call (set_private_spte gfn level new_pfn)
  else
    let* private_spt := get_private_spt gfn new_spte level in
    let* _ := KVM_BUG_ON (negb (bool_decide (is_Some private_spt))) in
    static_call (link_private_spt gfn level (default 0 private_spt)).

(** [set_private_spte_present] (tdp_mmu.c:886).  [old_spte] is a copy of
    the caller's value: the refresh done by the compare-and-swap is local
    to this function. *)
Definition set_private_spte_present (sptep gfn old_spte new_spte level : Z)
  : M Z :=
  let* (ok, old_spte) := try_cmpxchg64 sptep old_spte REMOVED_SPTE in
  if negb ok then ret (- EBUSY)
  else
    let* r := __set_private_spte_present sptep gfn old_spte new_spte level in
    (if nonzero r then __kvm_tdp_mmu_write_spte sptep old_spte
     else __kvm_tdp_mmu_write_spte sptep new_spte) ;;;
    ret r.

(** [tdp_mmu_set_spte_atomic] (tdp_mmu.c:930). *)
Definition tdp_mmu_set_spte_atomic (iter : tdp_iter) (new_spte : Z)
  : M (Z * tdp_iter) :=
  let* _ := KVM_BUG_ON (yielded iter) in
  let* _ := WARN_ON (yielded iter || is_removed_spte (old_spte iter)) in
  let* private := is_private_sptep (sptep iter) in
  let finish (iter : tdp_iter) (freezed : bool) : M (Z * tdp_iter) :=
    let* sp := sptep_to_sp (sptep iter) in
    handle_changed_spte (it_as_id iter) (it_gfn iter) (old_spte iter)
                        new_spte (sp_role sp) true ;;;
    when freezed (__kvm_tdp_mmu_write_spte (sptep iter) new_spte) ;;;
    ret (0, iter) in
  if private && negb (is_removed_spte new_spte) then
    if is_shadow_present_pte new_spte then
      let* r := set_private_spte_present (sptep iter) (it_gfn iter)
                  (old_spte iter) new_spte (it_level iter) in
      if nonzero r then ret (r, iter) else finish iter false
    else
      let* (ok, old) := try_cmpxchg64 (sptep iter) (old_spte iter)
                                       REMOVED_SPTE in
      let iter := iter_set_old_spte old iter in
      if negb ok then ret (- EBUSY, iter) else finish iter true
  else
    let* (ok, old) := try_cmpxchg64 (sptep iter) (old_spte iter) new_spte in
    let iter := iter_set_old_spte old iter in
    if negb ok then ret (- EBUSY, iter) else finish iter false.

(** [private_zapped_spte] (tdp_mmu.c:998). *)
Definition private_zapped_spte (iter : tdp_iter) : M Z :=
  let* k := get in
  if negb (nonzero (kvm_gfn_shared_mask k)) then ret SHADOW_NONPRESENT_VALUE
  else
    let* private := is_private_sptep (sptep iter) in
    if negb private then ret SHADOW_NONPRESENT_VALUE
    else ret (__private_zapped_spte (old_spte iter)).

(** [tdp_mmu_zap_spte_atomic] (tdp_mmu.c:1009). *)
Definition tdp_mmu_zap_spte_atomic (iter : tdp_iter) : M (Z * tdp_iter) :=
  let* (r, iter) := tdp_mmu_set_spte_atomic iter REMOVED_SPTE in
  if nonzero r then ret (r, iter)
  else
    kvm_flush_remote_tlbs_gfn (it_gfn iter) (it_level iter) ;;;
    let* z := private_zapped_spte iter in
    __kvm_tdp_mmu_write_spte (sptep iter) z ;;;
    ret (0, iter).

(** [tdp_mmu_set_spte] (tdp_mmu.c:1052). *)
Definition tdp_mmu_set_spte (as_id sptep old_spte new_spte gfn level : Z)
  : M Z :=
  let* private := is_private_sptep sptep in
  let* k := get in
  let* _ := KVM_BUG_ON (negb (eqb private
                                  (kvm_is_private_gpa k (gfn_to_gpa gfn)))) in
  let* _ := WARN_ON (is_removed_spte old_spte || is_removed_spte new_spte) in
  let* old_spte := kvm_tdp_mmu_write_spte sptep old_spte new_spte level in
  let* private := is_private_sptep sptep in
  (if private && negb (is_removed_spte new_spte) &&
      is_shadow_present_pte new_spte
   then
     let* r := __set_private_spte_present sptep gfn old_spte new_spte level in
     let* _ := KVM_BUG_ON (nonzero r) in ret tt
   else ret tt) ;;;
  let* sp := sptep_to_sp sptep in
  handle_changed_spte as_id gfn old_spte new_spte
                      (role_set_level level (sp_role sp)) false ;;;
  ret old_spte.

(** [tdp_mmu_iter_set_spte] (tdp_mmu.c:1084). *)
Definition tdp_mmu_iter_set_spte (iter : tdp_iter) (new_spte : Z)
  : M tdp_iter :=
  let* _ := WARN_ON (yielded iter) in
  let* old := tdp_mmu_set_spte (it_as_id iter) (sptep iter) (old_spte iter)
                               new_spte (it_gfn iter) (it_level iter) in
  ret (iter_set_old_spte old iter).

(** *** Splitting a huge page *)

(** [make_huge_page_split_spte].

    Modelled from the spec: [spte.c] is not among the sources.  The spec
    (4.3) derives each child entry "from the huge entry's frame+flags plus
    its index": the child keeps the bits of the huge entry, adds the offset
    of its index to the frame and, at the 4K level, drops the huge-page
    flag (and becomes executable where the NX huge-page mitigation had
    removed execution). *)
Definition make_huge_page_split_spte (huge_spte : Z)
    (role : kvm_mmu_page_role) (index : Z) : Z :=
  if negb (is_shadow_present_pte huge_spte) then 0
  else if negb (is_large_pte huge_spte) then 0
  else
    let child_spte :=
      Z.lor huge_spte
        (wrap64 (Z.shiftl (index * KVM_PAGES_PER_HPAGE (role_level role))
                          PAGE_SHIFT)) in
    if role_level role =? PG_LEVEL_4K then
      let child_spte := Z.land child_spte (not64 PT_PAGE_SIZE_MASK) in
      if nonzero (Z.land (role_access role) ACC_EXEC_MASK) &&
         is_nx_huge_page_enabled E
      then make_spte_executable E child_spte
      else child_spte
    else child_spte.

(** [tdp_iter_child_role]. *)
Definition tdp_iter_child_role (iter : tdp_iter) : M kvm_mmu_page_role :=
  let* parent_sp := sptep_to_sp (sptep iter) in
  ret (role_set_level (role_level (sp_role parent_sp) - 1) (sp_role parent_sp)).

(** [tdp_mmu_link_sp] (tdp_mmu.c:1828). *)
Definition tdp_mmu_link_sp (iter : tdp_iter) (spt : Z) (shared : bool)
  : M (Z * tdp_iter) :=
  let spte := make_nonleaf_spte E spt in
  let* sp := sp_at spt in
  if shared then
    let* (r, iter) := tdp_mmu_set_spte_atomic iter spte in
    if nonzero r then ret (r, iter)
    else tdp_account_mmu_page sp ;;; ret (0, iter)
  else
    let* iter := tdp_mmu_iter_set_spte iter spte in
    tdp_account_mmu_page sp ;;; ret (0, iter).

(** [tdp_mmu_split_huge_page] (tdp_mmu.c:2307). *)
Definition tdp_mmu_split_huge_page (iter : tdp_iter) (spt : Z) (shared : bool)
  : M (Z * tdp_iter) :=
  let huge_spte := old_spte iter in
  let level := it_level iter in
  let* sp := sp_at spt in
  for_each (seqZ 0 SPTE_ENT_PER_PAGE) (fun i =>
    __kvm_tdp_mmu_write_spte (ptr_add spt i)
      (make_huge_page_split_spte huge_spte (sp_role sp) i)) ;;;
  let* (r, iter) := tdp_mmu_link_sp iter spt shared in
  if nonzero r then ret (r, iter)
  else kvm_update_page_stats (level - 1) SPTE_ENT_PER_PAGE ;;; ret (r, iter).

(** [__tdp_mmu_alloc_sp_for_split] (tdp_mmu.c:2234).  The header and the
    table stand or fall together; a private table needs a second page. *)
Definition __tdp_mmu_alloc_sp_for_split (role : kvm_mmu_page_role)
    (can_yield : bool) : M (option Z) :=
  let* spt := alloc_page_atomic in
  let* private_spt :=
    (if kvm_mmu_page_role_is_private role
     then let* p := alloc_page_atomic in ret (Some p)
     else ret None) in
  match spt, private_spt with
  | Some spt, None =>
      modify (fun k => set_sps
        (<[spt := mk_sp role 0 None false 0 None false]> (sps k)) k) ;;;
      ret (Some spt)
  | Some spt, Some (Some p) =>
      modify (fun k => set_sps
        (<[spt := mk_sp role 0 None false 0 (Some p) false]> (sps k)) k) ;;;
      ret (Some spt)
  | _, _ => ret None
  end.

(** [tdp_mmu_alloc_sp_for_split] (tdp_mmu.c:2262). *)
Definition tdp_mmu_alloc_sp_for_split (iter : tdp_iter)
    (shared can_yield : bool) : M (option Z * tdp_iter) :=
  let* role := tdp_iter_child_role iter in
  let* private := is_private_sptep (sptep iter) in
  let* _ := KVM_BUG_ON (negb (eqb (kvm_mmu_page_role_is_private role) private)) in
  let* sp := __tdp_mmu_alloc_sp_for_split role can_yield in
  if bool_decide (is_Some sp) || negb can_yield then ret (sp, iter)
  else
    modify (fun k => set_mmu_lock_yields (mmu_lock_yields k + 1) k) ;;;
    let iter := iter_set_yielded true iter in
    let* sp := __tdp_mmu_alloc_sp_for_split role can_yield in
    ret (sp, iter).

(** *** Walks over a range of frames *)

(** How the body of a walk leaves an iteration: on to the next entry
    ([continue] or the end of the body), back to the [retry:] label at the
    head of the body, or out of the loop ([break] or a [goto] past it). *)
Inductive loop_ctl : Type :=
  | Next
  | Retry
  | Break.

(** [for_each_tdp_pte_min_level(iter, root, min_level, start, end)] after
    [tdp_iter_start]: the loop runs while [iter.valid && iter.gfn < end];
    [check] is false when the body is re-entered at its [retry:] label.
    The first component of the result tells whether the loop was left by
    [Break]. *)
Fixpoint tdp_loop {S : Type} (n : nat) (end_gfn : Z)
    (body : tdp_iter -> S -> M (loop_ctl * tdp_iter * S))
    (check : bool) (iter : tdp_iter) (st : S) : M (bool * tdp_iter * S) :=
  if check && negb (valid iter && (it_gfn iter <? end_gfn))
  then ret (false, iter, st)
  else
    match n with
    | O => out_of_fuel
    | S n' =>
        let* (ctl_iter, st) := body iter st in
        let (ctl, iter) := ctl_iter : loop_ctl * tdp_iter in
        match ctl with
        | Next => let* iter := tdp_iter_next iter in
                  tdp_loop n' end_gfn body true iter st
        | Retry => tdp_loop n' end_gfn body false iter st
        | Break => ret (true, iter, st)
        end
    end.

(** Bound on the number of iterations of a walk. *)
Variable fuel : nat.

Definition for_each_tdp_pte_min_level {S : Type} (root min_lvl start end_gfn : Z)
    (body : tdp_iter -> S -> M (loop_ctl * tdp_iter * S)) (st : S)
  : M (bool * tdp_iter * S) :=
  let* iter := tdp_iter_start empty_iter root min_lvl start in
  tdp_loop fuel end_gfn body true iter st.

(** The test of [tdp_mmu_zap_leafs] (tdp_mmu.c:1393-1403) for splitting a
    huge private leaf instead of zapping it whole: its range has mixed
    attributes, or the comparison of [gfn & mask] with the bounds of the
    range says that it is not covered. *)
Definition zap_leafs_split_test (k : kvm) (is_private : bool)
    (start end_gfn : Z) (iter : tdp_iter) : bool :=
  let gfn := Z.land (it_gfn iter) (not64 (kvm_gfn_shared_mask k)) in
  let mask := KVM_PAGES_PER_HPAGE (it_level iter) - 1 in
  is_private && nonzero (kvm_gfn_shared_mask k) &&
  is_large_pte (old_spte iter) &&
  (kvm_hugepage_test_mixed E k gfn (it_level iter) ||
   (Z.land gfn mask <? start) ||
   (end_gfn <? wrap64 (Z.land gfn mask + KVM_PAGES_PER_HPAGE (it_level iter)))).

(** The body of the loop of [tdp_mmu_zap_leafs] (tdp_mmu.c:1375-1447); the
    loop carries [flush] and [split_sp]. *)
Definition zap_leafs_body (is_private : bool) (start end_gfn : Z)
    (can_yield : bool) (zap_private : tdp_zap_private)
    (iter : tdp_iter) (st : bool * option Z)
  : M (loop_ctl * tdp_iter * (bool * option Z)) :=
  let (flush, split_sp) := st in
  let* (resched, iter) :=
    (if can_yield then tdp_mmu_iter_cond_resched iter flush false
     else ret (false, iter)) in
  if resched : bool then ret (Next, iter, (false, split_sp))
  else if negb (is_last_spte (old_spte iter) (it_level iter))
  then ret (Next, iter, (flush, split_sp))
  else if negb (is_shadow_present_pte (old_spte iter)) &&
          negb (is_private_zapped_spte (old_spte iter))
  then ret (Next, iter, (flush, split_sp))
  else
    let* k := get in
    if zap_leafs_split_test k is_private start end_gfn iter
    then
      let* _ := WARN_ON (negb can_yield) in
      let split (sp : option Z) (iter : tdp_iter) (flush : bool)
        : M (loop_ctl * tdp_iter * (bool * option Z)) :=
        let* _ := KVM_BUG_ON (negb (bool_decide (is_Some sp))) in
        let* spt := deref sp in
        tdp_mmu_init_sp spt (Some (sptep iter)) (it_gfn iter) ;;;
        let* (r, iter) := tdp_mmu_split_huge_page iter spt false in
        if nonzero r then
          kvm_flush_remote_tlbs ;;;
          ret (Next, iter_set_yielded true iter, (false, None))
        else ret (Next, iter, (true, None)) in
      match split_sp with
      | Some spt =>
          let* role := tdp_iter_child_role iter in
          update_sp spt (sp_set_role role) ;;;
          split (Some spt) iter flush
      | None =>
          let* _ := WARN_ON (yielded iter) in
          let* flush :=
            (if flush && can_yield then kvm_flush_remote_tlbs ;;; ret false
             else ret flush) in
          let* (sp, iter) := tdp_mmu_alloc_sp_for_split iter false can_yield in
          if yielded iter then ret (Next, iter, (flush, sp))
          else split sp iter flush
      end
    else if (bool_decide (zap_private = ZAP_PRIVATE_SKIP) ||
             bool_decide (zap_private = ZAP_PRIVATE_BLOCK)) &&
            is_private_zapped_spte (old_spte iter)
    then ret (Next, iter, (flush, split_sp))
    else
      let* new_spte :=
        (if bool_decide (zap_private = ZAP_PRIVATE_REMOVE)
         then ret SHADOW_NONPRESENT_VALUE
         else private_zapped_spte iter) in
      let* iter := tdp_mmu_iter_set_spte iter new_spte in
      ret (Next, iter, (true, split_sp)).

(** [tdp_mmu_zap_leafs] (tdp_mmu.c:1348). *)
Definition tdp_mmu_zap_leafs (root start end_gfn : Z)
    (can_yield flush : bool) (zap_private : tdp_zap_private) : M bool :=
  let* root_sp := sp_at root in
  let is_private := is_private_sp root_sp in
  let end_gfn := Z.min end_gfn tdp_mmu_max_gfn_exclusive in
  let* _ := WARN_ON (negb (bool_decide (zap_private = ZAP_PRIVATE_SKIP)) &&
                     negb is_private) in
  if bool_decide (zap_private = ZAP_PRIVATE_SKIP) && is_private then ret flush
  else
    let* k := get in
    let start := kvm_gfn_for_root k root_sp start in
    let end_gfn := kvm_gfn_for_root k root_sp end_gfn in
    let* (_, st) :=
      for_each_tdp_pte_min_level root PG_LEVEL_4K start end_gfn
        (zap_leafs_body is_private start end_gfn can_yield zap_private)
        (flush, None) in
    let (flush, split_sp) := st : bool * option Z in
    match split_sp with
    | Some spt =>
        let* _ := WARN_ON (negb can_yield) in
        let* flush := (if flush then kvm_flush_remote_tlbs ;;; ret false
                       else ret flush) in
        modify (fun k => set_mmu_lock_yields (mmu_lock_yields k + 1) k) ;;;
        tdp_mmu_free_sp spt ;;;
        ret flush
    | None => ret flush
    end.

(** *** Iteration over the roots *)

(** The [while (next_root)] loop of [tdp_mmu_next_root] (tdp_mmu.c:181)
    over the roots from [next_root] on. *)
Fixpoint next_root_scan (candidates : list Z) (only_valid : bool)
  : M (option Z) :=
  match candidates with
  | [] => ret None
  | next_root :: rest =>
      let* sp := sp_at next_root in
      if negb only_valid || negb (role_invalid (sp_role sp)) then
        let* got := kvm_tdp_mmu_get_root next_root in
        if got then ret (Some next_root) else next_root_scan rest only_valid
      else next_root_scan rest only_valid
  end.

(** [list_next_or_null_rcu] and its successors: the roots linked after
    [prev]. *)
Fixpoint roots_after (roots : list Z) (prev : Z) : list Z :=
  match roots with
  | [] => []
  | r :: rest => if r =? prev then rest else roots_after rest prev
  end.

(** [tdp_mmu_next_root] (tdp_mmu.c:165). *)
Definition tdp_mmu_next_root (prev_root : option Z) (shared only_valid : bool)
  : M (option Z) :=
  let* k := get in
  let candidates :=
    match prev_root with
    | Some prev => roots_after (tdp_mmu_roots k) prev
    | None => tdp_mmu_roots k
    end in
  let* next_root := next_root_scan candidates only_valid in
  match prev_root with
  | Some prev => kvm_tdp_mmu_put_root prev shared
  | None => ret tt
  end ;;;
  ret next_root.

(** [__for_each_tdp_mmu_root_yield_safe] (tdp_mmu.c:208): [body] runs on
    the roots of the address space [as_id]; [n] bounds the number of roots
    visited. *)
Fixpoint for_each_root_yield_safe_from {S : Type} (n : nat)
    (root : option Z) (as_id : Z) (shared only_valid : bool)
    (body : Z -> S -> M S) (st : S) : M S :=
  match root with
  | None => ret st
  | Some r =>
      match n with
      | O => out_of_fuel
      | S n' =>
          let* sp := sp_at r in
          let* st := (if negb (kvm_mmu_page_as_id sp =? as_id) then ret st
                      else body r st) in
          let* next := tdp_mmu_next_root (Some r) shared only_valid in
          for_each_root_yield_safe_from n' next as_id shared only_valid body st
      end
  end.

Definition __for_each_tdp_mmu_root_yield_safe {S : Type}
    (as_id : Z) (shared only_valid : bool) (body : Z -> S -> M S) (st : S)
  : M S :=
  let* k := get in
  let* first := tdp_mmu_next_root None shared only_valid in
  for_each_root_yield_safe_from (length (tdp_mmu_roots k)) first as_id
                                shared only_valid body st.

Definition for_each_tdp_mmu_root_yield_safe {S : Type} (as_id : Z)
    (body : Z -> S -> M S) (st : S) : M S :=
  __for_each_tdp_mmu_root_yield_safe as_id false false body st.

(** [for_each_tdp_mmu_root] (tdp_mmu.c:229): the plain walk of the list
    under the exclusive lock. *)
Fixpoint for_each_tdp_mmu_root_in {S : Type} (roots : list Z) (as_id : Z)
    (body : Z -> kvm_mmu_page -> S -> M S) (st : S) : M S :=
  match roots with
  | [] => ret st
  | root :: rest =>
      let* sp := sp_at root in
      let* st := (if negb (kvm_mmu_page_as_id sp =? as_id) then ret st
                  else body root sp st) in
      for_each_tdp_mmu_root_in rest as_id body st
  end.

Definition for_each_tdp_mmu_root {S : Type} (as_id : Z)
    (body : Z -> kvm_mmu_page -> S -> M S) (st : S) : M S :=
  let* k := get in for_each_tdp_mmu_root_in (tdp_mmu_roots k) as_id body st.

(** [kvm_tdp_mmu_zap_leafs] (tdp_mmu.c:1475). *)
Definition kvm_tdp_mmu_zap_leafs (as_id start end_gfn : Z)
    (can_yield flush : bool) (zap_private : tdp_zap_private) : M bool :=
  for_each_tdp_mmu_root_yield_safe as_id (fun root flush =>
    let* sp := sp_at root in
    tdp_mmu_zap_leafs root start end_gfn can_yield flush
      (if is_private_sp sp then zap_private else ZAP_PRIVATE_SKIP)) flush.

(** [kvm_tdp_mmu_unmap_gfn_range] (tdp_mmu.c:1987). *)
Definition unmap_zap_policy (k : kvm) (range : kvm_gfn_range) : tdp_zap_private :=
  if nonzero (kvm_gfn_shared_mask k) then
    if negb (range_only_private range) && negb (range_only_shared range) then
      if nonzero (Z.land (range_attributes range) KVM_MEMORY_ATTRIBUTE_PRIVATE)
      then ZAP_PRIVATE_SKIP
      else ZAP_PRIVATE_BLOCK
    else if range_only_private range && negb (range_only_shared range)
    then ZAP_PRIVATE_REMOVE
    else if range_only_private range && range_only_shared range
    then ZAP_PRIVATE_REMOVE
    else ZAP_PRIVATE_SKIP
  else ZAP_PRIVATE_SKIP.

Definition kvm_tdp_mmu_unmap_gfn_range (range : kvm_gfn_range) (flush : bool)
  : M bool :=
  let* k := get in
  kvm_tdp_mmu_zap_leafs (range_as_id range) (range_start range)
    (range_end range) (range_may_block range) flush (unmap_zap_policy k range).

(** *** Reclaim notifiers *)

(** [age_gfn_range] (tdp_mmu.c:2072). *)
Definition age_gfn_range (iter : tdp_iter) (range : kvm_gfn_range)
  : M (bool * tdp_iter) :=
  if negb (is_accessed_spte (old_spte iter)) then ret (false, iter)
  else if spte_ad_enabled (old_spte iter) then
    let* old := tdp_mmu_clear_spte_bits (sptep iter) (old_spte iter)
                  shadow_accessed_mask (it_level iter) in
    ret (true, iter_set_old_spte old iter)
  else
    when (is_writable_pte (old_spte iter))
         (kvm_set_pfn_dirty (spte_to_pfn (old_spte iter))) ;;;
    let new_spte := mark_spte_for_access_track E (old_spte iter) in
    let* old := kvm_tdp_mmu_write_spte (sptep iter) (old_spte iter) new_spte
                  (it_level iter) in
    ret (true, iter_set_old_spte old iter).

(** [test_age_gfn] (tdp_mmu.c:2111). *)
Definition test_age_gfn (iter : tdp_iter) (range : kvm_gfn_range)
  : M (bool * tdp_iter) :=
  ret (is_accessed_spte (old_spte iter), iter).

(** [set_spte_gfn] (tdp_mmu.c:2122). *)
Definition set_spte_gfn (iter : tdp_iter) (range : kvm_gfn_range)
  : M (bool * tdp_iter) :=
  let* _ := WARN_ON (range_pte_huge range ||
                     negb (range_start range + 1 =? range_end range)) in
  if negb (it_level iter =? PG_LEVEL_4K) ||
     negb (is_shadow_present_pte (old_spte iter))
  then ret (false, iter)
  else
    let* z := private_zapped_spte iter in
    let* iter := tdp_mmu_iter_set_spte iter z in
    let* iter :=
      (if negb (range_pte_write range) then
         let new_spte := kvm_mmu_changed_pte_notifier_make_spte E
                           (old_spte iter) (range_pte_pfn range) in
         tdp_mmu_iter_set_spte iter new_spte
       else ret iter) in
    ret (true, iter).

(** The body of [tdp_root_for_each_leaf_pte] (tdp_mmu.c:1101) around a
    handler: a temporarily blocked private entry counts as a leaf. *)
Definition leaf_pte_body
    (handler : tdp_iter -> kvm_gfn_range -> M (bool * tdp_iter))
    (range : kvm_gfn_range) (iter : tdp_iter) (acc : bool)
  : M (loop_ctl * tdp_iter * bool) :=
  if (negb (is_shadow_present_pte (old_spte iter)) &&
      negb (is_private_zapped_spte (old_spte iter))) ||
     negb (is_last_spte (old_spte iter) (it_level iter))
  then ret (Next, iter, acc)
  else
    let* (r, iter) := handler iter range in
    ret (Next, iter, acc || r).

(** The body of the loop over the roots of [kvm_tdp_mmu_handle_gfn]
    (tdp_mmu.c:2034-2059): a private root is passed over. *)
Definition handle_gfn_root (range : kvm_gfn_range)
    (handler : tdp_iter -> kvm_gfn_range -> M (bool * tdp_iter))
    (root : Z) (sp : kvm_mmu_page) (acc : bool) : M bool :=
  if is_private_sp sp then ret acc
  else
    let* k := get in
    let start := kvm_gfn_to_shared k (range_start range) in
    let end_gfn := kvm_gfn_to_shared k (range_end range) in
    let* (_, acc) :=
      for_each_tdp_pte_min_level root PG_LEVEL_4K start end_gfn
        (leaf_pte_body handler range) acc in
    ret acc.

(** [kvm_tdp_mmu_handle_gfn] (tdp_mmu.c:2022). *)
Definition kvm_tdp_mmu_handle_gfn (range : kvm_gfn_range)
    (handler : tdp_iter -> kvm_gfn_range -> M (bool * tdp_iter)) : M bool :=
  for_each_tdp_mmu_root (range_as_id range) (handle_gfn_root range handler)
                        false.

(** [kvm_tdp_mmu_age_gfn_range] (tdp_mmu.c:2106). *)
Definition kvm_tdp_mmu_age_gfn_range (range : kvm_gfn_range) : M bool :=
  kvm_tdp_mmu_handle_gfn range age_gfn_range.

(** [kvm_tdp_mmu_test_age_gfn] (tdp_mmu.c:2117). *)
Definition kvm_tdp_mmu_test_age_gfn (range : kvm_gfn_range) : M bool :=
  kvm_tdp_mmu_handle_gfn range test_age_gfn.

(** [kvm_tdp_mmu_set_spte_gfn] (tdp_mmu.c:2158). *)
Definition kvm_tdp_mmu_set_spte_gfn (range : kvm_gfn_range) : M bool :=
  kvm_tdp_mmu_handle_gfn range set_spte_gfn.

(** *** Merging the small pages of a private huge page *)

(** [tdp_mmu_iter_step_side] (tdp_mmu.c:1574). *)
Definition tdp_mmu_iter_step_side (i : Z) (iter : tdp_iter) : M (Z * tdp_iter) :=
  let i := i + 1 in
  if i <? SPTE_ENT_PER_PAGE
  then let* iter := tdp_iter_step_side iter in ret (i, iter)
  else ret (i, iter).

(** One turn of the loop of [tdp_mmu_merge_private_spt]
    (tdp_mmu.c:1635-1683) on the child with index [i].  The result holds
    [ret] and tells whether the loop is left by [goto out]. *)
Definition merge_child (fault : kvm_page_fault) (new_spte parent_old_spte : Z)
    (child_role : kvm_mmu_page_role) (i : Z) (child_iter : tdp_iter) (r : Z)
  : M (bool * Z * tdp_iter) :=
  let* _ := WARN_ON (negb (it_level child_iter =? PG_LEVEL_4K)) in
  if is_shadow_present_pte (old_spte child_iter) then
    if negb (spte_to_pfn (old_spte child_iter) =? spte_to_pfn new_spte + i)
    then ret (false, if r =? 0 then - EAGAIN else r, child_iter)
    else if it_gfn child_iter =? fault_gfn fault
    then ret (false, if r =? 0 then - EAGAIN else r, child_iter)
    else ret (false, r, child_iter)
  else
    let* _ := WARN_ON (is_private_zapped_spte parent_old_spte &&
                       negb (spte_to_pfn (old_spte child_iter)
                             =? spte_to_pfn new_spte + i)) in
    let child_spte := make_huge_page_split_spte new_spte child_role i in
    let* (tmp, child_iter) := tdp_mmu_set_spte_atomic child_iter child_spte in
    if (tmp =? - EBUSY) || (tmp =? - EAGAIN)
    then ret (false, if r =? 0 then tmp else r, child_iter)
    else if nonzero tmp then ret (true, tmp, child_iter)
    else ret (false, r, child_iter).

(** The loop [for (i = 0; i < SPTE_ENT_PER_PAGE;
    i = tdp_mmu_iter_step_side(i, &child_iter))]; [n] counts the turns
    left. *)
Fixpoint merge_children (n : nat) (fault : kvm_page_fault)
    (new_spte parent_old_spte : Z) (child_role : kvm_mmu_page_role)
    (i : Z) (child_iter : tdp_iter) (r : Z) : M (bool * Z) :=
  if negb (i <? SPTE_ENT_PER_PAGE) then ret (false, r)
  else
    match n with
    | O => out_of_fuel
    | S n' =>
        let* (out_r, child_iter) :=
          merge_child fault new_spte parent_old_spte child_role i child_iter r in
        let (out, r) := out_r : bool * Z in
        if out then ret (true, r)
        else
          let* (i, child_iter) := tdp_mmu_iter_step_side i child_iter in
          merge_children n' fault new_spte parent_old_spte child_role i child_iter r
    end.

(** [tdp_mmu_merge_private_spt] (tdp_mmu.c:1588). *)
Definition tdp_mmu_merge_private_spt (fault : kvm_page_fault)
    (iter : tdp_iter) (new_spte : Z) : M (Z * tdp_iter) :=
  let sptep := sptep iter in
  let old_spte0 := old_spte iter in
  let level := it_level iter in
  let gfn := it_gfn iter in
  let* _ := WARN_ON (negb (fault_goal_level fault =? PG_LEVEL_2M)) in
  let* _ := WARN_ON (negb (it_level iter =? PG_LEVEL_2M)) in
  let* _ := WARN_ON (negb (is_large_pte new_spte)) in
  let* (ok, old) := try_cmpxchg64 sptep (old_spte iter) REMOVED_SPTE in
  let iter := iter_set_old_spte old iter in
  if negb ok then ret (- EBUSY, iter)
  else
    let* child_pt := deref (spte_to_child_pt (old_spte iter) (it_level iter)) in
    let* child_sp := sptep_to_sp child_pt in
    let* _ := WARN_ON (negb (role_level (sp_role child_sp) =? PG_LEVEL_4K)) in
    let* _ := WARN_ON (negb (kvm_mmu_page_role_is_private (sp_role child_sp))) in
    let child_iter :=
      iter_set_next_last_level_gfn
        (Z.land (next_last_level_gfn iter)
                (wrap64 (- KVM_PAGES_PER_HPAGE level))) iter in
    let* child_iter := tdp_iter_step_down child_iter child_pt in
    let out (restored : Z) (r : Z) : M (Z * tdp_iter) :=
      __kvm_tdp_mmu_write_spte sptep restored ;;;
      ret (r, iter_set_old_spte restored iter) in
    let* (goto_out, r) :=
      merge_children (Z.to_nat SPTE_ENT_PER_PAGE) fault new_spte old_spte0
                     (sp_role child_sp) 0 child_iter 0 in
    if (goto_out : bool) || nonzero r then out old_spte0 r
    else
      let* r := static_call (zap_private_spte gfn level) in
      if nonzero r then out old_spte0 r
      else
        kvm_flush_remote_tlbs_range (Z.land gfn (KVM_HPAGE_GFN_MASK level))
                                    (KVM_PAGES_PER_HPAGE level) ;;;
        let* r := static_call (merge_private_spt gfn level
                     (default 0 (kvm_mmu_private_spt child_sp))) in
        if nonzero r then
          let* u := static_call (unzap_private_spte gfn level) in
          if nonzero u then out (__private_zapped_spte old_spte0) r
          else out old_spte0 r
        else
          __kvm_tdp_mmu_write_spte sptep new_spte ;;;
          tdp_unaccount_mmu_page child_sp ;;;
          tdp_mmu_free_sp (page_of child_pt) ;;;
          ret (- EAGAIN, iter_set_old_spte new_spte iter).

(** *** The fault handler *)

(** [__tdp_mmu_map_handle_target_level] (tdp_mmu.c:1725). *)
Definition __tdp_mmu_map_handle_target_level (fault : kvm_page_fault)
    (iter : tdp_iter) (new_spte : Z) : M (Z * tdp_iter) :=
  let* k := get in
  if fault_slot fault && nonzero (kvm_gfn_shared_mask k) &&
     (PG_LEVEL_4K <? it_level iter) &&
     kvm_is_private_gpa k (fault_addr fault) &&
     is_shadow_present_pte (old_spte iter) &&
     negb (is_large_pte (old_spte iter))
  then tdp_mmu_merge_private_spt fault iter new_spte
  else tdp_mmu_set_spte_atomic iter new_spte.

(** [tdp_mmu_map_handle_target_level] (tdp_mmu.c:1749). *)
Definition tdp_mmu_map_handle_target_level (fault : kvm_page_fault)
    (iter : tdp_iter) : M (Z * tdp_iter) :=
  let* sp := sptep_to_sp (sptep iter) in
  if negb (role_level (sp_role sp) =? fault_goal_level fault)
  then ret (RET_PF_RETRY, iter)
  else
    let* k := get in
    let (wrprot, new_spte) :=
      (if negb (fault_slot fault)
       then (false, make_mmio_spte E (it_gfn iter))
       else
         let shared_mask := kvm_gfn_shared_mask k in
         let gfn := if nonzero shared_mask && fault_is_private fault
                    then Z.lor (it_gfn iter) shared_mask else it_gfn iter in
         let pte_access :=
           if nonzero shared_mask && negb (fault_is_private fault)
           then Z.land ACC_ALL (not64 ACC_EXEC_MASK) else ACC_ALL in
         make_spte E sp pte_access gfn (fault_pfn fault) (old_spte iter)
                   (fault_prefetch fault) (fault_map_writable fault)) in
    let finish (r : Z) (iter : tdp_iter) : M (Z * tdp_iter) :=
      let r := if wrprot && fault_write fault then RET_PF_EMULATE else r in
      if is_mmio_spte E new_spte then
        modify (fun k => set_pf_mmio_spte_created (pf_mmio_spte_created k + 1) k) ;;;
        ret (RET_PF_EMULATE, iter)
      else ret (r, iter) in
    if new_spte =? old_spte iter then finish RET_PF_SPURIOUS iter
    else
      let* (r, iter) := __tdp_mmu_map_handle_target_level fault iter new_spte in
      if nonzero r then ret (RET_PF_RETRY, iter)
      else
        when (is_shadow_present_pte (old_spte iter) &&
              negb (is_last_spte (old_spte iter) (it_level iter)))
             (kvm_flush_remote_tlbs_gfn (it_gfn iter) (it_level iter)) ;;;
        finish RET_PF_FIXED iter.

(** [tdp_mmu_unzap_large_spte] (tdp_mmu.c:1853). *)
Definition tdp_mmu_unzap_large_spte (fault : kvm_page_fault) (iter : tdp_iter)
  : M (Z * tdp_iter) :=
  let* sp := sptep_to_sp (sptep iter) in
  let mask := KVM_HPAGE_GFN_MASK (it_level iter) in
  let* _ := KVM_BUG_ON (negb (Z.land (fault_pfn fault) mask
                              =? spte_to_pfn (old_spte iter))) in
  let (_, new_spte) :=
    make_spte E sp ACC_ALL (Z.land (gpa_to_gfn (fault_addr fault)) mask)
              (Z.land (fault_pfn fault) mask) (old_spte iter) false
              (fault_map_writable fault) in
  if new_spte =? old_spte iter then ret (RET_PF_SPURIOUS, iter)
  else
    let* (r, iter) := tdp_mmu_set_spte_atomic iter new_spte in
    if nonzero r then ret (RET_PF_RETRY, iter)
    else ret (RET_PF_CONTINUE, iter_set_old_spte new_spte iter).

(** The body of the walk of [kvm_tdp_mmu_map] (tdp_mmu.c:1907-1967).  The
    loop carries the fault and whether [map_target_level] was reached. *)
Definition map_body (vcpu : kvm_vcpu) (is_private : bool)
    (iter : tdp_iter) (st : kvm_page_fault * bool)
  : M (loop_ctl * tdp_iter * (kvm_page_fault * bool)) :=
  let (fault, _) := st in
  let* private := is_private_sptep (sptep iter) in
  let* _ := KVM_BUG_ON (negb (eqb private is_private)) in
  let* k := get in
  let fault :=
    if fault_nx_huge_page_workaround_enabled fault ||
       nonzero (kvm_gfn_shared_mask k)
    then disallowed_hugepage_adjust E fault (old_spte iter) (it_level iter)
    else fault in
  if is_removed_spte (old_spte iter) then ret (Break, iter, (fault, false))
  else if it_level iter =? fault_goal_level fault
  then ret (Break, iter, (fault, true))
  else if is_shadow_present_pte (old_spte iter) &&
          negb (is_large_pte (old_spte iter))
  then ret (Next, iter, (fault, false))
  else
    let* (unzap, iter) :=
      (if is_private_zapped_spte (old_spte iter) && is_large_pte (old_spte iter)
       then tdp_mmu_unzap_large_spte fault iter
       else ret (RET_PF_CONTINUE, iter)) in
    if negb (unzap =? RET_PF_CONTINUE) then ret (Break, iter, (fault, false))
    else
      let* role := tdp_iter_child_role iter in
      let* spt := tdp_mmu_alloc_sp vcpu role in
      tdp_mmu_init_sp spt (Some (sptep iter)) (it_gfn iter) ;;;
      update_sp spt (sp_set_nx_huge_page_disallowed
                       (fault_huge_page_disallowed fault)) ;;;
      let* (r, iter) :=
        (if is_shadow_present_pte (old_spte iter)
         then tdp_mmu_split_huge_page iter spt true
         else tdp_mmu_link_sp iter spt true) in
      if nonzero r then
        tdp_mmu_free_sp spt ;;; ret (Break, iter, (fault, false))
      else
        (if fault_huge_page_disallowed fault &&
            (it_level iter <=? fault_req_level fault)
         then let* sp := sp_at spt in
              when (sp_nx_huge_page_disallowed sp)
                   (track_possible_nx_huge_page spt)
         else ret tt) ;;;
        ret (Next, iter, (fault, false)).

(** [kvm_tdp_mmu_map] (tdp_mmu.c:1880). *)
Definition kvm_tdp_mmu_map (vcpu : kvm_vcpu) (fault : kvm_page_fault) : M Z :=
  let* k := get in
  let is_private := fault_is_private fault && nonzero (kvm_gfn_shared_mask k) in
  let fault := kvm_mmu_hugepage_adjust E k fault in
  let raw_gfn := gpa_to_gfn (fault_addr fault) in
  if negb (fault_nonleaf fault) &&
     (is_error_noslot_pfn (fault_pfn fault) ||
      negb (kvm_pfn_to_refcounted_page E (fault_pfn fault))) &&
     is_private
  then ret (- EFAULT)
  else
    let root := if is_private then mmu_private_root_hpa vcpu
                else mmu_root_hpa vcpu in
    let* (res, st) :=
      for_each_tdp_pte_min_level root PG_LEVEL_4K raw_gfn (raw_gfn + 1)
        (map_body vcpu is_private) (fault, false) in
    let (_, iter) := res : bool * tdp_iter in
    let (fault, target) := st : kvm_page_fault * bool in
    if target then
      if negb (fault_nonleaf fault)
      then let* (r, _) := tdp_mmu_map_handle_target_level fault iter in ret r
      else ret RET_PF_FIXED
    else ret RET_PF_RETRY.

(** *** Invalidating the roots *)

(** The loop of [kvm_tdp_mmu_invalidate_all_roots] (tdp_mmu.c:1558) over
    the roots of the list, in list order.  [tdp_mmu_schedule_zap_root]
    (tdp_mmu.c:127) queues the root's work item on the zap workqueue, which
    is no part of [struct kvm]'s tables: the function returns the roots
    queued, in the order of their queuing. *)
Fixpoint invalidate_roots (roots : list Z) (skip_private : bool)
  : M (list Z) :=
  match roots with
  | [] => ret []
  | root :: rest =>
      let* sp := sp_at root in
      if skip_private && is_private_sp sp
      then invalidate_roots rest skip_private
      else if negb (role_invalid (sp_role sp)) then
        update_sp root (fun sp =>
          sp_set_role (role_set_invalid true (sp_role sp)) sp) ;;;
        let* queued := invalidate_roots rest skip_private in
        ret (root :: queued)
      else invalidate_roots rest skip_private
  end.

(** [kvm_tdp_mmu_invalidate_all_roots] (tdp_mmu.c:1531). *)
Definition kvm_tdp_mmu_invalidate_all_roots (skip_private : bool)
  : M (list Z) :=
  let* k := get in invalidate_roots (tdp_mmu_roots k) skip_private.

(** *** Zapping a shadow page *)

(** [kvm_tdp_mmu_zap_sp] (tdp_mmu.c:1306) on the shadow page whose table
    is at [spt]. *)
Definition kvm_tdp_mmu_zap_sp (spt : Z) : M bool :=
  let* sp := sp_at spt in
  let* _ := WARN_ON (negb (bool_decide (is_Some (sp_ptep sp)))) in
  match sp_ptep sp with
  | None => ret false
  | Some ptep =>
      let* old_spte := kvm_tdp_mmu_read_spte ptep in
      let* _ := WARN_ON (negb (is_shadow_present_pte old_spte)) in
      if negb (is_shadow_present_pte old_spte) then ret false
      else
        let* k := get in
        let new_spte :=
          if nonzero (kvm_gfn_shared_mask k) && is_private_sp sp
          then __private_zapped_spte old_spte
          else SHADOW_NONPRESENT_VALUE in
        let* _ := tdp_mmu_set_spte (kvm_mmu_page_as_id sp) ptep old_spte
                    new_spte (sp_gfn sp) (role_level (sp_role sp) + 1) in
        ret true
  end.

(** *** Architectural constants of the secure-resource manager

    The header [tdx_arch.h] (tdp_mmu.c:2888-3203). *)

(** Field access codes of the control structures (tdp_mmu.c:2966-2979).
    [TDX_FIELD_MASK] is [GENMASK_ULL(31, 0)], the bits 31 to 0. *)
Definition TDX_NON_ARCH : Z := BIT_ULL 63.
Definition TDX_CLASS_SHIFT : Z := 56.
Definition TDX_FIELD_MASK : Z := Z.ones 32.

(** [__BUILD_TDX_FIELD(non_arch, class, field)]: the two casts to [u64]
    and the 64-bit shift are written out. *)
Definition __BUILD_TDX_FIELD (non_arch : bool) (class field : Z) : Z :=
  Z.lor (Z.lor (if non_arch then TDX_NON_ARCH else 0)
               (wrap64 (Z.shiftl (wrap64 class) TDX_CLASS_SHIFT)))
        (Z.land (wrap64 field) TDX_FIELD_MASK).

Definition BUILD_TDX_FIELD (class field : Z) : Z :=
  __BUILD_TDX_FIELD false class field.

Definition BUILD_TDX_FIELD_NON_ARCH (class field : Z) : Z :=
  __BUILD_TDX_FIELD true class field.

(** The frequency of the time-stamp counter in units of 25MHz
    (tdp_mmu.c:3104-3107); the division is C's, which truncates. *)
Definition TDX_TSC_KHZ_TO_25MHZ (tsc_in_khz : Z) : Z :=
  Z.quot tsc_in_khz (25 * 1000).
Definition TDX_TSC_25MHZ_TO_KHZ (tsc_in_25mhz : Z) : Z :=
  tsc_in_25mhz * (25 * 1000).
Definition TDX_MIN_TSC_FREQUENCY_KHZ : Z := 100 * 1000.
Definition TDX_MAX_TSC_FREQUENCY_KHZ : Z := 10 * 1000 * 1000.

End TDP_MMU.

(** ** Vocabulary of the statements *)

(** The root at [root] carries exactly the role [role]. *)
Definition root_has_role (k : kvm) (role : kvm_mmu_page_role) (root : Z) : bool :=
  bool_decide (sp_role <$> sps k !! root = Some role).

(** Every root linked in the list of roots is a shadow page that holds at
    least one reference (a root is unlinked by the [put] that drops its
    last reference), below the saturation point of the counter. *)
Definition roots_wf (k : kvm) : Prop :=
  Forall (fun root => exists sp, sps k !! root = Some sp /\
                                 0 < sp_root_count sp < INT_MAX)
         (tdp_mmu_roots k).

(** The role [kvm_tdp_mmu_get_vcpu_root] asks for. *)
Definition requested_role (vcpu : kvm_vcpu) (private : bool) : kvm_mmu_page_role :=
  if private then kvm_mmu_page_role_set_private (mmu_root_role vcpu)
  else mmu_root_role vcpu.

(** A present entry that terminates the translation at [level]. *)
Definition is_leaf_spte (spte level : Z) : bool :=
  is_shadow_present_pte spte && is_last_spte spte level.

(** The change from [old_spte] to [new_spte] replaces a present leaf by a
    present leaf that maps another frame. *)
Definition replaces_leaf_frame (old_spte new_spte level : Z) : bool :=
  is_leaf_spte old_spte level && is_leaf_spte new_spte level &&
  negb (spte_to_pfn old_spte =? spte_to_pfn new_spte).

(** The operation never takes the host down through [BUG()]. *)
Definition no_bug {A : Type} (m : M A) : Prop :=
  forall k, m k <> Crash BUG.

(** A request to merge the pages under a private huge page. *)
Definition is_merge_request (c : tdx_call) : bool :=
  match c with
  | merge_private_spt _ _ _ => true
  | _ => false
  end.

(** When the operation completes, the log of the secure-resource manager
    has grown by the requests it made, and none of them asks for a
    merge. *)
Definition asks_no_merge {A : Type} (m : M A) : Prop :=
  forall k a k', m k = Done a k' ->
    exists calls, tdx_log k' = tdx_log k ++ calls /\
                  Forall (fun c => is_merge_request c = false) calls.

(** The operation completes, whatever the state, and leaves the tables
    (their entries and their pages) and the shared-bit mask as they were. *)
Definition keeps_tables {A : Type} (m : M A) : Prop :=
  forall k, exists a k',
    m k = Done a k' /\ sptes k' = sptes k /\ sps k' = sps k /\
    gfn_shared_mask k' = gfn_shared_mask k.

(** The value [tdp_mmu_zap_leafs] gives a leaf under a policy other than
    skip. *)
Definition zapped_value (zap_private : tdp_zap_private) (old_spte : Z) : Z :=
  match zap_private with
  | ZAP_PRIVATE_REMOVE => SHADOW_NONPRESENT_VALUE
  | _ => __private_zapped_spte old_spte
  end.

(** The leaves a policy other than skip acts on: under the block policy
    the present leaves that are not blocked yet, under the remove policy
    the present and the blocked ones. *)
Definition zap_applies (zap_private : tdp_zap_private) (old_spte : Z) : bool :=
  match zap_private with
  | ZAP_PRIVATE_SKIP => false
  | ZAP_PRIVATE_BLOCK =>
      is_shadow_present_pte old_spte && negb (is_private_zapped_spte old_spte)
  | ZAP_PRIVATE_REMOVE =>
      is_shadow_present_pte old_spte || is_private_zapped_spte old_spte
  end.

(** A table page lies in the 64-bit address space and is page aligned. *)
Definition table_aligned (spt : Z) : Prop :=
  0 <= spt /\ spt + PAGE_SIZE <= 2 ^ 64 /\ spt mod PAGE_SIZE = 0.

(** [spt] is the table of a shadow page of the ordinary (non-private)
    address space, at [level]. *)
Definition shared_table (k : kvm) (spt level : Z) : Prop :=
  table_aligned spt /\
  exists sp, sps k !! spt = Some sp /\ is_private_sp sp = false /\
             role_level (sp_role sp) = level.

(** Non-private tables link non-private tables of the next lower level. *)
Definition shared_closed (k : kvm) : Prop :=
  forall spt level i child,
    shared_table k spt level ->
    0 <= i < SPTE_ENT_PER_PAGE ->
    spte_to_child_pt (spte_at k (ptr_add spt i)) level = Some child ->
    shared_table k child (level - 1).

(** The entry at address [a] belongs to the table of a private shadow
    page: a private root or a table of the subtree below it. *)
Definition private_entry (k : kvm) (a : Z) : Prop :=
  exists sp, sps k !! page_of a = Some sp /\ is_private_sp sp = true.

(** The steps from [k] to [k'] kept the shadow pages and the shared-bit
    mask, every entry of every private table, and the closure of the
    non-private tables. *)
Definition shared_step (k k' : kvm) : Prop :=
  sps k' = sps k /\ gfn_shared_mask k' = gfn_shared_mask k /\
  (forall a, private_entry k a -> spte_at k' a = spte_at k a) /\
  (shared_closed k -> shared_closed k').

(** The path of the cursor lies in the non-private tables: every table of
    the path, from the cursor's level up to the root, is a non-private
    table of that level. *)
Definition path_in_shared (k : kvm) (iter : tdp_iter) : Prop :=
  length (pt_path iter) = 5%nat /\
  1 <= it_level iter <= root_level iter /\ root_level iter <= 5 /\
  0 <= it_gfn iter < 2 ^ 64 /\
  (forall l, it_level iter <= l <= root_level iter ->
             shared_table k (pt_path_at iter (l - 1)) l).

(** The cursor stands in the non-private tables: its path lies there and
    its entry pointer is the slot of its frame in the table of its
    level. *)
Definition iter_in_shared (k : kvm) (iter : tdp_iter) : Prop :=
  path_in_shared k iter /\
  sptep iter =
    ptr_add (pt_path_at iter (it_level iter - 1))
            (SPTE_INDEX (wrap64 (Z.shiftl (it_gfn iter) PAGE_SHIFT))
                        (it_level iter)).

(** [mark_spte_for_access_track] keeps the huge-page flag. *)
Definition access_track_keeps_huge (E : arch_env) : Prop :=
  forall spte, is_large_pte (mark_spte_for_access_track E spte) = is_large_pte spte.

(** The root is not the table of a private shadow page. *)
Definition root_not_private (k : kvm) (root : Z) : bool :=
  match sps k !! root with
  | Some sp => negb (is_private_sp sp)
  | None => true
  end.

(** When the operation completes it has written no entry and has kept the
    shadow pages and the shared-bit mask. *)
Definition frames_tables {A : Type} (m : M A) : Prop :=
  forall k a k', m k = Done a k' ->
    sptes k' = sptes k /\ sps k' = sps k /\
    gfn_shared_mask k' = gfn_shared_mask k.

(** The cursor [iter'] stands where [iter] stands: they differ at most in
    the value observed. *)
Definition same_position (iter iter' : tdp_iter) : Prop :=
  iter' = iter_set_old_spte (old_spte iter') iter.

(** A handler of [kvm_tdp_mmu_handle_gfn] that, run on a leaf of a
    non-private table, keeps the private tables and the place of the
    cursor. *)
Definition handler_in_shared
    (handler : tdp_iter -> kvm_gfn_range -> M (bool * tdp_iter)) : Prop :=
  forall range iter k r iter' k' spt i,
    shared_table k spt (it_level iter) ->
    0 <= i < SPTE_ENT_PER_PAGE ->
    sptep iter = ptr_add spt i ->
    is_last_spte (old_spte iter) (it_level iter) = true ->
    handler iter range k = Done (r, iter') k' ->
    shared_step k k' /\ same_position iter iter'.

(** Every entry of the table at [child_pt] is present and maps the frame
    of [new_spte] plus its index: what the loop of
    [tdp_mmu_merge_private_spt] asks of a present child. *)
Definition children_present_contiguous (k : kvm) (child_pt new_spte : Z)
  : bool :=
  forallb (fun i =>
             is_shadow_present_pte (spte_at k (ptr_add child_pt i)) &&
             (spte_to_pfn (spte_at k (ptr_add child_pt i))
              =? spte_to_pfn new_spte + i))
          (seqZ 0 SPTE_ENT_PER_PAGE).

(** The first frame of the huge page the cursor of a merge stands on, and
    whether the faulting frame is one of its frames. *)
Definition merge_base (iter : tdp_iter) : Z :=
  Z.land (next_last_level_gfn iter)
         (wrap64 (- KVM_PAGES_PER_HPAGE (it_level iter))).

Definition fault_in_huge_page (fault : kvm_page_fault) (iter : tdp_iter)
  : bool :=
  (merge_base iter <=? fault_gfn fault) &&
  (fault_gfn fault <? merge_base iter + SPTE_ENT_PER_PAGE).

(** The code the loop of [tdp_mmu_merge_private_spt] holds after the
    children from index [i] on, all present and in place, when it held [r]
    before them: a present child at the faulting frame asks for a retry. *)
Definition merge_scan (base fault_gfn i r : Z) : Z :=
  if r =? 0 then
    if (base + i <=? fault_gfn) && (fault_gfn <? base + SPTE_ENT_PER_PAGE)
    then - EAGAIN else 0
  else r.

(** The cursor of the loop stands on the child of index [i]. *)
Definition child_cursor_at (k : kvm) (child_pt base i : Z)
    (child_iter : tdp_iter) : Prop :=
  it_level child_iter = PG_LEVEL_4K /\
  sptep child_iter = ptr_add child_pt i /\
  old_spte child_iter = spte_at k (ptr_add child_pt i) /\
  it_gfn child_iter = base + i.

(** Two entries are bit-equal but for the accessed and dirty bits. *)
Definition equal_modulo_ad (a b : Z) : bool :=
  Z.land a (not64 (Z.lor shadow_accessed_mask shadow_dirty_mask))
  =? Z.land b (not64 (Z.lor shadow_accessed_mask shadow_dirty_mask)).

(** The reclaim notifiers routed through [kvm_tdp_mmu_handle_gfn]:
    [kvm_tdp_mmu_age_gfn_range], [kvm_tdp_mmu_test_age_gfn] and
    [kvm_tdp_mmu_set_spte_gfn] are [kvm_tdp_mmu_handle_gfn] with these
    handlers. *)
Inductive notifier_op : Type :=
  | notifier_age
  | notifier_test_age
  | notifier_set_spte.

Definition notifier_handler (E : arch_env) (depth : nat) (op : notifier_op)
  : tdp_iter -> kvm_gfn_range -> M (bool * tdp_iter) :=
  match op with
  | notifier_age => age_gfn_range E
  | notifier_test_age => test_age_gfn
  | notifier_set_spte => set_spte_gfn E depth
  end.

(** ** Example instances *)

(** A secure-resource manager that accepts every call. *)
Definition tdx_accepts : list tdx_call -> tdx_call -> Z := fun _ _ => 0.

(** A link to the table at [spt]: present, readable, writable, executable. *)
Definition example_nonleaf_spte (spt : Z) : Z :=
  Z.lor spt (Z.lor SPTE_MMU_PRESENT_MASK 7).

(** An environment in which nothing asks to reschedule, no entry is
    volatile or MMIO, and [make_spte] maps the frame read-write-execute;
    [mixed] is the answer of [kvm_hugepage_test_mixed]. *)
Definition example_env_with (tdx : list tdx_call -> tdx_call -> Z)
    (mixed : bool) : arch_env :=
  mk_env tdx
         (fun _ => false)
         (fun _ => false)
         (fun _ => false)
         example_nonleaf_spte
         (fun spte => Z.land spte (not64 shadow_acc_track_mask))
         (fun old_spte pfn =>
            Z.lor (Z.land old_spte (not64 (Z.lor SPTE_BASE_ADDR_MASK PT_WRITABLE_MASK)))
                  (Z.shiftl pfn PAGE_SHIFT))
         false
         (fun spte => spte)
         (2 ^ 40 - 1)
         (fun _ _ _ => mixed)
         (fun _ fault => fault)
         (fun fault _ _ => fault)
         (fun pfn => pfn <? 2 ^ 36)
         (fun _ _ _ pfn _ _ _ =>
            (false, Z.lor (Z.shiftl pfn PAGE_SHIFT) (Z.lor SPTE_MMU_PRESENT_MASK 7)))
         (fun gfn => Z.lor SHADOW_NONPRESENT_VALUE 6).

Definition example_env (tdx : list tdx_call -> tdx_call -> Z) : arch_env :=
  example_env_with tdx false.

Definition example_role (level : Z) (private : bool) : kvm_mmu_page_role :=
  mk_role level true ACC_ALL false false false false private 0.

Definition empty_kvm (shared_mask : Z) : kvm :=
  mk_kvm ∅ ∅ [] 0 0 0 ∅ false shared_mask [] [] [] [] [] [] [] 0 [] [] [] 0.

Definition example_vcpu : kvm_vcpu :=
  mk_vcpu (example_role 4 false) 4096 8192 4.

(** A private fault on frame 5 whose frame has no backing page
    ([KVM_PFN_ERR_FAULT]). *)
Definition example_fault_no_page : kvm_page_fault :=
  mk_fault (Z.shiftl 5 PAGE_SHIFT) 5 true false (Z.shiftl 2047 52) true
           PG_LEVEL_4K PG_LEVEL_4K PG_LEVEL_4K false false false true true.

(** A cursor that has made no progress since its last yield. *)
Definition example_iter_no_progress : tdp_iter :=
  mk_iter 512 512 [0; 0; 0; 4096; 0] 4096 0 4 1 4 0 0 true false.

(** A guest with one invalidated root, at address 4096, holding [count]
    references. *)
Definition example_root_sp (count : Z) (invalid : bool) : kvm_mmu_page :=
  mk_sp (role_set_invalid invalid (example_role 4 false)) 0 None true count
        None false.

Definition kvm_with_root (count : Z) (invalid : bool) : kvm :=
  set_mmu_shadow_page_cache [12288]
    (set_tdp_mmu_roots [4096]
       (set_sps {[ 4096 := example_root_sp count invalid ]} (empty_kvm 0))).

(** A private tree of two levels: the table at 8192 (2M entries) links,
    in its first slot, the table at 12288 (4K entries), whose entries are
    all empty.  The guest's shared bit is bit 39 of the frame number. *)
Definition example_private_sp (level gfn : Z) (ptep private_spt : option Z)
  : kvm_mmu_page :=
  mk_sp (example_role level true) gfn ptep true 0 private_spt false.

Definition merge_kvm : kvm :=
  set_sptes {[ 8192 := example_nonleaf_spte 12288 ]}
    (set_sps {[ 8192 := example_private_sp 2 0 None None;
                12288 := example_private_sp 1 0 (Some 8192) (Some 20480) ]}
       (empty_kvm (BIT_ULL 39))).

(** The cursor of a fault on frame 0, standing on the first slot of the
    table at 8192. *)
Definition merge_iter : tdp_iter :=
  mk_iter 0 0 [0; 8192; 0; 0; 0] 8192 0 2 1 2 0 (example_nonleaf_spte 12288)
          true false.

(** A huge (2M) leaf for the frames from 512 on. *)
Definition example_huge_spte : Z :=
  Z.lor (Z.shiftl 512 PAGE_SHIFT)
        (Z.lor PT_PAGE_SIZE_MASK (Z.lor SPTE_MMU_PRESENT_MASK 7)).

Definition merge_fault : kvm_page_fault :=
  mk_fault 0 0 true false 512 true PG_LEVEL_2M PG_LEVEL_2M PG_LEVEL_2M
           false false false true true.

(** A secure-resource manager that refuses to merge and then to unzap. *)
Definition tdx_refuses_merge : list tdx_call -> tdx_call -> Z :=
  fun _ c => match c with
             | merge_private_spt _ _ _ => - EAGAIN
             | unzap_private_spte _ _ => - EIO
             | _ => 0
             end.

(** A secure-resource manager that refuses to block a page, and one that
    refuses to merge but unblocks the page again. *)
Definition tdx_refuses_zap : list tdx_call -> tdx_call -> Z :=
  fun _ c => match c with
             | zap_private_spte _ _ => - EIO
             | _ => 0
             end.

Definition tdx_refuses_merge_only : list tdx_call -> tdx_call -> Z :=
  fun _ c => match c with
             | merge_private_spt _ _ _ => - EAGAIN
             | _ => 0
             end.

(** A cursor on a slot of the private table at 12288 that it observed
    empty, while the slot meanwhile holds a mapping of frame 7. *)
Definition example_4k_spte (pfn : Z) : Z :=
  Z.lor (Z.shiftl pfn PAGE_SHIFT) (Z.lor SPTE_MMU_PRESENT_MASK 7).

Definition stale_kvm : kvm :=
  set_sptes {[ 12288 := example_4k_spte 7 ]}
    (set_sps {[ 12288 := example_private_sp 1 0 (Some 8192) (Some 20480) ]}
       (empty_kvm (BIT_ULL 39))).

Definition stale_iter : tdp_iter :=
  mk_iter 0 0 [12288; 8192; 0; 0; 0] 12288 0 2 1 1 0 SHADOW_NONPRESENT_VALUE
          true false.

(** The cursor of a walk standing on the first slot of the private table
    at 12288 of [stale_kvm], with a current observation. *)
Definition leaf_iter : tdp_iter :=
  mk_iter 0 0 [12288; 8192; 0; 0; 0] 12288 0 2 1 1 0 (example_4k_spte 7)
          true false.

(** A private root of two levels at 8192 whose first slot maps the frames
    from 512 on by a huge (2M) leaf; the page allocator can hand out the
    pages at 16384 and 20480. *)
Definition huge_kvm : kvm :=
  set_page_allocator [Some 16384; Some 20480]
    (set_tdp_mmu_roots [8192]
       (set_sptes {[ 8192 := example_huge_spte ]}
          (set_sps {[ 8192 := mk_sp (example_role 2 true) 0 None true 1 None
                                     false ]}
             (empty_kvm (BIT_ULL 39))))).

(** A guest with a non-private root at 4096 and a private root at 8192,
    both of one level; the first slot of each maps a frame by a 4K leaf
    that has been accessed. *)
Definition accessed_4k_spte (pfn : Z) : Z :=
  Z.lor (example_4k_spte pfn) shadow_accessed_mask.

Definition notifier_kvm : kvm :=
  set_tdp_mmu_roots [4096; 8192]
    (set_sptes {[ 4096 := accessed_4k_spte 7; 8192 := accessed_4k_spte 9 ]}
       (set_sps {[ 4096 := mk_sp (example_role 1 false) 0 None true 1 None
                                  false;
                   8192 := mk_sp (example_role 1 true) 0 None true 1 None
                                  false ]}
          (empty_kvm (BIT_ULL 39)))).

(** The notifier range of the single frame 0. *)
Definition notifier_range : kvm_gfn_range :=
  mk_range 0 1 0 0 false false 0 false false false.

(** The private tree of [huge_kvm] before a split of its huge leaf: the
    shadow page of the table at 16384 (4K entries) is allocated and
    initialised, and not linked yet. *)
Definition split_kvm : kvm :=
  set_tdp_mmu_roots [8192]
    (set_sptes {[ 8192 := example_huge_spte ]}
       (set_sps {[ 8192 := example_private_sp 2 0 None None;
                   16384 := example_private_sp 1 0 (Some 8192) (Some 20480) ]}
          (empty_kvm (BIT_ULL 39)))).

(** The cursor of a walk standing on the huge leaf of [split_kvm]. *)
Definition split_iter : tdp_iter :=
  mk_iter 0 0 [0; 8192; 0; 0; 0] 8192 0 2 1 2 0 example_huge_spte true false.

(** A private fault on frame [gfn] that asks for a 2M mapping of the
    frames from 512 on. *)
Definition merge_fault_at (gfn : Z) : kvm_page_fault :=
  mk_fault (Z.shiftl gfn PAGE_SHIFT) gfn true false 512 true PG_LEVEL_2M
           PG_LEVEL_2M PG_LEVEL_2M false false false true true.

(** The huge leaf of [example_huge_spte] without write access. *)
Definition example_huge_spte_ro : Z :=
  Z.lor (Z.shiftl 512 PAGE_SHIFT)
        (Z.lor PT_PAGE_SIZE_MASK (Z.lor SPTE_MMU_PRESENT_MASK 5)).

(** The guest after the split of the huge leaf of [split_kvm]: the slot at
    8192 links the table at 16384, whose 512 entries map the frames from
    512 on. *)
Definition split_done_kvm : kvm :=
  match tdp_mmu_split_huge_page (example_env tdx_accepts) 5 split_iter 16384
                                true split_kvm with
  | Done _ k => k
  | _ => split_kvm
  end.

(** The cursor of a fault that walks [split_done_kvm] down to the slot at
    8192 and observes the link. *)
Definition linked_iter : tdp_iter :=
  iter_set_old_spte (spte_at split_done_kvm 8192) split_iter.

(** ** Vocabulary of the further properties *)

(** [kvm->stat.pages[level - 1]]: the number of leaves accounted at
    [level]. *)
Definition pages_at_level (k : kvm) (level : Z) : Z :=
  default 0 (stat_pages k !! (level - 1)).

(** The root is to be invalidated by [kvm_tdp_mmu_invalidate_all_roots]:
    it is valid, and not a private root that is to be skipped. *)
Definition to_invalidate (k : kvm) (skip_private : bool) (root : Z) : bool :=
  match sps k !! root with
  | Some sp => negb (skip_private && is_private_sp sp) &&
               negb (role_invalid (sp_role sp))
  | None => false
  end.

(** Every root of the list is a shadow page. *)
Definition roots_are_pages (k : kvm) : Prop :=
  Forall (fun root => is_Some (sps k !! root)) (tdp_mmu_roots k).

(** The shadow page of [root] after the roots of [k] have been invalidated. *)
Definition invalidated_sp (k : kvm) (skip_private : bool) (root : Z)
  : option kvm_mmu_page :=
  match sps k !! root with
  | Some sp =>
      Some (if to_invalidate k skip_private root
            then sp_set_role (role_set_invalid true (sp_role sp)) sp
            else sp)
  | None => None
  end.

(** When the operation completes it has written no entry. *)
Definition keeps_sptes {A : Type} (m : M A) : Prop :=
  forall k a k', m k = Done a k' -> sptes k' = sptes k.

(** What the teardown of a table leaves in a slot that held [v]: under the
    shared lock every slot is frozen; under the exclusive lock the slots
    that held a present or a blocked entry are. *)
Definition removed_value (shared : bool) (v : Z) : Z :=
  if shared || is_shadow_present_pte v || is_private_zapped_spte v
  then REMOVED_SPTE else v.

(** The turn of the loop of [handle_removed_pt] (tdp_mmu.c:463) on the
    slot of index [i] of the table [pt] of the shadow page [sp], as
    [handle_removed_pt_with] runs it. *)
Definition removed_pt_turn_of (E : arch_env)
    (hcs : Z -> Z -> Z -> Z -> kvm_mmu_page_role -> bool -> M unit)
    (sp : kvm_mmu_page) (pt : Z) (shared : bool) (i : Z) : M unit :=
  let sptep := ptr_add pt i in
  let gfn := wrap64 (sp_gfn sp + i * KVM_PAGES_PER_HPAGE
                                     (role_level (sp_role sp))) in
  if shared then
    let* old_spte := kvm_tdp_mmu_write_spte_atomic sptep REMOVED_SPTE in
    if is_removed_spte old_spte then hang
    else hcs (kvm_mmu_page_as_id sp) gfn old_spte REMOVED_SPTE
             (sp_role sp) shared
  else
    let* old_spte := kvm_tdp_mmu_read_spte sptep in
    if negb (is_shadow_present_pte old_spte) &&
       negb (is_private_zapped_spte old_spte)
    then ret tt
    else
      let* old_spte :=
        kvm_tdp_mmu_write_spte E sptep old_spte REMOVED_SPTE
                               (role_level (sp_role sp)) in
      hcs (kvm_mmu_page_as_id sp) gfn old_spte REMOVED_SPTE
          (sp_role sp) shared.

(** ** Example instances of the further properties *)

(** The environment [example_env] at a time when a reschedule is due. *)
Definition yielding_env (tdx : list tdx_call -> tdx_call -> Z) : arch_env :=
  let E := example_env tdx in
  mk_env (tdx_module E) (fun _ => true) (spte_has_volatile_bits E)
         (is_mmio_spte E) (make_nonleaf_spte E) (mark_spte_for_access_track E)
         (kvm_mmu_changed_pte_notifier_make_spte E) (is_nx_huge_page_enabled E)
         (make_spte_executable E) (kvm_mmu_max_gfn E)
         (kvm_hugepage_test_mixed E) (kvm_mmu_hugepage_adjust E)
         (disallowed_hugepage_adjust E) (kvm_pfn_to_refcounted_page E)
         (make_spte E) (make_mmio_spte E).

(** A cursor that has made progress since its last yield. *)
Definition progress_iter : tdp_iter :=
  mk_iter 1024 512 [0; 0; 0; 4096; 0] 4096 0 4 1 4 0 0 true false.

(** A secure-resource manager that refuses to map a private page. *)
Definition tdx_refuses_set : list tdx_call -> tdx_call -> Z :=
  fun _ c => match c with
             | set_private_spte _ _ _ => - EIO
             | _ => 0
             end.

(** The cursor of a walk standing on the first slot of the non-private
    root at 4096 of [notifier_kvm], with a current observation. *)
Definition accessed_iter : tdp_iter :=
  mk_iter 0 0 [4096; 0; 0; 0; 0] 4096 0 1 1 1 0 (accessed_4k_spte 7)
          true false.

(** A guest without roots whose vCPU cache holds the page at 12288. *)
Definition cached_kvm : kvm :=
  set_mmu_shadow_page_cache [12288] (empty_kvm 0).

(** A guest whose private table at 8192 links the private table of the
    last level at 12288, which maps frame 7 in its first slot. *)
Definition linked_kvm : kvm :=
  set_sptes {[ 8192 := example_nonleaf_spte 12288;
               12288 := example_4k_spte 7 ]}
    (set_sps {[ 8192 := example_private_sp 2 0 None None;
                12288 := example_private_sp 1 0 (Some 8192) (Some 20480) ]}
       (empty_kvm (BIT_ULL 39))).

(** ** Vocabulary of the range zap *)

(** [spt] is the table of a private shadow page, at [level]. *)
Definition private_table (k : kvm) (spt level : Z) : Prop :=
  table_aligned spt /\
  exists sp, sps k !! spt = Some sp /\ is_private_sp sp = true /\
             role_level (sp_role sp) = level.

(** Private tables link private tables of the next lower level. *)
Definition private_closed (k : kvm) : Prop :=
  forall spt level i child,
    private_table k spt level ->
    0 <= i < SPTE_ENT_PER_PAGE ->
    spte_to_child_pt (spte_at k (ptr_add spt i)) level = Some child ->
    private_table k child (level - 1).

(** The translation of the frame [gfn] below the table [pt] of level
    [n + 1]: the slot that ends it (the first slot on the way down that
    links no table) and the level of that slot. *)
Fixpoint leaf_slot (n : nat) (k : kvm) (pt gfn : Z) : Z * Z :=
  let level := Z.of_nat n + 1 in
  let p := ptr_add pt (SPTE_INDEX (wrap64 (Z.shiftl gfn PAGE_SHIFT)) level) in
  match n with
  | O => (p, level)
  | S n' =>
      match spte_to_child_pt (spte_at k p) level with
      | Some child => leaf_slot n' k child gfn
      | None => (p, level)
      end
  end.

(** What a policy other than skip makes of the entry [spte] of a slot of
    [level]: the leaves it acts on get the value of the policy, every
    other entry is left alone. *)
Definition zapped_leaf (zap_private : tdp_zap_private) (spte level : Z) : Z :=
  if is_last_spte spte level && zap_applies zap_private spte
  then zapped_value zap_private spte
  else spte.

(** The test of [tdp_mmu_zap_leafs] (tdp_mmu.c:1393-1403) on the leaf
    [spte] of [level] that maps [gfn], in a private root: the leaf is
    huge, the guest has a shared bit, and the range of the leaf has mixed
    attributes or [gfn & mask], the offset of the first frame of the leaf
    in its huge page, lies before [start] or less than a huge page before
    [end_gfn]. *)
Definition split_selected (E : arch_env) (k : kvm) (start end_gfn : Z)
    (gfn level spte : Z) : bool :=
  let gfn := Z.land (gfn_round_for_level gfn level)
                    (not64 (kvm_gfn_shared_mask k)) in
  let mask := KVM_PAGES_PER_HPAGE level - 1 in
  nonzero (kvm_gfn_shared_mask k) && is_large_pte spte &&
  (kvm_hugepage_test_mixed E k gfn level ||
   (Z.land gfn mask <? start) ||
   (end_gfn <? wrap64 (Z.land gfn mask + KVM_PAGES_PER_HPAGE level))).

(** The state [k] of a walk that zaps the leaves of the frames from
    [start] to [end_gfn] below the private root [root] of level [rl + 1]
    of the state [k0], once the frames below [upto] are dealt with: the
    slots of these frames hold what the policy makes of their entry, and
    nothing else has changed. *)
Definition zapped_upto (zap_private : tdp_zap_private) (k0 : kvm)
    (root : Z) (rl : nat) (start end_gfn upto : Z) (k : kvm) : Prop :=
  sps k = sps k0 /\ gfn_shared_mask k = gfn_shared_mask k0 /\
  (forall g, start <= g < end_gfn -> g < upto ->
     spte_at k (fst (leaf_slot rl k0 root g))
       = zapped_leaf zap_private (spte_at k0 (fst (leaf_slot rl k0 root g)))
                     (snd (leaf_slot rl k0 root g))) /\
  (forall p,
     spte_at k p = spte_at k0 p \/
     exists g, start <= g < end_gfn /\ g < upto /\
               fst (leaf_slot rl k0 root g) = p /\
               spte_at k p
                 = zapped_leaf zap_private (spte_at k0 p)
                               (snd (leaf_slot rl k0 root g))).

(** The cursor of such a walk stands in the tree below [root]: on the
    slot of its frame in the table of its level, a table on the way of
    the translation of the frame [next_last_level_gfn] it is heading
    for. *)
Definition walk_cursor (k0 : kvm) (root : Z) (rl : nat) (start end_gfn : Z)
    (k : kvm) (iter : tdp_iter) : Prop :=
  length (pt_path iter) = 5%nat /\
  root_level iter = Z.of_nat rl + 1 /\ min_level iter = PG_LEVEL_4K /\
  1 <= it_level iter <= Z.of_nat rl + 1 /\ Z.of_nat rl + 1 <= 5 /\
  valid iter = true /\ yielded iter = false /\
  start <= next_last_level_gfn iter < 2 ^ (9 * (Z.of_nat rl + 1)) /\
  (it_gfn iter < end_gfn -> next_last_level_gfn iter < end_gfn) /\
  it_gfn iter = gfn_round_for_level (next_last_level_gfn iter) (it_level iter) /\
  (forall l, it_level iter <= l <= Z.of_nat rl + 1 ->
     private_table k0 (pt_path_at iter (l - 1)) l) /\
  (forall l g, it_level iter <= l <= Z.of_nat rl + 1 ->
     0 <= g < 2 ^ (9 * (Z.of_nat rl + 1)) ->
     g / 2 ^ (9 * l) = next_last_level_gfn iter / 2 ^ (9 * l) ->
     leaf_slot rl k0 root g
       = leaf_slot (Z.to_nat (l - 1)) k0 (pt_path_at iter (l - 1)) g) /\
  sptep iter =
    ptr_add (pt_path_at iter (it_level iter - 1))
            (SPTE_INDEX (wrap64 (Z.shiftl (it_gfn iter) PAGE_SHIFT))
                        (it_level iter)) /\
  old_spte iter = spte_at k (sptep iter).

(** ** Example instances of the range zap *)

(** A private tree of two levels.  The root table at 8192 links, in its
    first slot, the table at 16384 and maps, in its second slot, the guest
    frames from 512 to 1023 by a huge (2M) leaf.  The table at 16384 maps
    the guest frames 0 and 2 by 4K leaves and holds, for the guest frame
    1, a 4K leaf that is blocked already; its other slots are empty. *)
Definition walk_kvm : kvm :=
  set_tdp_mmu_roots [8192]
    (set_sptes {[ 8192 := example_nonleaf_spte 16384;
                  8200 := example_huge_spte;
                  16384 := example_4k_spte 7;
                  16392 := __private_zapped_spte (example_4k_spte 9);
                  16400 := example_4k_spte 11 ]}
       (set_sps {[ 8192 := example_private_sp 2 0 None None;
                   16384 := example_private_sp 1 0 (Some 8192) (Some 20480) ]}
          (empty_kvm (BIT_ULL 39)))).

(** [huge_kvm] with its huge leaf in the second slot of the root, where it
    maps the guest frames from 512 to 1023. *)
Definition second_huge_kvm : kvm :=
  set_sptes {[ 8200 := example_huge_spte ]} huge_kvm.

(** * Properties of the embedding *)

Ltac munfold :=
  cbv beta iota delta [bind ret get gets modify crash hang out_of_fuel when
                       KVM_BUG_ON WARN_ON deref] in *.

(** ** The entry codec *)

Lemma BIT_ULL_pow2 (n : Z) : 0 <= n -> BIT_ULL n = 2 ^ n.
Proof. intros. unfold BIT_ULL. apply Z.shiftl_1_l. Qed.

Lemma nonzero_land_bit (x n : Z) :
  0 <= n -> nonzero (Z.land x (BIT_ULL n)) = Z.testbit x n.
Proof.
  intros Hn. unfold nonzero. rewrite BIT_ULL_pow2 by assumption.
  destruct (Z.testbit x n) eqn:Hb.
  - apply negb_true_iff, Z.eqb_neq. intros H0.
    assert (Z.testbit (Z.land x (2 ^ n)) n = true).
    { rewrite Z.land_spec, Hb, Z.pow2_bits_true by assumption. reflexivity. }
    rewrite H0, Z.bits_0 in H. discriminate.
  - apply negb_false_iff, Z.eqb_eq. apply Z.bits_inj'. intros i Hi.
    rewrite Z.land_spec, Z.bits_0, Z.pow2_bits_eqb by assumption.
    destruct (Z.eqb_spec n i) as [->|]; [rewrite Hb; reflexivity | apply andb_false_r].
Qed.

Lemma testbit_wrap64 (x i : Z) :
  0 <= i < 64 -> Z.testbit (wrap64 x) i = Z.testbit x i.
Proof. intros Hi. unfold wrap64. apply Z.mod_pow2_bits_low. lia. Qed.

Lemma testbit_base_addr_mask (i : Z) :
  0 <= i -> Z.testbit SPTE_BASE_ADDR_MASK i = (12 <=? i) && (i <? 52).
Proof.
  intros Hi. change SPTE_BASE_ADDR_MASK with (Z.shiftl (Z.ones 40) 12).
  rewrite Z.shiftl_spec by assumption.
  destruct (Z.leb_spec 12 i).
  - destruct (Z.ltb_spec i 52).
    + rewrite Z.ones_spec_low by lia. reflexivity.
    + rewrite Z.ones_spec_high by lia. reflexivity.
  - rewrite Z.testbit_neg_r by lia. reflexivity.
Qed.

Lemma pfn_shift_back (spte : Z) :
  wrap64 (Z.shiftl (spte_to_pfn spte) PAGE_SHIFT) = Z.land spte SPTE_BASE_ADDR_MASK.
Proof.
  unfold spte_to_pfn, PAGE_SHIFT. apply Z.bits_inj'. intros i Hi.
  destruct (Z.ltb_spec i 64).
  - rewrite testbit_wrap64 by lia. rewrite Z.shiftl_spec by assumption.
    rewrite Z.land_spec, testbit_base_addr_mask by assumption.
    destruct (Z.leb_spec 12 i).
    + rewrite Z.shiftr_spec by lia. replace (i - 12 + 12) with i by lia.
      rewrite Z.land_spec, testbit_base_addr_mask by assumption.
      replace (12 <=? i) with true by (symmetry; apply Z.leb_le; lia).
      reflexivity.
    + rewrite Z.testbit_neg_r by lia. cbn. rewrite andb_false_r. reflexivity.
  - unfold wrap64. rewrite Z.mod_pow2_bits_high by lia.
    rewrite Z.land_spec, testbit_base_addr_mask by assumption.
    replace (i <? 52) with false by (symmetry; apply Z.ltb_ge; lia).
    rewrite !andb_false_r. reflexivity.
Qed.

Lemma testbit_private_zapped (old i : Z) :
  0 <= i ->
  Z.testbit (__private_zapped_spte old) i =
    (i =? 63) || (i =? 62) || ((12 <=? i) && (i <? 52) && Z.testbit old i) ||
    ((i =? 7) && is_large_pte old).
Proof.
  intros Hi. unfold __private_zapped_spte. rewrite pfn_shift_back.
  rewrite !Z.lor_spec, Z.land_spec, testbit_base_addr_mask by assumption.
  unfold SHADOW_NONPRESENT_VALUE, SPTE_PRIVATE_ZAPPED.
  rewrite !BIT_ULL_pow2, !Z.pow2_bits_eqb by lia.
  rewrite (Z.eqb_sym 63 i), (Z.eqb_sym 62 i).
  rewrite (andb_comm (Z.testbit old i)).
  f_equal. destruct (is_large_pte old).
  - unfold PT_PAGE_SIZE_MASK. rewrite BIT_ULL_pow2, Z.pow2_bits_eqb by lia.
    rewrite (Z.eqb_sym 7 i), andb_true_r. reflexivity.
  - rewrite Z.bits_0, andb_false_r. reflexivity.
Qed.

Lemma private_zapped_not_present (old : Z) :
  is_shadow_present_pte (__private_zapped_spte old) = false.
Proof.
  unfold is_shadow_present_pte, SPTE_MMU_PRESENT_MASK.
  rewrite nonzero_land_bit, testbit_private_zapped by lia. reflexivity.
Qed.

Lemma private_zapped_is_zapped (old : Z) :
  is_private_zapped_spte (__private_zapped_spte old) = true.
Proof.
  unfold is_private_zapped_spte, SPTE_PRIVATE_ZAPPED.
  rewrite nonzero_land_bit, testbit_private_zapped by lia. reflexivity.
Qed.

Lemma private_zapped_keeps_pfn (old : Z) :
  spte_to_pfn (__private_zapped_spte old) = spte_to_pfn old.
Proof.
  unfold spte_to_pfn. f_equal. apply Z.bits_inj'. intros i Hi.
  rewrite !Z.land_spec, testbit_private_zapped, testbit_base_addr_mask
    by assumption.
  destruct (Z.leb_spec 12 i), (Z.ltb_spec i 52); cbn;
    rewrite ?andb_false_r; try reflexivity.
  replace (i =? 63) with false by (symmetry; apply Z.eqb_neq; lia).
  replace (i =? 62) with false by (symmetry; apply Z.eqb_neq; lia).
  replace (i =? 7) with false by (symmetry; apply Z.eqb_neq; lia).
  cbn. rewrite orb_false_r, andb_true_r. reflexivity.
Qed.

Lemma private_zapped_keeps_large (old : Z) :
  is_large_pte (__private_zapped_spte old) = is_large_pte old.
Proof.
  unfold is_large_pte at 1. unfold PT_PAGE_SIZE_MASK.
  rewrite nonzero_land_bit, testbit_private_zapped by lia. reflexivity.
Qed.

Lemma land_511 (x : Z) : Z.land x (SPTE_ENT_PER_PAGE - 1) = x mod 512.
Proof. change (SPTE_ENT_PER_PAGE - 1) with (Z.ones 9). apply Z.land_ones. lia. Qed.

Lemma SPTE_INDEX_range (a l : Z) : 0 <= SPTE_INDEX a l < SPTE_ENT_PER_PAGE.
Proof.
  unfold SPTE_INDEX. rewrite land_511. unfold SPTE_ENT_PER_PAGE.
  apply Z.mod_pos_bound. lia.
Qed.

Lemma KVM_PAGES_PER_HPAGE_pow (l : Z) :
  1 <= l -> KVM_PAGES_PER_HPAGE l = 2 ^ ((l - 1) * 9).
Proof. intros. unfold KVM_PAGES_PER_HPAGE, SPTE_LEVEL_BITS. apply Z.shiftl_1_l. Qed.

(** The index of a frame in the table of a level. *)
Lemma SPTE_INDEX_gfn (g l : Z) :
  0 <= g -> 1 <= l <= 5 ->
  SPTE_INDEX (wrap64 (Z.shiftl g PAGE_SHIFT)) l = (g / 2 ^ ((l - 1) * 9)) mod 512.
Proof.
  intros Hg Hl. unfold SPTE_INDEX, PAGE_SHIFT, SPTE_LEVEL_BITS.
  rewrite <- Z.shiftr_div_pow2 by lia.
  change 512 with (2 ^ 9). rewrite <- Z.land_ones by lia.
  change (SPTE_ENT_PER_PAGE - 1) with (Z.ones 9).
  apply Z.bits_inj'. intros i Hi.
  rewrite !Z.land_spec.
  destruct (Z.ltb_spec i 9).
  - rewrite !Z.shiftr_spec by lia.
    unfold wrap64. rewrite Z.mod_pow2_bits_low by lia.
    rewrite Z.shiftl_spec by lia. do 2 f_equal. lia.
  - rewrite Z.ones_spec_high by lia. rewrite !andb_false_r. reflexivity.
Qed.

Lemma SPTE_INDEX_step (g l : Z) :
  0 <= g < 2 ^ 64 -> 1 <= l <= 5 ->
  SPTE_INDEX (wrap64 (Z.shiftl g PAGE_SHIFT)) l <> SPTE_ENT_PER_PAGE - 1 ->
  0 <= wrap64 (g + KVM_PAGES_PER_HPAGE l) < 2 ^ 64 /\
  SPTE_INDEX (wrap64 (Z.shiftl (wrap64 (g + KVM_PAGES_PER_HPAGE l)) PAGE_SHIFT)) l
    = SPTE_INDEX (wrap64 (Z.shiftl g PAGE_SHIFT)) l + 1.
Proof.
  intros Hg Hl Hidx.
  assert (Hw : 0 <= wrap64 (g + KVM_PAGES_PER_HPAGE l) < 2 ^ 64)
    by (unfold wrap64; apply Z.mod_pos_bound; lia).
  split; [exact Hw|].
  rewrite !SPTE_INDEX_gfn in * by lia.
  rewrite KVM_PAGES_PER_HPAGE_pow by lia.
  unfold SPTE_ENT_PER_PAGE in Hidx.
  set (s := (l - 1) * 9) in *.
  assert (Hs : 0 <= s <= 36) by lia.
  assert (Hp : 0 < 2 ^ s) by (apply Z.pow_pos_nonneg; lia).
  assert (Hsplit : 2 ^ 64 = 2 ^ s * 2 ^ (64 - s))
    by (rewrite <- Z.pow_add_r by lia; f_equal; lia).
  assert (H512 : 2 ^ (64 - s) = 512 * 2 ^ (64 - s - 9)).
  { change 512 with (2 ^ 9). rewrite <- Z.pow_add_r by lia. f_equal. lia. }
  assert (Hp2 : 0 < 2 ^ (64 - s - 9)) by (apply Z.pow_pos_nonneg; lia).
  set (q := g / 2 ^ s) in *.
  assert (Hq : 0 <= q < 2 ^ (64 - s)).
  { subst q. split; [apply Z.div_pos; lia|].
    apply Z.div_lt_upper_bound; lia. }
  assert (Hq1 : q + 1 < 2 ^ (64 - s)).
  { destruct (Z.eq_dec (q + 1) (2 ^ (64 - s))) as [Heq|]; [|lia].
    exfalso. apply Hidx.
    replace q with (511 + (2 ^ (64 - s - 9) - 1) * 512) by lia.
    rewrite Z.mod_add by lia. reflexivity. }
  assert (Hsum : g + 2 ^ s < 2 ^ 64).
  { pose proof (Z.div_mod g (2 ^ s) ltac:(lia)) as Hdm. fold q in Hdm.
    pose proof (Z.mod_pos_bound g (2 ^ s) Hp). nia. }
  unfold wrap64. rewrite (Z.mod_small (g + 2 ^ s)) by lia.
  replace (g + 2 ^ s) with (g + 1 * 2 ^ s) by lia.
  rewrite Z.div_add by lia. fold q.
  pose proof (Z.div_mod q 512 ltac:(lia)) as Hdm.
  pose proof (Z.mod_pos_bound q 512 ltac:(lia)) as Hmb.
  symmetry. apply Z.mod_unique_pos with (q := q / 512); lia.
Qed.

Lemma page_of_ptr_add (spt i : Z) :
  0 <= spt -> spt + PAGE_SIZE <= 2 ^ 64 -> spt mod PAGE_SIZE = 0 ->
  0 <= i < SPTE_ENT_PER_PAGE ->
  page_of (ptr_add spt i) = spt.
Proof.
  unfold PAGE_SIZE, SPTE_ENT_PER_PAGE. intros H0 Hhi Hal Hi.
  unfold page_of, ptr_add, PAGE_SIZE.
  change (not64 (4096 - 1)) with (Z.lxor (Z.ones 12) (Z.ones 64)).
  assert (Hl : Z.land (spt + 8 * i) (Z.lxor (Z.ones 12) (Z.ones 64))
               = Z.ldiff (Z.land (spt + 8 * i) (Z.ones 64)) (Z.ones 12)).
  { apply Z.bits_inj'. intros j Hj.
    rewrite Z.ldiff_spec, !Z.land_spec, Z.lxor_spec.
    destruct (Z.testbit (spt + 8 * i) j), (Z.testbit (Z.ones 12) j) eqn:H12,
      (Z.testbit (Z.ones 64) j) eqn:H64; try reflexivity.
    exfalso. destruct (Z.ltb_spec j 12).
    - rewrite Z.ones_spec_low in H12 by lia.
      destruct (Z.ltb_spec j 64);
        [rewrite Z.ones_spec_low in H64 by lia; discriminate | lia].
    - rewrite Z.ones_spec_high in H12 by lia. discriminate. }
  rewrite Hl. rewrite Z.land_ones by lia. rewrite Z.mod_small by lia.
  rewrite Z.ldiff_ones_r by lia.
  rewrite Z.shiftr_div_pow2, Z.shiftl_mul_pow2 by lia.
  change (2 ^ 12) with 4096.
  pose proof (Z.div_mod spt 4096 ltac:(lia)) as Hdm. rewrite Hal in Hdm.
  replace (spt + 8 * i) with (8 * i + (spt / 4096) * 4096) by lia.
  rewrite Z.div_add by lia. rewrite Z.div_small by lia. lia.
Qed.

Lemma testbit_clear_accessed (x i : Z) :
  0 <= i ->
  Z.testbit (Z.land x (not64 shadow_accessed_mask)) i =
    Z.testbit x i && negb (i =? 8) && (i <? 64).
Proof.
  intros Hi. unfold not64, shadow_accessed_mask.
  change u64_max with (Z.ones 64).
  rewrite Z.land_spec, Z.lxor_spec, BIT_ULL_pow2, Z.pow2_bits_eqb by lia.
  rewrite (Z.eqb_sym 8 i), <- andb_assoc. f_equal.
  destruct (Z.ltb_spec i 64).
  - rewrite Z.ones_spec_low by lia. destruct (i =? 8); reflexivity.
  - rewrite Z.ones_spec_high by lia.
    replace (i =? 8) with false by (symmetry; apply Z.eqb_neq; lia).
    reflexivity.
Qed.

Lemma clear_accessed_child_pt (x level : Z) :
  spte_to_child_pt (Z.land x (not64 shadow_accessed_mask)) level =
  spte_to_child_pt x level.
Proof.
  unfold spte_to_child_pt, is_last_spte, is_shadow_present_pte, is_large_pte,
    spte_to_pfn, SPTE_MMU_PRESENT_MASK, PT_PAGE_SIZE_MASK.
  rewrite !nonzero_land_bit by lia.
  rewrite !testbit_clear_accessed by lia. cbn [Z.eqb Z.ltb Z.compare Pos.compare Pos.compare_cont negb].
  rewrite !andb_true_r.
  replace (Z.land (Z.land x (not64 shadow_accessed_mask)) SPTE_BASE_ADDR_MASK)
    with (Z.land x SPTE_BASE_ADDR_MASK); [reflexivity|].
  apply Z.bits_inj'. intros i Hi.
  rewrite (Z.land_spec x), (Z.land_spec (Z.land x _)).
  rewrite testbit_clear_accessed, testbit_base_addr_mask by assumption.
  destruct (Z.leb_spec 12 i), (Z.ltb_spec i 52); cbn;
    rewrite ?andb_false_r; try reflexivity.
  replace (i =? 8) with false by (symmetry; apply Z.eqb_neq; lia).
  replace (i <? 64) with true by (symmetry; apply Z.ltb_lt; lia).
  cbn. rewrite !andb_true_r. reflexivity.
Qed.

Lemma land_u64_bound (a b : Z) : 0 <= b < 2 ^ 64 -> 0 <= Z.land a b < 2 ^ 64.
Proof.
  intros Hb.
  replace (Z.land a b) with (Z.land a b mod 2 ^ 64);
    [apply Z.mod_pos_bound; lia|].
  rewrite <- Z.land_ones by lia. rewrite <- Z.land_assoc.
  rewrite (Z.land_ones b) by lia. rewrite (Z.mod_small b) by lia. reflexivity.
Qed.

Lemma gfn_round_for_level_bound (gfn level : Z) :
  0 <= gfn_round_for_level gfn level < 2 ^ 64.
Proof.
  unfold gfn_round_for_level. apply land_u64_bound.
  unfold wrap64. apply Z.mod_pos_bound. lia.
Qed.

Lemma spte_to_child_pt_4k (spte : Z) : spte_to_child_pt spte PG_LEVEL_4K = None.
Proof.
  unfold spte_to_child_pt, is_last_spte. cbn. rewrite orb_true_r. reflexivity.
Qed.

Lemma spte_to_child_pt_last (spte level : Z) :
  is_last_spte spte level = true -> spte_to_child_pt spte level = None.
Proof.
  intros H. unfold spte_to_child_pt. rewrite H, orb_true_r. reflexivity.
Qed.

Section Properties.

Variable E : arch_env.
Variable depth : nat.

(** ** The yield checkpoint *)

(** C8: when the cursor's [next_last_level_gfn] equals its saved
    [yielded_gfn], [tdp_mmu_iter_cond_resched] returns false and changes
    neither the guest state (no yield, no TLB flush) nor the cursor (its
    [yielded] flag is not set). *)
Theorem cond_resched_without_progress
    (iter : tdp_iter) (flush shared : bool) (k : kvm) :
  next_last_level_gfn iter = yielded_gfn iter ->
  tdp_mmu_iter_cond_resched E iter flush shared k = Done (false, iter) k.
Proof.
  intros Heq. unfold tdp_mmu_iter_cond_resched. munfold.
  rewrite Heq, Z.eqb_refl. reflexivity.
Qed.

(** ** Roots *)

Lemma sp_at_lookup (k : kvm) (spt : Z) (sp : kvm_mmu_page) :
  sps k !! spt = Some sp -> sp_at spt k = Done sp k.
Proof. intros H. unfold sp_at. munfold. rewrite H. reflexivity. Qed.

Lemma refcount_read_lookup (k : kvm) (root : Z) (sp : kvm_mmu_page) :
  sps k !! root = Some sp -> refcount_read root k = Done (sp_root_count sp) k.
Proof.
  intros H. unfold refcount_read. munfold. rewrite (sp_at_lookup _ _ _ H).
  reflexivity.
Qed.

Lemma refcount_set_lookup (k : kvm) (root n : Z) (sp : kvm_mmu_page) :
  sps k !! root = Some sp ->
  refcount_set root n k =
    Done tt (set_sps (<[root := sp_set_root_count n sp]> (sps k)) k).
Proof.
  intros H. unfold refcount_set, update_sp. munfold.
  rewrite (sp_at_lookup _ _ _ H). reflexivity.
Qed.

(** C3: [kvm_tdp_mmu_put_root] on a root holding its last reference brings
    the count to zero, asserts that the root is an invalidated TDP MMU root
    (the VM is marked bugged otherwise), unlinks the root from the list of
    roots and queues it for reclamation after a grace period, without
    freeing it on the spot; on a root with further references it only
    decrements the count, which stays positive: the root stays linked and
    nothing is queued or freed. *)
Theorem put_root_unlinks_only_at_zero
    (root : Z) (shared : bool) (k : kvm) (sp : kvm_mmu_page) :
  sps k !! root = Some sp ->
  0 < sp_root_count sp ->
  exists k',
    kvm_tdp_mmu_put_root root shared k = Done tt k' /\
    freed_pages k' = freed_pages k /\
    sps k' !! root = Some (sp_set_root_count (sp_root_count sp - 1) sp) /\
    (sp_root_count sp = 1 ->
       (root ∉ tdp_mmu_roots k') /\
       tdp_mmu_roots k' = filter (fun r => r <> root) (tdp_mmu_roots k) /\
       rcu_callbacks k' = rcu_callbacks k ++ [root] /\
       vm_bugged k' =
         vm_bugged k || negb (is_tdp_mmu_page sp && role_invalid (sp_role sp))) /\
    (1 < sp_root_count sp ->
       tdp_mmu_roots k' = tdp_mmu_roots k /\
       rcu_callbacks k' = rcu_callbacks k /\
       vm_bugged k' = vm_bugged k).
Proof.
  intros Hsp Hpos.
  unfold kvm_tdp_mmu_put_root, refcount_dec_and_test.
  unfold bind at 1. unfold bind at 1.
  rewrite (refcount_read_lookup _ _ _ Hsp).
  destruct (sp_root_count sp =? 1) eqn:Hone.
  - apply Z.eqb_eq in Hone.
    unfold bind at 1. rewrite (refcount_set_lookup _ _ _ _ Hsp).
    cbn [ret negb].
    set (k1 := set_sps _ k).
    assert (Hsp1 : sps k1 !! root = Some (sp_set_root_count 0 sp))
      by (subst k1; cbn; apply lookup_insert_eq).
    unfold bind at 1. rewrite (sp_at_lookup _ _ _ Hsp1).
    unfold list_del_rcu, call_rcu. munfold. cbn.
    eexists. split; [reflexivity|].
    destruct sp as [r g p t c ps nx]; cbn in *; subst c.
    destruct (negb t || negb (role_invalid r)) eqn:Hb; cbn;
      (split; [reflexivity|]); rewrite lookup_insert_eq;
      (split; [reflexivity|]); (split; [|intros; lia]); intros _;
      (split; [intros Hin; apply list_elem_of_filter in Hin; tauto|]);
      (split; [reflexivity|]); (split; [reflexivity|]);
      destruct t, (role_invalid r), (vm_bugged k); cbn in *; congruence.
  - apply Z.eqb_neq in Hone.
    assert (Hlt : (sp_root_count sp <? 0) || (sp_root_count sp - 1 <? 0) = false).
    { apply orb_false_intro; apply Z.ltb_ge; lia. }
    rewrite Hlt.
    unfold bind at 1. rewrite (refcount_set_lookup _ _ _ _ Hsp).
    cbn. eexists. split; [reflexivity|]. cbn.
    rewrite lookup_insert_eq.
    repeat split; try reflexivity; intros; lia.
Qed.

Lemma get_root_live (k : kvm) (root : Z) (sp : kvm_mmu_page) :
  sps k !! root = Some sp ->
  0 < sp_root_count sp < INT_MAX ->
  kvm_tdp_mmu_get_root root k =
    Done true (set_sps (<[root := sp_set_root_count (sp_root_count sp + 1) sp]>
                          (sps k)) k).
Proof.
  intros Hsp Hc. unfold kvm_tdp_mmu_get_root, refcount_inc_not_zero.
  unfold bind at 1. rewrite (refcount_read_lookup _ _ _ Hsp).
  replace (sp_root_count sp =? 0) with false by (symmetry; apply Z.eqb_neq; lia).
  replace ((sp_root_count sp <? 0) || (INT_MAX <? sp_root_count sp + 1))
    with false
    by (symmetry; apply orb_false_intro; apply Z.ltb_ge; lia).
  unfold bind. rewrite (refcount_set_lookup _ _ _ _ Hsp). reflexivity.
Qed.

Lemma get_vcpu_root_scan_spec (k : kvm) (role : kvm_mmu_page_role)
    (roots : list Z) :
  Forall (fun root => exists sp, sps k !! root = Some sp /\
                                 0 < sp_root_count sp < INT_MAX) roots ->
  match find (root_has_role k role) roots with
  | Some root =>
      exists sp, sps k !! root = Some sp /\
        get_vcpu_root_scan roots role k =
          Done (Some root)
               (set_sps (<[root := sp_set_root_count (sp_root_count sp + 1) sp]>
                           (sps k)) k)
  | None => get_vcpu_root_scan roots role k = Done None k
  end.
Proof.
  induction 1 as [|root rest (sp & Hsp & Hc) _ IH]; [reflexivity|].
  assert (Hstep : get_vcpu_root_scan (root :: rest) role k =
            if bool_decide (sp_role sp = role)
            then Done (Some root)
                   (set_sps (<[root := sp_set_root_count (sp_root_count sp + 1) sp]>
                               (sps k)) k)
            else get_vcpu_root_scan rest role k).
  { cbn [get_vcpu_root_scan]. unfold bind at 1.
    rewrite (sp_at_lookup _ _ _ Hsp).
    destruct (decide (sp_role sp = role)) as [Hrole|Hrole].
    - rewrite bool_decide_eq_true_2 by assumption.
      unfold kvm_mmu_page_as_id. rewrite Hrole, Z.eqb_refl. cbn [negb].
      unfold bind at 1. rewrite (get_root_live _ _ _ Hsp Hc). reflexivity.
    - rewrite bool_decide_eq_false_2 by assumption.
      destruct (negb _); reflexivity. }
  rewrite Hstep. cbn [find]. unfold root_has_role at 1. rewrite Hsp.
  cbn [fmap option_fmap option_map].
  destruct (decide (sp_role sp = role)) as [Hrole|Hrole].
  - rewrite !bool_decide_eq_true_2 by congruence.
    exists sp. split; [assumption | reflexivity].
  - rewrite !bool_decide_eq_false_2 by congruence. exact IH.
Qed.

Lemma tdp_mmu_alloc_sp_cached (vcpu : kvm_vcpu) (role : kvm_mmu_page_role)
    (k : kvm) (spt : Z) (rest : list Z) :
  mmu_shadow_page_cache k = spt :: rest ->
  (kvm_mmu_page_role_is_private role = true ->
   root_mmu_level vcpu = role_level role) ->
  tdp_mmu_alloc_sp vcpu role k =
    Done spt (set_sps (<[spt := mk_sp role 0 None false 0 None false]> (sps k))
                      (set_mmu_shadow_page_cache rest k)).
Proof.
  intros Hcache Hpriv. unfold tdp_mmu_alloc_sp.
  unfold kvm_mmu_memory_cache_alloc_shadow_page. munfold. rewrite Hcache. cbn.
  destruct (kvm_mmu_page_role_is_private role); [|reflexivity].
  rewrite Hpriv, Z.eqb_refl by reflexivity. reflexivity.
Qed.

(** C9: under the exclusive lock (every linked root holds a reference),
    [kvm_tdp_mmu_get_vcpu_root] returns the first linked root whose role
    is exactly the requested one, with its reference count incremented and
    nothing else changed (no allocation, no new link); when there is no
    such root it takes a fresh table from the vCPU's cache, makes it a
    root of the requested role with a reference count of exactly 2 and
    links it at the head of the list of roots. *)
Theorem get_vcpu_root_reuses_or_creates
    (vcpu : kvm_vcpu) (private : bool) (k : kvm) :
  roots_wf k ->
  match find (root_has_role k (requested_role vcpu private)) (tdp_mmu_roots k) with
  | Some root =>
      exists sp, sps k !! root = Some sp /\
        kvm_tdp_mmu_get_vcpu_root vcpu private k =
          Done root
               (set_sps (<[root := sp_set_root_count (sp_root_count sp + 1) sp]>
                           (sps k)) k)
  | None =>
      forall spt rest,
        mmu_shadow_page_cache k = spt :: rest ->
        (role_is_private (requested_role vcpu private) = true ->
         root_mmu_level vcpu = role_level (requested_role vcpu private)) ->
        kvm_tdp_mmu_get_vcpu_root vcpu private k =
          Done spt
               (set_tdp_mmu_roots (spt :: tdp_mmu_roots k)
                  (set_sps (<[spt := mk_sp (requested_role vcpu private) 0 None
                                           true 2 None false]> (sps k))
                           (set_mmu_shadow_page_cache rest k)))
  end.
Proof.
  intros Hwf. unfold kvm_tdp_mmu_get_vcpu_root.
  fold (requested_role vcpu private).
  pose proof (get_vcpu_root_scan_spec k (requested_role vcpu private) _ Hwf)
    as Hscan.
  destruct (find _ _) as [root|].
  - destruct Hscan as (sp & Hsp & Hscan). exists sp. split; [assumption|].
    unfold kvm_tdp_mmu_get_vcpu_root_no_alloc. unfold bind, get.
    rewrite Hscan. reflexivity.
  - intros spt rest Hcache Hlvl.
    unfold kvm_tdp_mmu_get_vcpu_root_no_alloc. unfold bind at 1 2. unfold get.
    rewrite Hscan. unfold bind at 1.
    rewrite (tdp_mmu_alloc_sp_cached vcpu _ k spt rest Hcache Hlvl).
    unfold tdp_mmu_init_sp, refcount_set, update_sp, list_add_rcu, sp_at.
    munfold. cbn. rewrite lookup_insert_eq. cbn. rewrite lookup_insert_eq.
    cbn. rewrite !insert_insert_eq. reflexivity.
Qed.

(** ** Bookkeeping of a changed entry *)

Lemma no_bug_ret {A : Type} (a : A) : no_bug (ret a).
Proof. intros k. discriminate. Qed.

Lemma no_bug_bind {A B : Type} (m : M A) (f : A -> M B) :
  no_bug m -> (forall a, no_bug (f a)) -> no_bug (bind m f).
Proof.
  intros Hm Hf k. unfold bind. specialize (Hm k).
  destruct (m k) as [a k'| c | |]; try discriminate.
  - apply Hf.
  - congruence.
Qed.

Lemma no_bug_modify (f : kvm -> kvm) : no_bug (modify f).
Proof. intros k. discriminate. Qed.

Lemma no_bug_gets {A : Type} (f : kvm -> A) : no_bug (gets f).
Proof. intros k. discriminate. Qed.

Lemma no_bug_get : no_bug get.
Proof. intros k. discriminate. Qed.

Lemma no_bug_KVM_BUG_ON (b : bool) : no_bug (KVM_BUG_ON b).
Proof. intros k. discriminate. Qed.

Lemma no_bug_deref {A : Type} (o : option A) : no_bug (deref o).
Proof. intros k. destruct o; discriminate. Qed.

Lemma no_bug_static_call (c : tdx_call) : no_bug (static_call E c).
Proof. intros k. discriminate. Qed.

Lemma no_bug_hang {A : Type} : no_bug (@hang A).
Proof. intros k. discriminate. Qed.

Lemma no_bug_out_of_fuel {A : Type} : no_bug (@out_of_fuel A).
Proof. intros k. discriminate. Qed.

Lemma no_bug_for_each {A : Type} (l : list A) (body : A -> M unit) :
  (forall x, no_bug (body x)) -> no_bug (for_each l body).
Proof.
  intros Hb. induction l as [|x l IH]; cbn [for_each].
  - apply no_bug_ret.
  - apply no_bug_bind; [apply Hb | intros _; exact IH].
Qed.

Create HintDb no_bug.
#[local] Hint Resolve no_bug_ret no_bug_modify no_bug_gets no_bug_get
  no_bug_KVM_BUG_ON no_bug_deref no_bug_static_call no_bug_hang
  no_bug_out_of_fuel : no_bug.

(** One step of the syntax-directed proof that an operation has no path to
    [BUG()]. *)
Ltac no_bug_step :=
  match goal with
  | |- no_bug (bind _ _) => apply no_bug_bind; [|intros ?]
  | |- no_bug (when ?b _) => unfold when; destruct b
  | |- no_bug (WARN_ON _) => apply no_bug_ret
  | |- no_bug (if ?b then _ else _) => destruct b eqn:?
  | |- no_bug (match ?o with Some _ => _ | None => _ end) => destruct o eqn:?
  | |- no_bug (let (_, _) := ?p in _) => destruct p
  | |- no_bug (for_each _ _) => apply no_bug_for_each; intros ?
  | |- no_bug _ => solve [auto with no_bug]
  end.
Ltac no_bug_auto := repeat no_bug_step.

Lemma no_bug_sp_at (spt : Z) : no_bug (sp_at spt).
Proof. unfold sp_at. no_bug_auto. Qed.
#[local] Hint Resolve no_bug_sp_at : no_bug.

Lemma no_bug_update_sp (spt : Z) (f : kvm_mmu_page -> kvm_mmu_page) :
  no_bug (update_sp spt f).
Proof. unfold update_sp. no_bug_auto. Qed.
#[local] Hint Resolve no_bug_update_sp : no_bug.

Lemma no_bug_write_spte (sptep old_spte new_spte level : Z) :
  no_bug (kvm_tdp_mmu_write_spte E sptep old_spte new_spte level).
Proof.
  unfold kvm_tdp_mmu_write_spte, kvm_tdp_mmu_write_spte_atomic,
    kvm_tdp_mmu_read_spte, __kvm_tdp_mmu_write_spte.
  no_bug_auto.
Qed.
#[local] Hint Resolve no_bug_write_spte : no_bug.

Lemma no_bug_handle_private_zapped_spte (gfn old_spte new_spte level : Z) :
  no_bug (handle_private_zapped_spte E gfn old_spte new_spte level).
Proof. unfold handle_private_zapped_spte. no_bug_auto. Qed.

Lemma no_bug_handle_removed_private_spte (gfn old_spte new_spte level : Z) :
  no_bug (handle_removed_private_spte E gfn old_spte new_spte level).
Proof. unfold handle_removed_private_spte. no_bug_auto. Qed.
#[local] Hint Resolve no_bug_handle_private_zapped_spte
  no_bug_handle_removed_private_spte : no_bug.

(** Past its assertion on the frame, [handle_changed_spte] has no path to
    [BUG()] of its own. *)
Lemma no_bug_handle_changed_spte_with
    (removed_pt : Z -> bool -> M unit)
    (as_id gfn old_spte new_spte : Z) (role : kvm_mmu_page_role)
    (shared : bool) :
  (forall pt sh, no_bug (removed_pt pt sh)) ->
  replaces_leaf_frame old_spte new_spte (role_level role) = false ->
  no_bug (handle_changed_spte_with E removed_pt as_id gfn old_spte new_spte
                                   role shared).
Proof.
  intros Hrec Hcond. unfold handle_changed_spte_with.
  unfold replaces_leaf_frame, is_leaf_spte in Hcond.
  rewrite Hcond.
  unfold is_private_sptep, sptep_to_sp, kvm_update_page_stats,
    kvm_set_pfn_dirty, kvm_set_pfn_accessed.
  no_bug_auto.
Qed.

Lemma REMOVED_SPTE_not_present : is_shadow_present_pte REMOVED_SPTE = false.
Proof. reflexivity. Qed.

Lemma no_bug_handle_removed_pt_with
    (hcs : Z -> Z -> Z -> Z -> kvm_mmu_page_role -> bool -> M unit)
    (pt : Z) (shared : bool) :
  (forall as_id gfn old_spte role sh,
     no_bug (hcs as_id gfn old_spte REMOVED_SPTE role sh)) ->
  no_bug (handle_removed_pt_with E hcs pt shared).
Proof.
  intros Hhcs. unfold handle_removed_pt_with.
  unfold sptep_to_sp, tdp_mmu_unlink_sp, tdp_unaccount_mmu_page,
    kvm_account_pgtable_pages, untrack_possible_nx_huge_page,
    kvm_tdp_mmu_write_spte_atomic, kvm_tdp_mmu_read_spte,
    __kvm_tdp_mmu_write_spte, call_rcu.
  no_bug_auto.
Qed.

Lemma no_bug_handle_removed_pt_fuel (n : nat) (pt : Z) (shared : bool) :
  no_bug (handle_removed_pt_fuel E n pt shared).
Proof.
  revert pt shared. induction n as [|n IH]; intros pt shared;
    cbn [handle_removed_pt_fuel].
  - apply no_bug_out_of_fuel.
  - apply no_bug_handle_removed_pt_with. intros as_id gfn old_spte role sh.
    apply no_bug_handle_changed_spte_with; [exact IH|].
    unfold replaces_leaf_frame, is_leaf_spte.
    rewrite REMOVED_SPTE_not_present.
    rewrite andb_false_l, andb_false_r. reflexivity.
Qed.

(** C1: [handle_changed_spte] takes the fatal path ([BUG()]) exactly when
    the old value is a present leaf, the new value is a present leaf and
    their frame numbers differ; no other change of an entry, whatever the
    tables torn down below it, reaches [BUG()]. *)
Theorem handle_changed_spte_bug_iff
    (as_id gfn old_spte new_spte : Z) (role : kvm_mmu_page_role)
    (shared : bool) (k : kvm) :
  handle_changed_spte E depth as_id gfn old_spte new_spte role shared k
    = Crash BUG
  <-> replaces_leaf_frame old_spte new_spte (role_level role) = true.
Proof.
  split.
  - intros Hbug.
    destruct (replaces_leaf_frame old_spte new_spte (role_level role)) eqn:Hc;
      [reflexivity|].
    exfalso. revert Hbug.
    apply no_bug_handle_changed_spte_with; [|assumption].
    intros pt sh. apply no_bug_handle_removed_pt_fuel.
  - intros Hc. unfold handle_changed_spte, handle_changed_spte_with.
    unfold replaces_leaf_frame, is_leaf_spte in Hc.
    munfold. rewrite Hc. reflexivity.
Qed.

(** ** The atomic set-entry primitive *)

Lemma sptep_to_sp_lookup (k : kvm) (p : Z) (sp : kvm_mmu_page) :
  sps k !! page_of p = Some sp -> sptep_to_sp p k = Done sp k.
Proof. intros H. unfold sptep_to_sp. apply sp_at_lookup, H. Qed.

Lemma is_private_sptep_lookup (k : kvm) (p : Z) (sp : kvm_mmu_page) :
  sps k !! page_of p = Some sp ->
  is_private_sptep p k = Done (is_private_sp sp) k.
Proof.
  intros H. unfold is_private_sptep, bind.
  rewrite (sptep_to_sp_lookup _ _ _ H). reflexivity.
Qed.

Lemma try_cmpxchg64_mismatch (k : kvm) (p old new : Z) :
  spte_at k p <> old ->
  try_cmpxchg64 p old new k = Done (false, spte_at k p) k.
Proof.
  intros Hne. unfold try_cmpxchg64, kvm_tdp_mmu_read_spte. munfold.
  apply Z.eqb_neq in Hne. rewrite Hne. reflexivity.
Qed.

Lemma try_cmpxchg64_match (k : kvm) (p old new : Z) :
  spte_at k p = old ->
  try_cmpxchg64 p old new k =
    Done (true, old) (set_sptes (<[p := new]> (sptes k)) k).
Proof.
  intros He. unfold try_cmpxchg64, kvm_tdp_mmu_read_spte,
    __kvm_tdp_mmu_write_spte. munfold.
  rewrite He, Z.eqb_refl. reflexivity.
Qed.

(** What [tdp_mmu_set_spte_atomic] does when the entry no longer holds the
    value the cursor observed: it returns [-EBUSY] and touches neither the
    entry, the counters nor the secure-resource manager.  The cursor's
    [old_spte] is refreshed on the paths that compare-and-swap on the
    cursor itself; the path that populates a private entry hands a copy of
    [old_spte] to [set_private_spte_present], and the cursor keeps its
    stale value. *)
Lemma set_spte_atomic_mismatch
    (iter : tdp_iter) (new_spte : Z) (k : kvm) (sp : kvm_mmu_page) :
  sps k !! page_of (sptep iter) = Some sp ->
  spte_at k (sptep iter) <> old_spte iter ->
  tdp_mmu_set_spte_atomic E depth iter new_spte k =
    Done (- EBUSY,
          if is_private_sp sp && negb (is_removed_spte new_spte) &&
             is_shadow_present_pte new_spte
          then iter
          else iter_set_old_spte (spte_at k (sptep iter)) iter)
         (if yielded iter then set_vm_bugged true k else k).
Proof.
  intros Hsp Hne. unfold tdp_mmu_set_spte_atomic.
  set (k1 := if yielded iter then set_vm_bugged true k else k).
  assert (Hsp1 : sps k1 !! page_of (sptep iter) = Some sp)
    by (subst k1; destruct (yielded iter); exact Hsp).
  assert (Hne1 : spte_at k1 (sptep iter) <> old_spte iter)
    by (subst k1; destruct (yielded iter); exact Hne).
  assert (Hat : spte_at k1 (sptep iter) = spte_at k (sptep iter))
    by (subst k1; destruct (yielded iter); reflexivity).
  unfold bind at 1. unfold KVM_BUG_ON at 1. fold k1.
  unfold bind at 1. unfold WARN_ON at 1, ret at 1.
  unfold bind at 1. rewrite (is_private_sptep_lookup _ _ _ Hsp1).
  destruct (is_private_sp sp && negb (is_removed_spte new_spte)) eqn:Hp;
    cbn [andb].
  - destruct (is_shadow_present_pte new_spte).
    + unfold set_private_spte_present. unfold bind at 1 2.
      rewrite (try_cmpxchg64_mismatch _ _ _ _ Hne1). reflexivity.
    + unfold bind at 1.
      rewrite (try_cmpxchg64_mismatch _ _ _ _ Hne1). rewrite Hat. reflexivity.
  - unfold bind at 1.
    rewrite (try_cmpxchg64_mismatch _ _ _ _ Hne1). rewrite Hat. reflexivity.
Qed.

(** ** Zapping the leaves of a range *)

Lemma keeps_tables_ret {A : Type} (a : A) : keeps_tables (ret a).
Proof. intros k. exists a, k. repeat split. Qed.

Lemma keeps_tables_bind {A B : Type} (m : M A) (f : A -> M B) :
  keeps_tables m -> (forall a, keeps_tables (f a)) -> keeps_tables (bind m f).
Proof.
  intros Hm Hf k. destruct (Hm k) as (a & k1 & Hrun & Hs & Hp & Hg).
  destruct (Hf a k1) as (b & k2 & Hrun2 & Hs2 & Hp2 & Hg2).
  exists b, k2. unfold bind. rewrite Hrun. repeat split; congruence.
Qed.

Lemma keeps_tables_KVM_BUG_ON (b : bool) : keeps_tables (KVM_BUG_ON b).
Proof. intros k. eexists _, _. split; [reflexivity|]. destruct b; repeat split. Qed.

Lemma keeps_tables_static_call (c : tdx_call) : keeps_tables (static_call E c).
Proof. intros k. eexists _, _. split; [reflexivity|]. repeat split. Qed.

Lemma keeps_tables_get : keeps_tables get.
Proof. intros k. eexists _, _. split; [reflexivity|]. repeat split. Qed.

Lemma keeps_tables_update_page_stats (level count : Z) :
  keeps_tables (kvm_update_page_stats level count).
Proof. intros k. eexists _, _. split; [reflexivity|]. repeat split. Qed.

Lemma keeps_tables_set_pfn_dirty (pfn : Z) : keeps_tables (kvm_set_pfn_dirty pfn).
Proof. intros k. eexists _, _. split; [reflexivity|]. repeat split. Qed.

Lemma keeps_tables_set_pfn_accessed (pfn : Z) :
  keeps_tables (kvm_set_pfn_accessed pfn).
Proof. intros k. eexists _, _. split; [reflexivity|]. repeat split. Qed.

Lemma keeps_tables_flush : keeps_tables kvm_flush_remote_tlbs.
Proof. intros k. eexists _, _. split; [reflexivity|]. repeat split. Qed.

Create HintDb keeps_tables.
#[local] Hint Resolve keeps_tables_ret keeps_tables_KVM_BUG_ON
  keeps_tables_static_call keeps_tables_get keeps_tables_update_page_stats
  keeps_tables_set_pfn_dirty keeps_tables_set_pfn_accessed keeps_tables_flush
  : keeps_tables.

Ltac keeps_tables_step :=
  match goal with
  | |- keeps_tables (bind _ _) => apply keeps_tables_bind; [|intros ?]
  | |- keeps_tables (when ?b _) => unfold when; destruct b
  | |- keeps_tables (WARN_ON _) => apply keeps_tables_ret
  | |- keeps_tables (if ?b then _ else _) => destruct b eqn:?
  | |- keeps_tables _ => solve [auto with keeps_tables]
  end.
Ltac keeps_tables_auto := repeat keeps_tables_step.

Lemma keeps_tables_handle_private_zapped_spte (gfn old_spte new_spte level : Z) :
  keeps_tables (handle_private_zapped_spte E gfn old_spte new_spte level).
Proof. unfold handle_private_zapped_spte. keeps_tables_auto. Qed.

Lemma keeps_tables_handle_removed_private_spte
    (gfn old_spte new_spte level : Z) :
  keeps_tables (handle_removed_private_spte E gfn old_spte new_spte level).
Proof. unfold handle_removed_private_spte. keeps_tables_auto. Qed.

#[local] Hint Resolve keeps_tables_handle_private_zapped_spte
  keeps_tables_handle_removed_private_spte : keeps_tables.

(** The bookkeeping of a leaf that becomes non-present completes and
    writes no entry: no table is torn down. *)
Lemma keeps_tables_handle_changed_spte_zap
    (removed_pt : Z -> bool -> M unit)
    (as_id gfn old_spte new_spte : Z) (role : kvm_mmu_page_role)
    (shared : bool) :
  is_last_spte old_spte (role_level role) = true ->
  is_shadow_present_pte new_spte = false ->
  keeps_tables (handle_changed_spte_with E removed_pt as_id gfn old_spte
                                         new_spte role shared).
Proof.
  intros Hlast Hnp. unfold handle_changed_spte_with.
  rewrite Hlast, Hnp. cbn [andb negb orb].
  rewrite ?andb_true_r. rewrite ?andb_false_r. cbn [andb negb orb].
  keeps_tables_auto.
Qed.

Lemma kvm_tdp_mmu_write_spte_current (p old_spte new_spte level : Z) (k : kvm) :
  spte_at k p = old_spte ->
  kvm_tdp_mmu_write_spte E p old_spte new_spte level k =
    Done old_spte (set_sptes (<[p := new_spte]> (sptes k)) k).
Proof.
  intros Hcur. unfold kvm_tdp_mmu_write_spte, kvm_tdp_mmu_write_spte_atomic,
    kvm_tdp_mmu_read_spte, __kvm_tdp_mmu_write_spte.
  destruct (kvm_tdp_mmu_spte_need_atomic_write E old_spte level); munfold;
    rewrite ?Hcur; reflexivity.
Qed.

(** Under the exclusive lock, [tdp_mmu_set_spte] of a non-present value
    over a leaf writes that value and nothing else into the tables. *)
Lemma tdp_mmu_set_spte_zap (as_id p old_spte new_spte gfn level : Z)
    (k : kvm) (sp : kvm_mmu_page) :
  sps k !! page_of p = Some sp ->
  spte_at k p = old_spte ->
  is_last_spte old_spte level = true ->
  is_shadow_present_pte new_spte = false ->
  exists k',
    tdp_mmu_set_spte E depth as_id p old_spte new_spte gfn level k
      = Done old_spte k' /\
    sptes k' = <[p := new_spte]> (sptes k) /\ sps k' = sps k /\
    gfn_shared_mask k' = gfn_shared_mask k.
Proof.
  intros Hsp Hcur Hlast Hnp. unfold tdp_mmu_set_spte.
  unfold bind at 1. rewrite (is_private_sptep_lookup _ _ _ Hsp).
  unfold bind at 1. unfold get at 1.
  unfold bind at 1. unfold KVM_BUG_ON at 1.
  set (k1 := if negb _ then set_vm_bugged true k else k).
  assert (Hk1 : sptes k1 = sptes k /\ sps k1 = sps k /\
                gfn_shared_mask k1 = gfn_shared_mask k)
    by (subst k1; destruct (negb _); repeat split).
  destruct Hk1 as (Hs1 & Hp1 & Hg1).
  unfold bind at 1. unfold WARN_ON at 1, ret at 1.
  unfold bind at 1.
  rewrite kvm_tdp_mmu_write_spte_current
    by (unfold spte_at in *; rewrite Hs1; exact Hcur).
  set (k2 := set_sptes _ k1).
  assert (Hsp2 : sps k2 !! page_of p = Some sp)
    by (subst k2; cbn; rewrite Hp1; exact Hsp).
  unfold bind at 1. rewrite (is_private_sptep_lookup _ _ _ Hsp2).
  rewrite Hnp, andb_false_r.
  unfold bind at 1. unfold ret at 1.
  unfold bind at 1. rewrite (sptep_to_sp_lookup _ _ _ Hsp2).
  destruct (keeps_tables_handle_changed_spte_zap (handle_removed_pt E depth)
              as_id gfn old_spte new_spte
              (role_set_level level (sp_role sp)) false Hlast Hnp k2)
    as ([] & k3 & Hrun & Hs3 & Hp3 & Hg3).
  unfold bind at 1. unfold handle_changed_spte. rewrite Hrun.
  exists k3. split; [reflexivity|].
  subst k2. cbn in *. rewrite Hs3, Hp3, Hg3, Hs1, Hp1, Hg1. repeat split.
Qed.


(** ** Merging the small pages of a private huge page *)

Lemma bind_Done_inv {A B : Type} (m : M A) (f : A -> M B) (k k' : kvm) (b : B) :
  bind m f k = Done b k' ->
  exists a k1, m k = Done a k1 /\ f a k1 = Done b k'.
Proof.
  unfold bind. destruct (m k) as [a k1| | |]; try discriminate.
  intros H. exists a, k1. split; [reflexivity | exact H].
Qed.

Lemma deref_Done_inv {A : Type} (o : option A) (k k' : kvm) (a : A) :
  deref o k = Done a k' -> o = Some a /\ k' = k.
Proof.
  destruct o; cbn; munfold; intros H; [|discriminate].
  injection H as <- <-. split; reflexivity.
Qed.

Lemma sp_at_Done_inv (spt : Z) (k k' : kvm) (sp : kvm_mmu_page) :
  sp_at spt k = Done sp k' -> sps k !! spt = Some sp /\ k' = k.
Proof.
  unfold sp_at. munfold. destruct (sps k !! spt); intros H; [|discriminate].
  injection H as <- <-. split; reflexivity.
Qed.

Lemma tdp_iter_refresh_sptep_Done (i : tdp_iter) (k : kvm) :
  exists i', tdp_iter_refresh_sptep i k = Done i' k.
Proof. eexists. reflexivity. Qed.

Lemma tdp_iter_step_down_Done_inv (i i' : tdp_iter) (pt : Z) (k k' : kvm) :
  tdp_iter_step_down i pt k = Done i' k' -> k' = k.
Proof.
  unfold tdp_iter_step_down, tdp_iter_refresh_sptep, kvm_tdp_mmu_read_spte.
  munfold. intros H. injection H as _ <-. reflexivity.
Qed.

Lemma spte_at_write (k : kvm) (p v : Z) :
  spte_at (set_sptes (<[p := v]> (sptes k)) k) p = v.
Proof. unfold spte_at. cbn. rewrite lookup_insert_eq. reflexivity. Qed.

(** The loop over the children is left by [goto out] with a non-zero code
    only. *)
Lemma merge_children_out_nonzero (n : nat) (fault : kvm_page_fault)
    (new_spte parent_old_spte : Z) (child_role : kvm_mmu_page_role)
    (i : Z) (child_iter : tdp_iter) (r0 r : Z) (k k' : kvm) :
  merge_children E depth n fault new_spte parent_old_spte child_role i
                 child_iter r0 k = Done (true, r) k' ->
  r = 0 -> False.
Proof.
  revert i child_iter r0 k. induction n as [|n IH]; intros i child_iter r0 k;
    cbn [merge_children].
  - destruct (negb (i <? SPTE_ENT_PER_PAGE)); intros H; discriminate H.
  - destruct (negb (i <? SPTE_ENT_PER_PAGE)); [intros H; discriminate H|].
    intros Hrun Hr.
    apply bind_Done_inv in Hrun as ([[out r1] it1] & k1 & Hchild & Hrun).
    destruct out.
    + injection Hrun as -> _.
      unfold merge_child in Hchild. unfold WARN_ON in Hchild.
      unfold bind at 1, ret at 1 in Hchild.
      destruct (is_shadow_present_pte (old_spte child_iter)).
      * repeat match type of Hchild with
               | (if ?b then _ else _) _ = _ => destruct b
               end.
        all: cbv [ret] in Hchild; congruence.
      * unfold bind at 1, ret at 1 in Hchild.
        apply bind_Done_inv in Hchild as ([tmp it2] & k2 & _ & Hchild).
        unfold ret in Hchild.
        destruct ((tmp =? - EBUSY) || (tmp =? - EAGAIN));
          [discriminate Hchild|].
        destruct (nonzero tmp) eqn:Htmp; [|discriminate Hchild].
        injection Hchild as -> _ _. subst r. discriminate Htmp.
    + apply bind_Done_inv in Hrun as ([i2 it2] & k2 & _ & Hrun).
      exact (IH _ _ _ _ Hrun Hr).
Qed.

(** The end of [tdp_mmu_merge_private_spt] at its [out:] label. *)
Lemma merge_out_spec (p restored r : Z) (iter iter' : tdp_iter) (k k' : kvm)
    (r' : Z) :
  (__kvm_tdp_mmu_write_spte p restored ;;;
   ret (r, iter_set_old_spte restored iter)) k = Done (r', iter') k' ->
  r' = r /\ old_spte iter' = restored /\ spte_at k' p = restored /\
  tdx_log k' = tdx_log k.
Proof.
  unfold __kvm_tdp_mmu_write_spte. munfold. intros H.
  injection H as <- <- <-. repeat split. apply spte_at_write.
Qed.

(** *** The requests made while the children are populated *)

Lemma asks_no_merge_ret {A : Type} (a : A) : asks_no_merge (ret a).
Proof.
  intros k a' k' H. injection H as <- <-. exists [].
  rewrite app_nil_r. split; [reflexivity | constructor].
Qed.

Lemma asks_no_merge_bind {A B : Type} (m : M A) (f : A -> M B) :
  asks_no_merge m -> (forall a, asks_no_merge (f a)) ->
  asks_no_merge (bind m f).
Proof.
  intros Hm Hf k b k' H. apply bind_Done_inv in H as (a & k1 & H1 & H2).
  destruct (Hm _ _ _ H1) as (c1 & Hl1 & F1).
  destruct (Hf _ _ _ _ H2) as (c2 & Hl2 & F2).
  exists (c1 ++ c2). split.
  - rewrite Hl2, Hl1, app_assoc. reflexivity.
  - apply Forall_app. split; assumption.
Qed.

Lemma asks_no_merge_same_log {A : Type} (m : M A) :
  (forall k a k', m k = Done a k' -> tdx_log k' = tdx_log k) ->
  asks_no_merge m.
Proof.
  intros Hm k a k' H. exists []. rewrite app_nil_r.
  split; [exact (Hm _ _ _ H) | constructor].
Qed.

Lemma asks_no_merge_modify (f : kvm -> kvm) :
  (forall k, tdx_log (f k) = tdx_log k) -> asks_no_merge (modify f).
Proof.
  intros Hf. apply asks_no_merge_same_log. intros k a k' H.
  injection H as _ <-. apply Hf.
Qed.

Lemma asks_no_merge_gets {A : Type} (f : kvm -> A) : asks_no_merge (gets f).
Proof.
  apply asks_no_merge_same_log. intros k a k' H.
  injection H as _ <-. reflexivity.
Qed.

Lemma asks_no_merge_get : asks_no_merge get.
Proof.
  apply asks_no_merge_same_log. intros k a k' H.
  injection H as _ <-. reflexivity.
Qed.

Lemma asks_no_merge_KVM_BUG_ON (cond : bool) : asks_no_merge (KVM_BUG_ON cond).
Proof.
  apply asks_no_merge_same_log. intros k a k' H.
  injection H as _ <-. destruct cond; reflexivity.
Qed.

Lemma asks_no_merge_crash {A : Type} (c : fatal) : asks_no_merge (@crash A c).
Proof. intros k a k' H. discriminate H. Qed.

Lemma asks_no_merge_hang {A : Type} : asks_no_merge (@hang A).
Proof. intros k a k' H. discriminate H. Qed.

Lemma asks_no_merge_out_of_fuel {A : Type} : asks_no_merge (@out_of_fuel A).
Proof. intros k a k' H. discriminate H. Qed.

Lemma asks_no_merge_deref {A : Type} (o : option A) : asks_no_merge (deref o).
Proof.
  destruct o; cbn; [apply asks_no_merge_ret | apply asks_no_merge_crash].
Qed.

Lemma asks_no_merge_static_call (c : tdx_call) :
  is_merge_request c = false -> asks_no_merge (static_call E c).
Proof.
  intros Hc k a k' H. unfold static_call in H. injection H as _ <-.
  exists [c]. split; [reflexivity|]. repeat constructor. exact Hc.
Qed.

Lemma asks_no_merge_for_each {A : Type} (l : list A) (body : A -> M unit) :
  (forall x, asks_no_merge (body x)) -> asks_no_merge (for_each l body).
Proof.
  intros Hb. induction l as [|x l IH]; cbn [for_each].
  - apply asks_no_merge_ret.
  - apply asks_no_merge_bind; [apply Hb | intros _; exact IH].
Qed.

Ltac no_merge_step :=
  match goal with
  | |- asks_no_merge (bind _ _) => apply asks_no_merge_bind; [|intros ?]
  | |- asks_no_merge (ret _) => apply asks_no_merge_ret
  | |- asks_no_merge (WARN_ON _) => apply asks_no_merge_ret
  | |- asks_no_merge (KVM_BUG_ON _) => apply asks_no_merge_KVM_BUG_ON
  | |- asks_no_merge (when ?b _) => unfold when; destruct b
  | |- asks_no_merge (modify _) =>
      apply asks_no_merge_modify; intros ?;
      repeat match goal with
             | |- context [if ?c then _ else _] => destruct c
             end; reflexivity
  | |- asks_no_merge (gets _) => apply asks_no_merge_gets
  | |- asks_no_merge get => apply asks_no_merge_get
  | |- asks_no_merge (deref _) => apply asks_no_merge_deref
  | |- asks_no_merge (crash _) => apply asks_no_merge_crash
  | |- asks_no_merge hang => apply asks_no_merge_hang
  | |- asks_no_merge out_of_fuel => apply asks_no_merge_out_of_fuel
  | |- asks_no_merge (static_call _ _) =>
      apply asks_no_merge_static_call; reflexivity
  | |- asks_no_merge (for_each _ _) =>
      apply asks_no_merge_for_each; intros ?
  | |- asks_no_merge (if ?b then _ else _) => destruct b
  | |- asks_no_merge (match ?o with Some _ => _ | None => _ end) => destruct o
  | |- asks_no_merge (let (_, _) := ?p in _) => destruct p
  | |- asks_no_merge _ => assumption
  | H : forall _, _ |- asks_no_merge _ => solve [apply H]
  end.
Ltac no_merge_auto := cbv beta zeta; repeat no_merge_step.

Lemma asks_no_merge_handle_changed_spte_with
    (removed_pt : Z -> bool -> M unit)
    (as_id gfn old_spte new_spte : Z) (role : kvm_mmu_page_role)
    (shared : bool) :
  (forall pt sh, asks_no_merge (removed_pt pt sh)) ->
  asks_no_merge (handle_changed_spte_with E removed_pt as_id gfn old_spte
                                          new_spte role shared).
Proof.
  intros Hrec. unfold handle_changed_spte_with, handle_private_zapped_spte,
    handle_removed_private_spte, is_private_sptep, sptep_to_sp, sp_at,
    kvm_update_page_stats, kvm_set_pfn_dirty, kvm_set_pfn_accessed.
  no_merge_auto.
Qed.

Lemma asks_no_merge_handle_removed_pt_with
    (hcs : Z -> Z -> Z -> Z -> kvm_mmu_page_role -> bool -> M unit)
    (pt : Z) (shared : bool) :
  (forall as_id gfn old_spte new_spte role sh,
     asks_no_merge (hcs as_id gfn old_spte new_spte role sh)) ->
  asks_no_merge (handle_removed_pt_with E hcs pt shared).
Proof.
  intros Hhcs. unfold handle_removed_pt_with, sptep_to_sp, sp_at,
    tdp_mmu_unlink_sp, tdp_unaccount_mmu_page, kvm_account_pgtable_pages,
    untrack_possible_nx_huge_page, update_sp, sp_at,
    kvm_tdp_mmu_write_spte, kvm_tdp_mmu_write_spte_atomic,
    kvm_tdp_mmu_read_spte, __kvm_tdp_mmu_write_spte, call_rcu.
  no_merge_auto.
Qed.

Lemma asks_no_merge_handle_removed_pt_fuel (n : nat) (pt : Z) (shared : bool) :
  asks_no_merge (handle_removed_pt_fuel E n pt shared).
Proof.
  revert pt shared. induction n as [|n IH]; intros pt shared;
    cbn [handle_removed_pt_fuel].
  - apply asks_no_merge_out_of_fuel.
  - apply asks_no_merge_handle_removed_pt_with. intros.
    apply asks_no_merge_handle_changed_spte_with. exact IH.
Qed.

Lemma asks_no_merge_set_spte_atomic (iter : tdp_iter) (new_spte : Z) :
  asks_no_merge (tdp_mmu_set_spte_atomic E depth iter new_spte).
Proof.
  assert (Hhcs : forall as_id gfn old_spte new_spte role sh,
             asks_no_merge (handle_changed_spte E depth as_id gfn old_spte
                                                new_spte role sh)).
  { intros. apply asks_no_merge_handle_changed_spte_with.
    intros pt' sh'. apply asks_no_merge_handle_removed_pt_fuel. }
  unfold tdp_mmu_set_spte_atomic, set_private_spte_present,
    __set_private_spte_present, private_spte_change_flags, get_private_spt,
    try_cmpxchg64, is_private_sptep, sptep_to_sp, sp_at,
    kvm_flush_remote_tlbs, kvm_tdp_mmu_read_spte, __kvm_tdp_mmu_write_spte.
  no_merge_auto.
Qed.

Lemma asks_no_merge_merge_children (n : nat) (fault : kvm_page_fault)
    (new_spte parent_old_spte : Z) (child_role : kvm_mmu_page_role)
    (i : Z) (child_iter : tdp_iter) (r : Z) :
  asks_no_merge (merge_children E depth n fault new_spte parent_old_spte
                                child_role i child_iter r).
Proof.
  revert i child_iter r. induction n as [|n IH]; intros i child_iter r;
    cbn [merge_children].
  - no_merge_auto.
  - pose proof (asks_no_merge_set_spte_atomic) as Hset.
    unfold merge_child, tdp_mmu_iter_step_side, tdp_iter_step_side,
      kvm_tdp_mmu_read_spte.
    no_merge_auto.
Qed.

(** C4 (as amended): an execution of [tdp_mmu_merge_private_spt] that has
    frozen the parent slot and returns leaves in the slot, and in the
    cursor, a value fixed by the requests it made to the secure-resource
    manager.  Populating the children asks for no merge.  If a child could
    not be populated, or the manager refused to block the huge page, the
    operation returns a non-zero code and the slot holds its pre-merge
    value again.  If the manager refused the merge, the operation returns
    that code, and the slot holds its pre-merge value again when the
    manager then unblocked the page, and the private-zapped form of its
    pre-merge value when it refused that too.  If the manager accepted the
    merge the operation returns [-EAGAIN] and the slot holds [new_spte].
    So the slot is all or nothing, its pre-merge value or [new_spte], in
    every case but the double refusal. *)
Theorem merge_failure_restores_parent
    (fault : kvm_page_fault) (iter iter' : tdp_iter) (new_spte r : Z)
    (k k' : kvm) :
  spte_at k (sptep iter) = old_spte iter ->
  tdp_mmu_merge_private_spt E depth fault iter new_spte k = Done (r, iter') k' ->
  old_spte iter' = spte_at k' (sptep iter) /\
  exists (children : list tdx_call) (private_spt : Z),
    Forall (fun c => is_merge_request c = false) children /\
    let log := tdx_log k ++ children in
    let zap := zap_private_spte (it_gfn iter) (it_level iter) in
    let merge := merge_private_spt (it_gfn iter) (it_level iter) private_spt in
    let unzap := unzap_private_spte (it_gfn iter) (it_level iter) in
    (tdx_log k' = log /\ r <> 0 /\
     spte_at k' (sptep iter) = old_spte iter) \/
    (tdx_log k' = log ++ [zap] /\
     r = tdx_module E log zap /\ r <> 0 /\
     spte_at k' (sptep iter) = old_spte iter) \/
    (tdx_log k' = log ++ [zap; merge; unzap] /\
     tdx_module E log zap = 0 /\
     r = tdx_module E (log ++ [zap]) merge /\ r <> 0 /\
     spte_at k' (sptep iter) =
       if tdx_module E (log ++ [zap; merge]) unzap =? 0
       then old_spte iter
       else __private_zapped_spte (old_spte iter)) \/
    (tdx_log k' = log ++ [zap; merge] /\
     tdx_module E log zap = 0 /\
     tdx_module E (log ++ [zap]) merge = 0 /\
     r = - EAGAIN /\
     spte_at k' (sptep iter) = new_spte).
Proof.
  intros Hfrozen Hrun.
  unfold tdp_mmu_merge_private_spt in Hrun.
  unfold WARN_ON in Hrun. unfold bind at 1 2 3, ret at 1 2 3 in Hrun.
  unfold bind at 1 in Hrun.
  rewrite (try_cmpxchg64_match _ _ _ _ Hfrozen) in Hrun.
  cbn [negb] in Hrun.
  set (k0 := set_sptes _ k) in Hrun.
  assert (Hlog0 : tdx_log k0 = tdx_log k) by reflexivity.
  clearbody k0.
  apply bind_Done_inv in Hrun as (child_pt & k1 & Hderef & Hrun).
  apply deref_Done_inv in Hderef as (Hchild & ->).
  apply bind_Done_inv in Hrun as (child_sp & k1 & Hsp & Hrun).
  apply sp_at_Done_inv in Hsp as (Hsp & ->).
  unfold bind at 1 2, ret at 1 2 in Hrun.
  apply bind_Done_inv in Hrun as (child_iter & k1 & Hdown & Hrun).
  apply tdp_iter_step_down_Done_inv in Hdown as ->.
  apply bind_Done_inv in Hrun as ([goto_out r1] & k2 & Hloop & Hrun).
  destruct (asks_no_merge_merge_children _ _ _ _ _ _ _ _ _ _ _ Hloop)
    as (children & Hlog2 & Hchildren).
  rewrite Hlog0 in Hlog2.
  cbn [old_spte sptep iter_set_old_spte] in Hrun.
  assert (Hend : forall (restored rr rr' : Z) (it' : tdp_iter) (ka kb : kvm),
             (__kvm_tdp_mmu_write_spte (sptep iter) restored ;;;
              ret (rr, iter_set_old_spte restored
                         (iter_set_old_spte (old_spte iter) iter))) ka
               = Done (rr', it') kb ->
             rr' = rr /\ old_spte it' = restored /\
             spte_at kb (sptep iter) = restored /\ tdx_log kb = tdx_log ka).
  { intros restored rr rr' it' ka kb H.
    exact (merge_out_spec _ _ _ _ _ _ _ _ H). }
  destruct (goto_out || nonzero r1) eqn:Hfail.
  { (* a child could not be populated *)
    apply Hend in Hrun as (-> & Hi & Hs & Hl).
    split; [congruence|].
    exists children, 0. split; [exact Hchildren|]. left.
    split; [congruence|]. split; [|exact Hs].
    intros ->. destruct goto_out; cbn in Hfail; [|discriminate].
    exact (merge_children_out_nonzero _ _ _ _ _ _ _ _ _ _ _ Hloop eq_refl). }
  apply bind_Done_inv in Hrun as (rz & k3 & Hzap & Hrun).
  unfold static_call in Hzap. injection Hzap as <- <-.
  rewrite Hlog2 in Hrun.
  destruct (nonzero (tdx_module E (tdx_log k ++ children) _)) eqn:Hz.
  { (* the manager refuses to block the huge page *)
    apply Hend in Hrun as (-> & Hi & Hs & Hl).
    split; [congruence|].
    exists children, 0. split; [exact Hchildren|]. right. left.
    split; [exact Hl|]. split; [reflexivity|]. split; [|exact Hs].
    unfold nonzero in Hz. apply negb_true_iff, Z.eqb_neq in Hz. exact Hz. }
  unfold nonzero in Hz. apply negb_false_iff, Z.eqb_eq in Hz.
  apply bind_Done_inv in Hrun as ([] & k4 & Hflush & Hrun).
  unfold kvm_flush_remote_tlbs_range, modify in Hflush.
  inversion Hflush; subst k4; clear Hflush.
  apply bind_Done_inv in Hrun as (rm & k5 & Hmerge & Hrun).
  unfold static_call in Hmerge. inversion Hmerge; subst rm k5; clear Hmerge.
  cbn [tdx_log set_remote_tlb_flushes set_tdx_log] in Hrun.
  set (pspt := default 0 (kvm_mmu_private_spt child_sp)) in *.
  match type of Hrun with
  | (if nonzero ?x then _ else _) _ = _ => destruct (nonzero x) eqn:Hm
  end.
  - (* the manager refuses the merge *)
    unfold nonzero in Hm. apply negb_true_iff, Z.eqb_neq in Hm.
    apply bind_Done_inv in Hrun as (ru & k6 & Hunzap & Hrun).
    unfold static_call in Hunzap. inversion Hunzap; subst ru k6; clear Hunzap.
    cbn [tdx_log set_remote_tlb_flushes set_tdx_log] in Hrun.
    rewrite <- !app_assoc in Hrun. cbn [app] in Hrun.
    match type of Hrun with
    | (if nonzero ?x then _ else _) _ = _ => destruct (nonzero x) eqn:Hu
    end; unfold nonzero in Hu;
      [apply negb_true_iff in Hu | apply negb_false_iff in Hu];
      apply Hend in Hrun as (-> & Hi & Hs & Hl);
      (split; [congruence|]);
      exists children, pspt; (split; [exact Hchildren|]);
      right; right; left; cbn [tdx_log set_tdx_log] in Hl;
      rewrite <- ?app_assoc in *; cbn [app] in *;
      (split; [exact Hl|]);
      (split; [exact Hz|]); (split; [reflexivity|]); (split; [exact Hm|]);
      rewrite Hu; exact Hs.
  - (* merged *)
    unfold nonzero in Hm. apply negb_false_iff, Z.eqb_eq in Hm.
    unfold __kvm_tdp_mmu_write_spte, tdp_unaccount_mmu_page,
      kvm_account_pgtable_pages, tdp_mmu_free_sp in Hrun.
    munfold.
    assert (Hk' : old_spte iter' = new_spte /\
                  spte_at k' (sptep iter) = new_spte /\ r = - EAGAIN /\
                  tdx_log k' = (tdx_log k ++ children) ++
                     [zap_private_spte (it_gfn iter) (it_level iter);
                      merge_private_spt (it_gfn iter) (it_level iter) pspt]).
    { destruct (is_private_sp child_sp); cbn in Hrun;
        inversion Hrun; subst; clear Hrun; cbn;
        (split; [reflexivity|]);
        (split; [unfold spte_at; cbn; rewrite lookup_insert_eq; reflexivity|]);
        (split; [reflexivity|]);
        rewrite <- !app_assoc; reflexivity. }
    destruct Hk' as (Hi & Hs & Hr & Hl).
    split; [congruence|].
    exists children, pspt. split; [exact Hchildren|].
    right; right; right.
    rewrite <- ?app_assoc in *; cbn [app] in *.
    split; [exact Hl|]. split; [exact Hz|]. split; [exact Hm|].
    split; [exact Hr | exact Hs].
Qed.

(** ** Reclaim notifiers and the private roots *)

Lemma frames_tables_ret {A : Type} (a : A) : frames_tables (ret a).
Proof. intros k a' k' H. injection H as <- <-. repeat split. Qed.

Lemma frames_tables_bind {A B : Type} (m : M A) (f : A -> M B) :
  frames_tables m -> (forall a, frames_tables (f a)) ->
  frames_tables (bind m f).
Proof.
  intros Hm Hf k b k' Hrun.
  apply bind_Done_inv in Hrun as (a & k1 & Hrun1 & Hrun2).
  destruct (Hm _ _ _ Hrun1) as (Hs & Hp & Hg).
  destruct (Hf _ _ _ _ Hrun2) as (Hs2 & Hp2 & Hg2).
  repeat split; congruence.
Qed.

Lemma frames_tables_crash {A : Type} (c : fatal) : frames_tables (@crash A c).
Proof. intros k a k' H. discriminate H. Qed.

Lemma frames_tables_keeps {A : Type} (m : M A) :
  keeps_tables m -> frames_tables m.
Proof.
  intros Hm k a k' Hrun. destruct (Hm k) as (a' & k'' & Hrun' & H).
  rewrite Hrun in Hrun'. injection Hrun' as <- <-. exact H.
Qed.

Lemma frames_tables_deref {A : Type} (o : option A) : frames_tables (deref o).
Proof.
  intros k a k' H. apply deref_Done_inv in H as (_ & ->). repeat split.
Qed.

Lemma frames_tables_sp_at (spt : Z) : frames_tables (sp_at spt).
Proof.
  intros k a k' H. apply sp_at_Done_inv in H as (_ & ->). repeat split.
Qed.

Lemma frames_tables_read_spte (p : Z) : frames_tables (kvm_tdp_mmu_read_spte p).
Proof. intros k a k' H. injection H as <- <-. repeat split. Qed.

Create HintDb frames_tables.
#[local] Hint Resolve frames_tables_ret frames_tables_crash frames_tables_deref
  frames_tables_sp_at frames_tables_read_spte : frames_tables.
#[local] Hint Extern 1 (frames_tables _) =>
  (apply frames_tables_keeps; solve [auto with keeps_tables]) : frames_tables.

Ltac frames_tables_step :=
  match goal with
  | |- frames_tables (bind _ _) => apply frames_tables_bind; [|intros ?]
  | |- frames_tables (when ?b _) => unfold when; destruct b
  | |- frames_tables (WARN_ON _) => apply frames_tables_ret
  | |- frames_tables (if ?b then _ else _) => destruct b eqn:?
  | |- frames_tables _ => solve [auto with frames_tables]
  end.
Ltac frames_tables_auto := repeat frames_tables_step.

Lemma frames_tables_is_private_sptep (p : Z) : frames_tables (is_private_sptep p).
Proof. unfold is_private_sptep, sptep_to_sp. frames_tables_auto. Qed.
#[local] Hint Resolve frames_tables_is_private_sptep : frames_tables.

(** The bookkeeping of a change of a last-level entry writes no entry and
    tears no table down. *)
Lemma frames_tables_handle_changed_spte_last
    (removed_pt : Z -> bool -> M unit)
    (as_id gfn old_spte new_spte : Z) (role : kvm_mmu_page_role)
    (shared : bool) :
  is_last_spte old_spte (role_level role) = true ->
  frames_tables (handle_changed_spte_with E removed_pt as_id gfn old_spte
                                          new_spte role shared).
Proof.
  intros Hlast. unfold handle_changed_spte_with. rewrite Hlast.
  cbn [negb]. rewrite !andb_false_r. cbn [andb].
  frames_tables_auto.
Qed.

Lemma kvm_tdp_mmu_write_spte_Done_inv (p old_spte new_spte level r : Z)
    (k k' : kvm) :
  kvm_tdp_mmu_write_spte E p old_spte new_spte level k = Done r k' ->
  k' = set_sptes (<[p := new_spte]> (sptes k)) k.
Proof.
  unfold kvm_tdp_mmu_write_spte, kvm_tdp_mmu_write_spte_atomic,
    kvm_tdp_mmu_read_spte, __kvm_tdp_mmu_write_spte.
  destruct (kvm_tdp_mmu_spte_need_atomic_write E old_spte level); munfold;
    intros H; injection H as _ <-; reflexivity.
Qed.

(** [tdp_mmu_set_spte] on a 4K entry of a non-private table writes the new
    value into that entry and nothing else into the tables. *)
Lemma tdp_mmu_set_spte_4k_shared (as_id p old_spte new_spte gfn r : Z)
    (k k' : kvm) (sp : kvm_mmu_page) :
  sps k !! page_of p = Some sp ->
  is_private_sp sp = false ->
  tdp_mmu_set_spte E depth as_id p old_spte new_spte gfn PG_LEVEL_4K k
    = Done r k' ->
  sptes k' = <[p := new_spte]> (sptes k) /\ sps k' = sps k /\
  gfn_shared_mask k' = gfn_shared_mask k.
Proof.
  intros Hsp Hpriv Hrun. unfold tdp_mmu_set_spte in Hrun.
  unfold bind at 1 in Hrun. rewrite (is_private_sptep_lookup _ _ _ Hsp) in Hrun.
  unfold bind at 1, get at 1 in Hrun.
  unfold bind at 1, KVM_BUG_ON at 1 in Hrun.
  set (k1 := if negb _ then set_vm_bugged true k else k) in Hrun.
  assert (Hk1 : sptes k1 = sptes k /\ sps k1 = sps k /\
                gfn_shared_mask k1 = gfn_shared_mask k)
    by (unfold k1; case (negb _); repeat split).
  destruct Hk1 as (Hs1 & Hp1 & Hg1).
  unfold bind at 1, WARN_ON at 1, ret at 1 in Hrun.
  apply bind_Done_inv in Hrun as (old' & k2 & Hwrite & Hrun).
  apply kvm_tdp_mmu_write_spte_Done_inv in Hwrite. subst k2.
  set (k2 := set_sptes _ k1) in Hrun.
  assert (Hsp2 : sps k2 !! page_of p = Some sp)
    by (subst k2; cbn; rewrite Hp1; exact Hsp).
  unfold bind at 1 in Hrun. rewrite (is_private_sptep_lookup _ _ _ Hsp2) in Hrun.
  rewrite Hpriv in Hrun. cbn [andb] in Hrun.
  unfold bind at 1, ret at 1 in Hrun.
  unfold bind at 1 in Hrun. rewrite (sptep_to_sp_lookup _ _ _ Hsp2) in Hrun.
  apply bind_Done_inv in Hrun as ([] & k3 & Hhcs & Hrun).
  injection Hrun as _ <-.
  destruct (frames_tables_handle_changed_spte_last (handle_removed_pt E depth)
              as_id gfn old' new_spte
              (role_set_level PG_LEVEL_4K (sp_role sp)) false eq_refl
              _ _ _ Hhcs) as (Hs3 & Hp3 & Hg3).
  subst k2. cbn in *. rewrite Hs3, Hp3, Hg3, Hs1, Hp1, Hg1. repeat split.
Qed.

Lemma shared_table_sps (k k' : kvm) (spt level : Z) :
  sps k' = sps k -> shared_table k spt level -> shared_table k' spt level.
Proof.
  intros Hp (Hal & sp & Hsp & H). split; [exact Hal|].
  exists sp. rewrite Hp. split; assumption.
Qed.

Lemma shared_table_page (k : kvm) (spt level i : Z) :
  shared_table k spt level -> 0 <= i < SPTE_ENT_PER_PAGE ->
  page_of (ptr_add spt i) = spt.
Proof.
  intros ((H0 & Hhi & Hal) & _) Hi. apply page_of_ptr_add; assumption.
Qed.

Lemma shared_step_refl (k : kvm) : shared_step k k.
Proof.
  split; [reflexivity|]. split; [reflexivity|].
  split; [intros; reflexivity | auto].
Qed.

Lemma private_entry_sps (k k' : kvm) (a : Z) :
  sps k' = sps k -> private_entry k a -> private_entry k' a.
Proof. intros Hp (sp & Hsp & H). exists sp. rewrite Hp. split; assumption. Qed.

Lemma shared_step_trans (k1 k2 k3 : kvm) :
  shared_step k1 k2 -> shared_step k2 k3 -> shared_step k1 k3.
Proof.
  intros (Hp & Hg & Hpriv & Hcl) (Hp' & Hg' & Hpriv' & Hcl').
  split; [congruence|]. split; [congruence|]. split; [|auto].
  intros a Ha. rewrite Hpriv' by (eapply private_entry_sps; eassumption).
  apply Hpriv, Ha.
Qed.

Lemma shared_step_frames (k k' : kvm) :
  sptes k' = sptes k -> sps k' = sps k ->
  gfn_shared_mask k' = gfn_shared_mask k -> shared_step k k'.
Proof.
  intros Hs Hp Hg. split; [exact Hp|]. split; [exact Hg|]. split.
  - intros a _. unfold spte_at. rewrite Hs. reflexivity.
  - intros Hcl spt level i child Htab Hi Hchild.
    apply (shared_table_sps k' k) in Htab; [|congruence].
    apply (shared_table_sps k k'); [exact Hp|].
    apply (Hcl spt level i child Htab Hi).
    unfold spte_at in *. rewrite <- Hs. exact Hchild.
Qed.

(** Writing, into a slot of a non-private table, a value that links the
    child the slot linked before, or none, is a step that keeps the
    private tables. *)
Lemma shared_write_step (k k' : kvm) (spt level i v : Z) :
  shared_table k spt level ->
  0 <= i < SPTE_ENT_PER_PAGE ->
  sptes k' = <[ptr_add spt i := v]> (sptes k) ->
  sps k' = sps k ->
  gfn_shared_mask k' = gfn_shared_mask k ->
  spte_to_child_pt v level = None \/
  spte_to_child_pt v level = spte_to_child_pt (spte_at k (ptr_add spt i)) level ->
  shared_step k k'.
Proof.
  intros Htab Hi Hs Hp Hg Hv.
  pose proof (shared_table_page _ _ _ _ Htab Hi) as Hpage.
  split; [exact Hp|]. split; [exact Hg|]. split.
  - intros a (sp & Hsp & Hpriv). unfold spte_at. rewrite Hs.
    rewrite lookup_insert_ne; [reflexivity|].
    intros <-. rewrite Hpage in Hsp.
    destruct Htab as (_ & sp' & Hsp' & Hnp & _). congruence.
  - intros Hcl spt' level' i' child Htab' Hi' Hchild.
    apply (shared_table_sps k' k) in Htab'; [|congruence].
    apply (shared_table_sps k k'); [exact Hp|].
    pose proof (shared_table_page _ _ _ _ Htab' Hi') as Hpage'.
    unfold spte_at in Hchild. rewrite Hs in Hchild.
    destruct (decide (ptr_add spt i = ptr_add spt' i')) as [Heq|Hne].
    + rewrite Heq, lookup_insert_eq in Hchild. cbn in Hchild.
      assert (spt' = spt) by congruence. subst spt'.
      assert (level' = level).
      { destruct Htab as (_ & sp1 & Hsp1 & _ & Hl1).
        destruct Htab' as (_ & sp2 & Hsp2 & _ & Hl2). congruence. }
      subst level'.
      destruct Hv as [Hv|Hv]; [congruence|].
      apply (Hcl spt level i child Htab Hi). congruence.
    + rewrite lookup_insert_ne in Hchild by exact Hne.
      exact (Hcl spt' level' i' child Htab' Hi' Hchild).
Qed.

Lemma same_position_refl (iter : tdp_iter) : same_position iter iter.
Proof. destruct iter. reflexivity. Qed.

Lemma same_position_set (iter : tdp_iter) (v : Z) :
  same_position iter (iter_set_old_spte v iter).
Proof. destruct iter. reflexivity. Qed.

Lemma same_position_trans (i1 i2 i3 : tdp_iter) :
  same_position i1 i2 -> same_position i2 i3 -> same_position i1 i3.
Proof.
  unfold same_position. intros H12 H23. rewrite H23. rewrite H12.
  destruct i1. reflexivity.
Qed.

Lemma tdp_mmu_clear_spte_bits_Done_inv (p old_spte mask level r : Z)
    (k k' : kvm) :
  tdp_mmu_clear_spte_bits E p old_spte mask level k = Done r k' ->
  exists x, (x = old_spte \/ x = spte_at k p) /\
            k' = set_sptes (<[p := Z.land x (not64 mask)]> (sptes k)) k.
Proof.
  unfold tdp_mmu_clear_spte_bits, kvm_tdp_mmu_read_spte,
    __kvm_tdp_mmu_write_spte.
  destruct (kvm_tdp_mmu_spte_need_atomic_write E old_spte level); munfold;
    intros H; injection H as _ <-.
  - exists (spte_at k p). split; [right|]; reflexivity.
  - exists old_spte. split; [left|]; reflexivity.
Qed.

Lemma test_age_gfn_in_shared : handler_in_shared test_age_gfn.
Proof.
  intros range iter k r iter' k' spt i _ _ _ _ Hrun.
  unfold test_age_gfn, ret in Hrun. injection Hrun as _ <- <-.
  split; [apply shared_step_refl | apply same_position_refl].
Qed.

Lemma age_gfn_range_in_shared :
  access_track_keeps_huge E -> handler_in_shared (age_gfn_range E).
Proof.
  intros Htrack range iter k r iter' k' spt i Htab Hi Hptr Hlast Hrun.
  unfold age_gfn_range in Hrun.
  destruct (negb (is_accessed_spte (old_spte iter))).
  { unfold ret in Hrun. injection Hrun as _ <- <-.
    split; [apply shared_step_refl | apply same_position_refl]. }
  destruct (spte_ad_enabled (old_spte iter)).
  - apply bind_Done_inv in Hrun as (old & k1 & Hclear & Hrun).
    unfold ret in Hrun. injection Hrun as _ <- <-.
    apply tdp_mmu_clear_spte_bits_Done_inv in Hclear as (x & Hx & ->).
    split; [|apply same_position_set].
    rewrite Hptr.
    apply (shared_write_step k _ spt (it_level iter) i
             (Z.land x (not64 shadow_accessed_mask)) Htab Hi);
      try reflexivity.
    rewrite clear_accessed_child_pt. destruct Hx as [-> | ->].
    + left. apply spte_to_child_pt_last, Hlast.
    + right. rewrite Hptr. reflexivity.
  - apply bind_Done_inv in Hrun as ([] & k1 & Hdirty & Hrun).
    apply bind_Done_inv in Hrun as (old & k2 & Hwrite & Hrun).
    unfold ret in Hrun. injection Hrun as _ <- <-.
    apply kvm_tdp_mmu_write_spte_Done_inv in Hwrite. subst k2.
    assert (Hk1 : sptes k1 = sptes k /\ sps k1 = sps k /\
                  gfn_shared_mask k1 = gfn_shared_mask k).
    { unfold when, kvm_set_pfn_dirty, modify, ret in Hdirty.
      destruct (is_writable_pte (old_spte iter));
        injection Hdirty as <-; repeat split. }
    destruct Hk1 as (Hs1 & Hp1 & Hg1).
    split; [|apply same_position_set].
    rewrite Hptr.
    apply (shared_write_step k _ spt (it_level iter) i
             (mark_spte_for_access_track E (old_spte iter)) Htab Hi);
      cbn; try congruence.
    left. apply spte_to_child_pt_last.
    unfold is_last_spte in *. rewrite Htrack. exact Hlast.
Qed.

Lemma private_zapped_spte_Done_inv (iter : tdp_iter) (z : Z) (k k' : kvm) :
  private_zapped_spte iter k = Done z k' -> k' = k.
Proof.
  unfold private_zapped_spte. unfold bind at 1, get at 1.
  destruct (negb (nonzero (kvm_gfn_shared_mask k))).
  - unfold ret. intros H. injection H as _ <-. reflexivity.
  - intros H. apply bind_Done_inv in H as (b & k1 & Hp & H).
    apply frames_tables_is_private_sptep in Hp as Hf.
    unfold is_private_sptep in Hp.
    apply bind_Done_inv in Hp as (sp & k2 & Hsp & Hp).
    unfold sptep_to_sp in Hsp. apply sp_at_Done_inv in Hsp as (_ & ->).
    unfold ret in Hp. injection Hp as _ <-.
    destruct b; unfold ret in H; injection H as _ <-; reflexivity.
Qed.

Lemma tdp_mmu_iter_set_spte_4k_shared (iter iter' : tdp_iter) (new_spte : Z)
    (k k' : kvm) (spt i : Z) :
  shared_table k spt PG_LEVEL_4K ->
  0 <= i < SPTE_ENT_PER_PAGE ->
  sptep iter = ptr_add spt i ->
  it_level iter = PG_LEVEL_4K ->
  tdp_mmu_iter_set_spte E depth iter new_spte k = Done iter' k' ->
  shared_step k k' /\ same_position iter iter'.
Proof.
  intros Htab Hi Hptr Hlvl Hrun. unfold tdp_mmu_iter_set_spte in Hrun.
  unfold bind at 1, WARN_ON at 1, ret at 1 in Hrun.
  apply bind_Done_inv in Hrun as (old & k1 & Hset & Hrun).
  unfold ret in Hrun. injection Hrun as <- <-.
  split; [|apply same_position_set].
  rewrite Hlvl in Hset.
  pose proof (shared_table_page _ _ _ _ Htab Hi) as Hpage.
  destruct Htab as (Hal & sp & Hsp & Hnp & Hl).
  rewrite <- Hpage, <- Hptr in Hsp.
  destruct (tdp_mmu_set_spte_4k_shared _ _ _ _ _ _ _ _ _ Hsp Hnp Hset)
    as (Hs & Hp & Hg).
  rewrite Hptr in Hs.
  apply (shared_write_step k k1 spt PG_LEVEL_4K i new_spte); try assumption.
  - split; [exact Hal|]. exists sp. rewrite Hptr, Hpage in Hsp.
    repeat split; assumption.
  - left. apply spte_to_child_pt_4k.
Qed.

Lemma set_spte_gfn_in_shared : handler_in_shared (set_spte_gfn E depth).
Proof.
  intros range iter k r iter' k' spt i Htab Hi Hptr Hlast Hrun.
  unfold set_spte_gfn in Hrun.
  unfold bind at 1, WARN_ON at 1, ret at 1 in Hrun.
  destruct (it_level iter =? PG_LEVEL_4K) eqn:Hlvl; cbn [negb orb] in Hrun.
  2:{ unfold ret in Hrun. injection Hrun as _ <- <-.
      split; [apply shared_step_refl | apply same_position_refl]. }
  apply Z.eqb_eq in Hlvl.
  destruct (negb (is_shadow_present_pte (old_spte iter))).
  { unfold ret in Hrun. injection Hrun as _ <- <-.
    split; [apply shared_step_refl | apply same_position_refl]. }
  apply bind_Done_inv in Hrun as (z & k1 & Hz & Hrun).
  apply private_zapped_spte_Done_inv in Hz. subst k1.
  apply bind_Done_inv in Hrun as (iter1 & k1 & Hset1 & Hrun).
  rewrite Hlvl in Htab.
  destruct (tdp_mmu_iter_set_spte_4k_shared _ _ _ _ _ _ _ Htab Hi Hptr Hlvl Hset1)
    as (Hstep1 & Hpos1).
  apply bind_Done_inv in Hrun as (iter2 & k2 & Hset2 & Hrun).
  unfold ret in Hrun. injection Hrun as _ <- <-.
  destruct (negb (range_pte_write range)).
  - assert (Htab1 : shared_table k1 spt PG_LEVEL_4K)
      by (apply (shared_table_sps k k1); [apply Hstep1 | exact Htab]).
    assert (Hptr1 : sptep iter1 = ptr_add spt i)
      by (rewrite Hpos1; exact Hptr).
    assert (Hlvl1 : it_level iter1 = PG_LEVEL_4K)
      by (rewrite Hpos1; exact Hlvl).
    destruct (tdp_mmu_iter_set_spte_4k_shared _ _ _ _ _ _ _ Htab1 Hi Hptr1
                Hlvl1 Hset2) as (Hstep2 & Hpos2).
    split; [eapply shared_step_trans | eapply same_position_trans];
      eassumption.
  - unfold ret in Hset2. injection Hset2 as <- <-.
    split; assumption.
Qed.

(** *** The cursor stays in the non-private tables *)

Lemma path_lookup_insert_eq (path : list Z) (n v : Z) :
  length path = 5%nat -> 0 <= n < 5 ->
  default 0 (<[Z.to_nat n := v]> path !! Z.to_nat n) = v.
Proof. intros Hlen Hn. rewrite list_lookup_insert_eq by lia. reflexivity. Qed.

Lemma path_lookup_insert_ne (path : list Z) (n m v : Z) :
  0 <= n -> 0 <= m -> n <> m ->
  default 0 (<[Z.to_nat n := v]> path !! Z.to_nat m) =
  default 0 (path !! Z.to_nat m).
Proof. intros Hn Hm Hne. rewrite list_lookup_insert_ne by lia. reflexivity. Qed.

Ltac split_path := split; [|split; [|split; [|split]]].

Lemma tdp_iter_refresh_sptep_in_shared (i i' : tdp_iter) (k k' : kvm) :
  path_in_shared k i ->
  tdp_iter_refresh_sptep i k = Done i' k' ->
  k' = k /\ iter_in_shared k i' /\ root_level i' = root_level i /\
  it_level i' = it_level i /\ valid i' = valid i.
Proof.
  intros Hpath Hrun. unfold tdp_iter_refresh_sptep, kvm_tdp_mmu_read_spte in Hrun.
  munfold. injection Hrun as <- <-.
  split; [reflexivity|]. split; [|split; [|split]; reflexivity].
  split; [exact Hpath | reflexivity].
Qed.

Lemma iter_in_shared_set_valid (k : kvm) (i : tdp_iter) (b : bool) :
  iter_in_shared k i -> iter_in_shared k (iter_set_valid b i).
Proof. intros H. exact H. Qed.

Lemma iter_in_shared_same_position (k : kvm) (i i' : tdp_iter) :
  same_position i i' -> iter_in_shared k i -> iter_in_shared k i'.
Proof. unfold same_position. intros -> H. exact H. Qed.

Lemma iter_in_shared_sps (k k' : kvm) (i : tdp_iter) :
  sps k' = sps k -> iter_in_shared k i -> iter_in_shared k' i.
Proof.
  intros Hp ((Hlen & Hlvl & Hroot & Hgfn & Hpath) & Hptr).
  split; [|exact Hptr]. split_path; try assumption.
  intros l Hl. apply (shared_table_sps k k'); auto.
Qed.

Lemma tdp_iter_restart_from_root (i i' : tdp_iter) (k k' : kvm) :
  length (pt_path i) = 5%nat ->
  1 <= root_level i <= 5 ->
  shared_table k (pt_path_at i (root_level i - 1)) (root_level i) ->
  tdp_iter_restart i k = Done i' k' ->
  k' = k /\ iter_in_shared k i'.
Proof.
  intros Hlen Hroot Htab Hrun.
  unfold tdp_iter_restart in Hrun.
  apply bind_Done_inv in Hrun as (i1 & k1 & Hrefresh & Hrun).
  unfold ret in Hrun. injection Hrun as <- <-.
  apply tdp_iter_refresh_sptep_in_shared in Hrefresh as (-> & Hin & _).
  - split; [reflexivity | exact Hin].
  - split_path; cbn; try assumption; try lia;
      try apply gfn_round_for_level_bound.
    intros l Hl. replace l with (root_level i) by lia. exact Htab.
Qed.

Lemma tdp_iter_restart_in_shared (i i' : tdp_iter) (k k' : kvm) :
  iter_in_shared k i ->
  tdp_iter_restart i k = Done i' k' ->
  k' = k /\ iter_in_shared k i'.
Proof.
  intros ((Hlen & Hlvl & Hroot & Hgfn & Hpath) & _).
  apply tdp_iter_restart_from_root; [assumption | lia | apply Hpath; lia].
Qed.

Lemma try_step_down_in_shared (i i' : tdp_iter) (b : bool) (k k' : kvm) :
  iter_in_shared k i -> shared_closed k ->
  try_step_down i k = Done (b, i') k' ->
  k' = k /\ iter_in_shared k i'.
Proof.
  intros Hin Hcl Hrun. unfold try_step_down in Hrun.
  destruct (it_level i =? min_level i).
  { unfold ret in Hrun. injection Hrun as _ <- <-. split; [reflexivity|exact Hin]. }
  unfold bind at 1, kvm_tdp_mmu_read_spte at 1, gets at 1 in Hrun.
  destruct (spte_to_child_pt (spte_at k (sptep i))
              (it_level (iter_set_old_spte (spte_at k (sptep i)) i)))
    as [child_pt|] eqn:Hchild.
  2:{ unfold ret in Hrun. injection Hrun as _ <- <-.
      split; [reflexivity|]. exact Hin. }
  apply bind_Done_inv in Hrun as (i1 & k1 & Hdown & Hrun).
  unfold ret in Hrun. injection Hrun as _ <- <-.
  destruct Hin as ((Hlen & Hlvl & Hroot & Hgfn & Hpath) & Hptr).
  change (it_level (iter_set_old_spte (spte_at k (sptep i)) i))
    with (it_level i) in Hchild.
  assert (Hl2 : 2 <= it_level i).
  { destruct (Z.eq_dec (it_level i) 1) as [H1|]; [|lia].
    rewrite H1 in Hchild. change 1 with PG_LEVEL_4K in Hchild.
    rewrite spte_to_child_pt_4k in Hchild. discriminate. }
  assert (Hctab : shared_table k child_pt (it_level i - 1)).
  { apply (Hcl (pt_path_at i (it_level i - 1)) (it_level i)
               (SPTE_INDEX (wrap64 (Z.shiftl (it_gfn i) PAGE_SHIFT)) (it_level i))).
    - apply Hpath. lia.
    - apply SPTE_INDEX_range.
    - rewrite <- Hptr. exact Hchild. }
  unfold tdp_iter_step_down in Hdown.
  apply tdp_iter_refresh_sptep_in_shared in Hdown as (-> & Hin1 & _).
  - split; [reflexivity | exact Hin1].
  - split_path; cbn; try lia; try apply gfn_round_for_level_bound.
    + rewrite length_insert. exact Hlen.
    + intros l Hl. destruct (Z.eq_dec l (it_level i - 1)) as [->|Hne].
      * unfold pt_path_at. cbn [pt_path].
        rewrite path_lookup_insert_eq by (assumption || lia).
        exact Hctab.
      * unfold pt_path_at. cbn [pt_path].
        rewrite path_lookup_insert_ne by lia.
        apply Hpath. lia.
Qed.

Lemma try_step_side_in_shared (i i' : tdp_iter) (b : bool) (k k' : kvm) :
  iter_in_shared k i ->
  try_step_side i k = Done (b, i') k' ->
  k' = k /\ iter_in_shared k i'.
Proof.
  intros Hin Hrun. unfold try_step_side in Hrun.
  destruct (SPTE_INDEX (wrap64 (Z.shiftl (it_gfn i) PAGE_SHIFT)) (it_level i)
            =? SPTE_ENT_PER_PAGE - 1) eqn:Hidx.
  { unfold ret in Hrun. injection Hrun as _ <- <-. split; [reflexivity|exact Hin]. }
  apply Z.eqb_neq in Hidx.
  unfold tdp_iter_step_side, kvm_tdp_mmu_read_spte in Hrun. munfold.
  injection Hrun as _ <- <-. split; [reflexivity|].
  destruct Hin as ((Hlen & Hlvl & Hroot & Hgfn & Hpath) & Hptr).
  destruct (SPTE_INDEX_step (it_gfn i) (it_level i) Hgfn ltac:(lia) Hidx)
    as (Hbound & Hnext).
  split; [split_path; cbn; try assumption; try lia|].
  unfold pt_path_at in *. cbn [sptep it_gfn it_level pt_path].
  rewrite Hnext, Hptr. unfold ptr_add. lia.
Qed.

Lemma try_step_up_in_shared (i i' : tdp_iter) (b : bool) (k k' : kvm) :
  iter_in_shared k i ->
  try_step_up i k = Done (b, i') k' ->
  k' = k /\ iter_in_shared k i'.
Proof.
  intros Hin Hrun. unfold try_step_up in Hrun.
  destruct (it_level i =? root_level i) eqn:Hroot'.
  { unfold ret in Hrun. injection Hrun as _ <- <-. split; [reflexivity|exact Hin]. }
  apply Z.eqb_neq in Hroot'.
  apply bind_Done_inv in Hrun as (i1 & k1 & Hrefresh & Hrun).
  unfold ret in Hrun. injection Hrun as _ <- <-.
  destruct Hin as ((Hlen & Hlvl & Hroot & Hgfn & Hpath) & Hptr).
  apply tdp_iter_refresh_sptep_in_shared in Hrefresh as (-> & Hin1 & _).
  - split; [reflexivity | exact Hin1].
  - split_path; cbn; try assumption; try lia;
      try apply gfn_round_for_level_bound.
    intros l Hl. apply Hpath. lia.
Qed.

Lemma step_side_or_up_in_shared (n : nat) (i i' : tdp_iter) (k k' : kvm) :
  iter_in_shared k i ->
  step_side_or_up n i k = Done i' k' ->
  k' = k /\ iter_in_shared k i'.
Proof.
  revert i. induction n as [|n IH]; intros i Hin Hrun;
    cbn [step_side_or_up] in Hrun;
    apply bind_Done_inv in Hrun as ([moved i1] & k1 & Hside & Hrun);
    apply try_step_side_in_shared in Hside as (-> & Hin1); try exact Hin;
    destruct moved;
    try (unfold ret in Hrun; injection Hrun as <- <-;
         split; [reflexivity | exact Hin1]);
    apply bind_Done_inv in Hrun as ([up i2] & k2 & Hup & Hrun);
    apply try_step_up_in_shared in Hup as (-> & Hin2); try exact Hin1;
    destruct up;
    try (unfold ret in Hrun; injection Hrun as <- <-;
         split; [reflexivity | exact Hin2]).
  - discriminate Hrun.
  - exact (IH _ Hin2 Hrun).
Qed.

Lemma tdp_iter_next_in_shared (i i' : tdp_iter) (k k' : kvm) :
  iter_in_shared k i -> shared_closed k ->
  tdp_iter_next i k = Done i' k' ->
  k' = k /\ iter_in_shared k i'.
Proof.
  intros Hin Hcl Hrun. unfold tdp_iter_next in Hrun.
  destruct (yielded i).
  - exact (tdp_iter_restart_in_shared _ _ _ _ Hin Hrun).
  - apply bind_Done_inv in Hrun as ([down i1] & k1 & Hdown & Hrun).
    apply try_step_down_in_shared in Hdown as (-> & Hin1); try assumption.
    destruct down.
    + unfold ret in Hrun. injection Hrun as <- <-.
      split; [reflexivity | exact Hin1].
    + exact (step_side_or_up_in_shared _ _ _ _ _ Hin1 Hrun).
Qed.

Lemma tdp_iter_start_in_shared (root min_lvl gfn : Z) (i : tdp_iter)
    (k k' : kvm) (sp : kvm_mmu_page) :
  sps k !! root = Some sp ->
  is_private_sp sp = false ->
  table_aligned root ->
  tdp_iter_start empty_iter root min_lvl gfn k = Done i k' ->
  k' = k /\ (valid i = false \/ iter_in_shared k i).
Proof.
  intros Hsp Hnp Hal Hrun. unfold tdp_iter_start in Hrun.
  unfold bind at 1, get at 1 in Hrun. rewrite Hsp in Hrun.
  destruct ((role_level (sp_role sp) <? 1) ||
            (PT64_ROOT_MAX_LEVEL <? role_level (sp_role sp))) eqn:Hlvl.
  - unfold ret in Hrun. injection Hrun as <- <-.
    split; [reflexivity | left; reflexivity].
  - apply orb_false_elim in Hlvl as (H1 & H5).
    apply Z.ltb_ge in H1, H5. unfold PT64_ROOT_MAX_LEVEL in H5.
    apply tdp_iter_restart_from_root in Hrun as (-> & Hin).
    + split; [reflexivity | right; exact Hin].
    + cbn. rewrite length_insert. reflexivity.
    + cbn. lia.
    + unfold pt_path_at. cbn [pt_path root_level empty_iter].
      rewrite path_lookup_insert_eq by (reflexivity || lia).
      split; [exact Hal|]. exists sp. repeat split; assumption.
Qed.

Lemma leaf_pte_body_in_shared
    (handler : tdp_iter -> kvm_gfn_range -> M (bool * tdp_iter))
    (range : kvm_gfn_range) (iter iter' : tdp_iter) (acc acc' : bool)
    (ctl : loop_ctl) (k k' : kvm) :
  handler_in_shared handler ->
  iter_in_shared k iter ->
  leaf_pte_body handler range iter acc k = Done (ctl, iter', acc') k' ->
  shared_step k k' /\ same_position iter iter' /\ ctl = Next.
Proof.
  intros Hh Hin Hrun. unfold leaf_pte_body in Hrun.
  destruct (negb (is_shadow_present_pte (old_spte iter)) &&
            negb (is_private_zapped_spte (old_spte iter))
            || negb (is_last_spte (old_spte iter) (it_level iter))) eqn:Hf.
  - unfold ret in Hrun. injection Hrun as <- <- _ <-.
    split; [apply shared_step_refl|]. split; [apply same_position_refl|].
    reflexivity.
  - apply orb_false_elim in Hf as (_ & Hlast). apply negb_false_iff in Hlast.
    apply bind_Done_inv in Hrun as ([r iter1] & k1 & Hrun1 & Hrun).
    unfold ret in Hrun. injection Hrun as <- <- _ <-.
    destruct Hin as ((Hlen & Hlvl & Hroot & Hgfn & Hpath) & Hptr).
    assert (Htab := Hpath (it_level iter) ltac:(lia)).
    destruct (Hh range iter k r iter1 k1 _ _ Htab
                 (SPTE_INDEX_range _ _) Hptr Hlast Hrun1) as (Hstep & Hpos).
    split; [exact Hstep|]. split; [exact Hpos | reflexivity].
Qed.

Lemma tdp_loop_in_shared
    (handler : tdp_iter -> kvm_gfn_range -> M (bool * tdp_iter))
    (range : kvm_gfn_range) (end_gfn : Z) (n : nat) :
  handler_in_shared handler ->
  forall (check : bool) (iter : tdp_iter) (acc : bool) (k k' : kvm)
         (res : bool * tdp_iter * bool),
    iter_in_shared k iter -> shared_closed k ->
    tdp_loop n end_gfn (leaf_pte_body handler range) check iter acc k
      = Done res k' ->
    shared_step k k'.
Proof.
  intros Hh. induction n as [|n IH];
    intros check iter acc k k' res Hin Hcl Hrun; cbn [tdp_loop] in Hrun;
    destruct (check && negb (valid iter && (it_gfn iter <? end_gfn)));
    try (unfold ret in Hrun; injection Hrun as _ <-; apply shared_step_refl).
  - discriminate Hrun.
  - apply bind_Done_inv in Hrun as ([[ctl iter1] acc1] & k1 & Hbody & Hrun).
    destruct (leaf_pte_body_in_shared _ _ _ _ _ _ _ _ _ Hh Hin Hbody)
      as (Hstep & Hpos & ->).
    assert (Hin1 : iter_in_shared k1 iter1).
    { apply (iter_in_shared_sps k k1); [apply Hstep|].
      exact (iter_in_shared_same_position _ _ _ Hpos Hin). }
    assert (Hcl1 : shared_closed k1) by (apply Hstep, Hcl).
    apply bind_Done_inv in Hrun as (iter2 & k2 & Hnext & Hrun).
    apply tdp_iter_next_in_shared in Hnext as (-> & Hin2); try assumption.
    apply (shared_step_trans k k1 k'); [exact Hstep|].
    exact (IH _ _ _ _ _ _ Hin2 Hcl1 Hrun).
Qed.

Lemma handle_gfn_root_in_shared (walk_fuel : nat)
    (handler : tdp_iter -> kvm_gfn_range -> M (bool * tdp_iter))
    (range : kvm_gfn_range) (root : Z) (sp : kvm_mmu_page)
    (acc acc' : bool) (k k' : kvm) :
  handler_in_shared handler ->
  sps k !! root = Some sp ->
  table_aligned root ->
  shared_closed k ->
  handle_gfn_root walk_fuel range handler root sp acc k = Done acc' k' ->
  shared_step k k'.
Proof.
  intros Hh Hsp Hal Hcl Hrun. unfold handle_gfn_root in Hrun.
  destruct (is_private_sp sp) eqn:Hnp.
  { unfold ret in Hrun. injection Hrun as _ <-. apply shared_step_refl. }
  unfold bind at 1, get at 1 in Hrun.
  apply bind_Done_inv in Hrun as ([res acc1] & k1 & Hwalk & Hrun).
  unfold ret in Hrun. injection Hrun as _ <-.
  unfold for_each_tdp_pte_min_level in Hwalk.
  apply bind_Done_inv in Hwalk as (iter & k0 & Hstart & Hloop).
  apply (tdp_iter_start_in_shared _ _ _ _ _ _ _ Hsp Hnp Hal) in Hstart
    as (-> & [Hinv|Hin]).
  - destruct walk_fuel; cbn [tdp_loop] in Hloop; rewrite Hinv in Hloop;
      cbn in Hloop; unfold ret in Hloop; injection Hloop as _ _ <-;
      apply shared_step_refl.
  - exact (tdp_loop_in_shared _ _ _ _ Hh _ _ _ _ _ _ Hin Hcl Hloop).
Qed.

Lemma for_each_root_in_shared (walk_fuel : nat)
    (handler : tdp_iter -> kvm_gfn_range -> M (bool * tdp_iter))
    (range : kvm_gfn_range) (roots : list Z) :
  handler_in_shared handler ->
  Forall table_aligned roots ->
  forall (acc acc' : bool) (k k' : kvm),
    shared_closed k ->
    for_each_tdp_mmu_root_in roots (range_as_id range)
      (handle_gfn_root walk_fuel range handler) acc k = Done acc' k' ->
    shared_step k k'.
Proof.
  intros Hh. induction 1 as [|root rest Hal _ IH];
    intros acc acc' k k' Hcl Hrun; cbn [for_each_tdp_mmu_root_in] in Hrun.
  - unfold ret in Hrun. injection Hrun as _ <-. apply shared_step_refl.
  - apply bind_Done_inv in Hrun as (sp & k0 & Hsp & Hrun).
    apply sp_at_Done_inv in Hsp as (Hsp & ->).
    apply bind_Done_inv in Hrun as (acc1 & k1 & Hroot & Hrun).
    assert (Hstep : shared_step k k1).
    { destruct (negb (kvm_mmu_page_as_id sp =? range_as_id range)).
      - unfold ret in Hroot. injection Hroot as _ <-. apply shared_step_refl.
      - exact (handle_gfn_root_in_shared _ _ _ _ _ _ _ _ _ Hh Hsp Hal Hcl
                 Hroot). }
    apply (shared_step_trans k k1 k'); [exact Hstep|].
    apply (IH acc1 acc' k1 k'); [apply Hstep, Hcl | exact Hrun].
Qed.

(** Running over the roots gives what running over the non-private roots
    alone gives: a private root contributes nothing. *)
Lemma for_each_root_skips_private (walk_fuel : nat)
    (handler : tdp_iter -> kvm_gfn_range -> M (bool * tdp_iter))
    (range : kvm_gfn_range) (k0 : kvm) (roots : list Z) :
  handler_in_shared handler ->
  Forall table_aligned roots ->
  forall (acc : bool) (k : kvm),
    sps k = sps k0 -> shared_closed k ->
    for_each_tdp_mmu_root_in roots (range_as_id range)
      (handle_gfn_root walk_fuel range handler) acc k =
    for_each_tdp_mmu_root_in (List.filter (root_not_private k0) roots)
      (range_as_id range) (handle_gfn_root walk_fuel range handler) acc k.
Proof.
  intros Hh. induction 1 as [|root rest Hal _ IH]; intros acc k Hp Hcl;
    [reflexivity|].
  cbn [List.filter]. destruct (root_not_private k0 root) eqn:Hnp;
    unfold root_not_private in Hnp;
    destruct (sps k0 !! root) as [sp|] eqn:Hsp; try discriminate Hnp.
  - assert (Hspk : sps k !! root = Some sp) by (rewrite Hp; exact Hsp).
    cbn [for_each_tdp_mmu_root_in]. unfold bind at 1 3.
    rewrite (sp_at_lookup _ _ _ Hspk).
    unfold bind at 1 2.
    destruct ((if negb (kvm_mmu_page_as_id sp =? range_as_id range)
               then ret acc
               else handle_gfn_root walk_fuel range handler root sp acc) k)
      as [acc1 k1| | |] eqn:Hroot; try reflexivity.
    assert (Hstep : shared_step k k1).
    { destruct (negb (kvm_mmu_page_as_id sp =? range_as_id range)).
      - unfold ret in Hroot. injection Hroot as _ <-. apply shared_step_refl.
      - exact (handle_gfn_root_in_shared _ _ _ _ _ _ _ _ _ Hh Hspk Hal Hcl
                 Hroot). }
    apply IH; [|apply Hstep, Hcl].
    destruct Hstep as (Hp1 & _). congruence.
  - assert (Hspk : sps k !! root = None) by (rewrite Hp; exact Hsp).
    cbn [for_each_tdp_mmu_root_in]. unfold bind at 1 3.
    unfold sp_at, bind, get, deref. rewrite Hspk. reflexivity.
  - assert (Hspk : sps k !! root = Some sp) by (rewrite Hp; exact Hsp).
    apply negb_false_iff in Hnp.
    cbn [for_each_tdp_mmu_root_in]. unfold bind at 1.
    rewrite (sp_at_lookup _ _ _ Hspk).
    assert (Hskip : (if negb (kvm_mmu_page_as_id sp =? range_as_id range)
                     then ret acc
                     else handle_gfn_root walk_fuel range handler root sp acc) k
                    = Done acc k).
    { unfold handle_gfn_root. rewrite Hnp.
      destruct (negb _); reflexivity. }
    unfold bind at 1. rewrite Hskip. apply IH; assumption.
Qed.

Lemma notifier_handler_in_shared (op : notifier_op) :
  access_track_keeps_huge E ->
  handler_in_shared (notifier_handler E depth op).
Proof.
  intros Htrack. destruct op; cbn.
  - apply age_gfn_range_in_shared, Htrack.
  - apply test_age_gfn_in_shared.
  - apply set_spte_gfn_in_shared.
Qed.

(** C10: the reclaim notifiers routed through [kvm_tdp_mmu_handle_gfn]
    (age, test-age, set-spte) pass over every private root.  In a guest
    whose non-private tables link non-private tables only, the run is the
    run over the non-private roots alone, so that only these contribute to
    the boolean returned, and when it completes every entry of every
    private table (the private roots and the tables below them) holds the
    value it held before, and no shadow page has changed. *)
Theorem handle_gfn_skips_private_roots
    (walk_fuel : nat) (op : notifier_op) (range : kvm_gfn_range) (k : kvm) :
  access_track_keeps_huge E ->
  shared_closed k ->
  Forall table_aligned (tdp_mmu_roots k) ->
  kvm_tdp_mmu_handle_gfn walk_fuel range (notifier_handler E depth op) k =
    for_each_tdp_mmu_root_in
      (List.filter (root_not_private k) (tdp_mmu_roots k))
      (range_as_id range)
      (handle_gfn_root walk_fuel range (notifier_handler E depth op)) false k
  /\
  forall r k',
    kvm_tdp_mmu_handle_gfn walk_fuel range (notifier_handler E depth op) k
      = Done r k' ->
    sps k' = sps k /\
    forall a, private_entry k a -> spte_at k' a = spte_at k a.
Proof.
  intros Htrack Hcl Hal.
  pose proof (notifier_handler_in_shared op Htrack) as Hh.
  unfold kvm_tdp_mmu_handle_gfn, for_each_tdp_mmu_root.
  unfold bind at 1 2, get at 1 2. split.
  - apply for_each_root_skips_private; auto.
  - intros r k' Hrun.
    destruct (for_each_root_in_shared _ _ _ _ Hh Hal _ _ _ _ Hcl Hrun)
      as (Hp & _ & Hpriv & _).
    split; assumption.
Qed.

(** ** Merging present children *)

Lemma children_present_contiguous_spec (k : kvm) (child_pt new_spte : Z) :
  children_present_contiguous k child_pt new_spte = true ->
  forall j, 0 <= j < SPTE_ENT_PER_PAGE ->
    is_shadow_present_pte (spte_at k (ptr_add child_pt j)) = true /\
    spte_to_pfn (spte_at k (ptr_add child_pt j)) = spte_to_pfn new_spte + j.
Proof.
  unfold children_present_contiguous. rewrite forallb_forall.
  intros H j Hj.
  assert (Hin : In j (seqZ 0 SPTE_ENT_PER_PAGE))
    by (apply list_elem_of_In, elem_of_seqZ; lia).
  apply H in Hin. apply andb_prop in Hin as (Hp & Hf).
  apply Z.eqb_eq in Hf. split; assumption.
Qed.

Lemma merge_scan_end (base fault_gfn r : Z) :
  merge_scan base fault_gfn SPTE_ENT_PER_PAGE r = r.
Proof.
  unfold merge_scan. destruct (Z.eqb_spec r 0) as [->|]; [|reflexivity].
  destruct (Z.leb_spec (base + SPTE_ENT_PER_PAGE) fault_gfn);
    destruct (Z.ltb_spec fault_gfn (base + SPTE_ENT_PER_PAGE));
    cbn; try reflexivity; lia.
Qed.

Lemma merge_scan_step (base fault_gfn i r : Z) :
  i < SPTE_ENT_PER_PAGE ->
  merge_scan base fault_gfn (i + 1)
    (if base + i =? fault_gfn then (if r =? 0 then - EAGAIN else r) else r)
  = merge_scan base fault_gfn i r.
Proof.
  unfold merge_scan, SPTE_ENT_PER_PAGE, EAGAIN. intros Hi.
  destruct (Z.eqb_spec r 0) as [->|Hr];
    destruct (Z.eqb_spec (base + i) fault_gfn) as [<-|Hne]; cbn [Z.eqb Z.opp];
    try (destruct (Z.eqb_spec r 0); [contradiction | reflexivity]).
  - destruct (Z.leb_spec (base + i) (base + i));
      destruct (Z.ltb_spec (base + i) (base + 512));
      cbn; try reflexivity; lia.
  - destruct (Z.leb_spec (base + (i + 1)) fault_gfn);
      destruct (Z.leb_spec (base + i) fault_gfn);
      destruct (Z.ltb_spec fault_gfn (base + 512));
      cbn; try reflexivity; lia.
Qed.

Lemma merge_child_present (fault : kvm_page_fault)
    (new_spte parent_old_spte : Z) (child_role : kvm_mmu_page_role)
    (k : kvm) (child_pt base i : Z) (child_iter : tdp_iter) (r : Z) :
  child_cursor_at k child_pt base i child_iter ->
  is_shadow_present_pte (spte_at k (ptr_add child_pt i)) = true ->
  spte_to_pfn (spte_at k (ptr_add child_pt i)) = spte_to_pfn new_spte + i ->
  merge_child E depth fault new_spte parent_old_spte child_role i child_iter
              r k
  = Done (false,
          if base + i =? fault_gfn fault
          then (if r =? 0 then - EAGAIN else r) else r,
          child_iter) k.
Proof.
  intros (Hlvl & Hptr & Hold & Hgfn) Hp Hf. unfold merge_child.
  unfold WARN_ON at 1. unfold bind at 1, ret at 1.
  rewrite Hold, Hp, Hf, Z.eqb_refl, Hgfn. cbn [negb].
  destruct (base + i =? fault_gfn fault); reflexivity.
Qed.

Lemma tdp_mmu_iter_step_side_child (k : kvm) (child_pt base i : Z)
    (child_iter : tdp_iter) :
  0 <= base -> base + SPTE_ENT_PER_PAGE <= 2 ^ 64 -> 0 <= i ->
  child_cursor_at k child_pt base i child_iter ->
  exists child_iter',
    tdp_mmu_iter_step_side i child_iter k = Done (i + 1, child_iter') k /\
    (i + 1 < SPTE_ENT_PER_PAGE ->
     child_cursor_at k child_pt base (i + 1) child_iter').
Proof.
  intros Hb Hhi Hi (Hlvl & Hptr & Hold & Hgfn).
  unfold tdp_mmu_iter_step_side.
  destruct (Z.ltb_spec (i + 1) SPTE_ENT_PER_PAGE) as [Hlt|Hge].
  - eexists. split.
    + unfold tdp_iter_step_side, kvm_tdp_mmu_read_spte. munfold. reflexivity.
    + intros _. unfold child_cursor_at. cbn [it_level sptep old_spte it_gfn].
      rewrite Hlvl, Hptr, Hgfn.
      assert (Hp : ptr_add (ptr_add child_pt i) 1 = ptr_add child_pt (i + 1))
        by (unfold ptr_add; lia).
      rewrite Hp. unfold SPTE_ENT_PER_PAGE in *.
      repeat split.
      change (KVM_PAGES_PER_HPAGE PG_LEVEL_4K) with 1.
      unfold wrap64. rewrite Z.mod_small; lia.
  - exists child_iter. split; [reflexivity | lia].
Qed.

Lemma merge_children_present (fault : kvm_page_fault)
    (new_spte parent_old_spte : Z) (child_role : kvm_mmu_page_role)
    (k : kvm) (child_pt base : Z) :
  0 <= base -> base + SPTE_ENT_PER_PAGE <= 2 ^ 64 ->
  (forall j, 0 <= j < SPTE_ENT_PER_PAGE ->
     is_shadow_present_pte (spte_at k (ptr_add child_pt j)) = true /\
     spte_to_pfn (spte_at k (ptr_add child_pt j)) = spte_to_pfn new_spte + j) ->
  forall (n : nat) (i : Z) (child_iter : tdp_iter) (r : Z),
    0 <= i <= SPTE_ENT_PER_PAGE ->
    (i < SPTE_ENT_PER_PAGE -> child_cursor_at k child_pt base i child_iter) ->
    SPTE_ENT_PER_PAGE - i <= Z.of_nat n ->
    merge_children E depth n fault new_spte parent_old_spte child_role i
                   child_iter r k
    = Done (false, merge_scan base (fault_gfn fault) i r) k.
Proof.
  intros Hb Hhi Hch. induction n as [|n IH]; intros i child_iter r Hi Hcur Hn;
    cbn [merge_children];
    destruct (Z.ltb_spec i SPTE_ENT_PER_PAGE) as [Hlt|Hge]; cbn [negb];
    try (replace i with SPTE_ENT_PER_PAGE by lia;
         rewrite merge_scan_end; reflexivity).
  - lia.
  - destruct (Hch i ltac:(lia)) as (Hp & Hf).
    unfold bind at 1.
    rewrite (merge_child_present _ _ _ _ _ _ _ _ _ _ (Hcur Hlt) Hp Hf).
    destruct (tdp_mmu_iter_step_side_child k child_pt base i child_iter Hb Hhi
                ltac:(lia) (Hcur Hlt)) as (ci' & Hside & Hcur').
    unfold bind at 1. rewrite Hside.
    rewrite IH; [|lia|exact Hcur'|lia].
    rewrite merge_scan_step by exact Hlt. reflexivity.
Qed.

Lemma merge_base_bounds (iter : tdp_iter) :
  it_level iter = PG_LEVEL_2M ->
  0 <= merge_base iter /\ merge_base iter + SPTE_ENT_PER_PAGE <= 2 ^ 64 /\
  gfn_round_for_level (merge_base iter) PG_LEVEL_4K = merge_base iter /\
  merge_base iter mod 512 = 0.
Proof.
  intros Hlvl. unfold merge_base. rewrite Hlvl.
  replace (wrap64 (- KVM_PAGES_PER_HPAGE PG_LEVEL_2M))
    with (Z.shiftl (Z.ones 55) 9) by (vm_compute; reflexivity).
  set (base := Z.land (next_last_level_gfn iter) (Z.shiftl (Z.ones 55) 9)).
  assert (Hrange : 0 <= base < 2 ^ 64)
    by (apply land_u64_bound; vm_compute; split; congruence).
  assert (Hmod : base mod 2 ^ 9 = 0).
  { rewrite <- Z.land_ones by lia. unfold base. rewrite <- Z.land_assoc.
    replace (Z.land (Z.shiftl (Z.ones 55) 9) (Z.ones 9)) with 0
      by (vm_compute; reflexivity).
    apply Z.land_0_r. }
  split; [lia|]. split; [|split].
  - unfold SPTE_ENT_PER_PAGE.
    pose proof (Z.div_mod base (2 ^ 9) ltac:(lia)) as Hdiv.
    rewrite Hmod in Hdiv. lia.
  - unfold gfn_round_for_level.
    replace (wrap64 (- KVM_PAGES_PER_HPAGE PG_LEVEL_4K)) with (Z.ones 64)
      by (vm_compute; reflexivity).
    rewrite Z.land_ones by lia. apply Z.mod_small. exact Hrange.
  - exact Hmod.
Qed.

Lemma tdp_iter_step_down_child (iter : tdp_iter) (child_pt : Z) (k : kvm) :
  it_level iter = PG_LEVEL_2M ->
  length (pt_path iter) = 5%nat ->
  exists child_iter,
    tdp_iter_step_down
      (iter_set_next_last_level_gfn (merge_base iter) iter) child_pt k
      = Done child_iter k /\
    child_cursor_at k child_pt (merge_base iter) 0 child_iter.
Proof.
  intros Hlvl Hlen.
  destruct (merge_base_bounds iter Hlvl) as (Hb0 & Hbhi & Hround & Hmod).
  eexists. split.
  - unfold tdp_iter_step_down, tdp_iter_refresh_sptep, kvm_tdp_mmu_read_spte.
    munfold. reflexivity.
  - unfold child_cursor_at.
    cbn [it_level sptep old_spte it_gfn iter_set_next_last_level_gfn
         next_last_level_gfn pt_path].
    rewrite Hlvl. change (PG_LEVEL_2M - 1) with PG_LEVEL_4K.
    rewrite Hround. unfold pt_path_at. cbn [pt_path].
    change (PG_LEVEL_4K - 1) with 0.
    rewrite path_lookup_insert_eq by (assumption || lia).
    rewrite SPTE_INDEX_gfn by (unfold PG_LEVEL_4K; lia).
    change (2 ^ ((PG_LEVEL_4K - 1) * 9)) with 1.
    rewrite Z.div_1_r, Hmod, Z.add_0_r. repeat split.
Qed.

(** C5 (as amended): merging the children of a split huge page when all
    of them are present and map the frames that follow the frame of the
    entry [new_spte] handed to [tdp_mmu_merge_private_spt].  When the
    faulting frame is one of the frames of the huge page, its child is
    present and the merge is given up: the call returns [-EAGAIN] and the
    parent slot links the table of the children as before.  When it is
    not, and the secure-resource manager accepts the zap and the merge,
    the call returns [-EAGAIN], the table of the children is freed and the
    parent slot holds [new_spte], the entry built by the caller, whose
    frame is the frame of the first child. *)
Theorem merge_of_present_children
    (fault : kvm_page_fault) (iter : tdp_iter) (new_spte : Z) (k : kvm)
    (child_pt : Z) (child_sp : kvm_mmu_page) :
  it_level iter = PG_LEVEL_2M ->
  length (pt_path iter) = 5%nat ->
  spte_at k (sptep iter) = old_spte iter ->
  spte_to_child_pt (old_spte iter) (it_level iter) = Some child_pt ->
  table_aligned child_pt ->
  page_of (sptep iter) <> child_pt ->
  sps k !! child_pt = Some child_sp ->
  children_present_contiguous k child_pt new_spte = true ->
  (fault_in_huge_page fault iter = true ->
   exists k',
     tdp_mmu_merge_private_spt E depth fault iter new_spte k
       = Done (- EAGAIN, iter_set_old_spte (old_spte iter) iter) k' /\
     spte_at k' (sptep iter) = old_spte iter /\
     sps k' = sps k /\ tdx_log k' = tdx_log k) /\
  (fault_in_huge_page fault iter = false ->
   tdx_module E (tdx_log k)
     (zap_private_spte (it_gfn iter) (it_level iter)) = 0 ->
   tdx_module E
     (tdx_log k ++ [zap_private_spte (it_gfn iter) (it_level iter)])
     (merge_private_spt (it_gfn iter) (it_level iter)
        (default 0 (kvm_mmu_private_spt child_sp))) = 0 ->
   exists k',
     tdp_mmu_merge_private_spt E depth fault iter new_spte k
       = Done (- EAGAIN, iter_set_old_spte new_spte iter) k' /\
     spte_at k' (sptep iter) = new_spte /\
     spte_to_pfn new_spte = spte_to_pfn (spte_at k (ptr_add child_pt 0)) /\
     sps k' !! child_pt = None).
Proof.
  intros Hlvl Hlen Hfrozen Hchild Hal Hne Hsp Hch.
  pose proof (children_present_contiguous_spec _ _ _ Hch) as Hall.
  destruct (merge_base_bounds iter Hlvl) as (Hb0 & Hbhi & _ & _).
  assert (Hpage : forall j, 0 <= j < SPTE_ENT_PER_PAGE ->
                            page_of (ptr_add child_pt j) = child_pt).
  { intros j Hj. destruct Hal as (? & ? & ?). apply page_of_ptr_add; assumption. }
  assert (Hpage0 : page_of child_pt = child_pt).
  { replace child_pt with (ptr_add child_pt 0) at 1 by (unfold ptr_add; lia).
    apply Hpage. unfold SPTE_ENT_PER_PAGE. lia. }
  set (k1 := set_sptes (<[sptep iter := REMOVED_SPTE]> (sptes k)) k).
  assert (Hall1 : forall j, 0 <= j < SPTE_ENT_PER_PAGE ->
            is_shadow_present_pte (spte_at k1 (ptr_add child_pt j)) = true /\
            spte_to_pfn (spte_at k1 (ptr_add child_pt j))
              = spte_to_pfn new_spte + j).
  { intros j Hj.
    assert (Hd : sptep iter <> ptr_add child_pt j).
    { intros Heq. apply Hne. rewrite Heq. apply Hpage, Hj. }
    unfold spte_at, k1. cbn [sptes set_sptes].
    rewrite lookup_insert_ne by exact Hd. apply Hall, Hj. }
  destruct (tdp_iter_step_down_child (iter_set_old_spte (old_spte iter) iter)
              child_pt k1 Hlvl Hlen) as (ci & Hdown & Hcur).
  pose proof (merge_children_present fault new_spte (old_spte iter)
                (sp_role child_sp) k1 child_pt _ Hb0 Hbhi Hall1
                (Z.to_nat SPTE_ENT_PER_PAGE) 0 ci 0
                ltac:(unfold SPTE_ENT_PER_PAGE; lia) (fun _ => Hcur)
                ltac:(unfold SPTE_ENT_PER_PAGE; lia)) as Hloop.
  split.
  - intros Hin.
    assert (Hscan : merge_scan (merge_base iter) (fault_gfn fault) 0 0
                    = - EAGAIN).
    { unfold merge_scan. cbn [Z.eqb]. rewrite Z.add_0_r.
      unfold fault_in_huge_page in Hin. rewrite Hin. reflexivity. }
    rewrite Hscan in Hloop.
    eexists. split.
    + unfold tdp_mmu_merge_private_spt.
      unfold WARN_ON. unfold bind at 1 2 3, ret at 1 2 3.
      unfold bind at 1.
      rewrite (try_cmpxchg64_match _ _ _ _ Hfrozen). fold k1.
      cbn [negb].
      cbn [old_spte it_level iter_set_old_spte].
      rewrite Hchild.
      unfold bind at 1. cbn [deref]. unfold ret at 1.
      unfold bind at 1.
      rewrite (sptep_to_sp_lookup k1 child_pt child_sp)
        by (rewrite Hpage0; exact Hsp).
      unfold bind at 1 2, ret at 1 2.
      unfold bind at 1.
      match goal with
      | |- match ?X with _ => _ end = _ =>
          change X with
            (tdp_iter_step_down
               (iter_set_next_last_level_gfn
                  (merge_base (iter_set_old_spte (old_spte iter) iter))
                  (iter_set_old_spte (old_spte iter) iter)) child_pt k1)
      end.
      rewrite Hdown. unfold bind at 1. rewrite Hloop.
      change (nonzero (- EAGAIN)) with true. cbn [orb].
      unfold __kvm_tdp_mmu_write_spte. munfold. reflexivity.
    + cbn [sps tdx_log set_sptes k1].
      split; [apply spte_at_write|]. split; reflexivity.
  - intros Hout Hzap Hmerge.
    assert (Hscan : merge_scan (merge_base iter) (fault_gfn fault) 0 0 = 0).
    { unfold merge_scan. cbn [Z.eqb]. rewrite Z.add_0_r.
      unfold fault_in_huge_page in Hout. rewrite Hout. reflexivity. }
    rewrite Hscan in Hloop.
    destruct (is_private_sp child_sp) eqn:Hpriv;
      (eexists; split;
       [ unfold tdp_mmu_merge_private_spt;
         unfold WARN_ON; unfold bind at 1 2 3, ret at 1 2 3;
         unfold bind at 1;
         rewrite (try_cmpxchg64_match _ _ _ _ Hfrozen); fold k1;
         cbn [negb];
         cbn [old_spte it_level iter_set_old_spte];
         rewrite Hchild;
         unfold bind at 1; cbn [deref]; unfold ret at 1;
         unfold bind at 1;
         rewrite (sptep_to_sp_lookup k1 child_pt child_sp)
           by (rewrite Hpage0; exact Hsp);
         unfold bind at 1 2, ret at 1 2;
         unfold bind at 1;
         match goal with
         | |- match ?X with _ => _ end = _ =>
             change X with
               (tdp_iter_step_down
                  (iter_set_next_last_level_gfn
                     (merge_base (iter_set_old_spte (old_spte iter) iter))
                     (iter_set_old_spte (old_spte iter) iter)) child_pt k1)
         end;
         rewrite Hdown; unfold bind at 1; rewrite Hloop;
         change (nonzero 0) with false; cbn [orb];
         unfold bind at 1; unfold static_call at 1;
         change (tdx_log k1) with (tdx_log k); rewrite Hzap;
         change (nonzero 0) with false; cbn iota;
         unfold bind at 1, kvm_flush_remote_tlbs_range at 1, modify at 1;
         unfold bind at 1; unfold static_call at 1;
         cbn [tdx_log set_tdx_log set_remote_tlb_flushes];
         change (tdx_log k1) with (tdx_log k); rewrite Hmerge;
         change (nonzero 0) with false; cbn iota;
         unfold __kvm_tdp_mmu_write_spte, tdp_unaccount_mmu_page,
           kvm_account_pgtable_pages, tdp_mmu_free_sp;
         rewrite Hpriv; munfold; reflexivity
       | ]);
      (split; [unfold spte_at; cbn; rewrite lookup_insert_eq; reflexivity|]);
      (split; [destruct (Hall 0 ltac:(unfold SPTE_ENT_PER_PAGE; lia))
                 as (_ & Hf0); rewrite Hf0; lia|]);
      cbn; rewrite Hpage0; apply lookup_delete_eq.
Qed.

(** ** The fault handler *)

(** C7: a fault on a private frame (the fault is private and the guest has
    a shared-bit mask) that is not a non-leaf walk and whose frame is an
    error/no-slot frame or has no refcounted page makes [kvm_tdp_mmu_map]
    return [-EFAULT] at once: the guest state is unchanged (no walk, no
    entry installed, no allocation) and no turn of the walk is taken,
    whatever the fuel. *)
Theorem map_private_without_page_is_efault
    (walk_fuel : nat) (vcpu : kvm_vcpu) (fault : kvm_page_fault) (k : kvm) :
  fault_is_private fault = true ->
  nonzero (kvm_gfn_shared_mask k) = true ->
  fault_nonleaf (kvm_mmu_hugepage_adjust E k fault) = false ->
  is_error_noslot_pfn (fault_pfn (kvm_mmu_hugepage_adjust E k fault)) ||
  negb (kvm_pfn_to_refcounted_page E
          (fault_pfn (kvm_mmu_hugepage_adjust E k fault))) = true ->
  kvm_tdp_mmu_map E depth walk_fuel vcpu fault k = Done (- EFAULT) k.
Proof.
  intros Hpriv Hmask Hleaf Hpage. unfold kvm_tdp_mmu_map.
  unfold bind at 1. unfold get.
  rewrite Hpriv, Hmask, Hleaf, Hpage. reflexivity.
Qed.

End Properties.

(** * Instances *)

Lemma map_private_without_page_is_efault_witness :
  kvm_tdp_mmu_map (example_env tdx_accepts) 5 0 example_vcpu
                  example_fault_no_page (empty_kvm (BIT_ULL 39))
  = Done (- EFAULT) (empty_kvm (BIT_ULL 39)).
Proof.
  apply map_private_without_page_is_efault; reflexivity.
Defined.

Lemma cond_resched_without_progress_witness :
  tdp_mmu_iter_cond_resched (example_env tdx_accepts) example_iter_no_progress
                            true false (empty_kvm 0)
  = Done (false, example_iter_no_progress) (empty_kvm 0).
Proof.
  apply cond_resched_without_progress. reflexivity.
Defined.

Lemma put_root_unlinks_only_at_zero_witness :
  exists k',
    kvm_tdp_mmu_put_root 4096 true (kvm_with_root 1 true) = Done tt k' /\
    tdp_mmu_roots k' = [] /\ rcu_callbacks k' = [4096] /\
    vm_bugged k' = false /\ freed_pages k' = [].
Proof.
  destruct (put_root_unlinks_only_at_zero 4096 true (kvm_with_root 1 true)
              (example_root_sp 1 true))
    as (k' & Hrun & Hfreed & _ & Hzero & _);
    [reflexivity | reflexivity |].
  destruct (Hzero eq_refl) as (_ & Hroots & Hrcu & Hbug).
  exists k'. repeat split; assumption.
Defined.

Lemma get_vcpu_root_reuses_or_creates_witness :
  kvm_tdp_mmu_get_vcpu_root example_vcpu false (kvm_with_root 1 false)
  = Done 4096 (kvm_with_root 2 false).
Proof.
  assert (Hwf : roots_wf (kvm_with_root 1 false)).
  { repeat constructor. exists (example_root_sp 1 false).
    repeat split; reflexivity. }
  destruct (get_vcpu_root_reuses_or_creates example_vcpu false
              (kvm_with_root 1 false) Hwf) as (sp & Hsp & Hrun).
  rewrite Hrun. injection Hsp as <-. reflexivity.
Defined.

(** C2 (code at the failing input): the cursor stands on a private slot
    that it observed empty and that now maps frame 7; asked to install a
    mapping of frame 9, [tdp_mmu_set_spte_atomic] returns [-EBUSY] and
    leaves the guest state as it was, but the cursor's [old_spte] still
    holds the stale observation, not the entry's current value. *)
Theorem set_spte_atomic_private_populate_keeps_stale_old_spte :
  tdp_mmu_set_spte_atomic (example_env tdx_accepts) 5 stale_iter
                          (example_4k_spte 9) stale_kvm
    = Done (- EBUSY, stale_iter) stale_kvm /\
  old_spte stale_iter <> spte_at stale_kvm (sptep stale_iter).
Proof.
  split.
  - rewrite (set_spte_atomic_mismatch _ _ _ _ _
               (example_private_sp 1 0 (Some 8192) (Some 20480)));
      [reflexivity | reflexivity | vm_compute; discriminate].
  - vm_compute. discriminate.
Qed.

Lemma merge_failure_restores_parent_witness :
  (exists r iter' k',
     tdp_mmu_merge_private_spt (example_env tdx_refuses_zap) 5 merge_fault
                               merge_iter example_huge_spte merge_kvm
       = Done (r, iter') k' /\
     r = - EIO /\
     spte_at k' (sptep merge_iter) = spte_at merge_kvm (sptep merge_iter) /\
     old_spte iter' = spte_at k' (sptep merge_iter)) /\
  (exists r iter' k',
     tdp_mmu_merge_private_spt (example_env tdx_refuses_merge_only) 5
                               merge_fault merge_iter example_huge_spte
                               merge_kvm
       = Done (r, iter') k' /\
     r = - EAGAIN /\
     spte_at k' (sptep merge_iter) = spte_at merge_kvm (sptep merge_iter) /\
     old_spte iter' = spte_at k' (sptep merge_iter)).
Proof.
  split.
  - eassert (Hrun : tdp_mmu_merge_private_spt (example_env tdx_refuses_zap) 5
                      merge_fault merge_iter example_huge_spte merge_kvm
                    = Done (_, _) _)
      by (vm_compute; reflexivity).
    eexists _, _, _. split; [exact Hrun|].
    split; [reflexivity|]. split; [reflexivity|].
    exact (proj1 (merge_failure_restores_parent (example_env tdx_refuses_zap)
                    5 merge_fault merge_iter _ example_huge_spte _ merge_kvm
                    _ eq_refl Hrun)).
  - eassert (Hrun : tdp_mmu_merge_private_spt
                      (example_env tdx_refuses_merge_only) 5
                      merge_fault merge_iter example_huge_spte merge_kvm
                    = Done (_, _) _)
      by (vm_compute; reflexivity).
    eexists _, _, _. split; [exact Hrun|].
    split; [reflexivity|]. split; [reflexivity|].
    exact (proj1 (merge_failure_restores_parent
                    (example_env tdx_refuses_merge_only)
                    5 merge_fault merge_iter _ example_huge_spte _ merge_kvm
                    _ eq_refl Hrun)).
Defined.

(** C4 (counterexample): the external merge fails and the unzap that
    follows fails as well; [tdp_mmu_merge_private_spt] returns the failure
    of the merge, and the parent slot, which held a link before the merge,
    is left holding a value that is neither its pre-merge value nor
    [new_spte]: the blocked form of the link. *)
Lemma merge_unzap_failure_leaves_parent_changed :
  spte_at merge_kvm (sptep merge_iter) = old_spte merge_iter /\
  match tdp_mmu_merge_private_spt (example_env tdx_refuses_merge) 5
          merge_fault merge_iter example_huge_spte merge_kvm with
  | Done (r, _) k' =>
      r <> 0 /\
      spte_at k' (sptep merge_iter) <> spte_at merge_kvm (sptep merge_iter) /\
      spte_at k' (sptep merge_iter) <> example_huge_spte /\
      spte_at k' (sptep merge_iter)
        = __private_zapped_spte (spte_at merge_kvm (sptep merge_iter))
  | _ => False
  end.
Proof.
  split; [reflexivity|]. vm_compute. repeat split; discriminate.
Qed.


Lemma example_env_access_track (tdx : list tdx_call -> tdx_call -> Z) :
  access_track_keeps_huge (example_env tdx).
Proof.
  intros spte. unfold is_large_pte. cbn [mark_spte_for_access_track example_env
                                          example_env_with].
  rewrite <- Z.land_assoc.
  replace (Z.land (not64 shadow_acc_track_mask) PT_PAGE_SIZE_MASK)
    with PT_PAGE_SIZE_MASK by (vm_compute; reflexivity).
  reflexivity.
Qed.

Lemma notifier_kvm_closed : shared_closed notifier_kvm.
Proof.
  intros spt level i child (Hal & sp & Hsp & Hnp & Hlvl) Hi Hchild.
  destruct (decide (spt = 4096)) as [->|Hne1].
  - vm_compute in Hsp. injection Hsp as <-. cbn in Hlvl. subst level.
    rewrite spte_to_child_pt_4k in Hchild. discriminate Hchild.
  - destruct (decide (spt = 8192)) as [->|Hne2].
    + vm_compute in Hsp. injection Hsp as <-. discriminate Hnp.
    + unfold notifier_kvm in Hsp. cbn in Hsp.
      rewrite lookup_insert_ne, lookup_singleton_ne in Hsp by congruence.
      discriminate Hsp.
Qed.

Lemma handle_gfn_skips_private_roots_witness :
  exists k',
    kvm_tdp_mmu_handle_gfn 100 notifier_range
      (notifier_handler (example_env tdx_accepts) 5 notifier_age) notifier_kvm
      = Done true k' /\
    sps k' = sps notifier_kvm /\
    spte_at k' 8192 = spte_at notifier_kvm 8192.
Proof.
  destruct (handle_gfn_skips_private_roots (example_env tdx_accepts) 5 100
              notifier_age notifier_range notifier_kvm) as [_ Hframe].
  - apply example_env_access_track.
  - apply notifier_kvm_closed.
  - repeat constructor; vm_compute; congruence.
  - eassert (Hrun : kvm_tdp_mmu_handle_gfn 100 notifier_range
                      (notifier_handler (example_env tdx_accepts) 5
                         notifier_age) notifier_kvm = Done true _)
      by (vm_compute; reflexivity).
    destruct (Hframe _ _ Hrun) as [Hsps Hpriv].
    eexists. split; [exact Hrun|]. split; [exact Hsps|].
    apply Hpriv. eexists. split; vm_compute; reflexivity.
Defined.

Lemma merge_of_present_children_witness :
  (exists k',
     tdp_mmu_merge_private_spt (example_env tdx_accepts) 5 (merge_fault_at 3)
       linked_iter example_huge_spte split_done_kvm
       = Done (- EAGAIN, linked_iter) k' /\
     spte_at k' 8192 = example_nonleaf_spte 16384) /\
  (exists k',
     tdp_mmu_merge_private_spt (example_env tdx_accepts) 5
       (merge_fault_at 1024) linked_iter example_huge_spte_ro split_done_kvm
       = Done (- EAGAIN, iter_set_old_spte example_huge_spte_ro linked_iter) k' /\
     spte_at k' 8192 = example_huge_spte_ro).
Proof.
  split.
  - edestruct (merge_of_present_children (example_env tdx_accepts) 5
                 (merge_fault_at 3) linked_iter example_huge_spte
                 split_done_kvm 16384) as [Hin _];
      try (vm_compute; reflexivity).
    + vm_compute. repeat split; congruence.
    + vm_compute. congruence.
    + destruct (Hin ltac:(vm_compute; reflexivity)) as (k' & Hrun & Hs & _).
      exists k'. split; [exact Hrun | exact Hs].
  - edestruct (merge_of_present_children (example_env tdx_accepts) 5
                 (merge_fault_at 1024) linked_iter example_huge_spte_ro
                 split_done_kvm 16384) as [_ Hout];
      try (vm_compute; reflexivity).
    + vm_compute. repeat split; congruence.
    + vm_compute. congruence.
    + destruct (Hout ltac:(vm_compute; reflexivity) eq_refl eq_refl)
        as (k' & Hrun & Hs & _).
      exists k'. split; [exact Hrun | exact Hs].
Defined.

(** C5 (counterexample): the huge leaf of [split_kvm], which maps the
    frames from 512 on, is split into its 512 children, all present and
    contiguous.  A fault on one of the frames of the huge page that hands
    the pre-split entry itself to the merge leaves the parent slot linking
    the table of the children: no huge leaf results.  A fault elsewhere
    that hands the merge a read-only huge entry of the same frame gets
    that entry installed: a huge leaf that differs from the pre-split
    entry in its write-access bit. *)
Lemma split_then_merge_is_not_a_round_trip :
  is_leaf_spte example_huge_spte 2 = true /\
  match tdp_mmu_split_huge_page (example_env tdx_accepts) 5 split_iter 16384
                                true split_kvm with
  | Done (r, iter1) k1 =>
      r = 0 /\
      children_present_contiguous k1 16384 example_huge_spte = true /\
      match tdp_mmu_merge_private_spt (example_env tdx_accepts) 5
              (merge_fault_at 3) (iter_set_old_spte (spte_at k1 8192) iter1)
              example_huge_spte k1 with
      | Done _ k2 =>
          is_large_pte (spte_at k2 8192) = false /\
          equal_modulo_ad (spte_at k2 8192) example_huge_spte = false
      | _ => False
      end /\
      match tdp_mmu_merge_private_spt (example_env tdx_accepts) 5
              (merge_fault_at 1024)
              (iter_set_old_spte (spte_at k1 8192) iter1)
              example_huge_spte_ro k1 with
      | Done _ k2 =>
          is_large_pte (spte_at k2 8192) = true /\
          spte_to_pfn (spte_at k2 8192) = spte_to_pfn example_huge_spte /\
          equal_modulo_ad (spte_at k2 8192) example_huge_spte = false
      | _ => False
      end
  | _ => False
  end.
Proof. vm_compute. repeat split; reflexivity. Qed.

(** * The range zap over a private root *)

(** ** Frames, levels and slots *)

Lemma level_cases (l : Z) :
  1 <= l <= 5 -> l = 1 \/ l = 2 \/ l = 3 \/ l = 4 \/ l = 5.
Proof. lia. Qed.

Lemma testbit_neg_pow2 (s i : Z) :
  0 <= s -> 0 <= i -> Z.testbit (- 2 ^ s) i = (s <=? i).
Proof.
  intros Hs Hi. replace (- 2 ^ s) with (Z.lnot (Z.ones s))
    by (rewrite Z.ones_equiv; unfold Z.lnot; lia).
  rewrite Z.lnot_spec by lia.
  destruct (Z.leb_spec s i).
  - rewrite Z.ones_spec_high by lia. reflexivity.
  - rewrite Z.ones_spec_low by lia. reflexivity.
Qed.

Lemma testbit_beyond (c n j : Z) :
  0 <= c < 2 ^ n -> 0 <= n <= j -> Z.testbit c j = false.
Proof.
  intros Hc Hj. destruct (Z.eq_dec c 0) as [->|Hne].
  - apply Z.bits_0.
  - apply Z.bits_above_log2; [lia|].
    assert (Z.log2 c < n) by (apply Z.log2_lt_pow2; lia). lia.
Qed.

(** [gfn_round_for_level] clears the bits of the frame number below the
    level. *)
Lemma gfn_round_for_level_spec (g l : Z) :
  0 <= g < 2 ^ 64 -> 1 <= l <= 5 ->
  gfn_round_for_level g l = 2 ^ (9 * (l - 1)) * (g / 2 ^ (9 * (l - 1))).
Proof.
  intros Hg Hl. unfold gfn_round_for_level.
  rewrite KVM_PAGES_PER_HPAGE_pow by lia.
  replace ((l - 1) * 9) with (9 * (l - 1)) by lia.
  set (s := 9 * (l - 1)). assert (Hs : 0 <= s <= 36) by lia.
  rewrite <- Z.shiftr_div_pow2, Z.mul_comm, <- Z.shiftl_mul_pow2 by lia.
  apply Z.bits_inj'. intros i Hi.
  rewrite Z.land_spec.
  destruct (Z.ltb_spec i 64).
  - unfold wrap64. rewrite Z.mod_pow2_bits_low by lia.
    rewrite testbit_neg_pow2 by lia.
    destruct (Z.leb_spec s i).
    + rewrite Z.shiftl_spec, Z.shiftr_spec by lia.
      rewrite andb_true_r. f_equal. lia.
    + rewrite Z.shiftl_spec_low by lia. apply andb_false_r.
  - unfold wrap64. rewrite Z.mod_pow2_bits_high by lia.
    rewrite andb_false_r. symmetry.
    rewrite Z.shiftl_spec, Z.shiftr_spec by lia.
    replace (i - s + s) with i by lia.
    apply (testbit_beyond g 64); lia.
Qed.

Local Abbreviation idx g l := (SPTE_INDEX (wrap64 (Z.shiftl g PAGE_SHIFT)) l).

Lemma pow9_pos (n : Z) : 0 <= n -> 0 < 2 ^ (9 * n).
Proof. intros. apply Z.pow_pos_nonneg; lia. Qed.

Lemma pow9_succ (n : Z) : 0 <= n -> 2 ^ (9 * (n + 1)) = 512 * 2 ^ (9 * n).
Proof.
  intros. replace (9 * (n + 1)) with (9 + 9 * n) by lia.
  rewrite Z.pow_add_r by lia. reflexivity.
Qed.

Lemma pow9_le (m n : Z) : 0 <= m <= n -> 2 ^ (9 * m) <= 2 ^ (9 * n).
Proof. intros. apply Z.pow_le_mono_r; lia. Qed.

Lemma pow9_bound (n : Z) : 0 <= n <= 5 -> 2 ^ (9 * n) <= 2 ^ 45.
Proof. intros. apply Z.pow_le_mono_r; lia. Qed.

Lemma pages_pow (l : Z) :
  1 <= l -> KVM_PAGES_PER_HPAGE l = 2 ^ (9 * (l - 1)).
Proof.
  intros. rewrite KVM_PAGES_PER_HPAGE_pow by lia. f_equal. lia.
Qed.

Lemma idx_spec (g l : Z) :
  0 <= g -> 1 <= l <= 5 -> idx g l = (g / 2 ^ (9 * (l - 1))) mod 512.
Proof.
  intros. rewrite SPTE_INDEX_gfn by lia. do 3 f_equal. lia.
Qed.

(** The quotient of a frame number by the span of a higher level. *)
Lemma div_pow9 (g m n : Z) :
  0 <= g -> 0 <= m <= n ->
  g / 2 ^ (9 * n) = (g / 2 ^ (9 * m)) / 2 ^ (9 * (n - m)).
Proof.
  intros Hg Hmn. pose proof (pow9_pos m ltac:(lia)).
  pose proof (pow9_pos (n - m) ltac:(lia)).
  rewrite Z.div_div by lia. rewrite <- Z.pow_add_r by lia.
  do 2 f_equal. lia.
Qed.

Lemma round_aligned (b l : Z) :
  1 <= l <= 5 -> 0 <= b -> 2 ^ (9 * (l - 1)) * b < 2 ^ 64 ->
  gfn_round_for_level (2 ^ (9 * (l - 1)) * b) l = 2 ^ (9 * (l - 1)) * b.
Proof.
  intros Hl Hb Hlt. pose proof (pow9_pos (l - 1) ltac:(lia)).
  rewrite gfn_round_for_level_spec by nia.
  rewrite (Z.mul_comm _ b), Z.div_mul by lia. lia.
Qed.

Lemma round_round (g l j : Z) :
  0 <= g < 2 ^ 64 -> 1 <= l <= j -> j <= 5 ->
  gfn_round_for_level (gfn_round_for_level g l) j = gfn_round_for_level g j.
Proof.
  intros Hg Hl Hj. pose proof (pow9_pos (l - 1) ltac:(lia)).
  pose proof (gfn_round_for_level_bound g l).
  assert (0 <= g / 2 ^ (9 * (l - 1))) by (apply Z.div_pos; lia).
  rewrite (gfn_round_for_level_spec _ j) by lia.
  rewrite (gfn_round_for_level_spec g j) by lia.
  rewrite (gfn_round_for_level_spec g l) by lia.
  f_equal.
  rewrite (div_pow9 _ (l - 1) (j - 1)) by nia.
  rewrite (div_pow9 g (l - 1) (j - 1)) by lia.
  rewrite (Z.mul_comm _ (g / _)), Z.div_mul by lia. reflexivity.
Qed.

Lemma round_le (g l : Z) :
  0 <= g < 2 ^ 64 -> 1 <= l <= 5 ->
  gfn_round_for_level g l <= g < gfn_round_for_level g l + KVM_PAGES_PER_HPAGE l.
Proof.
  intros Hg Hl. pose proof (pow9_pos (l - 1) ltac:(lia)).
  rewrite gfn_round_for_level_spec, pages_pow by lia.
  pose proof (Z.div_mod g (2 ^ (9 * (l - 1))) ltac:(lia)).
  pose proof (Z.mod_pos_bound g (2 ^ (9 * (l - 1))) ltac:(lia)).
  lia.
Qed.

(** A frame number aligned for a level, below the span of the root. *)
Lemma aligned_quotient (G l R : Z) :
  1 <= l <= R -> R <= 5 -> 0 <= G < 2 ^ (9 * R) ->
  G = gfn_round_for_level G l ->
  exists a, G = 2 ^ (9 * (l - 1)) * a /\ 0 <= a < 512 * 2 ^ (9 * (R - l)) /\
            idx G l = a mod 512 /\
            2 ^ (9 * R) = 2 ^ (9 * (l - 1)) * (512 * 2 ^ (9 * (R - l))).
Proof.
  intros Hl HR HG Hal.
  pose proof (pow9_pos (l - 1) ltac:(lia)) as HP.
  pose proof (pow9_pos (R - l) ltac:(lia)) as HM.
  pose proof (pow9_bound R ltac:(lia)) as HB.
  assert (H264 : 2 ^ 45 < 2 ^ 64) by (apply Z.pow_lt_mono_r; lia).
  assert (Hsplit : 2 ^ (9 * R) = 2 ^ (9 * (l - 1)) * (512 * 2 ^ (9 * (R - l)))).
  { rewrite <- pow9_succ by lia. rewrite <- Z.pow_add_r by lia.
    f_equal. lia. }
  exists (G / 2 ^ (9 * (l - 1))).
  rewrite gfn_round_for_level_spec in Hal by lia.
  split; [exact Hal|]. split; [|split; [|exact Hsplit]].
  - split; [apply Z.div_pos; lia|].
    apply Z.div_lt_upper_bound; lia.
  - apply idx_spec; lia.
Qed.

Lemma step_side_arith (G l R : Z) :
  1 <= l <= R -> R <= 5 -> 0 <= G < 2 ^ (9 * R) ->
  G = gfn_round_for_level G l ->
  idx G l <> SPTE_ENT_PER_PAGE - 1 ->
  wrap64 (G + KVM_PAGES_PER_HPAGE l) = G + KVM_PAGES_PER_HPAGE l /\
  G + KVM_PAGES_PER_HPAGE l < 2 ^ (9 * R) /\
  G + KVM_PAGES_PER_HPAGE l
    = gfn_round_for_level (G + KVM_PAGES_PER_HPAGE l) l /\
  idx (G + KVM_PAGES_PER_HPAGE l) l = idx G l + 1.
Proof.
  intros Hl HR HG Hal Hidx.
  destruct (aligned_quotient G l R Hl HR HG Hal) as (a & Ha & Hab & Hi & Hsplit).
  pose proof (pow9_pos (l - 1) ltac:(lia)) as HP.
  pose proof (pow9_pos (R - l) ltac:(lia)) as HM.
  pose proof (pow9_bound R ltac:(lia)) as HB.
  assert (H264 : 2 ^ 45 < 2 ^ 64) by (apply Z.pow_lt_mono_r; lia).
  rewrite pages_pow by lia.
  unfold SPTE_ENT_PER_PAGE in Hidx.
  set (P := 2 ^ (9 * (l - 1))) in *. set (M := 2 ^ (9 * (R - l))) in *.
  assert (Ha1 : a + 1 < 512 * M).
  { destruct (Z.eq_dec (a + 1) (512 * M)) as [Heq|]; [|lia].
    exfalso. apply Hidx. rewrite Hi.
    replace a with (511 + (M - 1) * 512) by lia.
    rewrite Z.mod_add by lia. reflexivity. }
  assert (Hsum : G + P = P * (a + 1)) by lia.
  assert (Hlt : G + P < 2 ^ (9 * R)) by (rewrite Hsplit, Hsum; nia).
  split; [unfold wrap64; apply Z.mod_small; lia|].
  split; [exact Hlt|]. split.
  - rewrite Hsum. symmetry. apply round_aligned; [lia|lia|].
    fold P. lia.
  - pose proof (SPTE_INDEX_step G l ltac:(lia) ltac:(lia)) as Hstep.
    destruct Hstep as [_ Hstep]; [unfold SPTE_ENT_PER_PAGE; exact Hidx|].
    rewrite pages_pow in Hstep by lia. fold P in Hstep.
    unfold wrap64 at 2 in Hstep. rewrite (Z.mod_small (G + P)) in Hstep by lia.
    exact Hstep.
Qed.

Lemma step_up_arith (G l R : Z) :
  1 <= l < R -> R <= 5 -> 0 <= G < 2 ^ (9 * R) ->
  G = gfn_round_for_level G l ->
  idx G l = SPTE_ENT_PER_PAGE - 1 ->
  gfn_round_for_level G (l + 1) + KVM_PAGES_PER_HPAGE (l + 1)
    = G + KVM_PAGES_PER_HPAGE l.
Proof.
  intros Hl HR HG Hal Hidx.
  destruct (aligned_quotient G l R ltac:(lia) HR HG Hal)
    as (a & Ha & Hab & Hi & Hsplit).
  pose proof (pow9_pos (l - 1) ltac:(lia)) as HP.
  pose proof (pow9_bound R ltac:(lia)) as HB.
  assert (H264 : 2 ^ 45 < 2 ^ 64) by (apply Z.pow_lt_mono_r; lia).
  rewrite gfn_round_for_level_spec by lia.
  rewrite !pages_pow by lia.
  replace (l + 1 - 1) with ((l - 1) + 1) by lia.
  rewrite pow9_succ by lia.
  unfold SPTE_ENT_PER_PAGE in Hidx. rewrite Hi in Hidx.
  set (P := 2 ^ (9 * (l - 1))) in *.
  rewrite Ha at 1.
  rewrite (Z.mul_comm 512 P), Z.div_mul_cancel_l by lia.
  pose proof (Z.div_mod a 512 ltac:(lia)) as Hdm. nia.
Qed.

Lemma step_root_arith (G R : Z) :
  1 <= R <= 5 -> 0 <= G < 2 ^ (9 * R) ->
  G = gfn_round_for_level G R ->
  idx G R = SPTE_ENT_PER_PAGE - 1 ->
  G + KVM_PAGES_PER_HPAGE R = 2 ^ (9 * R).
Proof.
  intros HR HG Hal Hidx.
  destruct (aligned_quotient G R R ltac:(lia) ltac:(lia) HG Hal)
    as (a & Ha & Hab & Hi & Hsplit).
  pose proof (pow9_pos (R - 1) ltac:(lia)) as HP.
  rewrite pages_pow by lia.
  unfold SPTE_ENT_PER_PAGE in Hidx. rewrite Hi in Hidx.
  replace (R - R) with 0 in * by lia. change (2 ^ (9 * 0)) with 1 in *.
  rewrite Z.mod_small in Hidx by lia. rewrite Hsplit, Ha, Hidx. lia.
Qed.

(** ** The steps of the cursor *)

(** Past an entry it does not descend from, the cursor moves to the next
    slot of the lowest table on its path that has one, or becomes invalid
    at the end of the root table: the frame it then stands on is the
    first frame after the entry it left. *)
Lemma step_side_or_up_spec (R : Z) (n : nat) :
  forall (i : tdp_iter) (k : kvm),
    root_level i = R -> 1 <= it_level i <= R -> R <= 5 ->
    R - it_level i <= Z.of_nat n ->
    0 <= it_gfn i < 2 ^ (9 * R) ->
    it_gfn i = gfn_round_for_level (it_gfn i) (it_level i) ->
    sptep i = ptr_add (pt_path_at i (it_level i - 1))
                      (idx (it_gfn i) (it_level i)) ->
    exists i',
      step_side_or_up n i k = Done i' k /\
      pt_path i' = pt_path i /\ root_level i' = R /\
      min_level i' = min_level i /\ yielded i' = yielded i /\
      ((valid i' = false /\
        it_gfn i + KVM_PAGES_PER_HPAGE (it_level i) = 2 ^ (9 * R)) \/
       (valid i' = valid i /\ it_level i <= it_level i' <= R /\
        it_gfn i' = it_gfn i + KVM_PAGES_PER_HPAGE (it_level i) /\
        next_last_level_gfn i' = it_gfn i' /\
        it_gfn i' < 2 ^ (9 * R) /\
        it_gfn i' = gfn_round_for_level (it_gfn i') (it_level i') /\
        idx (it_gfn i') (it_level i') <> 0 /\
        sptep i' = ptr_add (pt_path_at i' (it_level i' - 1))
                           (idx (it_gfn i') (it_level i')) /\
        old_spte i' = spte_at k (sptep i'))).
Proof.
  induction n as [|n IH]; intros i k HR Hl HR5 Hn HG Hal Hp.
  - (* no level left to climb: the cursor stands in the root table *)
    assert (Hlr : it_level i = R) by lia.
    cbn [step_side_or_up]. unfold try_step_side.
    destruct (idx (it_gfn i) (it_level i) =? SPTE_ENT_PER_PAGE - 1) eqn:Hi.
    + apply Z.eqb_eq in Hi.
      unfold bind at 1, ret at 1. unfold try_step_up.
      rewrite Hlr, HR, Z.eqb_refl. unfold bind at 1, ret at 1.
      eexists. split; [reflexivity|]. cbn.
      repeat (split; [reflexivity || assumption|]).
      left. split; [reflexivity|].
      rewrite Hlr in *. apply step_root_arith; try lia; assumption.
    + apply Z.eqb_neq in Hi.
      destruct (step_side_arith _ _ R Hl HR5 HG Hal Hi)
        as (Hw & Hlt & Hal' & Hi').
      unfold tdp_iter_step_side, kvm_tdp_mmu_read_spte. munfold. rewrite Hw.
      eexists. split; [reflexivity|]. cbn.
      repeat (split; [reflexivity || assumption|]).
      right. split; [reflexivity|]. split; [lia|].
      split; [reflexivity|]. split; [reflexivity|]. split; [exact Hlt|].
      split; [exact Hal'|]. split.
      * rewrite Hi'. pose proof (SPTE_INDEX_range
          (wrap64 (Z.shiftl (it_gfn i) PAGE_SHIFT)) (it_level i)). lia.
      * split; [|reflexivity]. unfold pt_path_at in *. cbn [pt_path].
        rewrite Hi', Hp. unfold ptr_add. lia.
  - cbn [step_side_or_up]. unfold try_step_side.
    destruct (idx (it_gfn i) (it_level i) =? SPTE_ENT_PER_PAGE - 1) eqn:Hi.
    + apply Z.eqb_eq in Hi.
      unfold bind at 1, ret at 1. unfold try_step_up.
      destruct (it_level i =? root_level i) eqn:Htop.
      * apply Z.eqb_eq in Htop. unfold bind at 1, ret at 1.
        eexists. split; [reflexivity|]. cbn.
        repeat (split; [reflexivity || assumption|]).
        left. split; [reflexivity|].
        assert (Hlr : it_level i = R) by lia.
        rewrite Hlr in *. apply step_root_arith; try lia; assumption.
      * apply Z.eqb_neq in Htop.
        unfold tdp_iter_refresh_sptep, kvm_tdp_mmu_read_spte. munfold.
        pose proof (pow9_bound R ltac:(lia)) as HB.
        assert (H264 : 2 ^ 45 < 2 ^ 64) by (apply Z.pow_lt_mono_r; lia).
        pose proof (round_le (it_gfn i) (it_level i + 1) ltac:(lia) ltac:(lia))
          as Hrl.
        pose proof (gfn_round_for_level_bound (it_gfn i) (it_level i + 1))
          as Hrb.
        match goal with
        | |- exists i', step_side_or_up n ?i1 k = _ /\ _ =>
            destruct (IH i1 k) as (i' & Hrun & Hpath & HR' & Hmin & Hy & Hcase)
        end; cbn; try assumption; try lia.
        { rewrite round_round by lia. reflexivity. }
        { replace (it_level i + 1 - 1) with (it_level i) by lia. reflexivity. }
        exists i'. split; [exact Hrun|]. cbn in *.
        repeat (split; [assumption|]).
        rewrite (step_up_arith (it_gfn i) (it_level i) R) in Hcase
          by (try lia; assumption).
        destruct Hcase as [Hend | (Hv & Hl' & Hrest)]; [left; exact Hend|].
        right. split; [exact Hv|]. split; [lia | exact Hrest].
    + apply Z.eqb_neq in Hi.
      destruct (step_side_arith _ _ R Hl HR5 HG Hal Hi)
        as (Hw & Hlt & Hal' & Hi').
      unfold tdp_iter_step_side, kvm_tdp_mmu_read_spte. munfold. rewrite Hw.
      eexists. split; [reflexivity|]. cbn.
      repeat (split; [reflexivity || assumption|]).
      right. split; [reflexivity|]. split; [lia|].
      split; [reflexivity|]. split; [reflexivity|]. split; [exact Hlt|].
      split; [exact Hal'|]. split.
      * rewrite Hi'. pose proof (SPTE_INDEX_range
          (wrap64 (Z.shiftl (it_gfn i) PAGE_SHIFT)) (it_level i)). lia.
      * split; [|reflexivity]. unfold pt_path_at in *. cbn [pt_path].
        rewrite Hi', Hp. unfold ptr_add. lia.
Qed.

(** ** The translation of a frame *)

Lemma private_table_slot (k : kvm) (pt l i : Z) :
  private_table k pt l -> 0 <= i < SPTE_ENT_PER_PAGE ->
  page_of (ptr_add pt i) = pt /\
  exists sp, sps k !! page_of (ptr_add pt i) = Some sp /\
             is_private_sp sp = true /\ role_level (sp_role sp) = l.
Proof.
  intros ((H0 & Hhi & Hal) & sp & Hsp & Hpriv & Hlvl) Hi.
  rewrite (page_of_ptr_add pt i H0 Hhi Hal Hi).
  split; [reflexivity|]. exists sp. repeat split; assumption.
Qed.

Lemma private_table_level (k : kvm) (pt l l' : Z) :
  private_table k pt l -> private_table k pt l' -> l = l'.
Proof.
  intros (_ & sp & Hsp & _ & Hl) (_ & sp' & Hsp' & _ & Hl'). congruence.
Qed.

Lemma leaf_slot_end (n : nat) (k : kvm) (pt g : Z) :
  spte_to_child_pt (spte_at k (ptr_add pt (idx g (Z.of_nat n + 1))))
                   (Z.of_nat n + 1) = None ->
  leaf_slot n k pt g = (ptr_add pt (idx g (Z.of_nat n + 1)), Z.of_nat n + 1).
Proof.
  intros H. destruct n as [|n]; [reflexivity|].
  cbn [leaf_slot]. rewrite H. reflexivity.
Qed.

Lemma leaf_slot_down (n : nat) (k : kvm) (pt g child : Z) :
  spte_to_child_pt (spte_at k (ptr_add pt (idx g (Z.of_nat (S n) + 1))))
                   (Z.of_nat (S n) + 1) = Some child ->
  leaf_slot (S n) k pt g = leaf_slot n k child g.
Proof. intros H. cbn [leaf_slot]. rewrite H. reflexivity. Qed.

(** The slot that ends a translation is a slot of a private table of its
    level, and links no table. *)
Lemma leaf_slot_spec (k : kvm) (n : nat) :
  private_closed k ->
  forall pt g,
    private_table k pt (Z.of_nat n + 1) ->
    exists pt' i,
      leaf_slot n k pt g = (ptr_add pt' i, snd (leaf_slot n k pt g)) /\
      1 <= snd (leaf_slot n k pt g) <= Z.of_nat n + 1 /\
      private_table k pt' (snd (leaf_slot n k pt g)) /\
      0 <= i < SPTE_ENT_PER_PAGE /\
      spte_to_child_pt (spte_at k (ptr_add pt' i))
                       (snd (leaf_slot n k pt g)) = None.
Proof.
  intros Hclosed. induction n as [|n IH]; intros pt g Hpt.
  - exists pt, (idx g (Z.of_nat 0 + 1)). cbn [leaf_slot snd].
    split; [reflexivity|]. split; [lia|]. split; [exact Hpt|].
    split; [apply SPTE_INDEX_range | apply spte_to_child_pt_4k].
  - cbn [leaf_slot].
    destruct (spte_to_child_pt
                (spte_at k (ptr_add pt (idx g (Z.of_nat (S n) + 1))))
                (Z.of_nat (S n) + 1)) as [child|] eqn:Hc.
    + assert (Hchild : private_table k child (Z.of_nat n + 1)).
      { replace (Z.of_nat n + 1) with (Z.of_nat (S n) + 1 - 1) by lia.
        exact (Hclosed _ _ _ _ Hpt (SPTE_INDEX_range _ _) Hc). }
      destruct (IH child g Hchild) as (pt' & i & Heq & Hl & Ht & Hi & Hnone).
      exists pt', i. split; [exact Heq|]. split; [lia|].
      split; [exact Ht|]. split; [exact Hi | exact Hnone].
    + exists pt, (idx g (Z.of_nat (S n) + 1)). cbn [snd].
      split; [reflexivity|]. split; [lia|]. split; [exact Hpt|].
      split; [apply SPTE_INDEX_range | exact Hc].
Qed.

(** ** What the policy makes of an entry *)

Lemma SHADOW_NONPRESENT_VALUE_plain :
  is_shadow_present_pte SHADOW_NONPRESENT_VALUE = false /\
  is_private_zapped_spte SHADOW_NONPRESENT_VALUE = false /\
  is_large_pte SHADOW_NONPRESENT_VALUE = false.
Proof. repeat split; reflexivity. Qed.

Lemma zapped_value_not_present (zp : tdp_zap_private) (v : Z) :
  is_shadow_present_pte (zapped_value zp v) = false.
Proof.
  destruct zp; cbn; try apply private_zapped_not_present. reflexivity.
Qed.

Lemma zapped_leaf_idem (zp : tdp_zap_private) (v l : Z) :
  zapped_leaf zp (zapped_leaf zp v l) l = zapped_leaf zp v l.
Proof.
  assert (Hno : zap_applies zp (zapped_value zp v) = false).
  { destruct zp; cbn.
    - reflexivity.
    - rewrite private_zapped_not_present. reflexivity.
    - reflexivity. }
  unfold zapped_leaf.
  destruct (is_last_spte v l && zap_applies zp v) eqn:Happ.
  - rewrite Hno, andb_false_r. reflexivity.
  - rewrite Happ. reflexivity.
Qed.

Lemma zapped_leaf_child_pt (zp : tdp_zap_private) (v l : Z) :
  spte_to_child_pt (zapped_leaf zp v l) l = spte_to_child_pt v l.
Proof.
  unfold zapped_leaf.
  destruct (is_last_spte v l && zap_applies zp v) eqn:Happ; [|reflexivity].
  apply andb_true_iff in Happ as [Hlast _].
  rewrite (spte_to_child_pt_last v l Hlast).
  unfold spte_to_child_pt. rewrite zapped_value_not_present. reflexivity.
Qed.

Lemma zapped_leaf_large (zp : tdp_zap_private) (v l : Z) :
  is_large_pte (zapped_leaf zp v l) = true -> is_large_pte v = true.
Proof.
  unfold zapped_leaf.
  destruct (is_last_spte v l && zap_applies zp v); [|auto].
  destruct zp; cbn; rewrite ?private_zapped_keeps_large; auto.
  discriminate.
Qed.

Section ZapWalk.

Variable E : arch_env.
Variable depth : nat.

(** ** One turn of the loop *)

Lemma iter_set_old_spte_same (iter : tdp_iter) :
  iter_set_old_spte (old_spte iter) iter = iter.
Proof. destruct iter. reflexivity. Qed.

(** The body of the loop of [tdp_mmu_zap_leafs], on a slot of a private
    table whose entry the split test does not select, when no reschedule
    is due: the slot gets what the policy makes of its entry, nothing else
    is written, and the cursor stays where it is. *)
Lemma zap_leafs_body_spec
    (zp : tdp_zap_private) (start end_gfn : Z) (can_yield flush : bool)
    (iter : tdp_iter) (k : kvm) (sp : kvm_mmu_page) :
  zp <> ZAP_PRIVATE_SKIP ->
  sps k !! page_of (sptep iter) = Some sp ->
  is_private_sp sp = true ->
  nonzero (kvm_gfn_shared_mask k) = true ->
  spte_at k (sptep iter) = old_spte iter ->
  yielded iter = false ->
  can_yield && need_resched E k = false ->
  zap_leafs_split_test E k true start end_gfn iter = false ->
  exists flush' k',
    zap_leafs_body E depth true start end_gfn can_yield zp iter
                   (flush, None) k
      = Done (Next, iter, (flush', None)) k' /\
    (forall q, q <> sptep iter -> spte_at k' q = spte_at k q) /\
    spte_at k' (sptep iter)
      = zapped_leaf zp (old_spte iter) (it_level iter) /\
    sps k' = sps k /\ gfn_shared_mask k' = gfn_shared_mask k.
Proof.
  intros Hzp Hsp Hpriv Hmask Hcur Hny Hresched Hsplit.
  unfold zap_leafs_body.
  assert (Hcr : (if can_yield
                 then tdp_mmu_iter_cond_resched E iter flush false
                 else ret (false, iter)) k = Done (false, iter) k).
  { destruct can_yield; [|reflexivity]. cbn in Hresched.
    unfold tdp_mmu_iter_cond_resched. munfold.
    destruct (next_last_level_gfn iter =? yielded_gfn iter); [reflexivity|].
    rewrite Hresched, Hny. reflexivity. }
  unfold bind at 1. rewrite Hcr. unfold zapped_leaf.
  destruct (is_last_spte (old_spte iter) (it_level iter)) eqn:Hlast;
    cbn [negb andb].
  2:{ exists flush, k. split; [reflexivity|].
      split; [reflexivity|]. split; [exact Hcur|]. split; reflexivity. }
  destruct (negb (is_shadow_present_pte (old_spte iter)) &&
            negb (is_private_zapped_spte (old_spte iter))) eqn:Hvis.
  { exists flush, k. split; [reflexivity|]. split; [reflexivity|].
    split; [|split; reflexivity].
    apply andb_true_iff in Hvis as [Hp Hz].
    apply negb_true_iff in Hp. apply negb_true_iff in Hz.
    destruct zp; cbn; rewrite ?Hp, ?Hz; exact Hcur. }
  unfold bind at 1. unfold get at 1. rewrite Hsplit.
  destruct ((bool_decide (zp = ZAP_PRIVATE_SKIP) ||
             bool_decide (zp = ZAP_PRIVATE_BLOCK)) &&
            is_private_zapped_spte (old_spte iter)) eqn:Hskip.
  { exists flush, k. split; [reflexivity|]. split; [reflexivity|].
    split; [|split; reflexivity].
    apply andb_true_iff in Hskip as [Hpol Hz].
    destruct zp; [congruence| |].
    - cbn. rewrite Hz, andb_false_r. exact Hcur.
    - rewrite !bool_decide_eq_false_2 in Hpol by discriminate.
      discriminate Hpol. }
  assert (Happ : zap_applies zp (old_spte iter) = true).
  { destruct zp; [congruence| |].
    - rewrite bool_decide_eq_false_2, bool_decide_eq_true_2 in Hskip
        by congruence.
      cbn in *.
      destruct (is_shadow_present_pte (old_spte iter)),
        (is_private_zapped_spte (old_spte iter)); cbn in *; congruence.
    - cbn in *.
      destruct (is_shadow_present_pte (old_spte iter)),
        (is_private_zapped_spte (old_spte iter)); cbn in *; congruence. }
  rewrite Happ.
  assert (Hnew : (if bool_decide (zp = ZAP_PRIVATE_REMOVE)
                  then ret SHADOW_NONPRESENT_VALUE
                  else private_zapped_spte iter) k
                 = Done (zapped_value zp (old_spte iter)) k).
  { destruct zp; [congruence| |reflexivity].
    rewrite bool_decide_eq_false_2 by discriminate.
    unfold private_zapped_spte. unfold bind at 1, get at 1.
    unfold kvm_gfn_shared_mask in *. rewrite Hmask. cbn [negb].
    unfold bind at 1. rewrite (is_private_sptep_lookup _ _ _ Hsp).
    rewrite Hpriv. reflexivity. }
  unfold bind at 1. rewrite Hnew.
  destruct (tdp_mmu_set_spte_zap E depth (it_as_id iter) (sptep iter)
              (old_spte iter) (zapped_value zp (old_spte iter))
              (it_gfn iter) (it_level iter) k sp
              Hsp Hcur Hlast (zapped_value_not_present _ _))
    as (k' & Hrun & Hs & Hp & Hg).
  unfold tdp_mmu_iter_set_spte. unfold bind at 1 2 3.
  unfold WARN_ON at 1, ret at 1. rewrite Hrun.
  rewrite iter_set_old_spte_same.
  exists true, k'. split; [reflexivity|].
  split; [|split; [|split; assumption]].
  - intros q Hq. unfold spte_at. rewrite Hs, lookup_insert_ne by congruence.
    reflexivity.
  - unfold spte_at. rewrite Hs, lookup_insert_eq. reflexivity.
Qed.

Lemma tdp_loop_exit {S : Type} (n : nat) (end_gfn : Z)
    (body : tdp_iter -> S -> M (loop_ctl * tdp_iter * S))
    (iter : tdp_iter) (st : S) (k : kvm) :
  valid iter && (it_gfn iter <? end_gfn) = false ->
  tdp_loop n end_gfn body true iter st k = Done (false, iter, st) k.
Proof. intros H. destruct n; cbn [tdp_loop]; rewrite H; reflexivity. Qed.

(** ** The walk *)

Section Walk.

Variable zp : tdp_zap_private.
Hypothesis Hzp : zp <> ZAP_PRIVATE_SKIP.
Variable k0 : kvm.
Variable root : Z.
Variable rl : nat.
Variables s e : Z.
Variable can_yield : bool.
Hypothesis Hrl : Z.of_nat rl + 1 <= 5.
Hypothesis Hroot : private_table k0 root (Z.of_nat rl + 1).
Hypothesis Hclosed : private_closed k0.
Hypothesis Hmask : nonzero (kvm_gfn_shared_mask k0) = true.
Hypothesis Hresched : forall k, can_yield && need_resched E k = false.
Hypothesis Hrange : 0 <= s < e /\ e <= 2 ^ (9 * (Z.of_nat rl + 1)).
Hypothesis Hnosplit :
  forall g k, s <= g < e -> gfn_shared_mask k = gfn_shared_mask k0 ->
    split_selected E k s e g (snd (leaf_slot rl k0 root g))
                   (spte_at k0 (fst (leaf_slot rl k0 root g))) = false.

Lemma span_bounds :
  2 ^ (9 * (Z.of_nat rl + 1)) <= 2 ^ 45 /\ 2 ^ 45 < 2 ^ 64.
Proof.
  split; [apply pow9_bound; lia | apply Z.pow_lt_mono_r; lia].
Qed.

Lemma zapped_upto_mono (d : Z) (k : kvm) :
  e <= d -> zapped_upto zp k0 root rl s e d k ->
  zapped_upto zp k0 root rl s e e k.
Proof.
  intros Hd (Hp & Hm & Ha & Hb). split; [exact Hp|]. split; [exact Hm|].
  split.
  - intros g Hg _. apply Ha; lia.
  - intros p. destruct (Hb p) as [Hsame | (g & Hg & Hgd & Hrest)].
    + left. exact Hsame.
    + right. exists g. split; [exact Hg|]. split; [lia | exact Hrest].
Qed.

(** The frames of the entry the cursor stands on share its slot. *)
Lemma frames_of_entry (G l g : Z) :
  1 <= l <= Z.of_nat rl + 1 -> 0 <= G < 2 ^ (9 * (Z.of_nat rl + 1)) ->
  G = gfn_round_for_level G l ->
  G <= g < G + KVM_PAGES_PER_HPAGE l ->
  g / 2 ^ (9 * (l - 1)) = G / 2 ^ (9 * (l - 1)) /\
  idx g l = idx G l /\
  g / 2 ^ (9 * l) = G / 2 ^ (9 * l).
Proof.
  intros Hl HG Hal Hg. destruct span_bounds as [HB H64].
  pose proof (pow9_pos (l - 1) ltac:(lia)) as HP.
  rewrite pages_pow in Hg by lia.
  rewrite gfn_round_for_level_spec in Hal by lia.
  assert (Hq : g / 2 ^ (9 * (l - 1)) = G / 2 ^ (9 * (l - 1))).
  { set (P := 2 ^ (9 * (l - 1))) in *. set (a := G / P) in *.
    symmetry. apply (Z.div_unique g P a (g - P * a)); lia. }
  split; [exact Hq|]. split.
  - rewrite !idx_spec by lia. rewrite Hq. reflexivity.
  - rewrite (div_pow9 g (l - 1) l), (div_pow9 G (l - 1) l) by lia.
    rewrite Hq. reflexivity.
Qed.

(** Where the cursor stands, and what it sees there. *)
Lemma cursor_slot (k : kvm) (iter : tdp_iter) :
  walk_cursor k0 root rl s e k iter ->
  zapped_upto zp k0 root rl s e (next_last_level_gfn iter) k ->
  private_table k0 (pt_path_at iter (it_level iter - 1)) (it_level iter) /\
  page_of (sptep iter) = pt_path_at iter (it_level iter - 1) /\
  (exists sp, sps k !! page_of (sptep iter) = Some sp /\
              is_private_sp sp = true) /\
  0 <= it_gfn iter <= next_last_level_gfn iter /\
  next_last_level_gfn iter
    < it_gfn iter + KVM_PAGES_PER_HPAGE (it_level iter) /\
  it_gfn iter = gfn_round_for_level (it_gfn iter) (it_level iter) /\
  (old_spte iter = spte_at k0 (sptep iter) \/
   old_spte iter
     = zapped_leaf zp (spte_at k0 (sptep iter)) (it_level iter)) /\
  spte_to_child_pt (old_spte iter) (it_level iter)
    = spte_to_child_pt (spte_at k0 (sptep iter)) (it_level iter).
Proof.
  intros (Hlen & HRl & Hmin & Hl & HR5 & Hvalid & Hny & HN & Hcont & HG &
          Htabs & Hleaf & Hptr & Hold)
         (Hsps & Hmk & Ha & Hb).
  destruct span_bounds as [HB H64]. destruct Hrange as [Hse He].
  assert (Htab := Htabs (it_level iter) ltac:(lia)).
  destruct (private_table_slot k0 _ _
              (idx (it_gfn iter) (it_level iter)) Htab
              (SPTE_INDEX_range _ _)) as (Hpage & sp & Hsp & Hpriv & Hlvl).
  rewrite <- Hptr in Hpage, Hsp.
  pose proof (round_le (next_last_level_gfn iter) (it_level iter)
                ltac:(lia) ltac:(lia)) as Hrle.
  rewrite <- HG in Hrle.
  pose proof (gfn_round_for_level_bound (next_last_level_gfn iter)
                                        (it_level iter)) as Hrb.
  rewrite <- HG in Hrb.
  assert (Hcases : old_spte iter = spte_at k0 (sptep iter) \/
                   old_spte iter = zapped_leaf zp (spte_at k0 (sptep iter))
                                               (it_level iter)).
  { rewrite Hold. destruct (Hb (sptep iter)) as [Hsame | (g & Hg & Hgd & Hfst & Hval)].
    - left. exact Hsame.
    - right. rewrite Hval. f_equal.
      destruct (leaf_slot_spec k0 rl Hclosed root g Hroot)
        as (pt' & i & Heq & Hl' & Ht' & Hi & _).
      rewrite Heq in Hfst. cbn [fst] in Hfst.
      destruct (private_table_slot k0 _ _ i Ht' Hi) as (Hpage' & _).
      rewrite Hfst, Hpage in Hpage'. rewrite <- Hpage' in Ht'.
      exact (private_table_level _ _ _ _ Ht' Htab). }
  split; [exact Htab|]. split; [exact Hpage|]. split.
  { exists sp. rewrite Hsps. split; assumption. }
  split; [lia|]. split; [lia|]. split.
  { rewrite HG at 1. rewrite HG. symmetry. apply round_round; lia. }
  split; [exact Hcases|].
  destruct Hcases as [-> | ->]; [reflexivity | apply zapped_leaf_child_pt].
Qed.

(** The entry the cursor stands on, when it links no table, ends the
    translation of each of its frames. *)
Lemma entry_leaf (k : kvm) (iter : tdp_iter) (g : Z) :
  walk_cursor k0 root rl s e k iter ->
  zapped_upto zp k0 root rl s e (next_last_level_gfn iter) k ->
  spte_to_child_pt (spte_at k0 (sptep iter)) (it_level iter) = None ->
  it_gfn iter <= g < it_gfn iter + KVM_PAGES_PER_HPAGE (it_level iter) ->
  g < 2 ^ (9 * (Z.of_nat rl + 1)) ->
  leaf_slot rl k0 root g = (sptep iter, it_level iter).
Proof.
  intros Hcur Hupto Hnone Hg Hglt.
  destruct (cursor_slot k iter Hcur Hupto)
    as (Htab & Hpage & _ & HGN & HNlt & Hal & _ & _).
  destruct Hcur as (Hlen & HRl & Hmin & Hl & HR5 & Hvalid & Hny & HN & Hcont &
                    HG & Htabs & Hleaf & Hptr & Hold).
  assert (HGb : 0 <= it_gfn iter < 2 ^ (9 * (Z.of_nat rl + 1))) by lia.
  destruct (frames_of_entry _ _ g Hl HGb Hal Hg) as (_ & Hig & Hbg).
  destruct (frames_of_entry _ _ (next_last_level_gfn iter) Hl HGb Hal
              ltac:(lia)) as (_ & _ & HbN).
  rewrite (Hleaf (it_level iter) g ltac:(lia) ltac:(lia)) by congruence.
  set (n := Z.to_nat (it_level iter - 1)).
  assert (Hn : Z.of_nat n + 1 = it_level iter) by (subst n; lia).
  rewrite leaf_slot_end; rewrite Hn, Hig, <- Hptr; [reflexivity | exact Hnone].
Qed.

(** No entry the cursor meets is split. *)
Lemma cursor_not_split (k : kvm) (iter : tdp_iter) :
  walk_cursor k0 root rl s e k iter ->
  zapped_upto zp k0 root rl s e (next_last_level_gfn iter) k ->
  it_gfn iter < e ->
  zap_leafs_split_test E k true s e iter = false.
Proof.
  intros Hcur Hupto Hlt.
  destruct (cursor_slot k iter Hcur Hupto)
    as (Htab & Hpage & _ & HGN & HNlt & Hal & Hcases & _).
  destruct (is_large_pte (old_spte iter)) eqn:Hlarge.
  2:{ unfold zap_leafs_split_test. rewrite Hlarge.
      rewrite andb_false_r. reflexivity. }
  assert (Hlarge0 : is_large_pte (spte_at k0 (sptep iter)) = true).
  { destruct Hcases as [Hc | Hc]; rewrite Hc in Hlarge;
      [exact Hlarge | exact (zapped_leaf_large _ _ _ Hlarge)]. }
  assert (Hnone : spte_to_child_pt (spte_at k0 (sptep iter)) (it_level iter)
                  = None).
  { apply spte_to_child_pt_last. unfold is_last_spte.
    rewrite Hlarge0. apply orb_true_r. }
  assert (Hcur' := Hcur).
  destruct Hcur' as (Hlen & HRl & Hmin & Hl & HR5 & Hvalid & Hny & HN & Hcont &
                     HG & Htabs & Hleaf & Hptr & Hold).
  destruct Hupto as (Hsps & Hmk & Ha & Hb).
  pose proof (Hnosplit (next_last_level_gfn iter) k
                ltac:(specialize (Hcont Hlt); lia) Hmk) as Hns.
  rewrite (entry_leaf k iter (next_last_level_gfn iter) Hcur
             (conj Hsps (conj Hmk (conj Ha Hb))) Hnone ltac:(lia) ltac:(lia))
    in Hns.
  cbn [fst snd] in Hns. unfold split_selected in Hns.
  rewrite <- HG, Hlarge0 in Hns.
  unfold zap_leafs_split_test. rewrite Hlarge.
  unfold kvm_gfn_shared_mask in *. rewrite Hmk in *. rewrite Hmask in *.
  cbn [andb] in *. exact Hns.
Qed.

(** Once the body has run on an entry that links no table, the frames of
    that entry are dealt with. *)
Lemma zapped_upto_advance (k k1 : kvm) (iter : tdp_iter) :
  walk_cursor k0 root rl s e k iter ->
  zapped_upto zp k0 root rl s e (next_last_level_gfn iter) k ->
  it_gfn iter < e ->
  spte_to_child_pt (spte_at k0 (sptep iter)) (it_level iter) = None ->
  (forall q, q <> sptep iter -> spte_at k1 q = spte_at k q) ->
  spte_at k1 (sptep iter)
    = zapped_leaf zp (old_spte iter) (it_level iter) ->
  sps k1 = sps k -> gfn_shared_mask k1 = gfn_shared_mask k ->
  zapped_upto zp k0 root rl s e
    (it_gfn iter + KVM_PAGES_PER_HPAGE (it_level iter)) k1.
Proof.
  intros Hcur Hupto Hlt Hnone Hother Hslot Hsps1 Hmk1.
  destruct (cursor_slot k iter Hcur Hupto)
    as (Htab & Hpage & _ & HGN & HNlt & Hal & Hcases & _).
  assert (Hnew : spte_at k1 (sptep iter)
                 = zapped_leaf zp (spte_at k0 (sptep iter)) (it_level iter)).
  { rewrite Hslot. destruct Hcases as [-> | ->];
      [reflexivity | apply zapped_leaf_idem]. }
  assert (Hentry := entry_leaf k iter).
  assert (Hcur' := Hcur).
  destruct Hcur' as (Hlen & HRl & Hmin & Hl & HR5 & Hvalid & Hny & HN & Hcont &
                     HG & Htabs & Hleaf & Hptr & Hold).
  assert (Hupto' := Hupto).
  destruct Hupto' as (Hsps & Hmk & Ha & Hb).
  destruct Hrange as [Hse He]. specialize (Hcont Hlt).
  split; [congruence|]. split; [congruence|]. split.
  - intros g Hg Hgd.
    destruct (Z.lt_ge_cases g (next_last_level_gfn iter)) as [Hlo | Hhi].
    + destruct (Z.eq_dec (fst (leaf_slot rl k0 root g)) (sptep iter))
        as [Heq | Hne].
      * assert (Hlvl : snd (leaf_slot rl k0 root g) = it_level iter).
        { destruct (leaf_slot_spec k0 rl Hclosed root g Hroot)
            as (pt' & i & Heq' & Hl' & Ht' & Hi & _).
          rewrite Heq' in Heq. cbn [fst] in Heq.
          destruct (private_table_slot k0 _ _ i Ht' Hi) as (Hpage' & _).
          rewrite Heq, Hpage in Hpage'. rewrite <- Hpage' in Ht'.
          exact (private_table_level _ _ _ _ Ht' Htab). }
        rewrite Heq, Hlvl. exact Hnew.
      * rewrite (Hother _ Hne). apply Ha; assumption.
    + rewrite (Hentry g Hcur Hupto Hnone ltac:(lia) ltac:(lia)).
      cbn [fst snd]. exact Hnew.
  - intros p. destruct (Z.eq_dec p (sptep iter)) as [-> | Hne].
    + right. exists (next_last_level_gfn iter).
      rewrite (Hentry (next_last_level_gfn iter) Hcur Hupto Hnone
                 ltac:(lia) ltac:(lia)).
      cbn [fst snd]. split; [lia|]. split; [lia|].
      split; [reflexivity | exact Hnew].
    + rewrite (Hother _ Hne).
      destruct (Hb p) as [Hsame | (g & Hg & Hgd & Hrest)].
      * left. exact Hsame.
      * right. exists g. split; [exact Hg|]. split; [lia | exact Hrest].
Qed.

Lemma zapped_upto_same (d : Z) (k k1 : kvm) :
  (forall q, spte_at k1 q = spte_at k q) ->
  sps k1 = sps k -> gfn_shared_mask k1 = gfn_shared_mask k ->
  zapped_upto zp k0 root rl s e d k ->
  zapped_upto zp k0 root rl s e d k1.
Proof.
  intros Hq Hs Hm (Hsps & Hmk & Ha & Hb).
  split; [congruence|]. split; [congruence|]. split.
  - intros g Hg Hgd. rewrite Hq. apply Ha; assumption.
  - intros p. rewrite Hq. apply Hb.
Qed.

(** The frame after an entry lies in the table of every level from the
    one the cursor moves to upwards in which the entry lies. *)
Lemma next_frame_block (N G l l' j : Z) :
  1 <= l <= l' -> l' <= j -> j <= Z.of_nat rl + 1 ->
  0 <= G <= N -> N < G + KVM_PAGES_PER_HPAGE l ->
  G + KVM_PAGES_PER_HPAGE l < 2 ^ (9 * (Z.of_nat rl + 1)) ->
  G + KVM_PAGES_PER_HPAGE l
    = gfn_round_for_level (G + KVM_PAGES_PER_HPAGE l) l' ->
  idx (G + KVM_PAGES_PER_HPAGE l) l' <> 0 ->
  (G + KVM_PAGES_PER_HPAGE l) / 2 ^ (9 * j) = N / 2 ^ (9 * j).
Proof.
  intros Hl Hj HjR HGN HN Hlt Hal Hidx.
  destruct span_bounds as [HB H64].
  set (N' := G + KVM_PAGES_PER_HPAGE l) in *.
  pose proof (pow9_pos (l - 1) ltac:(lia)) as HPl.
  pose proof (pow9_pos (l' - 1) ltac:(lia)) as HP.
  pose proof (pow9_pos (j - l') ltac:(lia)) as HM.
  pose proof (pow9_le (l - 1) (l' - 1) ltac:(lia)) as Hle.
  assert (HN' : N' = G + 2 ^ (9 * (l - 1)))
    by (subst N'; rewrite pages_pow by lia; reflexivity).
  rewrite gfn_round_for_level_spec in Hal by lia.
  rewrite idx_spec in Hidx by lia.
  set (P := 2 ^ (9 * (l' - 1))) in *. set (b := N' / P) in *.
  assert (Hb : 0 <= b) by (subst b; apply Z.div_pos; lia).
  assert (Hb1 : 1 <= b).
  { destruct (Z.eq_dec b 0) as [Hz|]; [|lia].
    rewrite Hz in Hidx. exfalso. apply Hidx. reflexivity. }
  assert (HqN : N / P = b - 1).
  { symmetry. apply (Z.div_unique N P (b - 1) (N - P * (b - 1))); nia. }
  rewrite (div_pow9 N' (l' - 1) j), (div_pow9 N (l' - 1) j) by lia.
  fold P. fold b. rewrite HqN.
  replace (j - (l' - 1)) with ((j - l') + 1) by lia.
  rewrite pow9_succ by lia. rewrite <- !Z.div_div by lia.
  f_equal.
  pose proof (Z.div_mod b 512 ltac:(lia)) as Hdm.
  pose proof (Z.mod_pos_bound b 512 ltac:(lia)) as Hmb.
  apply (Z.div_unique (b - 1) 512 (b / 512) (b mod 512 - 1)); lia.
Qed.

(** The cursor leaves an entry that links no table: the frames of the
    entry are dealt with, and the walk is over or the cursor stands on the
    slot of the next frame, closer to the end of the range. *)
Lemma walk_side (k k1 : kvm) (iter : tdp_iter) (v' : Z) :
  walk_cursor k0 root rl s e k iter ->
  zapped_upto zp k0 root rl s e (next_last_level_gfn iter) k ->
  it_gfn iter < e ->
  spte_to_child_pt (spte_at k0 (sptep iter)) (it_level iter) = None ->
  (forall q, q <> sptep iter -> spte_at k1 q = spte_at k q) ->
  spte_at k1 (sptep iter)
    = zapped_leaf zp (old_spte iter) (it_level iter) ->
  sps k1 = sps k -> gfn_shared_mask k1 = gfn_shared_mask k ->
  exists iter' d,
    step_side_or_up (Z.to_nat PT64_ROOT_MAX_LEVEL)
                    (iter_set_old_spte v' iter) k1 = Done iter' k1 /\
    zapped_upto zp k0 root rl s e d k1 /\
    ((valid iter' = false /\ e <= d) \/
     (walk_cursor k0 root rl s e k1 iter' /\
      d = next_last_level_gfn iter' /\
      6 * (e - next_last_level_gfn iter') + it_level iter'
        < 6 * (e - next_last_level_gfn iter) + it_level iter)).
Proof.
  intros Hcur Hupto Hlt Hnone Hother Hslot Hsps1 Hmk1.
  pose proof (zapped_upto_advance k k1 iter Hcur Hupto Hlt Hnone Hother
                Hslot Hsps1 Hmk1) as Hadv.
  destruct (cursor_slot k iter Hcur Hupto)
    as (Htab & Hpage & _ & HGN & HNlt & Hal & _ & _).
  destruct Hcur as (Hlen & HRl & Hmin & Hl & HR5 & Hvalid & Hny & HN & Hcont &
                    HG & Htabs & Hleaf & Hptr & Hold).
  destruct Hrange as [Hse He]. specialize (Hcont Hlt).
  destruct (step_side_or_up_spec (Z.of_nat rl + 1)
              (Z.to_nat PT64_ROOT_MAX_LEVEL) (iter_set_old_spte v' iter) k1)
    as (iter' & Hrun & Hpath & HR' & Hmin' & Hy' & Hcase);
    cbn [root_level it_level it_gfn sptep pt_path iter_set_old_spte];
    try assumption; try (unfold PT64_ROOT_MAX_LEVEL; lia).
  cbn [root_level it_level it_gfn sptep pt_path min_level yielded valid
       iter_set_old_spte] in *.
  exists iter', (it_gfn iter + KVM_PAGES_PER_HPAGE (it_level iter)).
  split; [exact Hrun|]. split; [exact Hadv|].
  destruct Hcase as [(Hv & Hend) | (Hv & Hl' & Hg' & Hn' & Hlt' & Hal' & Hi' &
                                    Hp' & Ho')].
  - left. split; [exact Hv | lia].
  - right. split; [|split; [congruence|]].
    + assert (Hpa : forall n, pt_path_at iter' n = pt_path_at iter n)
        by (intros n; unfold pt_path_at; rewrite Hpath; reflexivity).
      unfold walk_cursor.
      split; [congruence|]. split; [exact HR'|]. split; [congruence|].
      split; [lia|]. split; [lia|]. split; [congruence|].
      split; [congruence|]. split; [lia|]. split; [lia|].
      split; [congruence|]. split.
      { intros l Hll. rewrite Hpa. apply Htabs. lia. }
      split.
      { intros l g Hll Hg Hq. rewrite Hpa. apply Hleaf; [lia | exact Hg |].
        rewrite Hq, Hn', Hg'.
        apply (next_frame_block _ _ (it_level iter) (it_level iter') l);
          try lia.
        - rewrite <- Hg'. exact Hal'.
        - rewrite <- Hg'. exact Hi'. }
      split; [exact Hp' | exact Ho'].
    + rewrite Hn', Hg'. lia.
Qed.

(** The cursor descends from an entry that links a table: it stands in
    that table, on the way to the same frame. *)
Lemma walk_down (k k1 : kvm) (iter : tdp_iter) (child : Z) :
  walk_cursor k0 root rl s e k iter ->
  zapped_upto zp k0 root rl s e (next_last_level_gfn iter) k ->
  it_gfn iter < e ->
  it_level iter <> PG_LEVEL_4K ->
  spte_to_child_pt (spte_at k1 (sptep iter)) (it_level iter) = Some child ->
  (forall q, q <> sptep iter -> spte_at k1 q = spte_at k q) ->
  spte_at k1 (sptep iter)
    = zapped_leaf zp (old_spte iter) (it_level iter) ->
  sps k1 = sps k -> gfn_shared_mask k1 = gfn_shared_mask k ->
  exists iter',
    tdp_iter_step_down (iter_set_old_spte (spte_at k1 (sptep iter)) iter)
                       child k1 = Done iter' k1 /\
    zapped_upto zp k0 root rl s e (next_last_level_gfn iter') k1 /\
    walk_cursor k0 root rl s e k1 iter' /\
    next_last_level_gfn iter' = next_last_level_gfn iter /\
    it_level iter' = it_level iter - 1.
Proof.
  intros Hcur Hupto Hlt Hl1 Hchild Hother Hslot Hsps1 Hmk1.
  destruct (cursor_slot k iter Hcur Hupto)
    as (Htab & Hpage & _ & HGN & HNlt & Hal & _ & Hlinks).
  assert (Hcur' := Hcur).
  destruct Hcur' as (Hlen & HRl & Hmin & Hl & HR5 & Hvalid & Hny & HN & Hcont &
                     HG & Htabs & Hleaf & Hptr & Hold).
  destruct Hrange as [Hse He]. specialize (Hcont Hlt).
  destruct span_bounds as [HB H64].
  unfold PG_LEVEL_4K in Hl1.
  (* the entry is a link: the body has left it alone *)
  rewrite Hslot, zapped_leaf_child_pt in Hchild.
  assert (Hsame : spte_at k1 (sptep iter) = spte_at k (sptep iter)).
  { rewrite Hslot, <- Hold. unfold zapped_leaf.
    destruct (is_last_spte (old_spte iter) (it_level iter)) eqn:Hlast;
      [|reflexivity].
    rewrite (spte_to_child_pt_last _ _ Hlast) in Hchild. discriminate. }
  assert (Hall : forall q, spte_at k1 q = spte_at k q).
  { intros q. destruct (Z.eq_dec q (sptep iter)) as [-> | Hne];
      [exact Hsame | exact (Hother _ Hne)]. }
  assert (Hchild0 : spte_to_child_pt (spte_at k0 (sptep iter)) (it_level iter)
                    = Some child) by congruence.
  assert (Hct : private_table k0 child (it_level iter - 1)).
  { rewrite Hptr in Hchild0.
    exact (Hclosed _ _ _ _ Htab (SPTE_INDEX_range _ _) Hchild0). }
  assert (HGb : 0 <= it_gfn iter < 2 ^ (9 * (Z.of_nat rl + 1))) by lia.
  unfold tdp_iter_step_down, tdp_iter_refresh_sptep, kvm_tdp_mmu_read_spte.
  munfold.
  cbn [root_level it_level it_gfn sptep pt_path min_level yielded valid
       next_last_level_gfn yielded_gfn it_as_id iter_set_old_spte].
  eexists. split; [reflexivity|].
  cbn [root_level it_level it_gfn sptep pt_path min_level yielded valid
       next_last_level_gfn yielded_gfn it_as_id].
  split; [exact (zapped_upto_same _ k k1 Hall Hsps1 Hmk1 Hupto)|].
  split; [|split; reflexivity].
  assert (Hpe : forall it : tdp_iter,
             pt_path it = <[Z.to_nat (it_level iter - 1 - 1) := child]>
                            (pt_path iter) ->
             pt_path_at it (it_level iter - 1 - 1) = child).
  { intros it Hit. unfold pt_path_at. rewrite Hit.
    apply path_lookup_insert_eq; [exact Hlen | lia]. }
  assert (Hpn : forall (it : tdp_iter) j,
             pt_path it = <[Z.to_nat (it_level iter - 1 - 1) := child]>
                            (pt_path iter) ->
             it_level iter <= j ->
             pt_path_at it (j - 1) = pt_path_at iter (j - 1)).
  { intros it j Hit Hj. unfold pt_path_at. rewrite Hit.
    apply path_lookup_insert_ne; lia. }
  unfold walk_cursor.
  cbn [root_level it_level it_gfn sptep pt_path min_level yielded valid
       next_last_level_gfn yielded_gfn it_as_id old_spte].
  split; [rewrite length_insert; exact Hlen|].
  split; [exact HRl|]. split; [exact Hmin|]. split; [lia|].
  split; [exact HR5|]. split; [exact Hvalid|]. split; [exact Hny|].
  split; [exact HN|]. split; [intros _; exact Hcont|].
  split; [reflexivity|]. split.
  { intros j Hj. destruct (Z.eq_dec j (it_level iter - 1)) as [-> | Hne].
    - rewrite Hpe by reflexivity. exact Hct.
    - rewrite Hpn by (reflexivity || lia). apply Htabs. lia. }
  split.
  { intros j g Hj Hg Hq. destruct (Z.eq_dec j (it_level iter - 1)) as [-> | Hne].
    - rewrite Hpe by reflexivity.
      assert (Hq' : g / 2 ^ (9 * it_level iter)
                    = next_last_level_gfn iter / 2 ^ (9 * it_level iter)).
      { rewrite (div_pow9 g (it_level iter - 1) (it_level iter)),
          (div_pow9 (next_last_level_gfn iter) (it_level iter - 1)
                    (it_level iter)) by lia.
        rewrite Hq. reflexivity. }
      rewrite (Hleaf (it_level iter) g ltac:(lia) Hg Hq').
      replace (Z.to_nat (it_level iter - 1))
        with (S (Z.to_nat (it_level iter - 1 - 1))) by lia.
      apply leaf_slot_down.
      replace (Z.of_nat (S (Z.to_nat (it_level iter - 1 - 1))) + 1)
        with (it_level iter) by lia.
      assert (Hi : idx g (it_level iter) = idx (it_gfn iter) (it_level iter)).
      { destruct (frames_of_entry _ _ (next_last_level_gfn iter) Hl HGb Hal
                    ltac:(lia)) as (HqN & _ & _).
        rewrite !idx_spec by lia. rewrite Hq, HqN. reflexivity. }
      rewrite Hi, <- Hptr. exact Hchild0.
    - rewrite Hpn by (reflexivity || lia).
      apply Hleaf; [lia | exact Hg | exact Hq]. }
  split; reflexivity.
Qed.

(** A turn of the walk: after the body, [tdp_iter_next] brings the cursor
    to an entry closer to the end of the range, or ends the walk with the
    range dealt with. *)
Lemma walk_next (k k1 : kvm) (iter : tdp_iter) :
  walk_cursor k0 root rl s e k iter ->
  zapped_upto zp k0 root rl s e (next_last_level_gfn iter) k ->
  it_gfn iter < e ->
  (forall q, q <> sptep iter -> spte_at k1 q = spte_at k q) ->
  spte_at k1 (sptep iter)
    = zapped_leaf zp (old_spte iter) (it_level iter) ->
  sps k1 = sps k -> gfn_shared_mask k1 = gfn_shared_mask k ->
  exists iter' d,
    tdp_iter_next iter k1 = Done iter' k1 /\
    zapped_upto zp k0 root rl s e d k1 /\
    ((valid iter' = false /\ e <= d) \/
     (walk_cursor k0 root rl s e k1 iter' /\
      d = next_last_level_gfn iter' /\
      6 * (e - next_last_level_gfn iter') + it_level iter'
        < 6 * (e - next_last_level_gfn iter) + it_level iter)).
Proof.
  intros Hcur Hupto Hlt Hother Hslot Hsps1 Hmk1.
  destruct (cursor_slot k iter Hcur Hupto)
    as (_ & _ & _ & _ & _ & _ & _ & Hlinks).
  assert (Hcur' := Hcur).
  destruct Hcur' as (Hlen & HRl & Hmin & Hl & HR5 & Hvalid & Hny & HN & Hcont &
                     HG & Htabs & Hleaf & Hptr & Hold).
  unfold tdp_iter_next. rewrite Hny. unfold try_step_down. rewrite Hmin.
  destruct (it_level iter =? PG_LEVEL_4K) eqn:H4k.
  - apply Z.eqb_eq in H4k. unfold bind at 1, ret at 1.
    pose proof (walk_side k k1 iter (old_spte iter)) as Hside.
    rewrite iter_set_old_spte_same in Hside.
    apply Hside; try assumption.
    rewrite H4k. apply spte_to_child_pt_4k.
  - apply Z.eqb_neq in H4k.
    unfold bind at 1 2. unfold kvm_tdp_mmu_read_spte at 1, gets at 1.
    cbv beta iota. cbn [it_level iter_set_old_spte].
    destruct (spte_to_child_pt (spte_at k1 (sptep iter)) (it_level iter))
      as [child|] eqn:Hchild.
    + unfold bind at 1.
      destruct (walk_down k k1 iter child Hcur Hupto Hlt H4k Hchild Hother
                  Hslot Hsps1 Hmk1)
        as (iter' & Hrun & Hupto' & Hcur' & Hn' & Hl').
      rewrite Hrun. unfold ret.
      exists iter', (next_last_level_gfn iter').
      split; [reflexivity|]. split; [exact Hupto'|].
      right. split; [exact Hcur'|]. split; [reflexivity|].
      rewrite Hn', Hl'. lia.
    + unfold ret at 1. cbv beta iota.
      apply (walk_side k k1 iter (spte_at k1 (sptep iter))); try assumption.
      rewrite <- Hlinks, <- (zapped_leaf_child_pt zp), <- Hslot.
      exact Hchild.
Qed.

(** The loop of [tdp_mmu_zap_leafs], from any place of the walk: with
    fuel for the turns that remain it runs to the end of the range, and
    every frame of the range is then dealt with. *)
Lemma zap_loop (n : nat) :
  forall (iter : tdp_iter) (k : kvm) (flush : bool),
    walk_cursor k0 root rl s e k iter ->
    zapped_upto zp k0 root rl s e (next_last_level_gfn iter) k ->
    6 * (e - next_last_level_gfn iter) + it_level iter <= Z.of_nat n ->
    exists iter' flush' k',
      tdp_loop n e (zap_leafs_body E depth true s e can_yield zp) true iter
               (flush, None) k
        = Done (false, iter', (flush', None)) k' /\
      zapped_upto zp k0 root rl s e e k'.
Proof.
  induction n as [|n IH]; intros iter k flush Hcur Hupto Hfuel.
  - assert (Hcur' := Hcur).
    destruct Hcur' as (Hlen & HRl & Hmin & Hl & HR5 & Hvalid & Hny & HN &
                       Hcont & HG & Htabs & Hleaf & Hptr & Hold).
    assert (Hge : e <= it_gfn iter) by lia.
    destruct span_bounds as [HB H64].
    pose proof (round_le (next_last_level_gfn iter) (it_level iter)
                  ltac:(lia) ltac:(lia)) as Hrle.
    rewrite <- HG in Hrle.
    rewrite tdp_loop_exit
      by (rewrite Hvalid; cbn; apply Z.ltb_ge; exact Hge).
    exists iter, flush, k. split; [reflexivity|].
    apply (zapped_upto_mono (next_last_level_gfn iter)); [lia | exact Hupto].
  - assert (Hcur' := Hcur).
    destruct Hcur' as (Hlen & HRl & Hmin & Hl & HR5 & Hvalid & Hny & HN &
                       Hcont & HG & Htabs & Hleaf & Hptr & Hold).
    destruct span_bounds as [HB H64].
    pose proof (round_le (next_last_level_gfn iter) (it_level iter)
                  ltac:(lia) ltac:(lia)) as Hrle.
    rewrite <- HG in Hrle.
    destruct (Z.lt_ge_cases (it_gfn iter) e) as [Hlt | Hge].
    2:{ rewrite tdp_loop_exit
          by (rewrite Hvalid; cbn; apply Z.ltb_ge; exact Hge).
        exists iter, flush, k. split; [reflexivity|].
        apply (zapped_upto_mono (next_last_level_gfn iter));
          [lia | exact Hupto]. }
    destruct (cursor_slot k iter Hcur Hupto)
      as (_ & _ & (sp & Hsp & Hpriv) & _).
    assert (Hupto' := Hupto). destruct Hupto' as (Hsps & Hmk & _ & _).
    destruct (zap_leafs_body_spec zp s e can_yield flush iter k sp Hzp Hsp
                Hpriv
                ltac:(unfold kvm_gfn_shared_mask in *; rewrite Hmk; exact Hmask)
                (eq_sym Hold) Hny (Hresched k)
                (cursor_not_split k iter Hcur Hupto Hlt))
      as (flush1 & k1 & Hbody & Hother & Hslot & Hsps1 & Hmk1).
    destruct (walk_next k k1 iter Hcur Hupto Hlt Hother Hslot Hsps1 Hmk1)
      as (iter1 & d & Hnext & Hupto1 & Hcase).
    cbn [tdp_loop]. rewrite Hvalid.
    replace (it_gfn iter <? e) with true by (symmetry; apply Z.ltb_lt; exact Hlt).
    cbn [andb negb]. unfold bind at 1. rewrite Hbody.
    unfold bind at 1. rewrite Hnext.
    destruct Hcase as [(Hinv & Hd) | (Hcur1 & Hd & Hless)].
    + rewrite tdp_loop_exit by (rewrite Hinv; reflexivity).
      exists iter1, flush1, k1. split; [reflexivity|].
      exact (zapped_upto_mono d k1 Hd Hupto1).
    + subst d. apply (IH iter1 k1 flush1 Hcur1 Hupto1). lia.
Qed.

End Walk.

(** The cursor [tdp_iter_start] gives stands at the top of the walk. *)
Lemma walk_start (k : kvm) (root : Z) (rl : nat) (s e : Z) :
  Z.of_nat rl + 1 <= 5 ->
  private_table k root (Z.of_nat rl + 1) ->
  0 <= s < e -> e <= 2 ^ (9 * (Z.of_nat rl + 1)) ->
  exists iter,
    tdp_iter_start empty_iter root PG_LEVEL_4K s k = Done iter k /\
    next_last_level_gfn iter = s /\ it_level iter = Z.of_nat rl + 1 /\
    walk_cursor k root rl s e k iter.
Proof.
  intros Hrl Hroot Hs He.
  assert (Hroot' := Hroot).
  destruct Hroot' as (Hal & sp & Hsp & Hpriv & Hlvl).
  unfold tdp_iter_start. unfold bind at 1, get at 1. rewrite Hsp, Hlvl.
  replace ((Z.of_nat rl + 1 <? 1) ||
           (PT64_ROOT_MAX_LEVEL <? Z.of_nat rl + 1)) with false.
  2:{ symmetry. apply orb_false_iff. unfold PT64_ROOT_MAX_LEVEL.
      split; apply Z.ltb_ge; lia. }
  unfold tdp_iter_restart, tdp_iter_refresh_sptep, kvm_tdp_mmu_read_spte.
  munfold.
  cbn [root_level it_level it_gfn sptep pt_path min_level yielded valid
       next_last_level_gfn yielded_gfn it_as_id old_spte empty_iter
       iter_set_valid].
  eexists. split; [reflexivity|].
  cbn [root_level it_level it_gfn sptep pt_path min_level yielded valid
       next_last_level_gfn yielded_gfn it_as_id old_spte iter_set_valid].
  split; [reflexivity|]. split; [reflexivity|].
  assert (Hpath : forall it : tdp_iter,
             pt_path it = <[Z.to_nat (Z.of_nat rl + 1 - 1) := root]>
                            (replicate (Z.to_nat PT64_ROOT_MAX_LEVEL) 0) ->
             pt_path_at it (Z.of_nat rl + 1 - 1) = root).
  { intros it Hit. unfold pt_path_at. rewrite Hit.
    apply path_lookup_insert_eq; [reflexivity | lia]. }
  assert (HB : 2 ^ (9 * (Z.of_nat rl + 1)) <= 2 ^ 45)
    by (apply pow9_bound; lia).
  assert (H64 : 2 ^ 45 < 2 ^ 64) by (apply Z.pow_lt_mono_r; lia).
  pose proof (round_le s (Z.of_nat rl + 1) ltac:(lia) ltac:(lia)) as Hrle.
  unfold walk_cursor.
  cbn [root_level it_level it_gfn sptep pt_path min_level yielded valid
       next_last_level_gfn yielded_gfn it_as_id old_spte iter_set_valid].
  split; [rewrite length_insert; reflexivity|].
  split; [reflexivity|]. split; [reflexivity|]. split; [lia|].
  split; [exact Hrl|]. split; [reflexivity|]. split; [reflexivity|].
  split; [lia|]. split; [intros _; lia|]. split; [reflexivity|]. split.
  { intros l Hl. assert (l = Z.of_nat rl + 1) as -> by lia.
    rewrite Hpath by reflexivity. exact Hroot. }
  split.
  { intros l g Hl Hg _. assert (l = Z.of_nat rl + 1) as -> by lia.
    rewrite Hpath by reflexivity.
    replace (Z.to_nat (Z.of_nat rl + 1 - 1)) with rl by lia. reflexivity. }
  split; reflexivity.
Qed.

(** An entry that is present at the slot that ends a translation is a
    leaf. *)
Lemma leaf_slot_present_last (k : kvm) (n : nat) (pt g : Z) :
  private_closed k -> private_table k pt (Z.of_nat n + 1) ->
  is_shadow_present_pte (spte_at k (fst (leaf_slot n k pt g))) = true ->
  is_last_spte (spte_at k (fst (leaf_slot n k pt g)))
               (snd (leaf_slot n k pt g)) = true.
Proof.
  intros Hclosed Hpt Hpres.
  destruct (leaf_slot_spec k n Hclosed pt g Hpt)
    as (pt' & i & Heq & _ & _ & _ & Hnone).
  rewrite Heq in Hpres. cbn [fst] in Hpres. rewrite Heq at 1. cbn [fst].
  unfold spte_to_child_pt in Hnone. rewrite Hpres in Hnone. cbn [negb orb] in Hnone.
  destruct (is_last_spte _ _); [reflexivity | discriminate].
Qed.


End ZapWalk.

(** ** The range zap on the example instances *)

Lemma range_forallb (P : Z -> bool) (n : Z) :
  forallb P (seqZ 0 n) = true -> forall g, 0 <= g < n -> P g = true.
Proof.
  intros H g Hg. rewrite forallb_forall in H. apply H.
  apply list_elem_of_In, elem_of_seqZ. lia.
Qed.

Lemma walk_kvm_root : private_table walk_kvm 8192 2.
Proof.
  split; [vm_compute; repeat split; congruence|].
  eexists. split; [reflexivity|]. split; reflexivity.
Qed.

Lemma walk_kvm_child : private_table walk_kvm 16384 1.
Proof.
  split; [vm_compute; repeat split; congruence|].
  eexists. split; [reflexivity|]. split; reflexivity.
Qed.

Lemma walk_kvm_closed : private_closed walk_kvm.
Proof.
  intros spt level i child (Hal & sp & Hsp & Hpriv & Hlvl) Hi Hchild.
  destruct (decide (spt = 8192)) as [->|Hne1].
  - vm_compute in Hsp. injection Hsp as <-. cbn in Hlvl. subst level.
    pose proof (range_forallb
                  (fun i => match spte_to_child_pt
                                    (spte_at walk_kvm (ptr_add 8192 i)) 2 with
                            | Some c => c =? 16384
                            | None => true
                            end)
                  SPTE_ENT_PER_PAGE ltac:(vm_compute; reflexivity) i Hi)
      as Hall.
    cbv beta in Hall. rewrite Hchild in Hall.
    apply Z.eqb_eq in Hall. subst child. exact walk_kvm_child.
  - destruct (decide (spt = 16384)) as [->|Hne2].
    + vm_compute in Hsp. injection Hsp as <-. cbn in Hlvl. subst level.
      rewrite spte_to_child_pt_4k in Hchild. discriminate Hchild.
    + unfold walk_kvm in Hsp. cbn in Hsp.
      rewrite lookup_insert_ne, lookup_singleton_ne in Hsp by congruence.
      discriminate Hsp.
Qed.

Lemma walk_kvm_no_split (g : Z) (k' : kvm) :
  0 <= g < 1024 -> gfn_shared_mask k' = gfn_shared_mask walk_kvm ->
  split_selected (example_env tdx_accepts) k' 0 1024 g
                 (snd (leaf_slot 1 walk_kvm 8192 g))
                 (spte_at walk_kvm (fst (leaf_slot 1 walk_kvm 8192 g)))
    = false.
Proof.
  intros Hg Hm.
  pose proof (range_forallb
                (fun g => negb (split_selected (example_env tdx_accepts)
                                  walk_kvm 0 1024 g
                                  (snd (leaf_slot 1 walk_kvm 8192 g))
                                  (spte_at walk_kvm
                                     (fst (leaf_slot 1 walk_kvm 8192 g)))))
                1024 ltac:(vm_compute; reflexivity) g Hg) as Hall.
  cbv beta in Hall. apply negb_true_iff in Hall. rewrite <- Hall.
  unfold split_selected, kvm_gfn_shared_mask. rewrite Hm. reflexivity.
Qed.

Lemma walk_kvm_link_is_no_leaf_slot (g : Z) :
  0 <= g < 1024 -> fst (leaf_slot 1 walk_kvm 8192 g) <> 8192.
Proof.
  intros Hg.
  pose proof (range_forallb
                (fun g => negb (fst (leaf_slot 1 walk_kvm 8192 g) =? 8192))
                1024 ltac:(vm_compute; reflexivity) g Hg) as Hall.
  cbv beta in Hall. apply negb_true_iff, Z.eqb_neq in Hall. exact Hall.
Qed.

Lemma walk_kvm_slots :
  leaf_slot 1 walk_kvm 8192 0 = (16384, 1) /\
  leaf_slot 1 walk_kvm 8192 1 = (16392, 1) /\
  leaf_slot 1 walk_kvm 8192 2 = (16400, 1) /\
  leaf_slot 1 walk_kvm 8192 512 = (8200, 2).
Proof. repeat split; vm_compute; reflexivity. Qed.




(** * Further properties of the TDP MMU *)

Ltac tables_step :=
  match goal with
  | |- keeps_tables (bind _ _) => apply keeps_tables_bind; [|intros ?]
  | |- keeps_tables (when ?b _) => unfold when; destruct b
  | |- keeps_tables (WARN_ON _) => apply keeps_tables_ret
  | |- keeps_tables (if ?b then _ else _) => destruct b eqn:?
  | |- keeps_tables _ => solve [auto with tables]
  | |- frames_tables (bind _ _) => apply frames_tables_bind; [|intros ?]
  | |- frames_tables (when ?b _) => unfold when; destruct b
  | |- frames_tables (WARN_ON _) => apply frames_tables_ret
  | |- frames_tables (if ?b then _ else _) => destruct b eqn:?
  | |- frames_tables _ => solve [auto with tables]
  end.
Ltac tables_auto := repeat tables_step.

Create HintDb tables.

Section Further.

Variable E : arch_env.
Variable depth : nat.

#[local] Hint Resolve keeps_tables_ret keeps_tables_KVM_BUG_ON
  keeps_tables_static_call keeps_tables_get keeps_tables_update_page_stats
  keeps_tables_set_pfn_dirty keeps_tables_set_pfn_accessed keeps_tables_flush
  keeps_tables_handle_private_zapped_spte
  keeps_tables_handle_removed_private_spte : tables.
#[local] Hint Resolve frames_tables_ret frames_tables_crash frames_tables_deref
  frames_tables_sp_at frames_tables_read_spte frames_tables_is_private_sptep
  : tables.
#[local] Hint Extern 1 (frames_tables _) =>
  (apply frames_tables_keeps; solve [auto with tables]) : tables.

(** ** The blocked form of a private entry *)

(** X1: the value [__private_zapped_spte] builds from an entry is never
    present and never the frozen value [REMOVED_SPTE]; it is recognised as
    private-zapped, keeps the frame number and the huge-page flag of the
    entry, and blocking a blocked value changes nothing. *)
Theorem private_zapped_spte_codec (old_spte : Z) :
  is_shadow_present_pte (__private_zapped_spte old_spte) = false /\
  is_removed_spte (__private_zapped_spte old_spte) = false /\
  is_private_zapped_spte (__private_zapped_spte old_spte) = true /\
  spte_to_pfn (__private_zapped_spte old_spte) = spte_to_pfn old_spte /\
  is_large_pte (__private_zapped_spte old_spte) = is_large_pte old_spte /\
  __private_zapped_spte (__private_zapped_spte old_spte)
    = __private_zapped_spte old_spte.
Proof.
  split; [apply private_zapped_not_present|].
  split.
  { unfold is_removed_spte. apply Z.eqb_neq. intros Heq.
    assert (Hbit : Z.testbit (__private_zapped_spte old_spte) 62 = true)
      by (rewrite testbit_private_zapped by lia; reflexivity).
    rewrite Heq in Hbit. vm_compute in Hbit. discriminate Hbit. }
  split; [apply private_zapped_is_zapped|].
  split; [apply private_zapped_keeps_pfn|].
  split; [apply private_zapped_keeps_large|].
  apply Z.bits_inj'. intros i Hi.
  rewrite (testbit_private_zapped (__private_zapped_spte old_spte)) by lia.
  rewrite private_zapped_keeps_large.
  rewrite (testbit_private_zapped old_spte i) by lia.
  destruct (Z.eqb_spec i 63); [reflexivity|].
  destruct (Z.eqb_spec i 62); [reflexivity|].
  destruct (Z.eqb_spec i 7) as [->|]; cbn [orb andb];
    [rewrite ?orb_false_r; destruct (is_large_pte old_spte); reflexivity|].
  rewrite !orb_false_r.
  destruct ((12 <=? i) && (i <? 52)); reflexivity.
Qed.

(** ** Accounting of shadow pages *)

(** X2: [tdp_account_mmu_page] and [tdp_unaccount_mmu_page] undo each
    other: accounting a shadow page and unaccounting it, in either order,
    leaves the guest state as it was. *)
Theorem account_unaccount_round_trip (sp : kvm_mmu_page) (k : kvm) :
  (tdp_account_mmu_page sp ;;; tdp_unaccount_mmu_page sp) k = Done tt k /\
  (tdp_unaccount_mmu_page sp ;;; tdp_account_mmu_page sp) k = Done tt k.
Proof.
  unfold tdp_account_mmu_page, tdp_unaccount_mmu_page,
    kvm_account_pgtable_pages.
  destruct k. split; destruct (is_private_sp sp); munfold;
    unfold set_tdp_private_mmu_pages, set_tdp_mmu_pages, set_pgtable_pages;
    cbn; do 2 f_equal; lia.
Qed.

(** ** The yield checkpoint *)

(** X3: when the cursor has made progress since its last yield,
    [tdp_mmu_iter_cond_resched] returns true exactly when a reschedule is
    due.  It then has yielded once, has flushed the TLBs beforehand exactly
    when asked to, and has set the cursor's [yielded] flag; otherwise
    neither the cursor nor any counter changes.  No entry is written in
    either case. *)
Theorem cond_resched_yields_iff_needed
    (iter : tdp_iter) (flush shared : bool) (k : kvm) :
  next_last_level_gfn iter <> yielded_gfn iter ->
  yielded iter = false ->
  exists k',
    tdp_mmu_iter_cond_resched E iter flush shared k
      = Done (need_resched E k, iter_set_yielded (need_resched E k) iter) k' /\
    mmu_lock_yields k' =
      mmu_lock_yields k + (if need_resched E k then 1 else 0) /\
    remote_tlb_flushes k' =
      remote_tlb_flushes k ++
      (if need_resched E k && flush then [flush_all] else []) /\
    sptes k' = sptes k /\ sps k' = sps k /\ tdx_log k' = tdx_log k.
Proof.
  intros Hne Hy. apply Z.eqb_neq in Hne.
  unfold tdp_mmu_iter_cond_resched. unfold WARN_ON at 1.
  unfold bind at 1, ret at 1. rewrite Hne.
  unfold bind at 1, get at 1.
  destruct (need_resched E k) eqn:Hr.
  - destruct flush; eexists; (split; [unfold when, kvm_flush_remote_tlbs;
      munfold; reflexivity|]); cbn; rewrite ?app_nil_r; repeat split.
  - exists k. rewrite Hy, app_nil_r, Z.add_0_r.
    split; [|repeat split]. unfold ret. do 2 f_equal.
    destruct iter; cbn in *; subst; reflexivity.
Qed.

(** ** References to a root *)

(** X4: taking a reference to a live root with [kvm_tdp_mmu_get_root] and
    dropping it with [kvm_tdp_mmu_put_root] leaves the guest state as it
    was: the root is neither unlinked nor queued for freeing. *)
Theorem get_put_root_round_trip
    (root : Z) (shared : bool) (k : kvm) (sp : kvm_mmu_page) :
  sps k !! root = Some sp ->
  0 < sp_root_count sp < INT_MAX ->
  (let* got := kvm_tdp_mmu_get_root root in
   if got then kvm_tdp_mmu_put_root root shared else ret tt) k = Done tt k.
Proof.
  intros Hsp Hc. unfold bind at 1. rewrite (get_root_live _ _ _ Hsp Hc).
  set (k1 := set_sps _ k).
  assert (Hsp1 : sps k1 !! root
                 = Some (sp_set_root_count (sp_root_count sp + 1) sp))
    by (unfold k1; cbn; apply lookup_insert_eq).
  unfold kvm_tdp_mmu_put_root, refcount_dec_and_test.
  unfold bind at 1 2. rewrite (refcount_read_lookup _ _ _ Hsp1).
  cbn [sp_root_count sp_set_root_count].
  destruct (Z.eqb_spec (sp_root_count sp + 1) 1) as [|_]; [lia|].
  destruct (Z.ltb_spec (sp_root_count sp + 1) 0); [lia|].
  destruct (Z.ltb_spec (sp_root_count sp + 1 - 1) 0); [lia|].
  cbn [orb]. unfold bind at 1.
  rewrite (refcount_set_lookup _ _ _ _ Hsp1). cbn [negb]. unfold ret.
  f_equal. unfold k1. destruct k, sp as [r g p t c ps nx].
  unfold set_sps, sp_set_root_count. cbn in *.
  f_equal. rewrite insert_insert_eq.
  replace (c + 1 - 1) with c by lia.
  apply insert_id. exact Hsp.
Qed.

(** ** Setting an entry under the shared lock *)

(** X5: when the entry no longer holds the value the cursor observed,
    [tdp_mmu_set_spte_atomic] returns [-EBUSY] and leaves the whole guest
    state as it was (in particular a frozen entry is not overwritten by a
    cursor that did not see it frozen).  On the paths that compare and
    swap on the cursor itself (a non-private table, a frozen new value, a
    non-present new value) the cursor's [old_spte] then holds the entry's
    current value. *)
Theorem set_spte_atomic_busy
    (iter : tdp_iter) (new_spte : Z) (k : kvm) (sp : kvm_mmu_page) :
  yielded iter = false ->
  sps k !! page_of (sptep iter) = Some sp ->
  spte_at k (sptep iter) <> old_spte iter ->
  exists iter',
    tdp_mmu_set_spte_atomic E depth iter new_spte k = Done (- EBUSY, iter') k /\
    (is_private_sp sp = false \/ is_removed_spte new_spte = true \/
     is_shadow_present_pte new_spte = false ->
     iter' = iter_set_old_spte (spte_at k (sptep iter)) iter).
Proof.
  intros Hy Hsp Hne.
  rewrite (set_spte_atomic_mismatch E depth _ _ _ _ Hsp Hne), Hy.
  eexists. split; [reflexivity|].
  intros [-> | [-> | ->]]; cbn [andb negb]; rewrite ?andb_false_r; reflexivity.
Qed.

Lemma frames_tables_get_private_spt (gfn new_spte level : Z) :
  frames_tables (get_private_spt gfn new_spte level).
Proof. unfold get_private_spt. tables_auto. Qed.

Lemma frames_tables_private_spte_change_flags (gfn old_spte new_spte level : Z) :
  frames_tables (private_spte_change_flags E gfn old_spte new_spte level).
Proof. unfold private_spte_change_flags. tables_auto. Qed.

#[local] Hint Resolve frames_tables_get_private_spt
  frames_tables_private_spte_change_flags : tables.

Lemma frames_tables___set_private_spte_present
    (p gfn old_spte new_spte level : Z) :
  frames_tables (__set_private_spte_present E p gfn old_spte new_spte level).
Proof. unfold __set_private_spte_present. tables_auto. Qed.

Lemma spte_at_write_ne (k : kvm) (p q v : Z) :
  q <> p -> spte_at (set_sptes (<[p := v]> (sptes k)) k) q = spte_at k q.
Proof.
  intros Hne. unfold spte_at. cbn. rewrite lookup_insert_ne by congruence.
  reflexivity.
Qed.

(** X6: [set_private_spte_present] is all or nothing on the entry.  When
    the entry does not hold the expected value it returns [-EBUSY] and
    changes nothing.  When it does, the entry ends up holding the new
    value if the secure-resource manager accepted the change (result 0)
    and the old value again if it refused; no other entry and no shadow
    page changes. *)
Theorem set_private_spte_present_all_or_nothing
    (p gfn old_spte new_spte level r : Z) (k k' : kvm) :
  set_private_spte_present E p gfn old_spte new_spte level k = Done r k' ->
  sps k' = sps k /\
  (forall q, q <> p -> spte_at k' q = spte_at k q) /\
  (spte_at k p <> old_spte -> r = - EBUSY /\ k' = k) /\
  (spte_at k p = old_spte ->
   spte_at k' p = if r =? 0 then new_spte else old_spte).
Proof.
  unfold set_private_spte_present. intros Hrun.
  destruct (Z.eq_dec (spte_at k p) old_spte) as [Heq|Hne].
  - unfold bind at 1 in Hrun.
    rewrite (try_cmpxchg64_match _ _ _ REMOVED_SPTE Heq) in Hrun.
    cbn [negb] in Hrun.
    apply bind_Done_inv in Hrun as (r1 & k1 & Hset & Hrun).
    destruct (frames_tables___set_private_spte_present _ _ _ _ _ _ _ _ Hset)
      as (Hs & Hp & _).
    cbn [sptes sps set_sptes] in Hs, Hp.
    apply bind_Done_inv in Hrun as ([] & k2 & Hw & Hrun).
    unfold ret in Hrun. injection Hrun as <- <-.
    assert (Hk2 : exists v, k2 = set_sptes (<[p := v]> (sptes k1)) k1 /\
                            v = if r1 =? 0 then new_spte else old_spte).
    { unfold nonzero in Hw. destruct (r1 =? 0); cbn [negb] in Hw;
        unfold __kvm_tdp_mmu_write_spte, modify in Hw; injection Hw as <-;
        eexists; split; reflexivity. }
    destruct Hk2 as (v & -> & ->).
    split; [exact Hp|]. split; [|split].
    + intros q Hq. rewrite spte_at_write_ne by exact Hq.
      unfold spte_at. rewrite Hs. rewrite lookup_insert_ne by congruence.
      reflexivity.
    + intros Hc. contradiction.
    + intros _. apply spte_at_write.
  - unfold bind at 1 in Hrun.
    rewrite (try_cmpxchg64_mismatch _ _ _ REMOVED_SPTE Hne) in Hrun.
    cbn [negb] in Hrun. unfold ret in Hrun. injection Hrun as <- <-.
    split; [reflexivity|]. split; [reflexivity|]. split.
    + intros _. split; reflexivity.
    + intros Hc. contradiction.
Qed.

(** A leaf that [tdp_mmu_set_spte_atomic] replaces by a non-present value
    while it still holds the value the cursor observed: the call succeeds
    and the entry holds the new value. *)
Lemma set_spte_atomic_zap_ok
    (iter : tdp_iter) (new_spte : Z) (k : kvm) (sp : kvm_mmu_page) :
  yielded iter = false ->
  sps k !! page_of (sptep iter) = Some sp ->
  spte_at k (sptep iter) = old_spte iter ->
  is_last_spte (old_spte iter) (role_level (sp_role sp)) = true ->
  is_shadow_present_pte new_spte = false ->
  exists k',
    tdp_mmu_set_spte_atomic E depth iter new_spte k = Done (0, iter) k' /\
    sptes k' = <[sptep iter := new_spte]> (sptes k) /\ sps k' = sps k /\
    gfn_shared_mask k' = gfn_shared_mask k.
Proof.
  intros Hy Hsp Heq Hlast Hnp.
  assert (Heta : iter_set_old_spte (old_spte iter) iter = iter)
    by (destruct iter; reflexivity).
  unfold tdp_mmu_set_spte_atomic. rewrite Hy, Hnp.
  unfold KVM_BUG_ON at 1, WARN_ON at 1. unfold bind at 1 2, ret at 1.
  unfold bind at 1. rewrite (is_private_sptep_lookup _ _ _ Hsp).
  destruct (is_private_sp sp && negb (is_removed_spte new_spte));
    unfold bind at 1; rewrite (try_cmpxchg64_match _ _ _ _ Heq);
    cbn [negb]; rewrite Heta;
    match goal with
    | |- context [set_sptes ?m k] => set (k1 := set_sptes m k)
    end;
    (assert (Hsp1 : sps k1 !! page_of (sptep iter) = Some sp) by exact Hsp);
    unfold bind at 1; rewrite (sptep_to_sp_lookup _ _ _ Hsp1);
    destruct (keeps_tables_handle_changed_spte_zap E
                (handle_removed_pt E depth) (it_as_id iter) (it_gfn iter)
                (old_spte iter) new_spte (sp_role sp) true Hlast Hnp k1)
      as ([] & k2 & Hrun & Hs & Hp & Hg);
    unfold handle_changed_spte; unfold bind at 1; rewrite Hrun;
    unfold when, __kvm_tdp_mmu_write_spte; munfold;
    (eexists; split; [reflexivity|]); cbn [sptes sps gfn_shared_mask set_sptes];
    rewrite Hs, Hp, Hg; unfold k1; cbn [sptes sps gfn_shared_mask set_sptes];
    rewrite ?insert_insert_eq; repeat split.
Qed.

(** X7: [tdp_mmu_zap_spte_atomic] on a leaf that still holds the value
    the cursor observed returns 0.  The entry then holds the blocked form
    of its old value when it lies in a private table of a guest with a
    shared bit, and the plain non-present value otherwise; no other entry
    and no shadow page changes, and the last TLB flush requested is the
    flush of the range the entry mapped. *)
Theorem zap_spte_atomic_leaf (iter : tdp_iter) (k : kvm) (sp : kvm_mmu_page) :
  yielded iter = false ->
  sps k !! page_of (sptep iter) = Some sp ->
  spte_at k (sptep iter) = old_spte iter ->
  is_last_spte (old_spte iter) (role_level (sp_role sp)) = true ->
  exists k',
    tdp_mmu_zap_spte_atomic E depth iter k = Done (0, iter) k' /\
    spte_at k' (sptep iter) =
      (if nonzero (kvm_gfn_shared_mask k) && is_private_sp sp
       then __private_zapped_spte (old_spte iter)
       else SHADOW_NONPRESENT_VALUE) /\
    (forall q, q <> sptep iter -> spte_at k' q = spte_at k q) /\
    sps k' = sps k /\
    last (remote_tlb_flushes k') =
      Some (flush_range (gfn_round_for_level (it_gfn iter) (it_level iter))
                        (KVM_PAGES_PER_HPAGE (it_level iter))).
Proof.
  intros Hy Hsp Heq Hlast.
  destruct (set_spte_atomic_zap_ok iter REMOVED_SPTE k sp Hy Hsp Heq Hlast
              REMOVED_SPTE_not_present) as (k1 & Hrun & Hs & Hp & Hg).
  unfold tdp_mmu_zap_spte_atomic. unfold bind at 1. rewrite Hrun.
  change (nonzero 0) with false. cbn iota.
  unfold kvm_flush_remote_tlbs_gfn, kvm_flush_remote_tlbs_range.
  unfold bind at 1, modify at 1.
  set (k2 := set_remote_tlb_flushes _ k1).
  assert (Hsp2 : sps k2 !! page_of (sptep iter) = Some sp)
    by (unfold k2; cbn; rewrite Hp; exact Hsp).
  unfold private_zapped_spte, kvm_gfn_shared_mask.
  unfold bind at 1. unfold bind at 1, get at 1.
  assert (Hg2 : gfn_shared_mask k2 = gfn_shared_mask k) by exact Hg.
  rewrite Hg2.
  destruct (nonzero (gfn_shared_mask k)); cbn [negb andb].
  - unfold bind at 1. rewrite (is_private_sptep_lookup _ _ _ Hsp2).
    destruct (is_private_sp sp); cbn [negb];
      unfold __kvm_tdp_mmu_write_spte; munfold;
      (eexists; split; [reflexivity|]);
      (split; [apply spte_at_write|]);
      (split; [intros q Hq; rewrite spte_at_write_ne by exact Hq;
               unfold spte_at, k2; cbn; rewrite Hs;
               rewrite lookup_insert_ne by congruence; reflexivity|]);
      (split; [exact Hp|]); cbn; apply last_snoc.
  - unfold __kvm_tdp_mmu_write_spte; munfold;
      (eexists; split; [reflexivity|]);
      (split; [apply spte_at_write|]);
      (split; [intros q Hq; rewrite spte_at_write_ne by exact Hq;
               unfold spte_at, k2; cbn; rewrite Hs;
               rewrite lookup_insert_ne by congruence; reflexivity|]);
      (split; [exact Hp|]); cbn; apply last_snoc.
Qed.

(** ** Accounting of leaves *)

(** X8: the bookkeeping of [handle_changed_spte] counts leaves.  A change
    from a non-present value to a present leaf adds one to the number of
    pages of the level and reports nothing else.  A change of a present
    leaf (not blocked) of a non-private table to a non-present value takes
    one off and reports the frame as dirty exactly when the old entry was
    dirty and as accessed exactly when it was accessed.  Neither writes an entry or
    touches a shadow page. *)
Theorem handle_changed_spte_leaf_accounting
    (as_id gfn old_spte new_spte : Z) (role : kvm_mmu_page_role)
    (shared : bool) (k : kvm) :
  (is_shadow_present_pte old_spte = false ->
   is_leaf_spte new_spte (role_level role) = true ->
   exists k',
     handle_changed_spte E depth as_id gfn old_spte new_spte role shared k
       = Done tt k' /\
     pages_at_level k' (role_level role)
       = pages_at_level k (role_level role) + 1 /\
     pfn_dirty k' = pfn_dirty k /\ pfn_accessed k' = pfn_accessed k /\
     sptes k' = sptes k /\ sps k' = sps k /\ tdx_log k' = tdx_log k) /\
  (is_leaf_spte old_spte (role_level role) = true ->
   is_private_zapped_spte old_spte = false ->
   is_shadow_present_pte new_spte = false ->
   kvm_mmu_page_role_is_private role = false ->
   exists k',
     handle_changed_spte E depth as_id gfn old_spte new_spte role shared k
       = Done tt k' /\
     pages_at_level k' (role_level role)
       = pages_at_level k (role_level role) - 1 /\
     pfn_dirty k' =
       pfn_dirty k ++ (if is_dirty_spte old_spte then [spte_to_pfn old_spte]
                       else []) /\
     pfn_accessed k' =
       pfn_accessed k ++ (if is_accessed_spte old_spte
                          then [spte_to_pfn old_spte] else []) /\
     sptes k' = sptes k /\ sps k' = sps k /\ tdx_log k' = tdx_log k).
Proof.
  unfold is_leaf_spte, pages_at_level. split.
  - intros Hold Hnew. apply andb_prop in Hnew as (Hp & Hl).
    assert (Hne : (old_spte =? new_spte) = false).
    { apply Z.eqb_neq. intros ->. congruence. }
    unfold handle_changed_spte, handle_changed_spte_with.
    rewrite Hold, Hp, Hl, Hne. cbn [andb negb orb eqb].
    rewrite !andb_false_r. cbn [andb negb orb eqb].
    unfold when, WARN_ON, KVM_BUG_ON, kvm_update_page_stats. munfold.
    eexists. split; [reflexivity|].
    destruct (is_private_zapped_spte old_spte &&
              negb (kvm_mmu_page_role_is_private role));
      match goal with
      | |- context [if ?b then set_vm_bugged true ?x else ?x] => destruct b
      end; cbn; rewrite lookup_insert_eq; repeat split.
  - intros Hold Hz Hnew Hpriv. apply andb_prop in Hold as (Hp & Hl).
    assert (Hne : (old_spte =? new_spte) = false).
    { apply Z.eqb_neq. intros ->. congruence. }
    unfold handle_changed_spte, handle_changed_spte_with.
    rewrite Hp, Hl, Hnew, Hne, Hz, Hpriv. cbn [andb negb orb eqb].
    rewrite ?andb_true_r.
    unfold when, WARN_ON, KVM_BUG_ON, kvm_update_page_stats,
      kvm_set_pfn_dirty, kvm_set_pfn_accessed.
    destruct (is_dirty_spte old_spte), (is_accessed_spte old_spte),
      (kvm_is_private_gpa k (gfn_to_gpa gfn)) eqn:Hgpa;
      munfold; rewrite ?Hgpa; cbn [eqb negb];
      (eexists; split; [reflexivity|]); cbn; rewrite lookup_insert_eq;
      rewrite ?app_nil_r; repeat split; cbn; lia.
Qed.

(** ** Aging *)

Lemma land_clear_accessed (x m : Z) :
  Z.testbit m 8 = false -> 0 <= m < 2 ^ 64 ->
  Z.land (Z.land x (not64 shadow_accessed_mask)) m = Z.land x m.
Proof.
  intros H8 Hm. apply Z.bits_inj'. intros i Hi.
  rewrite (Z.land_spec (Z.land x _) m), (Z.land_spec x m).
  rewrite testbit_clear_accessed by assumption.
  destruct (Z.eqb_spec i 8) as [->|]; [rewrite H8, !andb_false_r; reflexivity|].
  destruct (Z.ltb_spec i 64); [rewrite !andb_true_r; reflexivity|].
  replace (Z.testbit m i) with false; [rewrite !andb_false_r; reflexivity|].
  symmetry. rewrite <- (Z.mod_small m (2 ^ 64)) by assumption.
  apply Z.mod_pow2_bits_high. lia.
Qed.

(** X9: [age_gfn_range] on an entry with hardware accessed/dirty bits that
    still holds the value the cursor observed.  An entry that is not
    accessed is left alone and the handler reports false.  An accessed one
    is reported (true) and rewritten so that it is no longer accessed,
    with its frame number and its present, writable and huge-page flags
    kept; no other entry changes. *)
Theorem age_gfn_range_clears_accessed
    (iter : tdp_iter) (range : kvm_gfn_range) (k : kvm) :
  spte_at k (sptep iter) = old_spte iter ->
  spte_ad_enabled (old_spte iter) = true ->
  (is_accessed_spte (old_spte iter) = false ->
   age_gfn_range E iter range k = Done (false, iter) k) /\
  (is_accessed_spte (old_spte iter) = true ->
   exists k',
     age_gfn_range E iter range k = Done (true, iter) k' /\
     is_accessed_spte (spte_at k' (sptep iter)) = false /\
     spte_to_pfn (spte_at k' (sptep iter)) = spte_to_pfn (old_spte iter) /\
     is_shadow_present_pte (spte_at k' (sptep iter))
       = is_shadow_present_pte (old_spte iter) /\
     is_writable_pte (spte_at k' (sptep iter))
       = is_writable_pte (old_spte iter) /\
     is_large_pte (spte_at k' (sptep iter)) = is_large_pte (old_spte iter) /\
     (forall q, q <> sptep iter -> spte_at k' q = spte_at k q) /\
     sps k' = sps k).
Proof.
  intros Heq Had. unfold age_gfn_range. split.
  - intros ->. reflexivity.
  - intros Hacc. rewrite Hacc, Had. cbn [negb].
    assert (Heta : iter_set_old_spte (old_spte iter) iter = iter)
      by (destruct iter; reflexivity).
    set (new := Z.land (old_spte iter) (not64 shadow_accessed_mask)).
    exists (set_sptes (<[sptep iter := new]> (sptes k)) k).
    split.
    { unfold tdp_mmu_clear_spte_bits, kvm_tdp_mmu_read_spte,
        __kvm_tdp_mmu_write_spte.
      destruct (kvm_tdp_mmu_spte_need_atomic_write E (old_spte iter)
                  (it_level iter)); munfold; rewrite ?Heq, Heta; reflexivity. }
    rewrite spte_at_write.
    assert (Had' : spte_ad_enabled new = true).
    { unfold spte_ad_enabled in *. unfold new.
      rewrite land_clear_accessed; [exact Had | reflexivity |].
      vm_compute. split; congruence. }
    split.
    { unfold is_accessed_spte. rewrite Had'.
      change shadow_accessed_mask with (BIT_ULL 8) at 1.
      rewrite nonzero_land_bit by lia. unfold new.
      rewrite testbit_clear_accessed by lia. cbn.
      rewrite andb_false_r. reflexivity. }
    split.
    { unfold spte_to_pfn, new. rewrite land_clear_accessed;
        [reflexivity | reflexivity | vm_compute; split; congruence]. }
    split.
    { unfold is_shadow_present_pte, new. rewrite land_clear_accessed;
        [reflexivity | reflexivity | vm_compute; split; congruence]. }
    split.
    { unfold is_writable_pte, new. rewrite land_clear_accessed;
        [reflexivity | reflexivity | vm_compute; split; congruence]. }
    split.
    { unfold is_large_pte, new. rewrite land_clear_accessed;
        [reflexivity | reflexivity | vm_compute; split; congruence]. }
    split; [|reflexivity].
    intros q Hq. apply spte_at_write_ne, Hq.
Qed.

(** ** Walking the list of roots *)

Lemma get_root_Done_inv (root : Z) (sp : kvm_mmu_page) (got : bool)
    (k k' : kvm) :
  sps k !! root = Some sp ->
  kvm_tdp_mmu_get_root root k = Done got k' ->
  (got = false /\ sp_root_count sp = 0 /\ k' = k) \/
  (got = true /\ sp_root_count sp <> 0).
Proof.
  intros Hsp. unfold kvm_tdp_mmu_get_root, refcount_inc_not_zero.
  unfold bind at 1. rewrite (refcount_read_lookup _ _ _ Hsp).
  destruct (Z.eqb_spec (sp_root_count sp) 0) as [Hz|Hnz].
  - unfold ret. intros H. injection H as <- <-. left. repeat split. exact Hz.
  - intros H. right. split; [|exact Hnz].
    destruct ((sp_root_count sp <? 0) || (INT_MAX <? sp_root_count sp + 1));
      unfold bind at 1 in H; rewrite (refcount_set_lookup _ _ _ _ Hsp) in H;
      unfold ret in H; injection H as <- _; reflexivity.
Qed.

Lemma next_root_scan_live (candidates : list Z) (only_valid : bool)
    (k k' : kvm) (root : Z) :
  next_root_scan candidates only_valid k = Done (Some root) k' ->
  root ∈ candidates /\
  exists sp, sps k !! root = Some sp /\ sp_root_count sp <> 0 /\
             (only_valid = true -> role_invalid (sp_role sp) = false).
Proof.
  induction candidates as [|c rest IH]; cbn [next_root_scan].
  - intros H. discriminate H.
  - intros H. apply bind_Done_inv in H as (sp & k1 & Hsp & H).
    apply sp_at_Done_inv in Hsp as (Hsp & ->).
    destruct (negb only_valid || negb (role_invalid (sp_role sp))) eqn:Hc.
    + apply bind_Done_inv in H as (got & k2 & Hget & H).
      destruct (get_root_Done_inv _ _ _ _ _ Hsp Hget)
        as [(-> & Hz & ->) | (-> & Hnz)].
      * destruct (IH H) as (Hin & Hrest). split; [right; exact Hin | exact Hrest].
      * unfold ret in H. injection H as <- _. split; [left|].
        exists sp. split; [exact Hsp|]. split; [exact Hnz|].
        intros ->. cbn in Hc. apply negb_true_iff. exact Hc.
    + destruct (IH H) as (Hin & Hrest). split; [right; exact Hin | exact Hrest].
Qed.

Lemma roots_after_subset (roots : list Z) (prev root : Z) :
  root ∈ roots_after roots prev -> root ∈ roots.
Proof.
  induction roots as [|r rest IH]; cbn [roots_after]; [intros H; exact H|].
  destruct (r =? prev); intros H; right; [exact H | apply IH, H].
Qed.

(** X10: the root [tdp_mmu_next_root] hands to the walk is a root of the
    list on which it could take a reference: its reference count was not
    zero, and when only valid roots are asked for it is not invalid. *)
Theorem next_root_is_live
    (prev_root : option Z) (shared only_valid : bool) (k k' : kvm) (root : Z) :
  tdp_mmu_next_root prev_root shared only_valid k = Done (Some root) k' ->
  root ∈ tdp_mmu_roots k /\
  exists sp, sps k !! root = Some sp /\ sp_root_count sp <> 0 /\
             (only_valid = true -> role_invalid (sp_role sp) = false).
Proof.
  unfold tdp_mmu_next_root. unfold bind at 1, get at 1. intros H.
  apply bind_Done_inv in H as (r & k1 & Hscan & H).
  apply bind_Done_inv in H as ([] & k2 & _ & H).
  unfold ret in H. injection H as -> _.
  apply next_root_scan_live in Hscan as (Hin & Hsp).
  split; [|exact Hsp].
  destruct prev_root; [exact (roots_after_subset _ _ _ Hin) | exact Hin].
Qed.

(** ** Invalidating the roots *)

Lemma invalidate_roots_spec (skip_private : bool) (roots : list Z) :
  NoDup roots ->
  forall k,
    Forall (fun root => is_Some (sps k !! root)) roots ->
    exists k',
      invalidate_roots roots skip_private k
        = Done (List.filter (to_invalidate k skip_private) roots) k' /\
      k' = set_sps (sps k') k /\
      forall root,
        sps k' !! root =
          if bool_decide (root ∈ roots) then invalidated_sp k skip_private root
          else sps k !! root.
Proof.
  induction 1 as [|c rest Hnin Hnd IH]; intros k Hall.
  - exists k. split; [reflexivity|]. split; [destruct k; reflexivity|].
    intros root. rewrite bool_decide_eq_false_2 by apply not_elem_of_nil.
    reflexivity.
  - apply Forall_cons in Hall as ([sp Hsp] & Hall).
    cbn [invalidate_roots List.filter]. unfold bind at 1.
    rewrite (sp_at_lookup _ _ _ Hsp).
    assert (Hto : to_invalidate k skip_private c =
                  negb (skip_private && is_private_sp sp) &&
                  negb (role_invalid (sp_role sp)))
      by (unfold to_invalidate; rewrite Hsp; reflexivity).
    assert (Hc : forall (k' : kvm) (m : option kvm_mmu_page),
               (forall root, sps k' !! root =
                  if bool_decide (root ∈ rest)
                  then invalidated_sp k skip_private root else
                    if bool_decide (root = c) then m else sps k !! root) ->
               invalidated_sp k skip_private c = m ->
               forall root, sps k' !! root =
                 if bool_decide (root ∈ c :: rest)
                 then invalidated_sp k skip_private root else sps k !! root).
    { intros k' m Hk' Hm root. rewrite Hk'.
      destruct (bool_decide_reflect (root ∈ rest)) as [Hin|Hnin'].
      - rewrite bool_decide_eq_true_2 by (right; exact Hin). reflexivity.
      - destruct (bool_decide_reflect (root = c)) as [->|Hne].
        + rewrite bool_decide_eq_true_2 by left. symmetry. exact Hm.
        + rewrite bool_decide_eq_false_2; [reflexivity|].
          intros Hin. apply elem_of_cons in Hin as [?|?]; contradiction. }
    destruct (skip_private && is_private_sp sp) eqn:Hskip;
      [|destruct (role_invalid (sp_role sp)) eqn:Hinv]; cbn [negb andb] in *;
      rewrite Hto.
    + destruct (IH k Hall) as (k' & Hrun & Hframe & Hsps).
      exists k'. split; [exact Hrun|]. split; [exact Hframe|].
      apply (Hc k' (Some sp)).
      * intros root. rewrite Hsps.
        destruct (bool_decide_reflect (root ∈ rest)); [reflexivity|].
        destruct (bool_decide_reflect (root = c)) as [->|]; [exact Hsp|reflexivity].
      * unfold invalidated_sp. rewrite Hsp, Hto. reflexivity.
    + destruct (IH k Hall) as (k' & Hrun & Hframe & Hsps).
      exists k'. split; [exact Hrun|]. split; [exact Hframe|].
      apply (Hc k' (Some sp)).
      * intros root. rewrite Hsps.
        destruct (bool_decide_reflect (root ∈ rest)); [reflexivity|].
        destruct (bool_decide_reflect (root = c)) as [->|]; [exact Hsp|reflexivity].
      * unfold invalidated_sp. rewrite Hsp, Hto. reflexivity.
    + set (sp' := sp_set_role (role_set_invalid true (sp_role sp)) sp).
      set (k1 := set_sps (<[c := sp']> (sps k)) k).
      assert (Hupd : update_sp c (fun sp => sp_set_role
                        (role_set_invalid true (sp_role sp)) sp) k
                     = Done tt k1).
      { unfold update_sp. unfold bind at 1. rewrite (sp_at_lookup _ _ _ Hsp).
        reflexivity. }
      assert (Hall1 : Forall (fun root => is_Some (sps k1 !! root)) rest).
      { apply Forall_forall. intros root Hin.
        rewrite Forall_forall in Hall. unfold k1. cbn.
        destruct (decide (root = c)) as [->|Hne].
        - rewrite lookup_insert_eq. eexists. reflexivity.
        - rewrite lookup_insert_ne by congruence. apply Hall, Hin. }
      destruct (IH k1 Hall1) as (k' & Hrun & Hframe & Hsps).
      assert (Hsame : forall root, root <> c ->
                invalidated_sp k1 skip_private root
                = invalidated_sp k skip_private root).
      { intros root Hne. unfold invalidated_sp, to_invalidate, k1. cbn.
        rewrite lookup_insert_ne by congruence. reflexivity. }
      assert (Hfilter : List.filter (to_invalidate k1 skip_private) rest
                        = List.filter (to_invalidate k skip_private) rest).
      { apply filter_ext_in. intros root Hin.
        assert (Hne : root <> c).
        { intros ->. apply Hnin. apply list_elem_of_In. exact Hin. }
        unfold to_invalidate, k1. cbn.
        rewrite lookup_insert_ne by congruence. reflexivity. }
      exists k'. split.
      { unfold bind at 1. rewrite Hupd. unfold bind at 1. rewrite Hrun.
        rewrite Hfilter. reflexivity. }
      split.
      { rewrite Hframe. unfold k1. destruct k; reflexivity. }
      apply (Hc k' (Some sp')).
      * intros root. rewrite Hsps.
        destruct (bool_decide_reflect (root ∈ rest)) as [Hin|Hnin'].
        -- apply Hsame. intros ->. contradiction.
        -- unfold k1. cbn.
           destruct (bool_decide_reflect (root = c)) as [->|Hne].
           ++ apply lookup_insert_eq.
           ++ rewrite lookup_insert_ne by congruence. reflexivity.
      * unfold invalidated_sp. rewrite Hsp, Hto. reflexivity.
Qed.

Lemma filter_none {A : Type} (f : A -> bool) (l : list A) :
  (forall x, In x l -> f x = false) -> List.filter f l = [].
Proof.
  induction l as [|x l IH]; intros H; [reflexivity|]. cbn.
  rewrite (H x) by (left; reflexivity). apply IH. intros y Hy. apply H.
  right. exact Hy.
Qed.

(** X11: [kvm_tdp_mmu_invalidate_all_roots] marks invalid every root of
    the list that is valid (but for the private roots when these are to be
    skipped) and queues a zap work item for exactly these roots, once
    each and in list order.  It changes nothing else: the list of roots,
    the entries, the remaining shadow pages and the reference counts stay.
    Calling it again queues nothing and changes nothing. *)
Theorem invalidate_all_roots_spec (skip_private : bool) (k : kvm) :
  NoDup (tdp_mmu_roots k) ->
  roots_are_pages k ->
  exists k',
    kvm_tdp_mmu_invalidate_all_roots skip_private k
      = Done (List.filter (to_invalidate k skip_private) (tdp_mmu_roots k)) k' /\
    k' = set_sps (sps k') k /\
    (forall root, root ∈ tdp_mmu_roots k ->
                  sps k' !! root = invalidated_sp k skip_private root) /\
    (forall root, root ∉ tdp_mmu_roots k -> sps k' !! root = sps k !! root) /\
    kvm_tdp_mmu_invalidate_all_roots skip_private k' = Done [] k'.
Proof.
  intros Hnd Hall. unfold roots_are_pages in Hall.
  unfold kvm_tdp_mmu_invalidate_all_roots.
  unfold bind at 1, get at 1.
  destruct (invalidate_roots_spec skip_private _ Hnd k Hall)
    as (k' & Hrun & Hframe & Hsps).
  exists k'. split; [exact Hrun|]. split; [exact Hframe|].
  assert (Hin : forall root, root ∈ tdp_mmu_roots k ->
                  sps k' !! root = invalidated_sp k skip_private root).
  { intros root Hr. rewrite Hsps, bool_decide_eq_true_2 by exact Hr.
    reflexivity. }
  split; [exact Hin|]. split.
  { intros root Hr. rewrite Hsps, bool_decide_eq_false_2 by exact Hr.
    reflexivity. }
  assert (Hroots : tdp_mmu_roots k' = tdp_mmu_roots k)
    by (rewrite Hframe; reflexivity).
  assert (Hdone : forall root, root ∈ tdp_mmu_roots k ->
            exists sp', sps k' !! root = Some sp' /\
                        to_invalidate k' skip_private root = false).
  { intros root Hr. rewrite Forall_forall in Hall.
    destruct (Hall root Hr) as [sp Hsp].
    pose proof (Hin root Hr) as Hk'. unfold invalidated_sp in Hk'.
    rewrite Hsp in Hk'. eexists. split; [exact Hk'|].
    assert (Hto : to_invalidate k skip_private root =
                  negb (skip_private && is_private_sp sp) &&
                  negb (role_invalid (sp_role sp)))
      by (unfold to_invalidate; rewrite Hsp; reflexivity).
    unfold to_invalidate at 1. rewrite Hk'.
    destruct (to_invalidate k skip_private root).
    - cbn. apply andb_false_r.
    - symmetry. exact Hto. }
  unfold bind at 1, get at 1. rewrite Hroots.
  assert (Hall' : Forall (fun root => is_Some (sps k' !! root))
                         (tdp_mmu_roots k)).
  { apply Forall_forall. intros root Hr.
    destruct (Hdone root Hr) as (sp' & Hsp' & _). exists sp'. exact Hsp'. }
  destruct (invalidate_roots_spec skip_private _ Hnd k' Hall')
    as (k'' & Hrun' & Hframe' & Hsps').
  rewrite Hrun'. rewrite filter_none.
  2:{ intros root Hr. apply list_elem_of_In in Hr.
      destruct (Hdone root Hr) as (_ & _ & Hf). exact Hf. }
  f_equal. rewrite Hframe'.
  assert (Heq : sps k'' = sps k').
  { apply map_eq. intros root. rewrite Hsps'.
    destruct (bool_decide_reflect (root ∈ tdp_mmu_roots k)) as [Hr|]; [|reflexivity].
    destruct (Hdone root Hr) as (sp' & Hsp' & Hf).
    unfold invalidated_sp. rewrite Hsp', Hf. reflexivity. }
  rewrite Heq. destruct k'; reflexivity.
Qed.

(** ** Tearing a table down *)

Lemma keeps_sptes_ret {A : Type} (a : A) : keeps_sptes (ret a).
Proof. intros k a' k' H. injection H as _ <-. reflexivity. Qed.

Lemma keeps_sptes_bind {A B : Type} (m : M A) (f : A -> M B) :
  keeps_sptes m -> (forall a, keeps_sptes (f a)) -> keeps_sptes (bind m f).
Proof.
  intros Hm Hf k b k' Hrun.
  apply bind_Done_inv in Hrun as (a & k1 & Hrun1 & Hrun2).
  rewrite (Hf _ _ _ _ Hrun2). exact (Hm _ _ _ Hrun1).
Qed.

Lemma keeps_sptes_modify (f : kvm -> kvm) :
  (forall k, sptes (f k) = sptes k) -> keeps_sptes (modify f).
Proof. intros Hf k a k' H. injection H as H; subst k'. apply Hf. Qed.

Lemma keeps_sptes_frames {A : Type} (m : M A) : frames_tables m -> keeps_sptes m.
Proof. intros Hm k a k' H. destruct (Hm _ _ _ H) as (Hs & _). exact Hs. Qed.

Lemma keeps_sptes_update_sp (spt : Z) (f : kvm_mmu_page -> kvm_mmu_page) :
  keeps_sptes (update_sp spt f).
Proof.
  unfold update_sp. apply keeps_sptes_bind.
  - apply keeps_sptes_frames, frames_tables_sp_at.
  - intros sp. apply keeps_sptes_modify. reflexivity.
Qed.

Lemma keeps_sptes_call_rcu (spt : Z) : keeps_sptes (call_rcu spt).
Proof. apply keeps_sptes_modify. reflexivity. Qed.

Lemma keeps_sptes_unaccount (sp : kvm_mmu_page) :
  keeps_sptes (tdp_unaccount_mmu_page sp).
Proof.
  unfold tdp_unaccount_mmu_page, kvm_account_pgtable_pages.
  apply keeps_sptes_bind; [apply keeps_sptes_modify; reflexivity|].
  intros _. destruct (is_private_sp sp); apply keeps_sptes_modify; reflexivity.
Qed.

Lemma keeps_sptes_unlink_sp (spt : Z) (shared : bool) :
  keeps_sptes (tdp_mmu_unlink_sp spt shared).
Proof.
  unfold tdp_mmu_unlink_sp. apply keeps_sptes_bind.
  - apply keeps_sptes_frames, frames_tables_sp_at.
  - intros sp. apply keeps_sptes_bind; [apply keeps_sptes_unaccount|].
    intros _. destruct (negb _); [apply keeps_sptes_ret|].
    apply keeps_sptes_bind; [apply keeps_sptes_update_sp|].
    intros _. apply keeps_sptes_modify. reflexivity.
Qed.

(** One turn of the loop of [handle_removed_pt] over a table of the last
    level. *)
Lemma removed_pt_turn
    (removed_pt : Z -> bool -> M unit) (sp : kvm_mmu_page) (pt : Z)
    (shared : bool) (i : Z) (k k' : kvm) :
  role_level (sp_role sp) = PG_LEVEL_4K ->
  removed_pt_turn_of E (handle_changed_spte_with E removed_pt) sp pt shared i k
    = Done tt k' ->
  spte_at k' (ptr_add pt i) = removed_value shared (spte_at k (ptr_add pt i)) /\
  (forall q, q <> ptr_add pt i -> spte_at k' q = spte_at k q).
Proof.
  intros Hlvl Hrun. unfold removed_pt_turn_of in Hrun. cbv zeta in Hrun.
  assert (Hlast : forall v, is_last_spte v (role_level (sp_role sp)) = true)
    by (intros v; rewrite Hlvl; reflexivity).
  unfold removed_value. destruct shared; cbn [orb].
  - apply bind_Done_inv in Hrun as (old & k1 & Hw & Hrun).
    unfold kvm_tdp_mmu_write_spte_atomic, kvm_tdp_mmu_read_spte,
      __kvm_tdp_mmu_write_spte in Hw. munfold. injection Hw as <- <-.
    destruct (is_removed_spte (spte_at k (ptr_add pt i))); [discriminate Hrun|].
    destruct (frames_tables_handle_changed_spte_last E removed_pt _ _ _ _ _ _
                (Hlast _) _ _ _ Hrun) as (Hs & _).
    assert (Hat : forall q, spte_at k' q =
              spte_at (set_sptes (<[ptr_add pt i := REMOVED_SPTE]> (sptes k)) k) q)
      by (intros q; unfold spte_at; rewrite Hs; reflexivity).
    split; [rewrite Hat; apply spte_at_write|].
    intros q Hq. rewrite Hat. apply spte_at_write_ne, Hq.
  - apply bind_Done_inv in Hrun as (old & k1 & Hr & Hrun).
    unfold kvm_tdp_mmu_read_spte in Hr. munfold. injection Hr as <- <-.
    destruct (is_shadow_present_pte (spte_at k (ptr_add pt i)));
      destruct (is_private_zapped_spte (spte_at k (ptr_add pt i)));
      cbn [negb andb orb] in *;
      try (unfold ret in Hrun; injection Hrun as <-;
           split; [reflexivity | intros; reflexivity]);
      apply bind_Done_inv in Hrun as (old & k1 & Hw & Hrun);
      apply kvm_tdp_mmu_write_spte_Done_inv in Hw; subst k1;
      destruct (frames_tables_handle_changed_spte_last E removed_pt _ _ _ _ _ _
                  (Hlast _) _ _ _ Hrun) as (Hs & _);
      (assert (Hat : forall q, spte_at k' q =
                 spte_at (set_sptes (<[ptr_add pt i := REMOVED_SPTE]> (sptes k)) k) q)
         by (intros q; unfold spte_at; rewrite Hs; reflexivity));
      (split; [rewrite Hat; apply spte_at_write|]);
      intros q Hq; rewrite Hat; apply spte_at_write_ne, Hq.
Qed.

Lemma removed_pt_loop
    (removed_pt : Z -> bool -> M unit) (sp : kvm_mmu_page) (pt : Z)
    (shared : bool) (l : list Z) :
  role_level (sp_role sp) = PG_LEVEL_4K ->
  NoDup l ->
  forall k k',
    for_each l (removed_pt_turn_of E (handle_changed_spte_with E removed_pt)
                                   sp pt shared) k = Done tt k' ->
    (forall i, i ∈ l ->
       spte_at k' (ptr_add pt i)
         = removed_value shared (spte_at k (ptr_add pt i))) /\
    (forall q, (forall i, i ∈ l -> q <> ptr_add pt i) ->
               spte_at k' q = spte_at k q).
Proof.
  intros Hlvl. induction 1 as [|i l Hnin Hnd IH]; intros k k' Hrun;
    cbn [for_each] in Hrun.
  - unfold ret in Hrun. injection Hrun as <-. split.
    + intros i Hi. apply elem_of_nil in Hi. contradiction.
    + reflexivity.
  - apply bind_Done_inv in Hrun as ([] & k1 & Hturn & Hrun).
    destruct (removed_pt_turn _ _ _ _ _ _ _ Hlvl Hturn) as (Hi1 & Ho1).
    destruct (IH _ _ Hrun) as (Hi2 & Ho2). split.
    + intros j Hj. apply elem_of_cons in Hj as [->|Hj].
      * rewrite Ho2; [exact Hi1|]. intros j Hj Heq.
        apply Hnin. replace i with j; [exact Hj|]. unfold ptr_add in Heq. lia.
      * rewrite (Hi2 j Hj). f_equal. apply Ho1. intros Heq.
        apply Hnin. replace i with j; [exact Hj|]. unfold ptr_add in Heq. lia.
    + intros q Hq. rewrite Ho2 by (intros j Hj; apply Hq; right; exact Hj).
      apply Ho1. apply Hq. left.
Qed.

(** The teardown of a table of the last level, whatever tears the tables
    below down (there are none). *)
Lemma handle_removed_pt_with_4k
    (removed_pt : Z -> bool -> M unit)
    (pt : Z) (shared : bool) (k k' : kvm) (sp : kvm_mmu_page) :
  table_aligned pt ->
  sps k !! pt = Some sp ->
  role_level (sp_role sp) = PG_LEVEL_4K ->
  handle_removed_pt_with E (handle_changed_spte_with E removed_pt) pt shared k
    = Done tt k' ->
  (forall i, 0 <= i < SPTE_ENT_PER_PAGE ->
     spte_at k' (ptr_add pt i)
       = removed_value shared (spte_at k (ptr_add pt i))) /\
  (forall q, page_of q <> pt -> spte_at k' q = spte_at k q) /\
  last (rcu_callbacks k') = Some pt.
Proof.
  intros Hal Hsp Hlvl Hrun.
  assert (Hpage : forall j, 0 <= j < SPTE_ENT_PER_PAGE ->
                            page_of (ptr_add pt j) = pt).
  { intros j Hj. destruct Hal as (? & ? & ?). apply page_of_ptr_add; assumption. }
  assert (Hpage0 : page_of pt = pt).
  { replace pt with (ptr_add pt 0) at 1 by (unfold ptr_add; lia).
    apply Hpage. unfold SPTE_ENT_PER_PAGE. lia. }
  unfold handle_removed_pt_with in Hrun. rewrite Hpage0 in Hrun.
  unfold bind at 1 in Hrun.
  rewrite (sptep_to_sp_lookup k pt sp) in Hrun by (rewrite Hpage0; exact Hsp).
  apply bind_Done_inv in Hrun as ([] & k1 & Hunlink & Hrun).
  apply bind_Done_inv in Hrun as ([] & k2 & Hloop & Hrun).
  change (for_each (seqZ 0 SPTE_ENT_PER_PAGE)
            (removed_pt_turn_of E (handle_changed_spte_with E removed_pt)
               sp pt shared) k1 = Done tt k2) in Hloop.
  apply (removed_pt_loop _ _ _ _ _ Hlvl (NoDup_seqZ _ _)) in Hloop
    as (Hin & Hout).
  pose proof (keeps_sptes_unlink_sp _ _ _ _ _ Hunlink) as Hs1.
  apply bind_Done_inv in Hrun as (sp2 & k3 & Hsp2 & Hrun).
  apply sp_at_Done_inv in Hsp2 as (_ & ->).
  apply bind_Done_inv in Hrun as (b & k3 & Hbug & Hrun).
  assert (Hs3 : sptes k3 = sptes k2).
  { unfold KVM_BUG_ON in Hbug. injection Hbug as _ <-.
    destruct (_ && _); reflexivity. }
  apply bind_Done_inv in Hrun as ([] & k4 & Hfree & Hrun).
  assert (Hs4 : sptes k4 = sptes k3).
  { refine ((_ : keeps_sptes _) _ _ _ Hfree).
    destruct (is_private_sp sp2); [|apply keeps_sptes_ret].
    apply keeps_sptes_bind.
    - apply keeps_sptes_frames, frames_tables_keeps,
        keeps_tables_static_call.
    - intros r. destruct (nonzero r);
        [apply keeps_sptes_update_sp | apply keeps_sptes_ret]. }
  unfold call_rcu, modify in Hrun. injection Hrun as <-.
  assert (Hat : forall q, spte_at (set_rcu_callbacks (rcu_callbacks k4 ++ [pt]) k4) q
                          = spte_at k2 q).
  { intros q. unfold spte_at. cbn [sptes set_rcu_callbacks].
    rewrite Hs4, Hs3. reflexivity. }
  assert (Hat1 : forall q, spte_at k1 q = spte_at k q)
    by (intros q; unfold spte_at; rewrite Hs1; reflexivity).
  split; [|split].
  - intros i Hi. rewrite Hat, Hin by (apply elem_of_seqZ; lia).
    rewrite Hat1. reflexivity.
  - intros q Hq. rewrite Hat, Hout, Hat1; [reflexivity|].
    intros i Hi Heq. apply Hq. rewrite Heq. apply Hpage.
    apply elem_of_seqZ in Hi. lia.
  - cbn. apply last_snoc.
Qed.

(** X12: what [handle_removed_pt] leaves of a table of the last level,
    when it completes.  Under the shared lock every slot of the table
    holds the frozen value [REMOVED_SPTE]; under the exclusive lock the
    slots that held a present or a blocked entry do, and the others are
    untouched.  No entry of another table changes, and the table's shadow
    page is the last one queued for freeing after a grace period. *)
Theorem handle_removed_pt_freezes_table
    (pt : Z) (shared : bool) (k k' : kvm) (sp : kvm_mmu_page) :
  table_aligned pt ->
  sps k !! pt = Some sp ->
  role_level (sp_role sp) = PG_LEVEL_4K ->
  handle_removed_pt E depth pt shared k = Done tt k' ->
  (forall i, 0 <= i < SPTE_ENT_PER_PAGE ->
     spte_at k' (ptr_add pt i)
       = removed_value shared (spte_at k (ptr_add pt i))) /\
  (forall q, page_of q <> pt -> spte_at k' q = spte_at k q) /\
  last (rcu_callbacks k') = Some pt.
Proof.
  intros Hal Hsp Hlvl Hrun.
  unfold handle_removed_pt in Hrun. destruct depth as [|n];
    cbn [handle_removed_pt_fuel] in Hrun; [discriminate Hrun|].
  exact (handle_removed_pt_with_4k _ _ _ _ _ _ Hal Hsp Hlvl Hrun).
Qed.

(** ** Asking for a root twice *)

(** X13: when no root of the requested role is linked, two calls of
    [kvm_tdp_mmu_get_vcpu_root] in a row for the same vCPU return the same
    root: the first call creates it from the vCPU's cache and links it at
    the head of the list, the second finds it there and only takes a
    reference, so that one table is taken from the cache, one root is
    linked and the root holds three references. *)
Theorem get_vcpu_root_twice
    (vcpu : kvm_vcpu) (private : bool) (k : kvm) (spt : Z) (rest : list Z) :
  roots_wf k ->
  find (root_has_role k (requested_role vcpu private)) (tdp_mmu_roots k) = None ->
  mmu_shadow_page_cache k = spt :: rest ->
  (role_is_private (requested_role vcpu private) = true ->
   root_mmu_level vcpu = role_level (requested_role vcpu private)) ->
  (let* first := kvm_tdp_mmu_get_vcpu_root vcpu private in
   let* second := kvm_tdp_mmu_get_vcpu_root vcpu private in
   ret (first, second)) k
  = Done (spt, spt)
      (set_tdp_mmu_roots (spt :: tdp_mmu_roots k)
         (set_sps (<[spt := mk_sp (requested_role vcpu private) 0 None true 3
                                  None false]> (sps k))
                  (set_mmu_shadow_page_cache rest k))).
Proof.
  intros Hwf Hnone Hcache Hlvl.
  pose proof (get_vcpu_root_scan_spec k (requested_role vcpu private) _ Hwf)
    as Hscan.
  rewrite Hnone in Hscan.
  set (sp2 := mk_sp (requested_role vcpu private) 0 None true 2 None false).
  set (k1 := set_tdp_mmu_roots (spt :: tdp_mmu_roots k)
               (set_sps (<[spt := sp2]> (sps k))
                        (set_mmu_shadow_page_cache rest k))).
  assert (Hfirst : kvm_tdp_mmu_get_vcpu_root vcpu private k = Done spt k1).
  { unfold kvm_tdp_mmu_get_vcpu_root. fold (requested_role vcpu private).
    unfold kvm_tdp_mmu_get_vcpu_root_no_alloc. unfold bind at 1 2. unfold get.
    rewrite Hscan. unfold bind at 1.
    rewrite (tdp_mmu_alloc_sp_cached vcpu _ k spt rest Hcache Hlvl).
    unfold tdp_mmu_init_sp, refcount_set, update_sp, list_add_rcu, sp_at.
    munfold. cbn. rewrite lookup_insert_eq. cbn. rewrite lookup_insert_eq.
    cbn. rewrite !insert_insert_eq. reflexivity. }
  assert (Hsp1 : sps k1 !! spt = Some sp2) by (unfold k1; cbn; apply lookup_insert_eq).
  assert (Hsecond : kvm_tdp_mmu_get_vcpu_root vcpu private k1 =
                    Done spt (set_sps (<[spt := sp_set_root_count 3 sp2]> (sps k1)) k1)).
  { unfold kvm_tdp_mmu_get_vcpu_root. fold (requested_role vcpu private).
    unfold kvm_tdp_mmu_get_vcpu_root_no_alloc. unfold bind at 1 2. unfold get.
    change (tdp_mmu_roots k1) with (spt :: tdp_mmu_roots k).
    cbn [get_vcpu_root_scan]. unfold bind at 1.
    rewrite (sp_at_lookup _ _ _ Hsp1).
    change (kvm_mmu_page_as_id sp2)
      with (kvm_mmu_role_as_id (requested_role vcpu private)).
    rewrite Z.eqb_refl. cbn [negb].
    change (sp_role sp2) with (requested_role vcpu private).
    rewrite bool_decide_eq_true_2 by reflexivity.
    unfold bind at 1.
    rewrite (get_root_live _ _ _ Hsp1) by (cbn; unfold INT_MAX; lia).
    reflexivity. }
  unfold bind at 1. rewrite Hfirst. unfold bind at 1. rewrite Hsecond.
  unfold ret. f_equal. unfold k1. unfold set_sps, set_tdp_mmu_roots. cbn.
  rewrite insert_insert_eq. reflexivity.
Qed.


(** ** Unlinking a table *)

Lemma KVM_BUG_ON_Done_inv (b a : bool) (k k' : kvm) :
  KVM_BUG_ON b k = Done a k' -> sptes k' = sptes k /\ sps k' = sps k.
Proof.
  unfold KVM_BUG_ON. intros H. injection H as _ <-.
  destruct b; split; reflexivity.
Qed.

(** The bookkeeping of a change that replaces the link to a table of the
    last level by a non-present value tears that table down. *)
Lemma handle_changed_spte_unlinks_4k
    (as_id gfn old_spte new_spte : Z) (role : kvm_mmu_page_role)
    (shared : bool) (k k' : kvm) (spt : Z) (sp : kvm_mmu_page) :
  spte_to_child_pt old_spte (role_level role) = Some spt ->
  is_private_zapped_spte old_spte = false ->
  is_shadow_present_pte new_spte = false ->
  table_aligned spt ->
  sps k !! spt = Some sp ->
  role_level (sp_role sp) = PG_LEVEL_4K ->
  handle_changed_spte E depth as_id gfn old_spte new_spte role shared k
    = Done tt k' ->
  (forall i, 0 <= i < SPTE_ENT_PER_PAGE ->
     spte_at k' (ptr_add spt i)
       = removed_value shared (spte_at k (ptr_add spt i))) /\
  (forall q, page_of q <> spt -> spte_at k' q = spte_at k q).
Proof.
  intros Hchild Hz Hnew Hal Hsp Hlvl Hrun.
  assert (Hold : is_shadow_present_pte old_spte = true /\
                 is_last_spte old_spte (role_level role) = false).
  { unfold spte_to_child_pt in Hchild.
    destruct (is_shadow_present_pte old_spte),
      (is_last_spte old_spte (role_level role)); cbn in Hchild;
      try discriminate Hchild. split; reflexivity. }
  destruct Hold as (Hp & Hl).
  assert (Hne : (old_spte =? new_spte) = false).
  { apply Z.eqb_neq. intros ->. congruence. }
  unfold handle_changed_spte, handle_changed_spte_with in Hrun.
  rewrite Hp, Hl, Hnew, Hne, Hz, Hchild in Hrun.
  cbn [andb negb orb eqb] in Hrun.
  unfold WARN_ON, when in Hrun. unfold bind at 1 2 3, ret at 1 2 3 in Hrun.
  apply bind_Done_inv in Hrun as (b1 & k1 & Hb1 & Hrun).
  apply KVM_BUG_ON_Done_inv in Hb1 as (Hs1 & Hp1).
  unfold bind at 1, get at 1 in Hrun.
  apply bind_Done_inv in Hrun as (b2 & k2 & Hb2 & Hrun).
  apply KVM_BUG_ON_Done_inv in Hb2 as (Hs2 & Hp2).
  unfold bind at 1 2, ret at 1 2 in Hrun.
  apply bind_Done_inv in Hrun as ([] & k3 & Hrem & Hrun).
  cbn [deref] in Hrem. unfold bind at 1, ret at 1 in Hrem.
  apply bind_Done_inv in Hrem as (cp & k4 & Hcp & Hrem).
  destruct (frames_tables_is_private_sptep _ _ _ _ Hcp) as (Hs4 & Hp4 & _).
  apply bind_Done_inv in Hrem as (b3 & k5 & Hb3 & Hrem).
  apply KVM_BUG_ON_Done_inv in Hb3 as (Hs5 & Hp5).
  assert (Hsp5 : sps k5 !! spt = Some sp) by congruence.
  unfold handle_removed_pt in Hrem. destruct depth as [|n];
    cbn [handle_removed_pt_fuel] in Hrem; [discriminate Hrem|].
  destruct (handle_removed_pt_with_4k _ _ _ _ _ _ Hal Hsp5 Hlvl Hrem)
    as (Hin & Hout & _).
  apply bind_Done_inv in Hrun as ([] & k6 & Hpriv & Hrun).
  unfold ret in Hrun. injection Hrun as <-.
  assert (Hs6 : sptes k6 = sptes k3).
  { refine ((_ : keeps_sptes _) _ _ _ Hpriv).
    destruct (kvm_mmu_page_role_is_private role && true);
      [|apply keeps_sptes_ret].
    apply keeps_sptes_frames. tables_auto. }
  assert (Hat5 : forall q, spte_at k5 q = spte_at k q)
    by (intros q; unfold spte_at; congruence).
  assert (Hat6 : forall q, spte_at k6 q = spte_at k3 q)
    by (intros q; unfold spte_at; congruence).
  split.
  - intros i Hi. rewrite Hat6, (Hin i Hi), Hat5. reflexivity.
  - intros q Hq. rewrite Hat6, (Hout q Hq), Hat5. reflexivity.
Qed.

(** X14: [kvm_tdp_mmu_zap_sp] refuses a root (a shadow page without a
    parent entry) and a page whose parent entry is not present: it returns
    false and changes nothing.  On a table of the last level that its
    parent entry links, a call that completes returns true; the parent
    entry then holds the blocked form of its old value in a private table
    of a guest with a shared bit and the plain non-present value
    otherwise, every slot of the zapped table that held a present or a
    blocked entry is frozen, and no other entry has changed. *)
Theorem zap_sp_spec (spt : Z) (k : kvm) (sp : kvm_mmu_page) :
  sps k !! spt = Some sp ->
  (sp_ptep sp = None -> kvm_tdp_mmu_zap_sp E depth spt k = Done false k) /\
  (forall ptep,
     sp_ptep sp = Some ptep ->
     is_shadow_present_pte (spte_at k ptep) = false ->
     kvm_tdp_mmu_zap_sp E depth spt k = Done false k) /\
  (forall ptep r k',
     sp_ptep sp = Some ptep ->
     spte_to_child_pt (spte_at k ptep) (role_level (sp_role sp) + 1)
       = Some spt ->
     is_private_zapped_spte (spte_at k ptep) = false ->
     role_level (sp_role sp) = PG_LEVEL_4K ->
     table_aligned spt ->
     page_of ptep <> spt ->
     kvm_tdp_mmu_zap_sp E depth spt k = Done r k' ->
     r = true /\
     spte_at k' ptep =
       (if nonzero (kvm_gfn_shared_mask k) && is_private_sp sp
        then __private_zapped_spte (spte_at k ptep)
        else SHADOW_NONPRESENT_VALUE) /\
     (forall i, 0 <= i < SPTE_ENT_PER_PAGE ->
        spte_at k' (ptr_add spt i)
          = removed_value false (spte_at k (ptr_add spt i))) /\
     (forall q, q <> ptep -> page_of q <> spt -> spte_at k' q = spte_at k q)).
Proof.
  intros Hsp.
  assert (Hunf : kvm_tdp_mmu_zap_sp E depth spt k =
    match sp_ptep sp with
    | None => Done false k
    | Some ptep =>
        if negb (is_shadow_present_pte (spte_at k ptep)) then Done false k
        else
          (let* _ := tdp_mmu_set_spte E depth (kvm_mmu_page_as_id sp) ptep
                       (spte_at k ptep)
                       (if nonzero (kvm_gfn_shared_mask k) && is_private_sp sp
                        then __private_zapped_spte (spte_at k ptep)
                        else SHADOW_NONPRESENT_VALUE)
                       (sp_gfn sp) (role_level (sp_role sp) + 1) in
           ret true) k
    end).
  { unfold kvm_tdp_mmu_zap_sp.
    unfold bind at 1. rewrite (sp_at_lookup _ _ _ Hsp).
    unfold WARN_ON at 1. unfold bind at 1, ret at 1.
    destruct (sp_ptep sp) as [ptep|]; [|reflexivity].
    unfold bind at 1, kvm_tdp_mmu_read_spte at 1, gets at 1.
    unfold WARN_ON at 1. unfold bind at 1, ret at 1.
    destruct (negb (is_shadow_present_pte (spte_at k ptep))); reflexivity. }
  rewrite Hunf. clear Hunf.
  split; [|split].
  - intros ->. reflexivity.
  - intros ptep -> ->. reflexivity.
  - intros ptep r k' -> Hchild Hz Hlvl Hal Hne.
    set (old := spte_at k ptep) in *.
    assert (Hp : is_shadow_present_pte old = true).
    { unfold spte_to_child_pt in Hchild.
      destruct (is_shadow_present_pte old); [reflexivity | discriminate Hchild]. }
    rewrite Hp. cbn [negb].
    set (new := if nonzero (kvm_gfn_shared_mask k) && is_private_sp sp
                then __private_zapped_spte old else SHADOW_NONPRESENT_VALUE).
    assert (Hnew : is_shadow_present_pte new = false).
    { unfold new. destruct (_ && _);
        [apply private_zapped_not_present | reflexivity]. }
    intros Hrun. apply bind_Done_inv in Hrun as (old' & k6 & Hset & Hrun).
    unfold ret in Hrun. injection Hrun as <- <-.
    split; [reflexivity|].
    unfold tdp_mmu_set_spte in Hset.
    apply bind_Done_inv in Hset as (pv & k1 & H1 & Hset).
    destruct (frames_tables_is_private_sptep _ _ _ _ H1) as (Hs1 & Hp1 & _).
    unfold bind at 1, get at 1 in Hset.
    apply bind_Done_inv in Hset as (b2 & k2 & H2 & Hset).
    apply KVM_BUG_ON_Done_inv in H2 as (Hs2 & Hp2).
    unfold WARN_ON at 1 in Hset. unfold bind at 1, ret at 1 in Hset.
    assert (Hat2 : spte_at k2 ptep = old) by (unfold old, spte_at; congruence).
    unfold bind at 1 in Hset.
    rewrite (kvm_tdp_mmu_write_spte_current E _ _ new _ _ Hat2) in Hset.
    set (k3 := set_sptes (<[ptep := new]> (sptes k2)) k2) in Hset.
    apply bind_Done_inv in Hset as (pv' & k4 & H4 & Hset).
    destruct (frames_tables_is_private_sptep _ _ _ _ H4) as (Hs4 & Hp4 & _).
    rewrite Hnew, andb_false_r in Hset.
    unfold bind at 1, ret at 1 in Hset.
    apply bind_Done_inv in Hset as (parent & k5 & H5 & Hset).
    apply sp_at_Done_inv in H5 as (_ & ->).
    apply bind_Done_inv in Hset as ([] & k5 & Hh & Hset).
    unfold ret in Hset. injection Hset as _ <-.
    assert (Hsp4 : sps k4 !! spt = Some sp).
    { rewrite Hp4. unfold k3. cbn [sps set_sptes]. rewrite Hp2, Hp1. exact Hsp. }
    destruct (handle_changed_spte_unlinks_4k (kvm_mmu_page_as_id sp)
                (sp_gfn sp) old new
                (role_set_level (role_level (sp_role sp) + 1) (sp_role parent))
                false k4 k5 spt sp Hchild Hz Hnew Hal Hsp4 Hlvl Hh)
      as (Hin & Hout).
    assert (Hpage : forall j, 0 <= j < SPTE_ENT_PER_PAGE ->
                              page_of (ptr_add spt j) = spt).
    { intros j Hj. destruct Hal as (? & ? & ?).
      apply page_of_ptr_add; assumption. }
    assert (Hat4 : forall q, spte_at k4 q = spte_at k3 q)
      by (intros q; unfold spte_at; rewrite Hs4; reflexivity).
    assert (Hat3 : forall q, q <> ptep -> spte_at k3 q = spte_at k q).
    { intros q Hq. unfold k3. rewrite spte_at_write_ne by exact Hq.
      unfold spte_at. rewrite Hs2, Hs1. reflexivity. }
    split; [|split].
    + rewrite (Hout ptep Hne), Hat4. unfold k3. apply spte_at_write.
    + intros i Hi. rewrite (Hin i Hi), Hat4, Hat3; [reflexivity|].
      intros Heq. apply Hne. rewrite <- Heq. apply Hpage, Hi.
    + intros q Hq Hpq. rewrite (Hout q Hpq), Hat4. apply Hat3, Hq.
Qed.

(** ** Requests to the secure-resource manager *)

(** X15: [handle_removed_private_spte] always completes, writes no entry,
    and asks the secure-resource manager for nothing, for the blocking of
    the page alone, or for the blocking followed by the removal.  It asks
    for the removal only of a page that was mapped by a leaf, that is not
    merely being blocked, and whose blocking the manager accepted.  A
    present leaf that becomes plainly non-present is blocked and, when
    the manager accepts that, removed. *)
Theorem removed_private_spte_protocol
    (gfn old_spte new_spte level : Z) (k : kvm) :
  exists k' calls,
    handle_removed_private_spte E gfn old_spte new_spte level k = Done tt k' /\
    tdx_log k' = tdx_log k ++ calls /\
    sptes k' = sptes k /\ sps k' = sps k /\
    (calls = [] \/
     calls = [zap_private_spte gfn level] \/
     (calls = [zap_private_spte gfn level;
               remove_private_spte gfn level (spte_to_pfn old_spte)] /\
      is_leaf_spte old_spte level = true /\
      is_private_zapped_spte new_spte = false /\
      tdx_module E (tdx_log k) (zap_private_spte gfn level) = 0)) /\
    (is_leaf_spte old_spte level = true ->
     is_shadow_present_pte new_spte = false ->
     is_private_zapped_spte new_spte = false ->
     calls = zap_private_spte gfn level ::
             (if tdx_module E (tdx_log k) (zap_private_spte gfn level) =? 0
              then [remove_private_spte gfn level (spte_to_pfn old_spte)]
              else [])).
Proof.
  unfold handle_removed_private_spte, is_leaf_spte.
  destruct (is_shadow_present_pte old_spte) eqn:Hwp,
    (is_last_spte old_spte level) eqn:Hwl,
    (is_shadow_present_pte new_spte) eqn:Hip,
    (is_last_spte new_spte level) eqn:Hil,
    (is_private_zapped_spte old_spte) eqn:Hwz,
    (is_private_zapped_spte new_spte) eqn:Hiz; cbn [andb negb eqb orb];
    unfold KVM_BUG_ON, WARN_ON, static_call; munfold; cbn [tdx_log];
    try (exists k, []; rewrite app_nil_r;
         repeat split; try (left; reflexivity); intros; discriminate);
    try (destruct (nonzero (tdx_module E (tdx_log k)
                              (zap_private_spte gfn level))) eqn:Hr;
         unfold nonzero in Hr;
         [apply negb_true_iff in Hr | apply negb_false_iff in Hr]; rewrite ?Hr);
    repeat match goal with
           | |- context [set_vm_bugged true ?s] =>
               match goal with
               | |- context [if ?b then set_vm_bugged true s else s] =>
                   destruct b
               end
           end;
    try apply Z.eqb_eq in Hr;
    (eexists _, _; split; [reflexivity|]; cbn;
     split; [first [rewrite <- ?app_assoc; reflexivity
                   | symmetry; apply app_nil_r]|];
     split; [reflexivity|]; split; [reflexivity|]; split;
     [first [left; reflexivity | right; left; reflexivity
            | right; right; repeat split; auto]
     | intros; first [discriminate | reflexivity]]).
Qed.

(** ** Architectural constants *)

Lemma testbit_small (c n j : Z) :
  0 <= c < 2 ^ n -> 0 <= n <= j -> Z.testbit c j = false.
Proof.
  intros Hc Hj. destruct (Z.eq_dec c 0) as [->|Hne].
  - apply Z.bits_0.
  - apply Z.bits_above_log2; [lia|].
    assert (Z.log2 c < n) by (apply Z.log2_lt_pow2; lia). lia.
Qed.

Lemma testbit_build_tdx_field (non_arch : bool) (class field i : Z) :
  0 <= i ->
  Z.testbit (__BUILD_TDX_FIELD non_arch class field) i =
    (non_arch && (i =? 63)) ||
    ((56 <=? i) && (i <? 64) && Z.testbit class (i - 56)) ||
    ((i <? 32) && Z.testbit field i).
Proof.
  intros Hi. unfold __BUILD_TDX_FIELD, TDX_NON_ARCH, TDX_CLASS_SHIFT,
    TDX_FIELD_MASK.
  rewrite !Z.lor_spec, Z.land_spec. f_equal; [f_equal|].
  - destruct non_arch; cbn [andb]; [|apply Z.bits_0].
    rewrite BIT_ULL_pow2 by lia. rewrite Z.pow2_bits_eqb by lia.
    apply Z.eqb_sym.
  - unfold wrap64 at 1. destruct (Z.ltb_spec i 64).
    + rewrite Z.mod_pow2_bits_low, Z.shiftl_spec by lia.
      destruct (Z.leb_spec 56 i); cbn [andb].
      * apply testbit_wrap64. lia.
      * apply Z.testbit_neg_r. lia.
    + rewrite Z.mod_pow2_bits_high by lia.
      rewrite andb_false_r. reflexivity.
  - destruct (Z.ltb_spec i 32).
    + rewrite Z.ones_spec_low, andb_true_r by lia. apply testbit_wrap64. lia.
    + rewrite Z.ones_spec_high, andb_false_r by lia. reflexivity.
Qed.

(** X16: a field access code built by [__BUILD_TDX_FIELD] can be taken
    apart again.  For a class code below 128 the flag is read back from
    bit 63, the class from the bits above [TDX_CLASS_SHIFT] once the flag
    is masked out, and the field, cut to its low 32 bits, from the bits
    under [TDX_FIELD_MASK].  The bound on the class is sharp: the class
    code 128 is indistinguishable from the flag. *)
Theorem build_tdx_field_round_trip :
  (forall (non_arch : bool) (class field : Z),
     0 <= class < 128 ->
     let code := __BUILD_TDX_FIELD non_arch class field in
     nonzero (Z.land code TDX_NON_ARCH) = non_arch /\
     Z.shiftr (Z.land code (not64 TDX_NON_ARCH)) TDX_CLASS_SHIFT = class /\
     Z.land code TDX_FIELD_MASK = field mod 2 ^ 32) /\
  (forall field : Z,
     BUILD_TDX_FIELD 128 field = BUILD_TDX_FIELD_NON_ARCH 0 field).
Proof.
  split.
  - intros non_arch class field Hc code. subst code.
    split; [|split].
    + unfold TDX_NON_ARCH. rewrite nonzero_land_bit by lia.
      rewrite testbit_build_tdx_field by lia.
      change (63 - 56) with 7.
      rewrite (testbit_small class 7 7) by lia.
      destruct non_arch; reflexivity.
    + apply Z.bits_inj'. intros i Hi.
      unfold TDX_CLASS_SHIFT.
      rewrite Z.shiftr_spec, Z.land_spec, testbit_build_tdx_field by lia.
      unfold not64, TDX_NON_ARCH. rewrite Z.lxor_spec.
      rewrite BIT_ULL_pow2, Z.pow2_bits_eqb by lia.
      change u64_max with (Z.ones 64).
      replace (i + 56 - 56) with i by lia.
      replace (56 <=? i + 56) with true by (symmetry; apply Z.leb_le; lia).
      replace (i + 56 <? 32) with false by (symmetry; apply Z.ltb_ge; lia).
      destruct (Z.ltb_spec (i + 56) 64).
      * rewrite Z.ones_spec_low by lia.
        destruct (Z.eqb_spec 63 (i + 56)) as [He|Hne].
        -- rewrite andb_false_r. symmetry.
           apply (testbit_small class 7); lia.
        -- replace (i + 56 =? 63) with false
             by (symmetry; apply Z.eqb_neq; lia).
           rewrite andb_false_r. cbn.
           rewrite orb_false_r, andb_true_r. reflexivity.
      * rewrite Z.ones_spec_high by lia.
        replace (63 =? i + 56) with false by (symmetry; apply Z.eqb_neq; lia).
        cbn. rewrite andb_false_r. symmetry.
        apply (testbit_small class 7); lia.
    + unfold TDX_FIELD_MASK. rewrite Z.land_ones by lia.
      rewrite <- (Z.land_ones field) by lia.
      apply Z.bits_inj'. intros i Hi.
      rewrite <- Z.land_ones by lia.
      rewrite !Z.land_spec, testbit_build_tdx_field by lia.
      destruct (Z.ltb_spec i 32).
      * rewrite Z.ones_spec_low by lia.
        replace (56 <=? i) with false by (symmetry; apply Z.leb_gt; lia).
        replace (i =? 63) with false by (symmetry; apply Z.eqb_neq; lia).
        rewrite andb_false_r. cbn. rewrite andb_true_r. reflexivity.
      * rewrite Z.ones_spec_high by lia. rewrite !andb_false_r. reflexivity.
  - intros field. unfold BUILD_TDX_FIELD, BUILD_TDX_FIELD_NON_ARCH,
      __BUILD_TDX_FIELD. reflexivity.
Qed.

(** X17: the two conversions of the frequency of the time-stamp counter.
    A frequency within the architectural bounds, given in kHz, becomes a
    multiple count of 25MHz between 4 and 400; converting that back loses
    less than 25MHz, and nothing exactly when the frequency is a multiple
    of 25MHz; and the count survives the way to kHz and back. *)
Theorem tsc_frequency_conversion (tsc_in_khz : Z) :
  TDX_MIN_TSC_FREQUENCY_KHZ <= tsc_in_khz <= TDX_MAX_TSC_FREQUENCY_KHZ ->
  let n := TDX_TSC_KHZ_TO_25MHZ tsc_in_khz in
  4 <= n <= 400 /\
  TDX_TSC_25MHZ_TO_KHZ n <= tsc_in_khz < TDX_TSC_25MHZ_TO_KHZ n + 25000 /\
  (TDX_TSC_25MHZ_TO_KHZ n = tsc_in_khz <-> tsc_in_khz mod 25000 = 0) /\
  TDX_TSC_KHZ_TO_25MHZ (TDX_TSC_25MHZ_TO_KHZ n) = n.
Proof.
  intros Hr n. subst n.
  unfold TDX_MIN_TSC_FREQUENCY_KHZ, TDX_MAX_TSC_FREQUENCY_KHZ,
    TDX_TSC_KHZ_TO_25MHZ, TDX_TSC_25MHZ_TO_KHZ in *.
  change (25 * 1000) with 25000.
  rewrite Z.quot_div_nonneg by lia.
  assert (Hdm := Z.div_mod tsc_in_khz 25000 ltac:(lia)).
  assert (Hm := Z.mod_pos_bound tsc_in_khz 25000 ltac:(lia)).
  repeat split; try lia.
  rewrite Z.quot_mul by lia. reflexivity.
Qed.

End Further.

(** * Instances of the further properties *)

Lemma cond_resched_yields_iff_needed_witness :
  exists k',
    tdp_mmu_iter_cond_resched (yielding_env tdx_accepts) progress_iter true
                              false (empty_kvm 0)
      = Done (true, iter_set_yielded true progress_iter) k' /\
    mmu_lock_yields k' = 1 /\ remote_tlb_flushes k' = [flush_all].
Proof.
  destruct (cond_resched_yields_iff_needed (yielding_env tdx_accepts)
              progress_iter true false (empty_kvm 0))
    as (k' & Hrun & Hy & Hf & _); [vm_compute; congruence | reflexivity |].
  exists k'. split; [exact Hrun|]. split; [exact Hy | exact Hf].
Defined.

Lemma get_put_root_round_trip_witness :
  (let* got := kvm_tdp_mmu_get_root 4096 in
   if got then kvm_tdp_mmu_put_root 4096 false else ret tt)
    (kvm_with_root 1 false)
  = Done tt (kvm_with_root 1 false).
Proof.
  apply (get_put_root_round_trip 4096 false (kvm_with_root 1 false)
           (example_root_sp 1 false)); [reflexivity | vm_compute; split; reflexivity].
Defined.

Lemma set_spte_atomic_busy_witness :
  tdp_mmu_set_spte_atomic (example_env tdx_accepts) 5 stale_iter
                          SHADOW_NONPRESENT_VALUE stale_kvm
  = Done (- EBUSY, iter_set_old_spte (example_4k_spte 7) stale_iter) stale_kvm.
Proof.
  destruct (set_spte_atomic_busy (example_env tdx_accepts) 5 stale_iter
              SHADOW_NONPRESENT_VALUE stale_kvm
              (example_private_sp 1 0 (Some 8192) (Some 20480)))
    as (iter' & Hrun & Hrefresh);
    [reflexivity | reflexivity | vm_compute; congruence |].
  rewrite Hrun, Hrefresh by (right; right; reflexivity). reflexivity.
Defined.

Lemma set_private_spte_present_all_or_nothing_witness :
  (exists k',
     set_private_spte_present (example_env tdx_accepts) 12296 0 0
                              (example_4k_spte 9) 1 merge_kvm = Done 0 k' /\
     spte_at k' 12296 = example_4k_spte 9) /\
  (exists r k',
     set_private_spte_present (example_env tdx_refuses_set) 12296 0 0
                              (example_4k_spte 9) 1 merge_kvm = Done r k' /\
     r <> 0 /\ spte_at k' 12296 = 0).
Proof.
  split.
  - eassert (Hrun : set_private_spte_present (example_env tdx_accepts) 12296
                      0 0 (example_4k_spte 9) 1 merge_kvm = Done 0 _)
      by (vm_compute; reflexivity).
    destruct (set_private_spte_present_all_or_nothing _ _ _ _ _ _ _ _ _ Hrun)
      as (_ & _ & _ & Hp).
    eexists. split; [exact Hrun|]. exact (Hp eq_refl).
  - eassert (Hrun : set_private_spte_present (example_env tdx_refuses_set)
                      12296 0 0 (example_4k_spte 9) 1 merge_kvm
                    = Done (- EIO) _)
      by (vm_compute; reflexivity).
    destruct (set_private_spte_present_all_or_nothing _ _ _ _ _ _ _ _ _ Hrun)
      as (_ & _ & _ & Hp).
    eexists _, _. split; [exact Hrun|]. split; [vm_compute; congruence|].
    exact (Hp eq_refl).
Defined.

Lemma zap_spte_atomic_leaf_witness :
  exists k',
    tdp_mmu_zap_spte_atomic (example_env tdx_accepts) 5 leaf_iter stale_kvm
      = Done (0, leaf_iter) k' /\
    spte_at k' 12288 = __private_zapped_spte (example_4k_spte 7).
Proof.
  destruct (zap_spte_atomic_leaf (example_env tdx_accepts) 5 leaf_iter stale_kvm
              (example_private_sp 1 0 (Some 8192) (Some 20480)))
    as (k' & Hrun & Hs & _); try reflexivity.
  exists k'. split; [exact Hrun | exact Hs].
Defined.

Lemma handle_changed_spte_leaf_accounting_witness :
  (exists k',
     handle_changed_spte (example_env tdx_accepts) 5 0 7 0 (example_4k_spte 7)
                         (example_role 1 false) true (empty_kvm 0) = Done tt k' /\
     pages_at_level k' 1 = 1) /\
  (exists k',
     handle_changed_spte (example_env tdx_accepts) 5 0 7 (accessed_4k_spte 7) 0
                         (example_role 1 false) true (empty_kvm 0) = Done tt k' /\
     pages_at_level k' 1 = -1 /\ pfn_accessed k' = [7]).
Proof.
  destruct (handle_changed_spte_leaf_accounting (example_env tdx_accepts) 5
              0 7 0 (example_4k_spte 7) (example_role 1 false) true
              (empty_kvm 0)) as [Hin _].
  destruct (handle_changed_spte_leaf_accounting (example_env tdx_accepts) 5
              0 7 (accessed_4k_spte 7) 0 (example_role 1 false) true
              (empty_kvm 0)) as [_ Hout].
  split.
  - destruct (Hin eq_refl eq_refl) as (k' & Hrun & Hn & _).
    exists k'. split; [exact Hrun | exact Hn].
  - destruct (Hout eq_refl eq_refl eq_refl eq_refl)
      as (k' & Hrun & Hn & _ & Ha & _).
    exists k'. split; [exact Hrun|]. split; [exact Hn | exact Ha].
Defined.

Lemma age_gfn_range_clears_accessed_witness :
  exists k',
    age_gfn_range (example_env tdx_accepts) accessed_iter notifier_range
                  notifier_kvm = Done (true, accessed_iter) k' /\
    is_accessed_spte (spte_at k' 4096) = false /\
    spte_to_pfn (spte_at k' 4096) = 7.
Proof.
  destruct (age_gfn_range_clears_accessed (example_env tdx_accepts)
              accessed_iter notifier_range notifier_kvm eq_refl eq_refl)
    as [_ Hacc].
  destruct (Hacc eq_refl) as (k' & Hrun & Hna & Hpfn & _).
  exists k'. split; [exact Hrun|]. split; [exact Hna | exact Hpfn].
Defined.

Lemma next_root_is_live_witness :
  exists k',
    tdp_mmu_next_root None false false (kvm_with_root 1 false)
      = Done (Some 4096) k' /\
    4096 ∈ tdp_mmu_roots (kvm_with_root 1 false).
Proof.
  eassert (Hrun : tdp_mmu_next_root None false false (kvm_with_root 1 false)
                  = Done (Some 4096) _) by (vm_compute; reflexivity).
  destruct (next_root_is_live _ _ _ _ _ _ Hrun) as (Hin & _).
  eexists. split; [exact Hrun | exact Hin].
Defined.

Lemma invalidate_all_roots_spec_witness :
  exists k',
    kvm_tdp_mmu_invalidate_all_roots true notifier_kvm = Done [4096] k' /\
    kvm_tdp_mmu_invalidate_all_roots true k' = Done [] k'.
Proof.
  destruct (invalidate_all_roots_spec true notifier_kvm)
    as (k' & Hrun & _ & _ & _ & Hagain).
  - apply NoDup_cons. split; [|apply NoDup_singleton].
    intros Hin. apply list_elem_of_singleton in Hin. discriminate Hin.
  - repeat constructor; eexists; vm_compute; reflexivity.
  - exists k'. split; [exact Hrun | exact Hagain].
Defined.

Lemma handle_removed_pt_freezes_table_witness :
  exists k',
    handle_removed_pt (example_env tdx_accepts) 5 12288 false stale_kvm
      = Done tt k' /\
    spte_at k' 12288 = REMOVED_SPTE /\ spte_at k' 12296 = 0 /\
    last (rcu_callbacks k') = Some 12288.
Proof.
  eassert (Hrun : handle_removed_pt (example_env tdx_accepts) 5 12288 false
                    stale_kvm = Done tt _) by (vm_compute; reflexivity).
  assert (Hal : table_aligned 12288) by (vm_compute; repeat split; congruence).
  destruct (handle_removed_pt_freezes_table (example_env tdx_accepts) 5 12288
              false stale_kvm _
              (example_private_sp 1 0 (Some 8192) (Some 20480))
              Hal eq_refl eq_refl Hrun) as (Hin & _ & Hrcu).
  eexists. split; [exact Hrun|]. split; [|split; [|exact Hrcu]].
  - exact (Hin 0 ltac:(unfold SPTE_ENT_PER_PAGE; lia)).
  - exact (Hin 1 ltac:(unfold SPTE_ENT_PER_PAGE; lia)).
Defined.

Lemma get_vcpu_root_twice_witness :
  exists k',
    (let* first := kvm_tdp_mmu_get_vcpu_root example_vcpu false in
     let* second := kvm_tdp_mmu_get_vcpu_root example_vcpu false in
     ret (first, second)) cached_kvm = Done (12288, 12288) k' /\
    tdp_mmu_roots k' = [12288].
Proof.
  eexists. split.
  - apply (get_vcpu_root_twice example_vcpu false cached_kvm 12288 []);
      [constructor | reflexivity | reflexivity | discriminate].
  - reflexivity.
Defined.


Lemma zap_sp_spec_witness :
  kvm_tdp_mmu_zap_sp (example_env tdx_accepts) 5 8192 linked_kvm
    = Done false linked_kvm /\
  exists k',
    kvm_tdp_mmu_zap_sp (example_env tdx_accepts) 5 12288 linked_kvm
      = Done true k' /\
    spte_at k' 8192 = __private_zapped_spte (example_nonleaf_spte 12288) /\
    spte_at k' 12288 = REMOVED_SPTE /\ spte_at k' 12296 = 0.
Proof.
  split.
  - apply (zap_sp_spec (example_env tdx_accepts) 5 8192 linked_kvm
             (example_private_sp 2 0 None None) eq_refl).
    reflexivity.
  - eassert (Hrun : kvm_tdp_mmu_zap_sp (example_env tdx_accepts) 5 12288
                      linked_kvm = Done _ _) by (vm_compute; reflexivity).
    assert (Hal : table_aligned 12288)
      by (vm_compute; repeat split; congruence).
    assert (Hne : page_of 8192 <> 12288) by (vm_compute; congruence).
    destruct (zap_sp_spec (example_env tdx_accepts) 5 12288 linked_kvm
                (example_private_sp 1 0 (Some 8192) (Some 20480)) eq_refl)
      as (_ & _ & Hzap).
    destruct (Hzap 8192 _ _ eq_refl eq_refl eq_refl eq_refl Hal Hne Hrun)
      as (Hr & Hparent & Hin & _).
    eexists. split; [exact Hrun|].
    split; [exact Hparent|]. split.
    + exact (Hin 0 ltac:(unfold SPTE_ENT_PER_PAGE; lia)).
    + exact (Hin 1 ltac:(unfold SPTE_ENT_PER_PAGE; lia)).
Defined.

Lemma build_tdx_field_round_trip_witness :
  let code := BUILD_TDX_FIELD_NON_ARCH 17 256 in
  nonzero (Z.land code TDX_NON_ARCH) = true /\
  Z.shiftr (Z.land code (not64 TDX_NON_ARCH)) TDX_CLASS_SHIFT = 17 /\
  Z.land code TDX_FIELD_MASK = 256.
Proof.
  destruct build_tdx_field_round_trip as [Hdec _].
  exact (Hdec true 17 256 ltac:(lia)).
Defined.

Lemma tsc_frequency_conversion_witness :
  TDX_TSC_KHZ_TO_25MHZ 2612345 = 104 /\
  TDX_TSC_25MHZ_TO_KHZ 104 <= 2612345 < TDX_TSC_25MHZ_TO_KHZ 104 + 25000.
Proof.
  split; [reflexivity|].
  apply (tsc_frequency_conversion 2612345).
  unfold TDX_MIN_TSC_FREQUENCY_KHZ, TDX_MAX_TSC_FREQUENCY_KHZ. lia.
Defined.
